(** * RTEgdbData: the GDB remote-serial-protocol client and the snapshot sequence

    A shallow embedding of [gdb_lib.cpp] and [RTEgdbData.cpp].

    Conventions.
    - A C [char] / [unsigned char] is a [Z] in [0, 256); a character buffer is a
      [list Z].  String literals of the source are written with [str].
    - [unsigned] / [uint32_t] values are [Z] with the wrap-around written out
      ([u32]).
    - The process-wide globals of the source are the fields of [gdb_state]
      (those of gdb_lib.cpp) and [app_state] (those of RTEgdbData.cpp); the
      functions thread them through a small state monad.
    - The TCP peer is an arbitrary reactive machine ([react]); [mem_react] is
      the instance used for end-to-end runs: a GDB server in front of a byte
      addressable target memory. *)

From Stdlib Require Import String Ascii.
From Stdlib Require Import ZArith List Lia Bool.
Import ListNotations.
Local Close Scope string_scope.
Local Open Scope Z_scope.

Set Implicit Arguments.

(* ===================================================================== *)
(** ** Characters, C strings and machine integers                         *)
(* ===================================================================== *)

Definition byte_of_ascii (c : ascii) : Z := Z.of_nat (nat_of_ascii c).

(** A string literal of the source as the bytes it stands for (without the
    terminating NUL). *)
Fixpoint str (s : string) : list Z :=
  match s with
  | EmptyString => []
  | String c s' => byte_of_ascii c :: str s'
  end.

Definition ch (c : ascii) : Z := byte_of_ascii c.

Definition u32 (x : Z) : Z := x mod 2 ^ 32.
Definition u8 (x : Z) : Z := x mod 256.

Definition GDB_OK : Z := 0.
Definition GDB_ERROR : Z := 1.

(** gdb_defs.h *)
Definition RECV_TIMEOUT : Z := 500.
Definition LONG_RECV_TIMEOUT : Z := 2500.
Definition ERROR_DATA_TIMEOUT : Z := 50.
Definition DEFAULT_MESSAGE_SIZE : Z := 4096.
Definition TCP_BUFF_LENGTH : Z := 65535.

Definition ERR_RCV_TIMEOUT : Z := 1.
Definition ERR_SEND_TIMEOUT : Z := 2.
Definition ERR_SOCKET : Z := 3.
Definition ERR_BAD_MSG_FORMAT : Z := 4.
Definition ERR_BAD_MSG_CHECKSUM : Z := 5.
Definition ERR_RUN_LENGTH_ENCODING_NOT_IMPLEMENTED : Z := 6.
Definition ERR_CONNECTION_CLOSED : Z := 7.
Definition ERR_BAD_INPUT_DATA : Z := 8.
Definition ERR_MSG_NOT_SENT_COMPLETELY : Z := 9.
Definition ERR_BAD_RESPONSE : Z := 10.
Definition ERR_GDB_REPORTED_ERROR : Z := 11.

(** RTEgdbData.h *)
Definition MIN_BUFFER_SIZE : Z := 64 + 16.
Definition MAX_BUFFER_SIZE : Z := 2100000.
Definition sizeof_rtedbg_header : Z := 24.

(** [buf[i]] for an index that is a machine integer; bytes never written are
    zero (the buffers are zero-initialised statics). *)
Definition at_ (buf : list Z) (i : Z) : Z :=
  if i <? 0 then 0 else nth (Z.to_nat i) buf 0.

(** Storing [data] at the start of a buffer leaves the bytes behind it as
    they were. *)
Definition overlay (data old : list Z) : list Z :=
  data ++ skipn (length data) old.

(** Storing [data] at offset [off]. *)
Definition overlay_at (off : nat) (data old : list Z) : list Z :=
  firstn off (old ++ repeat 0 (off - length old)) ++ overlay data (skipn off old).

(** The C string that starts at the beginning of a buffer: the bytes before
    the first NUL. *)
Fixpoint cstr (buf : list Z) : list Z :=
  match buf with
  | [] => []
  | c :: tl => if c =? 0 then [] else c :: cstr tl
  end.

Definition len (l : list Z) : Z := Z.of_nat (length l).

(** [strncmp(s, lit, strlen(lit)) == 0] for a literal without NUL. *)
Fixpoint starts_with (lit s : list Z) : bool :=
  match lit, s with
  | [], _ => true
  | c :: lit', d :: s' => (c =? d) && starts_with lit' s'
  | _ :: _, [] => false
  end.

(** [strstr(s, needle)]: the suffix of [s] at the first occurrence. *)
Fixpoint strstr (s needle : list Z) : option (list Z) :=
  if starts_with needle s then Some s
  else match s with
       | [] => None
       | _ :: tl => strstr tl needle
       end.

(** [strchr(s, c)] as the index of the first occurrence. *)
Fixpoint strchr (s : list Z) (c : Z) : option nat :=
  match s with
  | [] => None
  | d :: tl => if d =? c then Some O
               else match strchr tl c with
                    | Some n => Some (S n)
                    | None => None
                    end
  end.

(* ===================================================================== *)
(** ** Hexadecimal formatting and scanning                                *)
(* ===================================================================== *)

(** One digit of [%x] ([upper = false]) or [%X] ([upper = true]). *)
Definition hex_char (upper : bool) (d : Z) : Z :=
  if d <? 10 then 48 + d
  else (if upper then 65 else 97) + (d - 10).

(** The [w] low hexadecimal digits of [n], most significant first. *)
Fixpoint hex_fixed (upper : bool) (w : nat) (n : Z) : list Z :=
  match w with
  | O => []
  | S w' => hex_fixed upper w' (n / 16) ++ [hex_char upper (n mod 16)]
  end.

(** Number of hexadecimal digits of [n] (at least one); [fuel] bounds the
    number of digits, 8 is enough for a 32-bit value. *)
Fixpoint hex_width (fuel : nat) (n : Z) : nat :=
  match fuel with
  | O => 1%nat
  | S f => if n <? 16 then 1%nat else S (hex_width f (n / 16))
  end.

(** [sprintf("%0<minw>x", n)] for an [unsigned] argument. *)
Definition printf_hex (upper : bool) (minw : nat) (n : Z) : list Z :=
  hex_fixed upper (Nat.max minw (hex_width 8 (u32 n))) (u32 n).

Definition is_hex_char (c : Z) : bool :=
  ((48 <=? c) && (c <=? 57)) || ((65 <=? c) && (c <=? 70))
  || ((97 <=? c) && (c <=? 102)).

(** Value of one hexadecimal character, in either case. *)
Definition hex_val (c : Z) : option Z :=
  if (48 <=? c) && (c <=? 57) then Some (c - 48)
  else if (65 <=? c) && (c <=? 70) then Some (c - 65 + 10)
  else if (97 <=? c) && (c <=? 102) then Some (c - 97 + 10)
  else None.

(** get_hex_digit: two hexadecimal characters at [ptr] to 0..255, or -1. *)
Definition get_hex_digit (ptr : list Z) : Z :=
  let dec_val := 0 in
  let step (acc : option Z) (c : Z) : option Z :=
    match acc with
    | None => None
    | Some v =>
        let v := v * 16 in
        if (48 <=? c) && (c <=? 57) then Some (v + (c - 48))
        else if (65 <=? c) && (c <=? 70) then Some (v + (c - 65 + 10))
        else if (97 <=? c) && (c <=? 102) then Some (v + (c - 97 + 10))
        else None
    end in
  match step (step (Some dec_val) (at_ ptr 0)) (at_ ptr 1) with
  | Some v => v
  | None => -1
  end.

(** The run of hexadecimal digits at the head of [s]: its value so far and
    what follows it. *)
Fixpoint scan_hex_digits (acc : Z) (s : list Z) : Z * list Z :=
  match s with
  | [] => (acc, [])
  | c :: tl => match hex_val c with
               | Some d => scan_hex_digits (acc * 16 + d) tl
               | None => (acc, s)
               end
  end.

Definition is_space (c : Z) : bool :=
  (c =? 32) || ((9 <=? c) && (c <=? 13)).

Fixpoint skip_spaces (s : list Z) : list Z :=
  match s with
  | c :: tl => if is_space c then skip_spaces tl else s
  | [] => []
  end.

(** [sscanf_s(s, "%x", &v)]: white space, an optional sign, an optional
    [0x], then at least one hexadecimal digit.  [None] is a return value
    other than 1; the value is stored into an [unsigned]. *)
Definition sscanf_x (s : list Z) : option (Z * list Z) :=
  let s := skip_spaces s in
  let '(neg, s) := match s with
                   | 43 :: tl => (false, tl)
                   | 45 :: tl => (true, tl)
                   | _ => (false, s)
                   end in
  let s := match s with
           | 48 :: x :: d :: tl =>
               if ((x =? 120) || (x =? 88)) && is_hex_char d then d :: tl else s
           | _ => s
           end in
  match s with
  | c :: _ =>
      if is_hex_char c then
        let '(v, rest) := scan_hex_digits 0 s in
        Some (u32 (if neg then - v else v), rest)
      else None
  | [] => None
  end.

Definition is_digit (c : Z) : bool := (48 <=? c) && (c <=? 57).

Fixpoint scan_dec_digits (acc : Z) (s : list Z) : Z * list Z :=
  match s with
  | [] => (acc, [])
  | c :: tl => if is_digit c then scan_dec_digits (acc * 10 + (c - 48)) tl
               else (acc, s)
  end.

(** [sscanf_s(s, "%u", &v)]. *)
Definition sscanf_u (s : list Z) : option (Z * list Z) :=
  let s := skip_spaces s in
  let '(neg, s) := match s with
                   | 43 :: tl => (false, tl)
                   | 45 :: tl => (true, tl)
                   | _ => (false, s)
                   end in
  match s with
  | c :: _ =>
      if is_digit c then
        let '(v, rest) := scan_dec_digits 0 s in
        Some (u32 (if neg then - v else v), rest)
      else None
  | [] => None
  end.

(** The 8-bit running sum of the source's checksum loops
    ([unsigned char sum; sum += c]). *)
Definition checksum (payload : list Z) : Z :=
  fold_left (fun sum c => u8 (sum + c)) payload 0.

(** Little-endian image of a [uint32_t] and back. *)
Definition le32_bytes (v : Z) : list Z :=
  [u8 v; u8 (v / 256); u8 (v / 65536); u8 (v / 16777216)].

Definition le32 (b : list Z) : Z :=
  at_ b 0 + 256 * at_ b 1 + 65536 * at_ b 2 + 16777216 * at_ b 3.

(* ===================================================================== *)
(** ** The socket and the peer                                            *)
(* ===================================================================== *)

(** What one call of [recv] can yield. *)
Inductive recv_ev : Type :=
| Data (d : list Z)      (* bytes arrive; an empty [d] is a return value of 0 *)
| Idle (expired : bool)  (* WSAETIMEDOUT; [expired]: the deadline of the
                            waiting loop has passed by then *)
| Closed                 (* the peer has closed the connection (returns 0) *)
| SockErr.               (* any other socket error *)

(** What one call of [send] can yield. *)
Inductive send_outcome : Type :=
| Sent (n : Z)           (* number of bytes accepted *)
| SendTimedOut           (* SOCKET_ERROR with WSAETIMEDOUT *)
| SendFailed.            (* SOCKET_ERROR, other *)

(** [recv(gdb_socket, buf, n, 0)] on the queue of pending events.  An empty
    queue is silence until the deadline. *)
Definition recv (n : nat) (w : list recv_ev) : recv_ev * list recv_ev :=
  match w with
  | [] => (Idle true, [])
  | Data d :: tl =>
      if (length d <=? n)%nat then (Data d, tl)
      else (Data (firstn n d), Data (skipn n d) :: tl)
  | Closed :: tl => (Closed, Closed :: tl)
  | ev :: tl => (ev, tl)
  end.

(** [do res = recv(...) while (res > 0)]: what remains of the queue. *)
Fixpoint drain (w : list recv_ev) : list recv_ev :=
  match w with
  | Data (_ :: _) :: tl => drain tl
  | Closed :: tl => Closed :: tl
  | _ :: tl => tl
  | [] => []
  end.

(** A received block cut into the pieces [recv] hands out for a buffer of
    [n] bytes. *)
Fixpoint pieces (fuel n : nat) (d : list Z) : list (list Z) :=
  match fuel with
  | O => []
  | S f => if (length d <=? n)%nat then [d]
           else firstn n d :: pieces f n (skipn n d)
  end.

(** The same loop when every block is received into [buf] (at its start). *)
Fixpoint drain_into (w : list recv_ev) (buf : list Z) : list Z :=
  match w with
  | Data (c :: d) :: tl =>
      drain_into tl
        (fold_left (fun b p => overlay p b)
           (pieces (S (length d)) (Z.to_nat TCP_BUFF_LENGTH) (c :: d)) buf)
  | _ => buf
  end.

(** *** A state monad over the globals *)

Definition M (S A : Type) : Type := S -> A * S.

Definition ret {S A : Type} (a : A) : M S A := fun s => (a, s).

Definition bind {S A B : Type} (m : M S A) (k : A -> M S B) : M S B :=
  fun s => let '(a, s') := m s in k a s'.

Definition modify {S : Type} (f : S -> S) : M S unit := fun s => (tt, f s).

Definition gets {S A : Type} (f : S -> A) : M S A := fun s => (f s, s).

Notation "x <- m ;; k" := (bind m (fun x => k))
  (at level 61, m at next level, right associativity).
Notation "' p <- m ;; k" := (bind m (fun x => let p := x in k))
  (at level 61, p pattern, m at next level, right associativity).
Notation "m ;; k" := (bind m (fun _ => k))
  (at level 61, right associativity).

(* ===================================================================== *)
(** ** Records of the source                                              *)
(* ===================================================================== *)

(** cmd_line.h: [parameters_t] (the fields the modelled code reads). *)
Module Par.
Record t : Type := mk {
  start_address : Z;
  size : Z;
  filter : Z;
  set_filter : bool;
  delay : Z;
  decode_file : option string;
  bin_file_name : string;
  start_cmd_file : option string;
  clear_buffer : bool;
  persistent_connection : bool;
  detach : bool;
  max_message_size : Z
}.

Definition with_size (v : Z) (p : t) : t :=
  mk (start_address p) v (filter p) (set_filter p) (delay p) (decode_file p)
    (bin_file_name p) (start_cmd_file p) (clear_buffer p)
    (persistent_connection p) (detach p) (max_message_size p).

Definition with_filter (v : Z) (sf : bool) (p : t) : t :=
  mk (start_address p) (size p) v sf (delay p) (decode_file p)
    (bin_file_name p) (start_cmd_file p) (clear_buffer p)
    (persistent_connection p) (detach p) (max_message_size p).
End Par.

(** rtedbg.h: [rtedbg_header_t] and the macros that take [rte_cfg] apart. *)
Module Hdr.
Record t : Type := mk {
  last_index : Z;
  filter : Z;
  rte_cfg : Z;
  timestamp_frequency : Z;
  filter_copy : Z;
  buffer_size : Z
}.

Definition to_bytes (h : t) : list Z :=
  le32_bytes (last_index h) ++ le32_bytes (filter h) ++ le32_bytes (rte_cfg h)
  ++ le32_bytes (timestamp_frequency h) ++ le32_bytes (filter_copy h)
  ++ le32_bytes (buffer_size h).

Definition of_bytes (b : list Z) : t :=
  mk (le32 b) (le32 (skipn 4 b)) (le32 (skipn 8 b)) (le32 (skipn 12 b))
     (le32 (skipn 16 b)) (le32 (skipn 20 b)).

Definition with_cfg (v : Z) (h : t) : t :=
  mk (last_index h) (filter h) v (timestamp_frequency h) (filter_copy h)
     (buffer_size h).

Definition RTE_SINGLE_SHOT_WAS_ACTIVE (h : t) : Z :=
  Z.land (Z.shiftr (rte_cfg h) 0) 1.
Definition RTE_MSG_FILTERING_ENABLED (h : t) : Z :=
  Z.land (Z.shiftr (rte_cfg h) 1) 1.
Definition RTE_FILTER_OFF_ENABLED (h : t) : Z :=
  Z.land (Z.shiftr (rte_cfg h) 2) 1.
Definition RTE_SINGLE_SHOT_LOGGING_ENABLED (h : t) : Z :=
  Z.land (Z.shiftr (rte_cfg h) 3) 1.
Definition RTE_CFG_RESERVED_BITS (h : t) : Z :=
  Z.land (Z.shiftr (rte_cfg h) 5) 7.
Definition RTE_CFG_RESERVED2 (h : t) : Z :=
  Z.land (Z.shiftr (rte_cfg h) 15) 1.
Definition RTE_HEADER_SIZE (h : t) : Z :=
  u32 (Z.land (Z.shiftr (rte_cfg h) 24) 127 * 4).
End Hdr.

Section Client.

(** The peer: its state and how it reacts to a [send]: the outcome of the
    call, what it puts on the wire in return, and its next state. *)
Variable Srv : Type.
Variable react : Srv -> list Z -> send_outcome * list recv_ev * Srv.

(** The globals of gdb_lib.cpp, the socket and the log. *)
Record gdb_state : Type := mkGdb {
  last_gdb_error : Z;
  message_buffer : list Z;
  ack_mode_enabled : bool;
  max_memo_read_packet_size : Z;
  max_memo_write_packet_size : Z;
  max_gdb_send_message_size : Z;
  max_gdb_recv_message_size : Z;
  socket_connects : bool;          (* whether connect() will succeed *)
  srv : Srv;
  wire_in : list recv_ev;          (* pending towards the client *)
  wire_out : list (list Z);        (* every buffer handed to send(), in order *)
  log : list string                (* log_string / log_data / printf texts *)
}.

Definition set_error (e : Z) (g : gdb_state) : gdb_state :=
  mkGdb e (message_buffer g) (ack_mode_enabled g)
    (max_memo_read_packet_size g) (max_memo_write_packet_size g)
    (max_gdb_send_message_size g) (max_gdb_recv_message_size g)
    (socket_connects g) (srv g) (wire_in g) (wire_out g) (log g).

Definition set_buffer (b : list Z) (g : gdb_state) : gdb_state :=
  mkGdb (last_gdb_error g) b (ack_mode_enabled g)
    (max_memo_read_packet_size g) (max_memo_write_packet_size g)
    (max_gdb_send_message_size g) (max_gdb_recv_message_size g)
    (socket_connects g) (srv g) (wire_in g) (wire_out g) (log g).

Definition set_ack_mode (a : bool) (g : gdb_state) : gdb_state :=
  mkGdb (last_gdb_error g) (message_buffer g) a
    (max_memo_read_packet_size g) (max_memo_write_packet_size g)
    (max_gdb_send_message_size g) (max_gdb_recv_message_size g)
    (socket_connects g) (srv g) (wire_in g) (wire_out g) (log g).

Definition set_sizes (rd wr snd rcv : Z) (g : gdb_state) : gdb_state :=
  mkGdb (last_gdb_error g) (message_buffer g) (ack_mode_enabled g)
    rd wr snd rcv
    (socket_connects g) (srv g) (wire_in g) (wire_out g) (log g).

Definition set_wire (s : Srv) (i : list recv_ev) (o : list (list Z))
    (g : gdb_state) : gdb_state :=
  mkGdb (last_gdb_error g) (message_buffer g) (ack_mode_enabled g)
    (max_memo_read_packet_size g) (max_memo_write_packet_size g)
    (max_gdb_send_message_size g) (max_gdb_recv_message_size g)
    (socket_connects g) s i o (log g).

Definition set_wire_in (i : list recv_ev) (g : gdb_state) : gdb_state :=
  set_wire (srv g) i (wire_out g) g.

Definition add_log (t : string) (g : gdb_state) : gdb_state :=
  mkGdb (last_gdb_error g) (message_buffer g) (ack_mode_enabled g)
    (max_memo_read_packet_size g) (max_memo_write_packet_size g)
    (max_gdb_send_message_size g) (max_gdb_recv_message_size g)
    (socket_connects g) (srv g) (wire_in g) (wire_out g) (log g ++ [t]).

Definition G (A : Type) : Type := M gdb_state A.

Definition log_string (t : string) : G unit := modify (add_log t).

(** *** gdb_send *)

Definition gdb_send (msg : list Z) : G Z :=
  if (len msg <=? 0) then
    modify (set_error ERR_BAD_INPUT_DATA) ;;
    log_string " - Invalid input data for gdb_send. " ;;
    ret GDB_ERROR
  else
    g <- gets (fun g => g) ;;
    let '(res, evs, s') := react (srv g) msg in
    modify (set_wire s' (wire_in g ++ evs) (wire_out g ++ [msg])) ;;
    match res with
    | SendTimedOut =>
        modify (set_error ERR_SEND_TIMEOUT) ;;
        log_string " - GDB Winsock send timeout. " ;;
        ret GDB_ERROR
    | SendFailed =>
        modify (set_error ERR_SOCKET) ;;
        log_string " - GDB Winsock send error" ;;
        ret GDB_ERROR
    | Sent n =>
        if negb (n =? len msg) then
          log_string " - message not sent completely (only %llu). " ;;
          modify (set_error ERR_MSG_NOT_SENT_COMPLETELY) ;;
          ret GDB_ERROR
        else ret GDB_OK
    end.

(** *** gdb_send_ack *)

Definition gdb_send_ack : G unit :=
  ack <- gets ack_mode_enabled ;;
  if ack then (_ <- gdb_send (str "+") ;; ret tt) else ret tt.

(** *** gdb_flush_socket, gdb_handle_unexpected_messages *)

Definition gdb_flush_socket : G unit :=
  modify (fun g => set_wire_in (drain (wire_in g)) g).

Definition gdb_handle_unexpected_messages : G unit :=
  modify (fun g =>
    set_wire_in (drain (wire_in g))
      (set_buffer (drain_into (wire_in g) (message_buffer g)) g)).

(** *** gdb_get_message *)

Inductive recv_status : Type :=
| RecvOk | RecvClosed | RecvSocket | RecvTimeout | RecvOverflow.

(** The receive loop: [got] is what has been stored in the message buffer so
    far.  A block longer than the room left in the buffer fills it, which
    ends the loop with the overflow error. *)
Fixpoint get_message_loop (w : list recv_ev) (got : list Z)
  : recv_status * list Z * list recv_ev :=
  match w with
  | [] => (RecvTimeout, got, [])
  | ev :: tl =>
      match ev with
      | Data [] => (RecvClosed, got, tl)
      | Data d =>
          let room := (Z.to_nat TCP_BUFF_LENGTH - length got)%nat in
          if (room <? length d)%nat then
            (RecvOverflow, got ++ firstn room d, Data (skipn room d) :: tl)
          else
            let got' := got ++ d in
            if len got' >=? TCP_BUFF_LENGTH - 1 then (RecvOverflow, got', tl)
            else if (len got' >=? 4) && (at_ got' (len got' - 3) =? 35)
            then (RecvOk, got', tl)
            else get_message_loop tl got'
      | Closed => (RecvClosed, got, w)
      | SockErr => (RecvSocket, got, tl)
      | Idle true => (RecvTimeout, got, tl)
      | Idle false => get_message_loop tl got
      end
  end.

Definition gdb_get_message (timeout : Z) : G Z :=
  g <- gets (fun g => g) ;;
  let '(status, got, rest) := get_message_loop (wire_in g) [] in
  let cleared := overlay [0] (message_buffer g) in
  modify (set_wire_in rest) ;;
  match status with
  | RecvClosed =>
      modify (set_buffer (overlay got cleared)) ;;
      log_string "Connection to the GDB server has been gracefully closed." ;;
      modify (set_error ERR_CONNECTION_CLOSED) ;;
      ret GDB_ERROR
  | RecvSocket =>
      modify (set_buffer (overlay got cleared)) ;;
      modify (set_error ERR_SOCKET) ;;
      ret GDB_ERROR
  | RecvTimeout =>
      log_string " - time out error. " ;;
      modify (set_buffer (overlay (got ++ [0]) cleared)) ;;
      modify (set_error ERR_RCV_TIMEOUT) ;;
      ret GDB_ERROR
  | RecvOverflow =>
      modify (set_buffer (overlay got cleared)) ;;
      log_string " - buffer index overflow: %u" ;;
      ret GDB_ERROR
  | RecvOk =>
      modify (set_buffer (overlay got cleared)) ;;
      gdb_send_ack ;;
      modify (fun g => set_buffer (overlay (got ++ [0]) (message_buffer g)) g) ;;
      ret GDB_OK
  end.

(** *** gdb_check_ack *)

(** Each turn of the loop that goes on takes at least one event off the
    queue, so [fuel = S (length (wire_in g))] turns are enough. *)
Fixpoint check_ack_loop (fuel : nat) : G unit :=
  match fuel with
  | O => ret tt
  | S f =>
      g <- gets (fun g => g) ;;
      let '(ev, rest) := recv 1 (wire_in g) in
      modify (set_wire_in rest) ;;
      modify (fun g => set_buffer (overlay [0] (message_buffer g)) g) ;;
      match ev with
      | Data [] | Closed =>
          log_string "Connection to the GDB server has been gracefully closed."
      | Data (c :: _) =>
          modify (fun g => set_buffer (overlay [c] (message_buffer g)) g) ;;
          if c =? 43 then ret tt
          else
            log_string "Bad ACK received: %s" ;;
            gdb_flush_socket ;;
            check_ack_loop f
      | SockErr => log_string "Socket error while waiting for ACK"
      | Idle true =>
          log_string
            "ACK timeout: No acknowledgement received within the specified timeout."
      | Idle false => check_ack_loop f
      end
  end.

Definition gdb_check_ack : G unit :=
  g <- gets (fun g => g) ;;
  check_ack_loop (S (length (wire_in g))).

(** *** gdb_error_reported *)

Definition gdb_error_reported : G bool :=
  buf <- gets message_buffer ;;
  if negb (at_ buf 0 =? 36) then
    modify (set_error ERR_BAD_MSG_FORMAT) ;;
    log_string " - bad message format - '$' not found: %.50s. " ;;
    ret true
  else if negb (at_ buf 1 =? 69) then ret false
  else
    modify (set_error ERR_GDB_REPORTED_ERROR) ;;
    (if at_ buf 4 =? 35 then
       match sscanf_x (cstr (skipn 2 buf)) with
       | Some (v, _) =>
           modify (set_error v) ;;
           log_string " - GDB server reported error %.3s. "
       | None => log_string " - bad response (%.50s). "
       end
     else if (at_ buf 1 =? 69) && (at_ buf 2 =? 46) then
       log_string " - GDB error: %s"
     else log_string " - Unknown error: %.50s ") ;;
    ret true.

(** *** read_memory_packet *)

(** [sum] of the [count] buffer bytes from index [from] on. *)
Definition sum_bytes (buf : list Z) (from : Z) (count : nat) : Z :=
  checksum (map (fun i => at_ buf (from + Z.of_nat i)) (seq 0 count)).

(** The conversion loop at the end of read_memory_packet: whether it ran to
    the end, and the bytes stored into [buffer] until then. *)
Fixpoint decode_hex_bytes (buf : list Z) (i : Z) (count : nat)
  : bool * list Z :=
  match count with
  | O => (true, [])
  | S c =>
      let temp := get_hex_digit (skipn (Z.to_nat (2 * i + 1)) buf) in
      if temp >=? 0 then
        let '(ok, tl) := decode_hex_bytes buf (i + 1) c in
        (ok, u8 temp :: tl)
      else (false, [])
  end.

(** The request of read_memory_packet before the checksum is appended. *)
Definition read_request (address length : Z) : list Z :=
  str "$m" ++ printf_hex false 8 address ++ str ","
  ++ printf_hex false 2 length.

(** The frame that is sent: the checksum loop runs over the characters
    behind the dollar sign. *)
Definition read_frame (address length : Z) : list Z :=
  let request := read_request address length in
  let sum := checksum (skipn 1 request) in
  request ++ str "#" ++ printf_hex false 2 sum.

(** Returns the status and the bytes it has stored into [buffer]. *)
Definition read_memory_packet (address length : Z) : G (Z * list Z) :=
  if (u32 (length * 2 + 4) >? TCP_BUFF_LENGTH) || (length =? 0) then
    modify (set_error ERR_BAD_INPUT_DATA) ;;
    ret (GDB_ERROR, [])
  else
    let frame := read_frame address length in
    modify (fun g => set_buffer (overlay (frame ++ [0]) (message_buffer g)) g) ;;
    res <- gdb_send frame ;;
    if negb (res =? GDB_OK) then ret (GDB_ERROR, [])
    else
      res <- gdb_get_message 0 ;;
      if negb (res =? GDB_OK) then ret (GDB_ERROR, [])
      else
        rep <- gdb_error_reported ;;
        if rep then ret (GDB_ERROR, [])
        else
          buf <- gets message_buffer ;;
          match strchr (cstr buf) 42 with
          | Some _ =>
              log_string "Error run length encoding not implemented. " ;;
              modify (set_error ERR_RUN_LENGTH_ENCODING_NOT_IMPLEMENTED) ;;
              ret (GDB_ERROR, [])
          | None =>
              let sum := sum_bytes buf 1 (Z.to_nat (length * 2)) in
              let i := length * 2 in
              if negb (at_ buf (i + 1) =? 35) then
                log_string " - bad message format - '#' not found: %.50s. " ;;
                modify (set_error ERR_BAD_MSG_FORMAT) ;;
                ret (GDB_ERROR, [])
              else
                let res := get_hex_digit (skipn (Z.to_nat (i + 2)) buf) in
                if (res <? 0) || negb (sum =? res) then
                  log_string " - bad message checksum. " ;;
                  modify (set_error ERR_BAD_MSG_CHECKSUM) ;;
                  ret (GDB_ERROR, [])
                else
                  let '(ok, bytes) :=
                    decode_hex_bytes buf 0 (Z.to_nat length) in
                  if ok then ret (GDB_OK, bytes)
                  else
                    log_string " - bad message format. " ;;
                    modify (set_error ERR_BAD_MSG_FORMAT) ;;
                    ret (GDB_ERROR, bytes)
          end.

(** *** gdb_read_memory *)

(** The do-while loop.  [acc] is what has been stored into [buffer] so far.
    Every turn that goes on has read at least one byte, so [length] turns are
    enough.  The chunk size is an [unsigned] global. *)
Fixpoint read_loop (fuel : nat) (address length data_read : Z)
    (acc : list Z) : G (Z * list Z) :=
  match fuel with
  | O => ret (GDB_ERROR, acc)
  | S f =>
      max <- gets (fun g => u32 (max_memo_read_packet_size g)) ;;
      let packet_size := u32 (length - data_read) in
      let packet_size := if packet_size >? max then max else packet_size in
      '(res, bytes) <- read_memory_packet (u32 (address + data_read))
                         packet_size ;;
      if negb (res =? GDB_OK) then ret (res, acc ++ bytes)
      else
        let data_read := u32 (data_read + packet_size) in
        if data_read <? length then
          read_loop f address length data_read (acc ++ bytes)
        else ret (res, acc ++ bytes)
  end.

(** Returns the status and the bytes stored at the start of [buffer]. *)
Definition gdb_read_memory (address length : Z) : G (Z * list Z) :=
  modify (set_error 0) ;;
  if length <? 1 then
    modify (set_error ERR_BAD_INPUT_DATA) ;;
    ret (GDB_ERROR, [])
  else
    log_string "Reading %llu bytes from address 0x%08llX " ;;
    read_loop (Z.to_nat length) address length 0 [].

(** *** write_memory_packet *)

(** Two digits per [unsigned char]. *)
Definition hex_bytes (upper : bool) (data : list Z) : list Z :=
  flat_map (fun b => printf_hex upper 2 (u8 b)) data.

(** The frame write_memory_packet builds in the message buffer: the 16
    characters of ["$M%08X,%04X:"], two characters per byte from index 16
    on, and the checksum of the [15 + 2 * length] characters after the
    dollar sign. *)
Definition write_frame (data : list Z) (address length : Z) : list Z :=
  let head := str "$M" ++ printf_hex true 8 address ++ str ","
              ++ printf_hex true 4 length ++ str ":" in
  let body := overlay_at 16 (hex_bytes true data) head in
  let sum := sum_bytes body 1 (Z.to_nat (15 + 2 * length)) in
  firstn (Z.to_nat (16 + 2 * length)) body
  ++ str "#" ++ printf_hex true 2 sum.

Definition write_memory_packet (buffer : list Z) (address length : Z)
  : G Z :=
  if (u32 (length * 2 + 16 + 4) >? TCP_BUFF_LENGTH) || (length =? 0) then
    modify (set_error ERR_BAD_INPUT_DATA) ;;
    ret GDB_ERROR
  else
    let frame := write_frame (firstn (Z.to_nat length) buffer) address length in
    modify (fun g => set_buffer (overlay (frame ++ [0]) (message_buffer g)) g) ;;
    res <- gdb_send frame ;;
    if negb (res =? GDB_OK) then ret GDB_ERROR
    else
      res <- gdb_get_message 0 ;;
      if negb (res =? GDB_OK) then ret GDB_ERROR
      else
        buf <- gets message_buffer ;;
        if starts_with (str "$OK#") buf then ret GDB_OK
        else
          rep <- gdb_error_reported ;;
          if rep then ret GDB_ERROR
          else
            log_string " - bad response: %s. " ;;
            modify (set_error ERR_BAD_RESPONSE) ;;
            ret GDB_ERROR.

(** *** gdb_write_memory *)

Fixpoint write_loop (fuel : nat) (buffer : list Z)
    (address length data_written : Z) : G Z :=
  match fuel with
  | O => ret GDB_ERROR
  | S f =>
      max <- gets (fun g => u32 (max_memo_write_packet_size g)) ;;
      let packet_size := u32 (length - data_written) in
      let packet_size := if packet_size >? max then max else packet_size in
      res <- write_memory_packet (skipn (Z.to_nat data_written) buffer)
               (u32 (address + data_written)) packet_size ;;
      if negb (res =? GDB_OK) then ret res
      else
        let data_written := u32 (data_written + packet_size) in
        if data_written <? length then
          write_loop f buffer address length data_written
        else ret res
  end.

Definition gdb_write_memory (buffer : list Z) (address length : Z) : G Z :=
  modify (set_error 0) ;;
  if length <? 1 then
    modify (set_error ERR_BAD_INPUT_DATA) ;;
    ret GDB_ERROR
  else
    log_string "Writing %llu bytes to address 0x%08llX " ;;
    write_loop (Z.to_nat length) buffer address length 0.

(** *** gdb_send_command *)

Definition command_frame (command : list Z) : list Z :=
  str "$" ++ command ++ str "#" ++ printf_hex true 2 (checksum command).

Definition gdb_send_command (command : list Z) : G Z :=
  if len command >=? 1024 - 4 then
    log_string " GDB command too long (%llu) " ;;
    modify (set_error ERR_BAD_INPUT_DATA) ;;
    ret GDB_ERROR
  else gdb_send (command_frame command).

(** *** calculate_max_message_sizes *)

(** [max_message_size] is [parameters.max_message_size]. *)
Definition calculate_max_message_sizes (max_message_size : Z) : G unit :=
  modify (fun g =>
    let snd := max_gdb_send_message_size g in
    let snd := if snd >? TCP_BUFF_LENGTH then TCP_BUFF_LENGTH else snd in
    let rcv := snd in
    let rcv :=
      if negb (max_message_size =? 0) then
        let rcv := max_message_size in
        if rcv >? TCP_BUFF_LENGTH then TCP_BUFF_LENGTH else rcv
      else rcv in
    set_sizes (u32 (u32 (rcv - 4) / 8 * 4))
              (u32 (u32 (snd - 16 - 4) / 8 * 4)) snd rcv g).

(** *** parse_capability_data *)

Definition set_send_size (v : Z) (g : gdb_state) : gdb_state :=
  set_sizes (max_memo_read_packet_size g) (max_memo_write_packet_size g)
    v (max_gdb_recv_message_size g) g.

Definition parse_capability_data (max_message_size : Z) (recvbuf : list Z)
  : G Z :=
  match strstr recvbuf (str "QStartNoAckMode+") with
  | None =>
      log_string "Error: GDB server does not support 'QStartNoAckMode+' mode." ;;
      ret GDB_ERROR
  | Some _ =>
      modify (set_send_size DEFAULT_MESSAGE_SIZE) ;;
      match strstr recvbuf (str "PacketSize=") with
      | Some text_position =>
          let text_position := skipn 11 text_position in
          match sscanf_x text_position with
          | Some (v, _) =>
              modify (set_send_size v) ;;
              log_string "max. message size %u"
          | None =>
              log_string
                "Cannot determine maximal GDB message packet size - using default: %u." ;;
              modify (set_send_size DEFAULT_MESSAGE_SIZE)
          end
      | None =>
          log_string "PacketSize field not found - using default message size: %u." ;;
          modify (set_send_size DEFAULT_MESSAGE_SIZE)
      end ;;
      calculate_max_message_sizes max_message_size ;;
      ret GDB_OK
  end.

(** *** gdb_check_server_capabilities *)

Definition gdb_check_server_capabilities (max_message_size : Z) : G Z :=
  modify (set_error 0) ;;
  log_string "Retrieving GDB server capabilities: " ;;
  res <- gdb_send_command (str "qSupported") ;;
  if negb (res =? GDB_OK) then ret GDB_ERROR
  else
    gdb_check_ack ;;
    res <- gdb_get_message LONG_RECV_TIMEOUT ;;
    if negb (res =? GDB_OK) then ret GDB_ERROR
    else
      buf <- gets message_buffer ;;
      parse_capability_data max_message_size (cstr buf).

(** *** gdb_request_no_ack_mode *)

Definition gdb_request_no_ack_mode : G Z :=
  modify (set_ack_mode true) ;;
  res <- gdb_send_command (str "QStartNoAckMode") ;;
  if negb (res =? GDB_OK) then ret GDB_ERROR
  else
    gdb_check_ack ;;
    res <- gdb_get_message 0 ;;
    if negb (res =? GDB_OK) then ret GDB_ERROR
    else
      buf <- gets message_buffer ;;
      if negb (starts_with (str "$OK#") buf) then
        log_string "NoACK mode not supported by the GDB server - received: %s. " ;;
        ret GDB_ERROR
      else
        modify (set_ack_mode false) ;;
        gdb_flush_socket ;;
        ret GDB_OK.

(** *** gdb_socket_cleanup, gdb_connect_socket, gdb_connect, gdb_detach *)

Definition gdb_socket_cleanup : G unit := ret tt.

Definition gdb_connect_socket : G Z :=
  log_string "Connecting to the GDB server: " ;;
  ok <- gets socket_connects ;;
  if ok then ret GDB_OK
  else
    log_string "unable to connect to the GDB server." ;;
    gdb_socket_cleanup ;;
    ret GDB_ERROR.

Definition gdb_connect (max_message_size : Z) : G Z :=
  modify (set_error 0) ;;
  res <- gdb_connect_socket ;;
  if negb (res =? GDB_OK) then gdb_socket_cleanup ;; ret GDB_ERROR
  else
    modify (set_ack_mode true) ;;
    g <- gets (fun g => g) ;;
    let '(ev, rest) := recv (Z.to_nat TCP_BUFF_LENGTH) (wire_in g) in
    modify (set_wire_in rest) ;;
    match ev with
    | Data (c :: d) =>
        modify (set_buffer (overlay (c :: d) (message_buffer g))) ;;
        gdb_flush_socket
    | _ => ret tt
    end ;;
    res <- gdb_check_server_capabilities max_message_size ;;
    if negb (res =? GDB_OK) then gdb_socket_cleanup ;; ret GDB_ERROR
    else gdb_request_no_ack_mode.

(** [detach] is [parameters.detach]. *)
Definition gdb_detach (detach : bool) : G unit :=
  if detach then
    res <- gdb_send_command (str "D") ;;
    if negb (res =? GDB_OK) then ret tt
    else _ <- gdb_get_message 0 ;; ret tt
  else ret tt.

(** *** print_O_type_message, get_core_content *)

Definition toupper (c : Z) : Z :=
  if (97 <=? c) && (c <=? 122) then c - 32 else c.

(** The value of a [char] that holds the byte [c]: [char] is signed, a
    byte above 0x7F is a negative number. *)
Definition schar (c : Z) : Z := if c >? 127 then c - 256 else c.

Definition O_char (first_hex second_hex : Z) : Z :=
  let first_hex := schar first_hex in
  let second_hex := schar second_hex in
  let first_value := toupper first_hex - 48 - (if first_hex >? 57 then 7 else 0) in
  let second_value :=
    toupper second_hex - 48 - (if second_hex >? 57 then 7 else 0) in
  u8 (Z.lor (Z.shiftl first_value 4) second_value).

Fixpoint O_decode (s : list Z) : list Z :=
  match s with
  | a :: b :: tl => O_char a b :: O_decode tl
  | _ => []
  end.

(** A ['#'] in the C string at the start of [s] becomes a NUL. *)
Definition cut_at_hash (s : list Z) : list Z :=
  match strchr (cstr s) 35 with
  | Some n => firstn n s ++ overlay [0] (skipn n s)
  | None => s
  end.

Definition print_O_type_message : G unit :=
  buf <- gets message_buffer ;;
  let off := if starts_with (str "$O") buf then 2%nat else 0%nat in
  let hex_string := cut_at_hash (skipn off buf) in
  (if (length (cstr hex_string) <? 2)%nat then
     modify (set_buffer (firstn off buf ++ hex_string))
   else
     let text := O_decode (cstr hex_string) in
     let stored := overlay (text ++ [0]) hex_string in
     let shown := map (fun c => if c =? 10 then 32 else c) (cstr stored) in
     modify (set_buffer (firstn off buf ++ overlay shown stored)) ;;
     log_string "O-type message") .

Definition get_core_content : G unit :=
  buf <- gets message_buffer ;;
  let off := if at_ buf 0 =? 36 then 1%nat else 0%nat in
  modify (set_buffer (firstn off buf ++ cut_at_hash (skipn off buf))).

(** *** gdb_execute_command *)

(** The do-while loop over chained ['O'] messages.  [GDB_ERROR]: the function
    returns from inside the loop; [GDB_OK]: the loop has ended.  Without
    acknowledgements every turn takes at least one event off the queue;
    [fuel] is its length plus one. *)
Fixpoint O_chain_loop (fuel : nat) : G Z :=
  match fuel with
  | O => ret GDB_OK
  | S f =>
      print_O_type_message ;;
      res <- gdb_get_message ERROR_DATA_TIMEOUT ;;
      if res >? 0 then
        rep <- gdb_error_reported ;;
        if rep then ret GDB_ERROR else ret GDB_OK
      else O_chain_loop f
  end.

Definition gdb_execute_command (command : list Z) : G Z :=
  modify (set_error 0) ;;
  log_string "command: " ;;
  res <- gdb_send_command command ;;
  if negb (res =? GDB_OK) then ret GDB_ERROR
  else
    res <- gdb_get_message 0 ;;
    if negb (res =? GDB_OK) then ret GDB_ERROR
    else
      rep <- gdb_error_reported ;;
      if rep then ret GDB_ERROR
      else
        buf <- gets message_buffer ;;
        if starts_with (str "$O") buf then
          if negb (at_ buf 2 =? 75) then
            g <- gets (fun g => g) ;;
            res <- O_chain_loop (S (length (wire_in g))) ;;
            if negb (res =? GDB_OK) then ret GDB_ERROR else ret GDB_OK
          else
            log_string "OK" ;;
            ret GDB_OK
        else
          get_core_content ;;
          log_string "unsupported command or other response" ;;
          gdb_flush_socket ;;
          ret GDB_ERROR.

(* ===================================================================== *)
(** ** RTEgdbData.cpp                                                     *)
(* ===================================================================== *)

(** The globals of RTEgdbData.cpp, the heap and the file system. *)
Record app_state : Type := mkApp {
  parameters : Par.t;
  old_msg_filter : Z;
  rtedbg_header : Hdr.t;
  p_rtedbg_structure : option (list Z);   (* [None] is NULL *)
  gdb : gdb_state;
  malloc_ok : bool;                       (* whether malloc() succeeds *)
  bin_create_ok : bool;                   (* whether fopen_s(.., "wb") succeeds *)
  bin_capacity : Z;                       (* bytes fwrite() can write *)
  bin_file : option (list Z);             (* the output file, once created *)
  cmd_files : string -> option (list Z)   (* the command files fopen_s can open *)
}.

Definition set_gdb (g : gdb_state) (a : app_state) : app_state :=
  mkApp (parameters a) (old_msg_filter a) (rtedbg_header a)
    (p_rtedbg_structure a) g (malloc_ok a) (bin_create_ok a) (bin_capacity a)
    (bin_file a) (cmd_files a).

Definition set_parameters (p : Par.t) (a : app_state) : app_state :=
  mkApp p (old_msg_filter a) (rtedbg_header a)
    (p_rtedbg_structure a) (gdb a) (malloc_ok a) (bin_create_ok a)
    (bin_capacity a) (bin_file a) (cmd_files a).

Definition set_old_msg_filter (v : Z) (a : app_state) : app_state :=
  mkApp (parameters a) v (rtedbg_header a)
    (p_rtedbg_structure a) (gdb a) (malloc_ok a) (bin_create_ok a)
    (bin_capacity a) (bin_file a) (cmd_files a).

Definition set_header (h : Hdr.t) (a : app_state) : app_state :=
  mkApp (parameters a) (old_msg_filter a) h
    (p_rtedbg_structure a) (gdb a) (malloc_ok a) (bin_create_ok a)
    (bin_capacity a) (bin_file a) (cmd_files a).

Definition set_structure (p : option (list Z)) (a : app_state) : app_state :=
  mkApp (parameters a) (old_msg_filter a) (rtedbg_header a)
    p (gdb a) (malloc_ok a) (bin_create_ok a)
    (bin_capacity a) (bin_file a) (cmd_files a).

Definition set_bin_file (f : option (list Z)) (a : app_state) : app_state :=
  mkApp (parameters a) (old_msg_filter a) (rtedbg_header a)
    (p_rtedbg_structure a) (gdb a) (malloc_ok a) (bin_create_ok a)
    (bin_capacity a) f (cmd_files a).

Definition A (T : Type) : Type := M app_state T.

(** A function of gdb_lib.cpp called from RTEgdbData.cpp. *)
Definition lift {T : Type} (m : G T) : A T :=
  fun a => let '(r, g) := m (gdb a) in (r, set_gdb g a).

Definition app_log (t : string) : A unit := lift (log_string t).

Definition MESSAGE_FILTER_ADDRESS (a : app_state) : Z :=
  u32 (Par.start_address (parameters a) + 4).

Definition RTE_CFG_WORD_ADDRESS (a : app_state) : Z :=
  u32 (Par.start_address (parameters a) + 8).

(** *** allocate_memory_for_g_rtedbg_structure *)

Definition allocate_memory_for_g_rtedbg_structure : A bool :=
  a <- gets (fun a => a) ;;
  if Par.size (parameters a) =? 0 then ret false
  else
    match p_rtedbg_structure a with
    | Some _ => ret true
    | None =>
        if malloc_ok a then
          modify (set_structure
                    (Some (repeat 0 (Z.to_nat (Par.size (parameters a)))))) ;;
          ret true
        else
          app_log "Could not allocate memory buffer." ;;
          ret false
    end.

(** *** load_rtedbg_structure_header *)

Definition load_rtedbg_structure_header : A Z :=
  a <- gets (fun a => a) ;;
  '(res, bytes) <- lift (gdb_read_memory (Par.start_address (parameters a))
                           sizeof_rtedbg_header) ;;
  modify (set_header
            (Hdr.of_bytes (overlay bytes (Hdr.to_bytes (rtedbg_header a))))) ;;
  if negb (res =? GDB_OK) then ret GDB_ERROR
  else
    a <- gets (fun a => a) ;;
    let new_size :=
      u32 (Hdr.buffer_size (rtedbg_header a) * 4 + sizeof_rtedbg_header) in
    chk <-
    (if (Par.size (parameters a) =? 0)
        || negb (new_size =? Par.size (parameters a)) then
       modify (set_parameters (Par.with_size new_size (parameters a))) ;;
       if new_size <? MIN_BUFFER_SIZE then
         app_log
           "The buffer size specified in the g_rtedbg structure header is too small" ;;
         ret GDB_ERROR
       else if new_size >? MAX_BUFFER_SIZE then
         app_log
           "The buffer size specified in the g_rtedbg structure header is too large" ;;
         ret GDB_ERROR
       else
         match p_rtedbg_structure a with
         | Some _ =>
             app_log "Log data structure changed to: %llu" ;;
             modify (set_structure None) ;;
             ret GDB_OK
         | None => ret GDB_OK
         end
     else ret GDB_OK) ;;
    if negb (chk =? GDB_OK) then ret GDB_ERROR
    else
      ok <- allocate_memory_for_g_rtedbg_structure ;;
      if negb ok then ret GDB_ERROR else ret GDB_OK.

(** *** check_header_info *)

Definition check_header_info : A Z :=
  h <- gets rtedbg_header ;;
  if negb (sizeof_rtedbg_header =? Hdr.RTE_HEADER_SIZE h)
     || negb (Hdr.RTE_CFG_RESERVED_BITS h =? 0)
     || negb (Hdr.RTE_CFG_RESERVED2 h =? 0)
  then
    app_log
      "Error in the g_rtedbg structure header (incorrect header size / reserved bits)." ;;
    ret GDB_ERROR
  else ret GDB_OK.

(** *** set_or_restore_message_filter *)

Definition set_or_restore_message_filter : A Z :=
  a <- gets (fun a => a) ;;
  let old_filter := old_msg_filter a in
  let old_filter :=
    if (old_filter =? 0)
       && negb (Hdr.RTE_FILTER_OFF_ENABLED (rtedbg_header a) =? 0)
    then Hdr.filter_copy (rtedbg_header a)
    else old_filter in
  let old_filter :=
    if Par.set_filter (parameters a) then Par.filter (parameters a)
    else old_filter in
  lift (gdb_write_memory (le32_bytes old_filter) (MESSAGE_FILTER_ADDRESS a) 4).

(** *** read_memory_block, delay_before_data_transfer *)

Definition read_memory_block (address block_size : Z) : A (Z * list Z) :=
  '(res, bytes) <- lift (gdb_read_memory address block_size) ;;
  if negb (res =? GDB_OK) then ret (GDB_ERROR, bytes)
  else
    app_log ", %llu kB/s. " ;;
    ret (GDB_OK, bytes).

Definition delay_before_data_transfer : A unit :=
  a <- gets (fun a => a) ;;
  if Par.delay (parameters a) >? 0 then app_log "Delay %llu ms" else ret tt.

(** *** save_rtedbg_structure *)

Definition save_rtedbg_structure : A Z :=
  a <- gets (fun a => a) ;;
  match p_rtedbg_structure a with
  | None => ret GDB_ERROR
  | Some image =>
      delay_before_data_transfer ;;
      '(err, bytes) <- read_memory_block (Par.start_address (parameters a))
                         (Par.size (parameters a)) ;;
      let image := overlay bytes image in
      modify (set_structure (Some image)) ;;
      if negb (err =? GDB_OK) then ret GDB_ERROR
      else if negb (bin_create_ok a) then
        app_log "Could not create file" ;;
        ret GDB_ERROR
      else
        modify (set_bin_file (Some [])) ;;
        (* p_rtedbg_structure[1] = old_msg_filter *)
        let image := overlay_at 4 (le32_bytes (old_msg_filter a)) image in
        modify (set_structure (Some image)) ;;
        let written := Z.min (Par.size (parameters a)) (bin_capacity a) in
        modify (set_bin_file (Some (firstn (Z.to_nat written) image))) ;;
        if negb (written =? Par.size (parameters a)) then
          app_log "Could not write to the file: %s." ;;
          ret GDB_ERROR
        else ret GDB_OK
  end.

(** *** pause_data_logging, erase_buffer_index, single_shot_active *)

Definition pause_data_logging : A Z :=
  a <- gets (fun a => a) ;;
  lift (gdb_write_memory [0; 0; 0; 0] (MESSAGE_FILTER_ADDRESS a) 4).

Definition erase_buffer_index : A Z :=
  a <- gets (fun a => a) ;;
  lift (gdb_write_memory [0; 0; 0; 0] (Par.start_address (parameters a)) 4).

Definition single_shot_active (a : app_state) : bool :=
  negb (Hdr.RTE_SINGLE_SHOT_WAS_ACTIVE (rtedbg_header a) =? 0)
  && negb (Hdr.RTE_SINGLE_SHOT_LOGGING_ENABLED (rtedbg_header a) =? 0).

(** *** reset_circular_buffer *)

Definition reset_circular_buffer : A Z :=
  a <- gets (fun a => a) ;;
  rez <-
    (if Par.clear_buffer (parameters a) then
       let circular_buffer_size :=
         u32 (Par.size (parameters a) - sizeof_rtedbg_header) in
       if negb (malloc_ok a) then
         app_log "Could not allocate memory buffer." ;;
         ret (Some GDB_ERROR)
       else
         rez <- lift (gdb_write_memory
                        (repeat 255 (Z.to_nat circular_buffer_size))
                        (u32 (Par.start_address (parameters a)
                              + sizeof_rtedbg_header))
                        circular_buffer_size) ;;
         if negb (rez =? GDB_OK) then ret (Some GDB_ERROR)
         else app_log ", %llu kB/s. " ;; ret None
     else ret None) ;;
  match rez with
  | Some e => ret e
  | None =>
      if Par.clear_buffer (parameters a) || single_shot_active a
      then erase_buffer_index
      else ret GDB_OK
  end.

(** *** check_message_filter_disabled *)

Definition check_message_filter_disabled : A Z :=
  a <- gets (fun a => a) ;;
  '(rez, bytes) <- lift (gdb_read_memory (MESSAGE_FILTER_ADDRESS a) 4) ;;
  if negb (rez =? GDB_OK) then ret GDB_ERROR
  else if negb (le32 bytes =? 0) then
    app_log "Error: At the end of the data transfer, the message filter is not zero." ;;
    ret GDB_ERROR
  else ret GDB_OK.

(** *** execute_decode_batch_file *)

Definition execute_decode_batch_file : A unit :=
  a <- gets (fun a => a) ;;
  match Par.decode_file (parameters a) with
  | Some _ => app_log "Starting the batch file: %s"
  | None => ret tt
  end.

(** *** single_data_transfer *)

Definition single_data_transfer : A Z :=
  lift gdb_handle_unexpected_messages ;;
  a <- gets (fun a => a) ;;
  '(rez, bytes) <- lift (gdb_read_memory (MESSAGE_FILTER_ADDRESS a) 4) ;;
  modify (set_old_msg_filter
            (le32 (overlay bytes (le32_bytes (old_msg_filter a))))) ;;
  if negb (rez =? GDB_OK) then ret 1
  else
    old <- gets old_msg_filter ;;
    rez <- (if negb (old =? 0) then pause_data_logging else ret GDB_OK) ;;
    if negb (rez =? GDB_OK) then ret 1
    else
      rez <- load_rtedbg_structure_header ;;
      if negb (rez =? GDB_OK) then ret 1
      else
        rez <- check_header_info ;;
        if negb (rez =? GDB_OK) then ret 1
        else
          rez <- save_rtedbg_structure ;;
          if negb (rez =? GDB_OK) then
            _ <- set_or_restore_message_filter ;;
            ret 1
          else
            rez <- check_message_filter_disabled ;;
            if negb (rez =? GDB_OK) then
              _ <- set_or_restore_message_filter ;;
              ret 1
            else
              rez <- reset_circular_buffer ;;
              if negb (rez =? GDB_OK) then ret 1
              else
                rez <- set_or_restore_message_filter ;;
                if negb (rez =? GDB_OK) then ret 1
                else
                  app_log "Data written to file" ;;
                  execute_decode_batch_file ;;
                  ret 0.

(** *** set_new_filter_value *)

(** The call with a text ([filter_value != NULL]), as internal_command makes
    it; the prompt of the interactive loop is not part of the model. *)
Definition set_new_filter_value (filter_value : list Z) : A unit :=
  a <- gets (fun a => a) ;;
  if Hdr.RTE_MSG_FILTERING_ENABLED (rtedbg_header a) =? 0 then
    app_log "Message filtering disabled in the firmware."
  else
    let new_filter :=
      match sscanf_x filter_value with
      | Some (v, _) => v
      | None => Par.filter (parameters a)
      end in
    modify (set_parameters (Par.with_filter new_filter true (parameters a))) ;;
    rez <- set_or_restore_message_filter ;;
    if rez =? GDB_OK then app_log "Message filter set to 0x%X" else ret tt.

(** *** initialize_data_logging_structure *)

(** [parameters.size - sizeof(rtedbg_header_t)] is computed in [size_t],
    taken with 64 bits, and the quotient is stored in a [uint32_t]. *)
Definition usize (x : Z) : Z := x mod 2 ^ 64.

Definition initialize_data_logging_structure (cfg_word timestamp_frequency : Z)
  : A unit :=
  a <- gets (fun a => a) ;;
  if timestamp_frequency =? 0 then
    app_log "- the timestamp frequency must not be zero"
  else if Par.size (parameters a) =? 0 then
    app_log "- the size command line argument must not be zero"
  else
    let rtedbg :=
      Hdr.mk 0 0 cfg_word timestamp_frequency (Par.filter (parameters a))
        (u32 (usize (Par.size (parameters a) - sizeof_rtedbg_header) / 4)) in
    rez <- pause_data_logging ;;
    if negb (rez =? GDB_OK) then ret tt
    else
      rez <- lift (gdb_write_memory (Hdr.to_bytes rtedbg)
                     (Par.start_address (parameters a)) sizeof_rtedbg_header) ;;
      if negb (rez =? GDB_OK) then ret tt
      else
        rez <- reset_circular_buffer ;;
        if negb (rez =? GDB_OK) then ret tt
        else
          rez <-
            (if negb (Par.filter (parameters a) =? 0) then
               lift (gdb_write_memory (le32_bytes (Par.filter (parameters a)))
                       (MESSAGE_FILTER_ADDRESS a) 4)
             else ret GDB_OK) ;;
          if negb (rez =? GDB_OK) then ret tt
          else
            app_log "The g_rtedbg data logging structure has been initialized. ".

(** *** internal_command *)

Definition internal_command (cmd_text : list Z) : A unit :=
  if starts_with (str "##") cmd_text then ret tt
  else
    (if negb (starts_with (str "#echo ") cmd_text)
     then app_log "internal command" else ret tt) ;;
    if starts_with (str "#delay ") cmd_text then
      match sscanf_u (skipn 7 cmd_text) with
      | Some (delay_ms, _) =>
          if delay_ms >? 0 then
            app_log "delay %u ms" ;;
            lift gdb_flush_socket
          else ret tt
      | None => ret tt
      end
    else if starts_with (str "#init ") cmd_text then
      match sscanf_x (skipn 6 cmd_text) with
      | Some (cfg_word, rest) =>
          match sscanf_u rest with
          | Some (timestamp_frequency, _) =>
              app_log "Logging data structure initialization" ;;
              initialize_data_logging_structure cfg_word timestamp_frequency
          | None =>
              app_log "- #init command must have two parameters"
          end
      | None => app_log "- #init command must have two parameters"
      end
    else if starts_with (str "#filter ") cmd_text then
      set_new_filter_value (skipn 8 cmd_text)
    else if starts_with (str "#echo ") cmd_text then
      app_log "echo"
    else app_log "- unknown command".

(** *** gdb_send_commands_from_file *)

(** [fgets(cmd_text, n + 1, commands)]: the characters read and the rest of
    the file. *)
Fixpoint fgets (n : nat) (content : list Z) : list Z * list Z :=
  match n, content with
  | O, _ => ([], content)
  | _, [] => ([], [])
  | S k, c :: tl =>
      if c =? 10 then ([c], tl)
      else let '(l, r) := fgets k tl in (c :: l, r)
  end.

(** The part of a C string before its first new-line character. *)
Fixpoint strip_newline (s : list Z) : list Z :=
  match s with
  | [] => []
  | c :: tl => if c =? 10 then [] else c :: strip_newline tl
  end.

(** The [for (;;)] loop over the lines; every [fgets] takes at least one
    character, so the length of the file bounds the number of turns. *)
Fixpoint command_loop (fuel : nat) (content : list Z) : A unit :=
  match fuel with
  | O => ret tt
  | S f =>
      match content with
      | [] => ret tt
      | _ =>
          let '(line, rest) := fgets 511 content in
          let cmd_text := strip_newline (cstr line) in
          match cmd_text with
          | [] => command_loop f rest
          | c :: _ =>
              if c =? 35 then
                internal_command cmd_text ;;
                command_loop f rest
              else
                rez <- lift (gdb_execute_command cmd_text) ;;
                if negb (rez =? GDB_OK) then ret tt
                else command_loop f rest
          end
      end
  end.

Definition gdb_send_commands_from_file (cmd_file : option string) : A Z :=
  match cmd_file with
  | None => ret 0
  | Some name =>
      lift gdb_handle_unexpected_messages ;;
      app_log "Execute command file: ..." ;;
      a <- gets (fun a => a) ;;
      match cmd_files a name with
      | None =>
          app_log "Could not open command file - error: %s " ;;
          ret 1
      | Some content =>
          command_loop (length content) content ;;
          ret 0
      end
  end.

(** *** main *)

(** The interactive loop of the persistent mode: keyboard driven, not part
    of the model. *)
Variable persistent_connection : A Z.

(** After [process_command_line_parameters]: the command line is in
    [parameters]. *)
Definition main : A Z :=
  a <- gets (fun a => a) ;;
  res <- lift (gdb_connect (Par.max_message_size (parameters a))) ;;
  if negb (res =? GDB_OK) then
    app_log "Could not connect to the GDB server. Check the log file for details." ;;
    ret 1
  else
    rez <- gdb_send_commands_from_file (Par.start_cmd_file (parameters a)) ;;
    if negb (rez =? 0) then
      lift (gdb_detach (Par.detach (parameters a))) ;;
      lift gdb_socket_cleanup ;;
      ret 1
    else
      rez <-
        (if Par.persistent_connection (parameters a) then persistent_connection
         else
           rez <- single_data_transfer ;;
           app_log "Total time: %llu ms" ;;
           ret rez) ;;
      lift (gdb_detach (Par.detach (parameters a))) ;;
      lift gdb_socket_cleanup ;;
      ret rez.

End Client.

(* ===================================================================== *)
(** ** A GDB server in front of a target memory                           *)
(* ===================================================================== *)

(** The peer of the end-to-end runs.  It answers [m] and [M] packets from a
    byte-addressable 32-bit memory, [qSupported] with a fixed capability
    text and [QStartNoAckMode] with [OK]; replies carry lower-case
    hexadecimal digits; each reply arrives in one block. *)
Record mem_srv : Type := mkSrv {
  mem : Z -> Z;
  srv_ack : bool;
  capabilities : list Z
}.

Definition mem_bytes (m : Z -> Z) (a : Z) (n : nat) : list Z :=
  map (fun i => u8 (m (u32 (a + Z.of_nat i)))) (seq 0 n).

Definition mem_store (m : Z -> Z) (a : Z) (data : list Z) : Z -> Z :=
  fun x =>
    let off := u32 (x - a) in
    if off <? len data then nth (Z.to_nat off) data 0 else m x.

Definition reply (payload : list Z) : list Z :=
  str "$" ++ payload ++ str "#" ++ printf_hex false 2 (checksum payload).

Fixpoint unhex (n : nat) (s : list Z) : option (list Z) :=
  match n with
  | O => Some []
  | S k =>
      match s with
      | a :: b :: tl =>
          match hex_val a, hex_val b, unhex k tl with
          | Some x, Some y, Some r => Some (x * 16 + y :: r)
          | _, _, _ => None
          end
      | _ => None
      end
  end.

Definition mem_react (s : mem_srv) (msg : list Z)
  : send_outcome * list recv_ev * mem_srv :=
  let accept := Sent (len msg) in
  let ack := if srv_ack s then [Data (str "+")] else [] in
  let error := (accept, ack ++ [Data (reply (str "E01"))], s) in
  match msg with
  | 36 :: 109 :: tl =>
      let '(a, r1) := scan_hex_digits 0 tl in
      match r1 with
      | 44 :: r2 =>
          let '(n, r3) := scan_hex_digits 0 r2 in
          match r3 with
          | 35 :: _ =>
              (accept,
               ack ++ [Data (reply (hex_bytes false
                                      (mem_bytes (mem s) a (Z.to_nat n))))],
               s)
          | _ => error
          end
      | _ => error
      end
  | 36 :: 77 :: tl =>
      let '(a, r1) := scan_hex_digits 0 tl in
      match r1 with
      | 44 :: r2 =>
          let '(n, r3) := scan_hex_digits 0 r2 in
          match r3 with
          | 58 :: r4 =>
              match unhex (Z.to_nat n) r4 with
              | Some data =>
                  (accept, ack ++ [Data (reply (str "OK"))],
                   mkSrv (mem_store (mem s) a data) (srv_ack s)
                     (capabilities s))
              | None => error
              end
          | _ => error
          end
      | _ => error
      end
  | 36 :: body =>
      if starts_with (str "qSupported") body then
        (accept, ack ++ [Data (reply (capabilities s))], s)
      else if starts_with (str "QStartNoAckMode#") body then
        (accept, ack ++ [Data (reply (str "OK"))],
         mkSrv (mem s) false (capabilities s))
      else (accept, ack ++ [Data (reply [])], s)
  | _ => (accept, [], s)
  end.

(** The globals at program start, facing server [s]. *)
Definition gdb_start (Srv : Type) (s : Srv) : gdb_state Srv :=
  mkGdb 0 [] false 0 0 0 0 true s [] [] [].

Definition app_start (Srv : Type) (p : Par.t) (s : Srv) : app_state Srv :=
  mkApp p 0 (Hdr.mk 0 0 0 0 0 0) None (gdb_start s) true true
    (2 ^ 32) None (fun _ => None).

(** A target memory holding [image] at [base] and zero elsewhere. *)
Definition image_at (base : Z) (image : list Z) : Z -> Z :=
  fun x => if (base <=? x) && (x <? base + len image)
           then nth (Z.to_nat (x - base)) image 0 else 0.

(** The bytes of the target structure with the given header and a buffer of
    [buffer_size] words counting up from 1. *)
Definition sample_structure (h : Hdr.t) : list Z :=
  Hdr.to_bytes h
  ++ map (fun i => u8 (Z.of_nat i + 1))
       (seq 0 (Z.to_nat (Hdr.buffer_size h * 4))).

Definition sample_parameters : Par.t :=
  Par.mk 603979776 0 0 false 0 None "data.bin" None false false false 0.

Definition sample_server (h : Hdr.t) (caps : string) : mem_srv :=
  mkSrv (image_at 603979776 (sample_structure h)) true (str caps).

(* ===================================================================== *)
(** ** Definitions of the statements                                      *)
(* ===================================================================== *)

Unset Implicit Arguments.

(** The frame format in the words of the protocol: a dollar sign, the
    payload, a hash sign and the two hexadecimal digits of the sum of the
    payload bytes modulo 256. *)
Definition payload_sum (payload : list Z) : Z :=
  fold_right Z.add 0 payload mod 256.

Definition rsp_frame (upper : bool) (payload : list Z) : list Z :=
  str "$" ++ payload ++ str "#" ++ hex_fixed upper 2 (payload_sum payload).

Definition read_payload (address length : Z) : list Z :=
  str "m" ++ printf_hex false 8 address ++ str ","
  ++ printf_hex false 2 length.

Definition write_payload (data : list Z) (address length : Z) : list Z :=
  str "M" ++ printf_hex true 8 address ++ str ","
  ++ printf_hex true 4 length ++ str ":" ++ hex_bytes true data.

(** What may follow a number for [%x] to stop there. *)
Definition ends_number (post : list Z) : Prop :=
  match post with
  | [] => True
  | c :: _ => is_hex_char c = false
  end.

Definition is_byte (b : Z) : Prop := 0 <= b < 256.

(** The precedence in the words of the specification. *)
Definition restore_precedence (user_set : bool) (user_value : Z)
    (old_filter filter_copy : Z) (firmware_off_allowed : bool) : Z :=
  if user_set then user_value
  else if (old_filter =? 0) && firmware_off_allowed then filter_copy
  else old_filter.

(** The same on the globals: bit 2 of [rte_cfg] is "firmware-off allowed". *)
Definition restore_value {Srv : Type} (a : app_state Srv) : Z :=
  restore_precedence (Par.set_filter (parameters a))
    (Par.filter (parameters a)) (old_msg_filter a)
    (Hdr.filter_copy (rtedbg_header a))
    (Z.testbit (Hdr.rte_cfg (rtedbg_header a)) 2).

Definition is_lower_hex (c : Z) : Prop := 48 <= c <= 57 \/ 97 <= c <= 102.

(** *** The steps of single_data_transfer and of gdb_connect *)

Section Steps.

Variable Srv : Type.
Variable react : Srv -> list Z -> send_outcome * list recv_ev * Srv.

Local Abbreviation state := (app_state Srv).

(** The first two steps of single_data_transfer, named: the filter is read
    into [old_msg_filter]; logging is paused if it is not zero. *)
Definition read_old_filter : A Srv Z :=
  lift (gdb_handle_unexpected_messages (Srv:=Srv)) ;;
  a <- gets (fun a => a) ;;
  '(rez, bytes) <- lift (gdb_read_memory react (MESSAGE_FILTER_ADDRESS a) 4) ;;
  modify (set_old_msg_filter
            (le32 (overlay bytes (le32_bytes (old_msg_filter a))))) ;;
  ret rez.

Definition pause_if_logging : A Srv Z :=
  old <- gets (old_msg_filter (Srv:=Srv)) ;;
  if negb (old =? 0) then pause_data_logging react else ret GDB_OK.

(** What follows the restore on the success path. *)
Definition report_success : A Srv Z :=
  app_log "Data written to file" ;;
  execute_decode_batch_file (Srv:=Srv) ;;
  ret 0.

(** Only the globals of gdb_lib.cpp (and the socket) differ. *)
Definition only_gdb (a b : state) : Prop := exists g, b = set_gdb g a.

(** gdb_connect up to its call of gdb_check_server_capabilities. *)
Definition connect_greeting : G Srv Z :=
  modify (set_error (Srv:=Srv) 0) ;;
  res <- gdb_connect_socket (Srv:=Srv) ;;
  if negb (res =? GDB_OK) then gdb_socket_cleanup (Srv:=Srv) ;; ret GDB_ERROR
  else
    modify (set_ack_mode (Srv:=Srv) true) ;;
    g <- gets (fun g => g) ;;
    let '(ev, rest) := recv (Z.to_nat TCP_BUFF_LENGTH) (wire_in g) in
    modify (set_wire_in rest) ;;
    match ev with
    | Data (c :: d) =>
        modify (set_buffer (overlay (c :: d) (message_buffer g))) ;;
        gdb_flush_socket (Srv:=Srv)
    | _ => ret tt
    end ;;
    ret GDB_OK.

(** gdb_check_server_capabilities up to its call of parse_capability_data:
    the query is sent and the reply is in the message buffer. *)
Definition capability_exchange : G Srv Z :=
  modify (set_error (Srv:=Srv) 0) ;;
  log_string (Srv:=Srv) "Retrieving GDB server capabilities: " ;;
  res <- gdb_send_command react (str "qSupported") ;;
  if negb (res =? GDB_OK) then ret GDB_ERROR
  else
    gdb_check_ack (Srv:=Srv) ;;
    res <- gdb_get_message react LONG_RECV_TIMEOUT ;;
    if negb (res =? GDB_OK) then ret GDB_ERROR else ret GDB_OK.

End Steps.

(** *** Sessions with the memory server *)

(** Nothing pending on the wire, acknowledgements off on both sides: the
    session as gdb_connect leaves it. *)
Definition quiet (g : gdb_state mem_srv) : Prop :=
  wire_in g = [] /\ ack_mode_enabled g = false /\ srv_ack (srv g) = false.

(** A session with the memory server as capability negotiation leaves it,
    here for a server that reports [caps]. *)
Definition negotiated (m : Z -> Z) (caps : string) : gdb_state mem_srv :=
  snd (parse_capability_data 0 (str caps)
         (gdb_start (mkSrv m false (str caps)))).

(** The session after gdb_connect. *)
Definition connected (p : Par.t) (s : mem_srv) : app_state mem_srv :=
  snd (lift (gdb_connect mem_react (Par.max_message_size p)) (app_start p s)).

(** A target that logs with filter 0x0F: 24-byte header, 14-word buffer. *)
Definition target_header : Hdr.t := Hdr.mk 100 15 100663298 48000000 15 14.

(** The same with a reserved bit of [rte_cfg] set. *)
Definition target_header_reserved : Hdr.t :=
  Hdr.mk 100 15 100663330 48000000 15 14.

(** A target whose firmware has switched logging off (bit 2 of [rte_cfg]
    set, [filter_copy] 0x55). *)
Definition target_header_off : Hdr.t :=
  Hdr.mk 100 0 100663302 48000000 85 14.

Definition session (h : Hdr.t) (p : Par.t) : app_state mem_srv :=
  connected p (sample_server h "PacketSize=1000;QStartNoAckMode+").

(** The filter word of the target behind a session. *)
Definition target_filter (a : app_state mem_srv) : list Z :=
  mem_bytes (mem (srv (gdb a))) (603979776 + 4) 4.

Definition with_user_filter (v : Z) (p : Par.t) : Par.t :=
  Par.with_filter v true p.

(** A session on a machine where the output file cannot be created. *)
Definition read_only_disk (a : app_state mem_srv) : app_state mem_srv :=
  mkApp (parameters a) (old_msg_filter a) (rtedbg_header a)
    (p_rtedbg_structure a) (gdb a) (malloc_ok a) false (bin_capacity a)
    (bin_file a) (cmd_files a).

(** A script whose first command the server does not know. *)
Definition failing_script : list Z := str "vFoo" ++ [10] ++ str "D" ++ [10].

(** *** Messages as gdb_get_message receives them *)

(** A message the receive loop of gdb_get_message takes as complete when its
    last byte has arrived, and not before: at least four bytes, fewer than the
    buffer holds, a hash sign third from the end and at no earlier place that
    would have ended the loop. *)
Definition complete_frame (f : list Z) : Prop :=
  4 <= len f < TCP_BUFF_LENGTH - 1
  /\ at_ f (len f - 3) = 35
  /\ forall k, 4 <= k < len f -> at_ f (k - 3) <> 35.

(** [delivers w f tl]: the queue [w] hands out the bytes [f] in non-empty
    blocks, with polls that time out before the deadline in between, and
    [tl] is what is pending behind the last block. *)
Inductive delivers : list recv_ev -> list Z -> list recv_ev -> Prop :=
| delivers_last (c : Z) (d : list Z) (tl : list recv_ev) :
    delivers (Data (c :: d) :: tl) (c :: d) tl
| delivers_idle (w : list recv_ev) (f : list Z) (tl : list recv_ev) :
    delivers w f tl -> delivers (Idle false :: w) f tl
| delivers_data (c : Z) (d : list Z) (w : list recv_ev) (f : list Z)
    (tl : list recv_ev) :
    delivers w f tl -> delivers (Data (c :: d) :: w) ((c :: d) ++ f) tl.

(** A peer that answers whatever it is sent with one line of console
    output (an ['O'] packet carrying "Hi" and a new-line) and nothing
    more. *)
Definition console_react (s : unit) (msg : list Z)
  : send_outcome * list recv_ev * unit :=
  (Sent (len msg), [Data (str "$O48690a#7c")], s).

(** *** What the handshake negotiates *)

(** The acknowledgement mode and the four sizes that gdb_connect leaves
    behind. *)
Definition settings {Srv : Type} (g : gdb_state Srv) : bool * Z * Z * Z * Z :=
  (ack_mode_enabled g, max_memo_read_packet_size g,
   max_memo_write_packet_size g, max_gdb_send_message_size g,
   max_gdb_recv_message_size g).

(** *** A connection to the memory server that is ready for transfers *)

(** Nothing pending, acknowledgements off, and chunk sizes whose packets
    fit the message buffer. *)
Definition link_ok (g : gdb_state mem_srv) : Prop :=
  quiet g
  /\ 1 <= max_memo_read_packet_size g <= 32764
  /\ 1 <= max_memo_write_packet_size g <= 32757.

(** The target memory behind a session. *)
Definition tmem (a : app_state mem_srv) : Z -> Z := mem (srv (gdb a)).

(** The header the target holds at the structure address. *)
Definition target_hdr (a : app_state mem_srv) : Hdr.t :=
  Hdr.of_bytes (mem_bytes (tmem a) (Par.start_address (parameters a)) 24).

(** The filter word the target holds. *)
Definition target_filter_word (a : app_state mem_srv) : Z :=
  le32 (mem_bytes (tmem a) (Par.start_address (parameters a) + 4) 4).

(** Two memories that differ at most in the four bytes at [w]. *)
Definition same_but_word (w : Z) (m m' : Z -> Z) : Prop :=
  forall x, 4 <= u32 (x - u32 w) -> m' x = m x.

(** The surroundings of a run: the heap and the file system. *)
Definition same_env {Srv : Type} (a b : app_state Srv) : Prop :=
  malloc_ok b = malloc_ok a /\ bin_create_ok b = bin_create_ok a
  /\ bin_capacity b = bin_capacity a /\ cmd_files b = cmd_files a.


(** The size of the structure as its header gives it: the header and
    [buffer_size] words. *)
Definition target_size (a : app_state mem_srv) : Z :=
  Hdr.buffer_size (target_hdr a) * 4 + sizeof_rtedbg_header.

(** The filter value a snapshot leaves in the target, from what the target
    holds when the run starts. *)
Definition target_restore (a : app_state mem_srv) : Z :=
  restore_precedence (Par.set_filter (parameters a))
    (Par.filter (parameters a)) (target_filter_word a)
    (Hdr.filter_copy (target_hdr a))
    (Z.testbit (Hdr.rte_cfg (target_hdr a)) 2).

(** Whether the header in the target says that a single-shot run has
    ended. *)
Definition target_single_shot (a : app_state mem_srv) : bool :=
  negb (Hdr.RTE_SINGLE_SHOT_WAS_ACTIVE (target_hdr a) =? 0)
  && negb (Hdr.RTE_SINGLE_SHOT_LOGGING_ENABLED (target_hdr a) =? 0).

(** The memory after reset_circular_buffer for a structure of [size] bytes
    at [start]: with [-clear] the circular buffer is filled with 0xFF and
    the index word is zero; after a single-shot run only the index word is
    zero. *)
Definition reset_memory (clear single_shot : bool) (start size : Z)
    (m : Z -> Z) : Z -> Z :=
  if clear then
    mem_store
      (mem_store m (u32 (start + sizeof_rtedbg_header))
         (repeat 255 (Z.to_nat (size - sizeof_rtedbg_header))))
      (u32 start) [0; 0; 0; 0]
  else if single_shot then mem_store m (u32 start) [0; 0; 0; 0]
  else m.

(** The memory after [#init] for a structure of [size] bytes at [start]:
    the header bytes of [h], then with [-clear] a buffer full of 0xFF. *)
Definition initialized_memory (clear : bool) (start size : Z) (h : Hdr.t)
    (m : Z -> Z) : Z -> Z :=
  fun x =>
    let off := u32 (x - start) in
    if off <? sizeof_rtedbg_header then nth (Z.to_nat off) (Hdr.to_bytes h) 0
    else if clear && (off <? size) then 255
    else m x.

(** The header [#init cfg_word timestamp_frequency] leaves in the
    target. *)
Definition initial_header (p : Par.t) (cfg_word timestamp_frequency : Z)
  : Hdr.t :=
  Hdr.mk 0 (Par.filter p) cfg_word timestamp_frequency (Par.filter p)
    ((Par.size p - sizeof_rtedbg_header) / 4).

(** The sample command line with [size] 0x50 and [-filter=F]. *)
Definition init_parameters : Par.t :=
  Par.with_filter 15 true (Par.with_size 80 sample_parameters).

(* ===================================================================== *)
(** ** cmd_line.cpp                                                       *)
(* ===================================================================== *)

(** The command line as [main] receives it: [argv] is a list of C strings
    (no NUL inside), [argv[0]] included.  [show_help_and_exit] ends the
    program; here it is [None]. *)
Module Cmd.

Definition MAX_DRIVERS : Z := 5.
Definition DEFAULT_HOST_ADDRESS : list Z := str "127.0.0.1".

(** cmd_line.h: [parameters_t].  A [const char *] is the C string it points
    to, [None] for NULL; [driver_names] holds the first [number_of_drivers]
    entries of the array. *)
Record t : Type := mk {
  start_address : Z;
  size : Z;
  filter : Z;
  set_filter : bool;
  delay : Z;
  log_file : option (list Z);
  decode_file : option (list Z);
  bin_file_name : option (list Z);
  ip_address : option (list Z);
  start_cmd_file : option (list Z);
  filter_names : option (list Z);
  gdb_port : Z;
  driver_names : list (list Z);
  elevated_priority : bool;
  clear_buffer : bool;
  log_gdb_communication : bool;
  persistent_connection : bool;
  detach : bool;
  max_message_size : Z
}.

Definition number_of_drivers (p : t) : Z := Z.of_nat (length (driver_names p)).

(** The global [parameters] before [main]: zero-initialised. *)
Definition zero : t :=
  mk 0 0 0 false 0 None None None None None None 0 [] false false false
     false false 0.

(** [parameters] and the log files create_log_file has been called for. *)
Record state : Type := mkState {
  parameters : t;
  log_files : list (list Z)
}.

Definition update (f : t -> t) (s : state) : state :=
  mkState (f (parameters s)) (log_files s).

Definition with_start_address (v : Z) (p : t) : t :=
  mk v (size p) (filter p) (set_filter p) (delay p) (log_file p)
    (decode_file p) (bin_file_name p) (ip_address p) (start_cmd_file p)
    (filter_names p) (gdb_port p) (driver_names p) (elevated_priority p)
    (clear_buffer p) (log_gdb_communication p) (persistent_connection p)
    (detach p) (max_message_size p).

Definition with_size (v : Z) (p : t) : t :=
  mk (start_address p) v (filter p) (set_filter p) (delay p) (log_file p)
    (decode_file p) (bin_file_name p) (ip_address p) (start_cmd_file p)
    (filter_names p) (gdb_port p) (driver_names p) (elevated_priority p)
    (clear_buffer p) (log_gdb_communication p) (persistent_connection p)
    (detach p) (max_message_size p).

Definition with_filter (v : Z) (p : t) : t :=
  mk (start_address p) (size p) v true (delay p) (log_file p)
    (decode_file p) (bin_file_name p) (ip_address p) (start_cmd_file p)
    (filter_names p) (gdb_port p) (driver_names p) (elevated_priority p)
    (clear_buffer p) (log_gdb_communication p) (persistent_connection p)
    (detach p) (max_message_size p).

Definition with_delay (v : Z) (p : t) : t :=
  mk (start_address p) (size p) (filter p) (set_filter p) v (log_file p)
    (decode_file p) (bin_file_name p) (ip_address p) (start_cmd_file p)
    (filter_names p) (gdb_port p) (driver_names p) (elevated_priority p)
    (clear_buffer p) (log_gdb_communication p) (persistent_connection p)
    (detach p) (max_message_size p).

Definition with_log_file (v : list Z) (p : t) : t :=
  mk (start_address p) (size p) (filter p) (set_filter p) (delay p) (Some v)
    (decode_file p) (bin_file_name p) (ip_address p) (start_cmd_file p)
    (filter_names p) (gdb_port p) (driver_names p) (elevated_priority p)
    (clear_buffer p) (log_gdb_communication p) (persistent_connection p)
    (detach p) (max_message_size p).

Definition with_decode_file (v : list Z) (p : t) : t :=
  mk (start_address p) (size p) (filter p) (set_filter p) (delay p)
    (log_file p) (Some v) (bin_file_name p) (ip_address p)
    (start_cmd_file p) (filter_names p) (gdb_port p) (driver_names p)
    (elevated_priority p) (clear_buffer p) (log_gdb_communication p)
    (persistent_connection p) (detach p) (max_message_size p).

Definition with_bin_file_name (v : list Z) (p : t) : t :=
  mk (start_address p) (size p) (filter p) (set_filter p) (delay p)
    (log_file p) (decode_file p) (Some v) (ip_address p)
    (start_cmd_file p) (filter_names p) (gdb_port p) (driver_names p)
    (elevated_priority p) (clear_buffer p) (log_gdb_communication p)
    (persistent_connection p) (detach p) (max_message_size p).

Definition with_ip_address (v : list Z) (p : t) : t :=
  mk (start_address p) (size p) (filter p) (set_filter p) (delay p)
    (log_file p) (decode_file p) (bin_file_name p) (Some v)
    (start_cmd_file p) (filter_names p) (gdb_port p) (driver_names p)
    (elevated_priority p) (clear_buffer p) (log_gdb_communication p)
    (persistent_connection p) (detach p) (max_message_size p).

Definition with_start_cmd_file (v : list Z) (p : t) : t :=
  mk (start_address p) (size p) (filter p) (set_filter p) (delay p)
    (log_file p) (decode_file p) (bin_file_name p) (ip_address p)
    (Some v) (filter_names p) (gdb_port p) (driver_names p)
    (elevated_priority p) (clear_buffer p) (log_gdb_communication p)
    (persistent_connection p) (detach p) (max_message_size p).

Definition with_filter_names (v : list Z) (p : t) : t :=
  mk (start_address p) (size p) (filter p) (set_filter p) (delay p)
    (log_file p) (decode_file p) (bin_file_name p) (ip_address p)
    (start_cmd_file p) (Some v) (gdb_port p) (driver_names p)
    (elevated_priority p) (clear_buffer p) (log_gdb_communication p)
    (persistent_connection p) (detach p) (max_message_size p).

Definition with_gdb_port (v : Z) (p : t) : t :=
  mk (start_address p) (size p) (filter p) (set_filter p) (delay p)
    (log_file p) (decode_file p) (bin_file_name p) (ip_address p)
    (start_cmd_file p) (filter_names p) v (driver_names p)
    (elevated_priority p) (clear_buffer p) (log_gdb_communication p)
    (persistent_connection p) (detach p) (max_message_size p).

Definition with_driver (v : list Z) (p : t) : t :=
  mk (start_address p) (size p) (filter p) (set_filter p) (delay p)
    (log_file p) (decode_file p) (bin_file_name p) (ip_address p)
    (start_cmd_file p) (filter_names p) (gdb_port p) (driver_names p ++ [v])
    true (clear_buffer p) (log_gdb_communication p)
    (persistent_connection p) (detach p) (max_message_size p).

Definition with_elevated_priority (p : t) : t :=
  mk (start_address p) (size p) (filter p) (set_filter p) (delay p)
    (log_file p) (decode_file p) (bin_file_name p) (ip_address p)
    (start_cmd_file p) (filter_names p) (gdb_port p) (driver_names p)
    true (clear_buffer p) (log_gdb_communication p)
    (persistent_connection p) (detach p) (max_message_size p).

Definition with_clear_buffer (p : t) : t :=
  mk (start_address p) (size p) (filter p) (set_filter p) (delay p)
    (log_file p) (decode_file p) (bin_file_name p) (ip_address p)
    (start_cmd_file p) (filter_names p) (gdb_port p) (driver_names p)
    (elevated_priority p) true (log_gdb_communication p)
    (persistent_connection p) (detach p) (max_message_size p).

Definition with_log_gdb_communication (p : t) : t :=
  mk (start_address p) (size p) (filter p) (set_filter p) (delay p)
    (log_file p) (decode_file p) (bin_file_name p) (ip_address p)
    (start_cmd_file p) (filter_names p) (gdb_port p) (driver_names p)
    (elevated_priority p) (clear_buffer p) true
    (persistent_connection p) (detach p) (max_message_size p).

Definition with_persistent_connection (p : t) : t :=
  mk (start_address p) (size p) (filter p) (set_filter p) (delay p)
    (log_file p) (decode_file p) (bin_file_name p) (ip_address p)
    (start_cmd_file p) (filter_names p) (gdb_port p) (driver_names p)
    (elevated_priority p) (clear_buffer p) (log_gdb_communication p)
    true (detach p) (max_message_size p).

Definition with_detach (p : t) : t :=
  mk (start_address p) (size p) (filter p) (set_filter p) (delay p)
    (log_file p) (decode_file p) (bin_file_name p) (ip_address p)
    (start_cmd_file p) (filter_names p) (gdb_port p) (driver_names p)
    (elevated_priority p) (clear_buffer p) (log_gdb_communication p)
    (persistent_connection p) true (max_message_size p).

Definition with_max_message_size (v : Z) (p : t) : t :=
  mk (start_address p) (size p) (filter p) (set_filter p) (delay p)
    (log_file p) (decode_file p) (bin_file_name p) (ip_address p)
    (start_cmd_file p) (filter_names p) (gdb_port p) (driver_names p)
    (elevated_priority p) (clear_buffer p) (log_gdb_communication p)
    (persistent_connection p) (detach p) v.

(** logger.cpp, create_log_file with a name: the file is opened with
    ["w+"]; when that fails the log goes to [stdout]. *)
Definition create_log_file (file_name : list Z) (s : state) : state :=
  mkState (parameters s) (log_files s ++ [file_name]).

(** [strcmp(a, b) == 0]. *)
Fixpoint same_string (a b : list Z) : bool :=
  match a, b with
  | [], [] => true
  | c :: a', d :: b' => (c =? d) && same_string a' b'
  | _, _ => false
  end.

(** [sscanf_s(s, "%hu", &v)]: the value is stored into an
    [unsigned short]. *)
Definition sscanf_hu (s : list Z) : option (Z * list Z) :=
  match sscanf_u s with
  | Some (v, rest) => Some (v mod 65536, rest)
  | None => None
  end.

(** *** check_parameters *)

Definition check_parameters (s : state) : option state :=
  let p := parameters s in
  if negb (Z.land (size p) 3 =? 0)
     || ((size p <? MIN_BUFFER_SIZE) && negb (size p =? 0))
  then None
  else if negb (Z.land (start_address p) 3 =? 0) then None
  else Some s.

(** *** process_filter_value, process_max_msg_length_value,
        process_delay_value *)

Definition process_filter_value (number : list Z) (s : state)
  : option state :=
  match sscanf_x number with
  | Some (n, _) => Some (update (with_filter n) s)
  | None => None
  end.

Definition process_max_msg_length_value (number : list Z) (s : state)
  : option state :=
  match sscanf_u number with
  | Some (n, _) =>
      if (n >=? 256) && (n <=? TCP_BUFF_LENGTH)
      then Some (update (with_max_message_size n) s)
      else None
  | None => None
  end.

Definition process_delay_value (number : list Z) (s : state)
  : option state :=
  match sscanf_u number with
  | Some (n, _) =>
      if negb (n =? 0) then Some (update (with_delay n) s) else None
  | None => None
  end.

(** *** remove_quotation_marks *)

(** The string returned; [parameter[len - 1]] is its last character. *)
Definition remove_quotation_marks (parameter : list Z)
  : option (list Z) :=
  match parameter with
  | 34 :: tl =>
      if (len parameter >? 1) && (last parameter 0 =? 34)
      then Some (removelast tl)
      else None
  | _ => Some parameter
  end.

(** *** add_driver_name *)

Definition add_driver_name (driver_name : list Z) (s : state)
  : option state :=
  if number_of_drivers (parameters s) >=? MAX_DRIVERS then None
  else Some (update (with_driver driver_name) s).

(** *** process_one_cmd_line_parameter *)

Definition with_name (parameter : list Z) (k : list Z -> option state)
  : option state :=
  match remove_quotation_marks parameter with
  | Some name => k name
  | None => None
  end.

Definition process_one_cmd_line_parameter (parameter : list Z) (s : state)
  : option state :=
  if starts_with (str "-delay=") parameter then
    process_delay_value (skipn 7 parameter) s
  else if starts_with (str "-filter=") parameter then
    process_filter_value (skipn 8 parameter) s
  else if starts_with (str "-bin=") parameter then
    with_name (skipn 5 parameter)
      (fun name => Some (update (with_bin_file_name name) s))
  else if starts_with (str "-ip=") parameter then
    with_name (skipn 4 parameter)
      (fun name => Some (update (with_ip_address name) s))
  else if starts_with (str "-log=") parameter then
    with_name (skipn 5 parameter)
      (fun name =>
         Some (create_log_file name (update (with_log_file name) s)))
  else if starts_with (str "-msgsize=") parameter then
    process_max_msg_length_value (skipn 9 parameter) s
  else if starts_with (str "-decode=") parameter then
    with_name (skipn 8 parameter)
      (fun name => Some (update (with_decode_file name) s))
  else if starts_with (str "-start=") parameter then
    with_name (skipn 7 parameter)
      (fun name => Some (update (with_start_cmd_file name) s))
  else if starts_with (str "-filter_names=") parameter then
    with_name (skipn 14 parameter)
      (fun name => Some (update (with_filter_names name) s))
  else if starts_with (str "-driver=") parameter then
    with_name (skipn 8 parameter) (fun name => add_driver_name name s)
  else if same_string parameter (str "-clear") then
    Some (update with_clear_buffer s)
  else if same_string parameter (str "-priority") then
    Some (update with_elevated_priority s)
  else if same_string parameter (str "-debug") then
    Some (update with_log_gdb_communication s)
  else if same_string parameter (str "-detach") then
    Some (update with_detach s)
  else if same_string parameter (str "-p") then
    Some (update with_persistent_connection s)
  else None.

(** *** process_command_line_parameters *)

(** The [for] loop over [argv[4]] and what follows. *)
Fixpoint process_options (options : list (list Z)) (s : state)
  : option state :=
  match options with
  | [] => Some s
  | parameter :: rest =>
      match process_one_cmd_line_parameter parameter s with
      | Some s' => process_options rest s'
      | None => None
      end
  end.

Definition process_command_line_parameters (argv : list (list Z))
  : option state :=
  match argv with
  | _ :: port :: address :: structure_size :: options =>
      let s := mkState zero [] in
      let s := update (with_bin_file_name (str "data.bin")) s in
      let s := update (with_ip_address DEFAULT_HOST_ADDRESS) s in
      match sscanf_hu port with
      | None => None
      | Some (v, _) =>
          let s := update (with_gdb_port v) s in
          match sscanf_x address with
          | None => None
          | Some (v, _) =>
              let s := update (with_start_address v) s in
              match sscanf_x structure_size with
              | None => None
              | Some (v, _) =>
                  let s := update (with_size v) s in
                  match process_options options s with
                  | Some s => check_parameters s
                  | None => None
                  end
              end
          end
      end
  | _ => None
  end.

End Cmd.

(** What the option loop of process_command_line_parameters keeps true of
    [parameters]. *)
Definition options_invariant (p : Cmd.t) : Prop :=
  (Cmd.set_filter p = false -> Cmd.filter p = 0)
  /\ 0 <= Cmd.filter p < 2 ^ 32
  /\ (Cmd.max_message_size p = 0
      \/ 256 <= Cmd.max_message_size p <= TCP_BUFF_LENGTH)
  /\ 0 <= Cmd.delay p < 2 ^ 32
  /\ Cmd.number_of_drivers p <= Cmd.MAX_DRIVERS
  /\ (Cmd.driver_names p <> [] -> Cmd.elevated_priority p = true)
  /\ Cmd.bin_file_name p <> None
  /\ Cmd.ip_address p <> None.

(** A command line: port 3333, structure at 0x24000000, size from the
    header, [-filter=F], a quoted file name and [-clear]. *)
Definition sample_argv : list (list Z) :=
  [str "RTEgdbData"; str "3333"; str "24000000"; str "0"; str "-filter=F";
   str "-bin=" ++ [34] ++ str "my data.bin" ++ [34]; str "-clear"].

(** *** Command files *)

(** A line of a command file that is sent as an RSP command: not empty, not
    an internal command, and short enough for one [fgets] together with
    its new-line character. *)
Definition plain_command (l : list Z) : Prop :=
  l <> [] /\ nth 0 l 0 <> 35 /\ ~ In 0 l /\ ~ In 10 l /\ len l <= 510.

(** The file with these lines. *)
Definition script (lines : list (list Z)) : list Z :=
  flat_map (fun l => l ++ [10]) lines.

(** A server that takes every command and answers [OK]. *)
Definition ok_react (s : nat) (msg : list Z)
  : send_outcome * list recv_ev * nat :=
  (Sent (len msg), [Data (str "$OK#9a")], S s).

(** A quiet session with that server and one command file, ["start.cmd"],
    of two commands. *)
Definition scripted_session : app_state nat :=
  mkApp sample_parameters 0 (Hdr.mk 0 0 0 0 0 0) None (gdb_start 0%nat)
    true true (2 ^ 32) None
    (fun _ => Some (script [str "R 00"; str "vCont;c"])).

(** A peer whose answer to everything is the four bytes 0F 00 00 00 with a
    checksum that is not theirs ([b6] would be). *)
Definition corrupt_react (s : unit) (msg : list Z)
  : send_outcome * list recv_ev * unit :=
  (Sent (len msg), [Data (str "$0f000000#00")], s).

(* ===================================================================== *)
(** ** RTEgdbData.cpp: the logging modes                                  *)
(* ===================================================================== *)

Section Modes.

Variable Srv : Type.
Variable react : Srv -> list Z -> send_outcome * list recv_ev * Srv.

(** [RTE_ENABLE_SINGLE_SHOT_MODE] and [RTE_DISABLE_SINGLE_SHOT_MODE] of
    rtedbg.h on a [uint32_t]. *)
Definition RTE_ENABLE_SINGLE_SHOT_MODE (h : Hdr.t) : Hdr.t :=
  Hdr.with_cfg (Z.lor (Hdr.rte_cfg h) 1) h.

Definition RTE_DISABLE_SINGLE_SHOT_MODE (h : Hdr.t) : Hdr.t :=
  Hdr.with_cfg (Z.land (Hdr.rte_cfg h) 4294967294) h.

(** The write of [rtedbg_header.rte_cfg] to the target. *)
Definition write_cfg_word : A Srv Z :=
  a <- gets (fun a => a) ;;
  lift (gdb_write_memory react (le32_bytes (Hdr.rte_cfg (rtedbg_header a)))
          (RTE_CFG_WORD_ADDRESS a) 4).

(** *** switch_to_single_shot_logging *)

Definition switch_to_single_shot_logging : A Srv unit :=
  rez <- load_rtedbg_structure_header react ;;
  if negb (rez =? GDB_OK) then ret tt
  else
    h <- gets (rtedbg_header (Srv:=Srv)) ;;
    if Hdr.RTE_SINGLE_SHOT_LOGGING_ENABLED h =? 0 then
      app_log "Single shot logging not enabled in the firmware."
    else
      _ <- pause_data_logging react ;;
      modify (set_header (RTE_ENABLE_SINGLE_SHOT_MODE h)) ;;
      rez <- write_cfg_word ;;
      if negb (rez =? GDB_OK) then ret tt
      else
        rez <- reset_circular_buffer react ;;
        if negb (rez =? GDB_OK) then ret tt
        else
          rez <- set_or_restore_message_filter react ;;
          if negb (rez =? GDB_OK) then ret tt
          else app_log "Single shot logging mode enabled and restarted.".

(** *** switch_to_post_mortem_logging *)

Definition switch_to_post_mortem_logging : A Srv unit :=
  rez <- load_rtedbg_structure_header react ;;
  if negb (rez =? GDB_OK) then ret tt
  else
    _ <- pause_data_logging react ;;
    h <- gets (rtedbg_header (Srv:=Srv)) ;;
    rez <-
      (if negb (Hdr.RTE_SINGLE_SHOT_WAS_ACTIVE h =? 0) then
         modify (set_header (RTE_DISABLE_SINGLE_SHOT_MODE h)) ;;
         write_cfg_word
       else ret GDB_OK) ;;
    if negb (rez =? GDB_OK) then ret tt
    else
      rez <- reset_circular_buffer react ;;
      if negb (rez =? GDB_OK) then ret tt
      else
        rez <- set_or_restore_message_filter react ;;
        if negb (rez =? GDB_OK) then ret tt
        else
          h <- gets (rtedbg_header (Srv:=Srv)) ;;
          if Hdr.RTE_SINGLE_SHOT_WAS_ACTIVE h =? 0 then
            app_log "Post-mortem mode restarted."
          else app_log "Post-mortem logging mode enabled and restarted.".

(** *** display_logging_state *)

(** The status line of persistent mode, drawn whenever 350 ms have passed
    without a key: the header is loaded again.  The clock, the log switch
    and the console output are left out. *)
Definition display_logging_state : A Srv unit :=
  lift (gdb_handle_unexpected_messages (Srv:=Srv)) ;;
  _ <- load_rtedbg_structure_header react ;;
  ret tt.

End Modes.

(** The filter value the restore rule chooses from the filter remembered in
    [old_msg_filter], for a configuration word [cfg]. *)
Definition remembered_restore (a : app_state mem_srv) (cfg : Z) : Z :=
  restore_precedence (Par.set_filter (parameters a))
    (Par.filter (parameters a)) (old_msg_filter a)
    (Hdr.filter_copy (target_hdr a)) (Z.testbit cfg 2).

(** A target with single-shot logging enabled in the firmware (bit 3 of
    [rte_cfg]) after a single-shot run (bit 0). *)
Definition target_header_single_shot : Hdr.t :=
  Hdr.mk 56 0 100663307 48000000 15 14.

(** A header whose [buffer_size] makes the size computation wrap around:
    [0x3FFFFFFB * 4 + 24] is 4 modulo [2 ^ 32].  Index 7, filter 0x0F. *)
Definition wrapped_size_header : Hdr.t :=
  Hdr.mk 7 15 100663298 48000000 15 1073741819.

(** A target that holds the header [h] and zeros behind it. *)
Definition header_only_server (h : Hdr.t) : mem_srv :=
  mkSrv (image_at 603979776 (Hdr.to_bytes h)) true
    (str "PacketSize=1000;QStartNoAckMode+").

(** The sample command line with [-p]: the connection is kept for several
    snapshots. *)
Definition persistent_parameters : Par.t :=
  Par.mk 603979776 0 0 false 0 None "data.bin" None false true false 0.

Definition persistent_session (h : Hdr.t) : app_state mem_srv :=
  connected persistent_parameters (header_only_server h).

(* ===================================================================== *)
(** ** Facts about the codec                                              *)
(* ===================================================================== *)

Ltac zdiv := Z.div_mod_to_equations; lia.

Lemma u32_small (x : Z) : 0 <= x < 2 ^ 32 -> u32 x = x.
Proof. intros H. unfold u32. apply Z.mod_small. exact H. Qed.

Lemma u8_small (x : Z) : 0 <= x < 256 -> u8 x = x.
Proof. intros H. unfold u8. apply Z.mod_small. exact H. Qed.

Lemma u8_range (x : Z) : 0 <= u8 x < 256.
Proof. unfold u8. apply Z.mod_pos_bound. lia. Qed.

Lemma u32_multiple_of_4 (x : Z) :
  u32 (x * 4 + sizeof_rtedbg_header) mod 4 = 0.
Proof. unfold u32, sizeof_rtedbg_header. zdiv. Qed.

Lemma u32_range (x : Z) : 0 <= u32 x < 2 ^ 32.
Proof. unfold u32. apply Z.mod_pos_bound. lia. Qed.

Lemma hex_val_hex_char (upper : bool) (d : Z) :
  0 <= d < 16 -> hex_val (hex_char upper d) = Some d.
Proof.
  intros H. unfold hex_char, hex_val.
  destruct (d <? 10) eqn:E.
  - apply Z.ltb_lt in E.
    replace ((48 <=? 48 + d) && (48 + d <=? 57)) with true
      by (symmetry; apply andb_true_iff; split; apply Z.leb_le; lia).
    f_equal. lia.
  - apply Z.ltb_ge in E. destruct upper.
    + replace ((48 <=? 65 + (d - 10)) && (65 + (d - 10) <=? 57)) with false
        by (symmetry; apply andb_false_iff; right; apply Z.leb_gt; lia).
      replace ((65 <=? 65 + (d - 10)) && (65 + (d - 10) <=? 70)) with true
        by (symmetry; apply andb_true_iff; split; apply Z.leb_le; lia).
      f_equal. lia.
    + replace ((48 <=? 97 + (d - 10)) && (97 + (d - 10) <=? 57)) with false
        by (symmetry; apply andb_false_iff; right; apply Z.leb_gt; lia).
      replace ((65 <=? 97 + (d - 10)) && (97 + (d - 10) <=? 70)) with false
        by (symmetry; apply andb_false_iff; right; apply Z.leb_gt; lia).
      replace ((97 <=? 97 + (d - 10)) && (97 + (d - 10) <=? 102)) with true
        by (symmetry; apply andb_true_iff; split; apply Z.leb_le; lia).
      f_equal. lia.
Qed.

Lemma hex_val_range (c d : Z) : hex_val c = Some d -> 0 <= d < 16.
Proof.
  unfold hex_val. intros H.
  destruct ((48 <=? c) && (c <=? 57)) eqn:E1.
  { apply andb_true_iff in E1. destruct E1 as [A1 A2].
    apply Z.leb_le in A1, A2. inversion H. lia. }
  destruct ((65 <=? c) && (c <=? 70)) eqn:E2.
  { apply andb_true_iff in E2. destruct E2 as [A1 A2].
    apply Z.leb_le in A1, A2. inversion H. lia. }
  destruct ((97 <=? c) && (c <=? 102)) eqn:E3.
  { apply andb_true_iff in E3. destruct E3 as [A1 A2].
    apply Z.leb_le in A1, A2. inversion H. lia. }
  discriminate.
Qed.

(** get_hex_digit on a buffer with at least two characters, by the value of
    each. *)
Lemma get_hex_digit_cons (a b : Z) (tl : list Z) :
  get_hex_digit (a :: b :: tl)
  = match hex_val a, hex_val b with
    | Some x, Some y => x * 16 + y
    | _, _ => -1
    end.
Proof.
  unfold get_hex_digit, at_, hex_val. simpl.
  destruct ((48 <=? a) && (a <=? 57));
    [| destruct ((65 <=? a) && (a <=? 70));
       [| destruct ((97 <=? a) && (a <=? 102)); [| reflexivity]]];
  (destruct ((48 <=? b) && (b <=? 57));
    [| destruct ((65 <=? b) && (b <=? 70));
       [| destruct ((97 <=? b) && (b <=? 102))]]); reflexivity.
Qed.

Lemma hex_width_byte (b : Z) : 0 <= b < 256 -> (hex_width 8 b <= 2)%nat.
Proof.
  intros H. simpl. destruct (b <? 16) eqn:E; [lia|].
  apply Z.ltb_ge in E.
  replace (b / 16 <? 16) with true; [lia|].
  symmetry. apply Z.ltb_lt. zdiv.
Qed.

Lemma printf_hex_byte (upper : bool) (b : Z) :
  0 <= b < 256 ->
  printf_hex upper 2 b = [hex_char upper (b / 16); hex_char upper (b mod 16)].
Proof.
  intros H. unfold printf_hex. rewrite u32_small by lia.
  pose proof (hex_width_byte _ H) as W.
  replace (Nat.max 2 (hex_width 8 b)) with 2%nat by lia.
  simpl. replace (b / 16 mod 16) with (b / 16) by zdiv. reflexivity.
Qed.

Lemma get_hex_digit_printf_hex (upper : bool) (b : Z) (tl : list Z) :
  0 <= b < 256 -> get_hex_digit (printf_hex upper 2 b ++ tl) = b.
Proof.
  intros H. rewrite printf_hex_byte by exact H. simpl.
  rewrite get_hex_digit_cons.
  rewrite !hex_val_hex_char by zdiv. zdiv.
Qed.

Lemma hex_val_is_hex_char (c : Z) :
  hex_val c = None <-> is_hex_char c = false.
Proof.
  unfold is_hex_char, hex_val.
  destruct ((48 <=? c) && (c <=? 57));
    [split; discriminate|].
  destruct ((65 <=? c) && (c <=? 70));
    [split; discriminate|].
  destruct ((97 <=? c) && (c <=? 102));
    [split; discriminate|].
  split; reflexivity.
Qed.

(** get_hex_digit by the value of the two characters it reads; a buffer
    that ends before them reads as NUL there. *)
Lemma get_hex_digit_at (ptr : list Z) :
  get_hex_digit ptr
  = match hex_val (at_ ptr 0), hex_val (at_ ptr 1) with
    | Some x, Some y => x * 16 + y
    | _, _ => -1
    end.
Proof.
  unfold get_hex_digit, hex_val.
  set (a := at_ ptr 0). set (b := at_ ptr 1).
  destruct ((48 <=? a) && (a <=? 57));
    [| destruct ((65 <=? a) && (a <=? 70));
       [| destruct ((97 <=? a) && (a <=? 102)); [| reflexivity]]];
  (destruct ((48 <=? b) && (b <=? 57));
    [| destruct ((65 <=? b) && (b <=? 70));
       [| destruct ((97 <=? b) && (b <=? 102))]]); reflexivity.
Qed.

(** C9.  The two-character hexadecimal codec round-trips: for every byte
    [b] in [0, 255], get_hex_digit applied to the two digits that ["%02X"]
    (write_memory_packet) or ["%02x"] prints for [b] returns [b]; and
    get_hex_digit returns the error value -1 exactly when one of the two
    characters it reads is not a hexadecimal digit, as on the pair
    ["GZ"]. *)
Theorem hex_byte_codec_roundtrip :
  (forall (upper : bool) (b : Z),
      0 <= b <= 255 -> get_hex_digit (printf_hex upper 2 b) = b)
  /\ (forall ptr : list Z,
        get_hex_digit ptr = -1
        <-> is_hex_char (at_ ptr 0) = false
            \/ is_hex_char (at_ ptr 1) = false)
  /\ get_hex_digit (str "GZ") = -1.
Proof.
  split; [| split].
  - intros upper b H.
    rewrite <- (app_nil_r (printf_hex upper 2 b)).
    apply get_hex_digit_printf_hex. lia.
  - intros ptr. rewrite get_hex_digit_at.
    rewrite <- !hex_val_is_hex_char.
    destruct (hex_val (at_ ptr 0)) as [x|] eqn:Ea;
      [| split; [intros _; left; reflexivity | reflexivity]].
    destruct (hex_val (at_ ptr 1)) as [y|] eqn:Eb;
      [| split; [intros _; right; reflexivity | reflexivity]].
    pose proof (hex_val_range _ _ Ea). pose proof (hex_val_range _ _ Eb).
    split; [lia | intros [K|K]; discriminate K].
  - reflexivity.
Qed.

Lemma hex_byte_codec_roundtrip_witness :
  get_hex_digit (printf_hex true 2 171) = 171
  /\ get_hex_digit (printf_hex false 2 171) = 171
  /\ get_hex_digit (str "G0") = -1
  /\ get_hex_digit (str "0Z") = -1.
Proof.
  split; [| split; [| split]].
  - apply (proj1 hex_byte_codec_roundtrip true 171). lia.
  - apply (proj1 hex_byte_codec_roundtrip false 171). lia.
  - apply (proj1 (proj2 hex_byte_codec_roundtrip) (str "G0")).
    left. reflexivity.
  - apply (proj1 (proj2 hex_byte_codec_roundtrip) (str "0Z")).
    right. reflexivity.
Defined.

(* ===================================================================== *)
(** ** The frames that are sent                                           *)
(* ===================================================================== *)

Lemma checksum_from (l : list Z) (a : Z) :
  0 <= a < 256 ->
  fold_left (fun sum c => u8 (sum + c)) l a
  = (a + fold_right Z.add 0 l) mod 256.
Proof.
  revert a. induction l as [|c l IH]; intros a Ha; simpl.
  - rewrite Z.add_0_r. symmetry. apply Z.mod_small. exact Ha.
  - rewrite IH by apply u8_range. unfold u8.
    rewrite Z.add_mod_idemp_l by lia. f_equal. lia.
Qed.

Lemma checksum_payload_sum (l : list Z) : checksum l = payload_sum l.
Proof. unfold checksum, payload_sum. rewrite checksum_from by lia. reflexivity. Qed.

Lemma checksum_range (l : list Z) : 0 <= checksum l < 256.
Proof. rewrite checksum_payload_sum. unfold payload_sum. apply Z.mod_pos_bound. lia. Qed.

Lemma hex_fixed_length (upper : bool) (w : nat) (n : Z) :
  length (hex_fixed upper w n) = w.
Proof.
  revert n. induction w as [|w IH]; intros n; simpl; [reflexivity|].
  rewrite length_app, IH. simpl. lia.
Qed.

Lemma hex_width_le (fuel k : nat) (n : Z) :
  (1 <= k)%nat -> 0 <= n < 16 ^ Z.of_nat k -> (hex_width fuel n <= k)%nat.
Proof.
  revert k n. induction fuel as [|f IH]; intros k n Hk Hn; simpl; [lia|].
  destruct (n <? 16) eqn:E; [lia|].
  apply Z.ltb_ge in E.
  destruct k as [|k]; [lia|].
  destruct k as [|k].
  { change (16 ^ Z.of_nat 1) with 16 in Hn. lia. }
  apply le_n_S. apply IH; [lia|].
  replace (Z.of_nat (S (S k))) with (Z.succ (Z.of_nat (S k))) in Hn by lia.
  rewrite Z.pow_succ_r in Hn by lia.
  split; [zdiv|].
  apply Z.div_lt_upper_bound; lia.
Qed.

Lemma printf_hex_fixed (upper : bool) (w : nat) (n : Z) :
  (1 <= w)%nat -> 0 <= n < 16 ^ Z.of_nat w -> n < 2 ^ 32 ->
  printf_hex upper w n = hex_fixed upper w n.
Proof.
  intros Hw Hn H32. unfold printf_hex. rewrite u32_small by lia.
  pose proof (hex_width_le 8 _ _ Hw Hn).
  replace (Nat.max w (hex_width 8 n)) with w by lia. reflexivity.
Qed.

Lemma printf_hex_u32 (upper : bool) (n : Z) :
  printf_hex upper 8 n = hex_fixed upper 8 (u32 n).
Proof.
  unfold printf_hex.
  pose proof (u32_range n) as R.
  assert (hex_width 8 (u32 n) <= 8)%nat as W.
  { apply hex_width_le; [lia|]. change (16 ^ Z.of_nat 8) with (2 ^ 32). exact R. }
  replace (Nat.max 8 (hex_width 8 (u32 n))) with 8%nat by lia. reflexivity.
Qed.

Lemma hex_bytes_length (upper : bool) (data : list Z) :
  length (hex_bytes upper data) = (2 * length data)%nat.
Proof.
  unfold hex_bytes. induction data as [|b data IH]; [reflexivity|].
  simpl flat_map. rewrite length_app, IH.
  rewrite printf_hex_byte by apply u8_range. simpl. lia.
Qed.

Lemma map_nth_seq (buf : list Z) (n : nat) :
  (n <= length buf)%nat ->
  map (fun i => nth i buf 0) (seq 0 n) = firstn n buf.
Proof.
  revert buf. induction n as [|n IH]; intros buf H; [reflexivity|].
  destruct buf as [|c buf]; [simpl in H; lia|].
  simpl. f_equal. rewrite <- seq_shift, map_map.
  apply IH. simpl in H. lia.
Qed.

Lemma at_nat (buf : list Z) (i : nat) : at_ buf (Z.of_nat i) = nth i buf 0.
Proof.
  unfold at_. replace (Z.of_nat i <? 0) with false
    by (symmetry; apply Z.ltb_ge; lia).
  rewrite Nat2Z.id. reflexivity.
Qed.

(** The checksum loops read the buffer they have just filled. *)
Lemma sum_bytes_skipn (buf : list Z) (from count : nat) :
  (from + count <= length buf)%nat ->
  sum_bytes buf (Z.of_nat from) count
  = checksum (firstn count (skipn from buf)).
Proof.
  intros H. unfold sum_bytes. f_equal.
  rewrite <- map_nth_seq by (rewrite length_skipn; lia).
  apply map_ext. intros i.
  rewrite <- Nat2Z.inj_add, at_nat, nth_skipn. reflexivity.
Qed.

Lemma printf_hex_checksum (upper : bool) (l : list Z) :
  printf_hex upper 2 (checksum l) = hex_fixed upper 2 (payload_sum l).
Proof.
  pose proof (checksum_range l) as R.
  rewrite printf_hex_fixed; [| lia | change (16 ^ Z.of_nat 2) with 256; lia | lia].
  rewrite checksum_payload_sum. reflexivity.
Qed.

Lemma read_frame_rsp (address length : Z) :
  read_frame address length = rsp_frame false (read_payload address length).
Proof.
  unfold read_frame, read_request, rsp_frame, read_payload.
  change (str "$m") with (str "$" ++ str "m").
  rewrite <- !app_assoc.
  change (skipn 1 (str "$" ++ ?x)) with x.
  simpl skipn. rewrite printf_hex_checksum. reflexivity.
Qed.

Lemma command_frame_rsp (command : list Z) :
  command_frame command = rsp_frame true command.
Proof.
  unfold command_frame, rsp_frame. rewrite printf_hex_checksum. reflexivity.
Qed.

Lemma write_head_length (address length : Z) :
  0 <= length < 65536 ->
  List.length (str "$M" ++ printf_hex true 8 address ++ str ","
               ++ printf_hex true 4 length ++ str ":") = 16%nat.
Proof.
  intros H. rewrite printf_hex_u32.
  rewrite (printf_hex_fixed true 4 length);
    [| lia | change (16 ^ Z.of_nat 4) with 65536; lia | lia].
  rewrite !length_app, !hex_fixed_length. reflexivity.
Qed.

Lemma overlay_at_end (data old : list Z) :
  overlay_at (List.length old) data old = old ++ data.
Proof.
  unfold overlay_at, overlay.
  rewrite Nat.sub_diag. simpl repeat. rewrite app_nil_r.
  rewrite firstn_all, skipn_all. rewrite skipn_nil, app_nil_r. reflexivity.
Qed.

Lemma write_frame_rsp (data : list Z) (address length : Z) :
  0 < length <= 32757 -> List.length data = Z.to_nat length ->
  write_frame data address length
  = rsp_frame true (write_payload data address length).
Proof.
  intros Hl Hd. unfold write_frame.
  set (head := str "$M" ++ printf_hex true 8 address ++ str ","
               ++ printf_hex true 4 length ++ str ":").
  assert (List.length head = 16%nat) as Hh
    by (apply write_head_length; lia).
  rewrite <- Hh at 1 2. rewrite overlay_at_end.
  assert (List.length (hex_bytes true data) = Z.to_nat (2 * length)) as Hb
    by (rewrite hex_bytes_length, Hd; lia).
  assert (head ++ hex_bytes true data
          = str "$" ++ write_payload data address length) as Hp.
  { unfold head, write_payload. change (str "$M") with (str "$" ++ str "M").
    rewrite <- !app_assoc. reflexivity. }
  rewrite firstn_all2 by (rewrite length_app; lia).
  change 1 with (Z.of_nat 1).
  rewrite sum_bytes_skipn by (rewrite length_app; lia).
  rewrite Hp. change (skipn 1 (str "$" ++ ?x)) with x. simpl skipn.
  rewrite firstn_all2.
  - unfold rsp_frame. rewrite printf_hex_checksum, <- !app_assoc. reflexivity.
  - assert (List.length (str "$" ++ write_payload data address length)
            = (16 + Z.to_nat (2 * length))%nat) as E
      by (rewrite <- Hp, length_app; lia).
    rewrite length_app in E.
    change (List.length (str "$")) with 1%nat in E. lia.
Qed.

Lemma last_two_inj (l1 l2 : list Z) (a b c d : Z) :
  l1 ++ [a; b] = l2 ++ [c; d] -> a = c /\ b = d.
Proof.
  intros H.
  change [a; b] with ([a] ++ [b]) in H. change [c; d] with ([c] ++ [d]) in H.
  rewrite !app_assoc in H.
  apply app_inj_tail in H. destruct H as [H Hb].
  apply app_inj_tail in H. destruct H as [_ Ha]. split; assumption.
Qed.

Lemma hex_char_lower_not_B (d : Z) : 0 <= d < 16 -> hex_char false d <> 66.
Proof.
  intros H. unfold hex_char. destruct (d <? 10) eqn:E.
  - apply Z.ltb_lt in E. lia.
  - apply Z.ltb_ge in E. lia.
Qed.

(** C6, as stated, fails: the frame gdb_request_no_ack_mode sends during
    the connection to the sample server carries its checksum in upper case
    (["#B0"]), so it is not the lower-case frame of any payload. *)
Lemma frames_not_all_lower_case :
  let g := snd (gdb_request_no_ack_mode mem_react
                  (gdb_start (sample_server (Hdr.mk 0 0 0 0 0 0) ""))) in
  In (str "$QStartNoAckMode#B0") (wire_out g)
  /\ forall payload, str "$QStartNoAckMode#B0" <> rsp_frame false payload.
Proof.
  split.
  - vm_compute. left. reflexivity.
  - intros payload H. unfold rsp_frame in H. simpl hex_fixed in H.
    change (str "$QStartNoAckMode#B0")
      with (str "$QStartNoAckMode#" ++ [66; 48]) in H.
    rewrite !app_assoc in H.
    apply last_two_inj in H. destruct H as [H _].
    symmetry in H. revert H. apply hex_char_lower_not_B.
    apply Z.mod_pos_bound. lia.
Qed.

(** C6, amended.  Every frame the client builds ends with ['#'] and exactly
    two hexadecimal digits that encode the sum of the payload bytes modulo
    256: in lower case for the memory-read request, in upper case for the
    memory-write request and for the generic command packet. *)
Theorem emitted_frames_checksum :
  (forall address length,
      read_frame address length
      = rsp_frame false (read_payload address length))
  /\ (forall data address length,
         0 < length <= 32757 -> List.length data = Z.to_nat length ->
         write_frame data address length
         = rsp_frame true (write_payload data address length))
  /\ (forall command, command_frame command = rsp_frame true command).
Proof.
  split; [exact read_frame_rsp|].
  split; [exact write_frame_rsp | exact command_frame_rsp].
Qed.

Lemma emitted_frames_checksum_witness :
  write_frame [15; 0; 0; 0] 603979780 4
  = rsp_frame true (write_payload [15; 0; 0; 0] 603979780 4).
Proof.
  apply (proj1 (proj2 emitted_frames_checksum) [15; 0; 0; 0] 603979780 4).
  - lia.
  - reflexivity.
Defined.

(* ===================================================================== *)
(** ** Capability negotiation                                             *)
(* ===================================================================== *)

Lemma starts_with_app (lit s : list Z) : starts_with lit (lit ++ s) = true.
Proof.
  induction lit as [|c lit IH]; [reflexivity|].
  simpl. rewrite Z.eqb_refl. exact IH.
Qed.

Lemma strstr_found (pre needle post : list Z) :
  strstr (pre ++ needle ++ post) needle <> None.
Proof.
  induction pre as [|c pre IH].
  - simpl app. destruct (needle ++ post) eqn:E; simpl;
      rewrite <- E, starts_with_app; discriminate.
  - simpl. destruct (starts_with needle (c :: pre ++ needle ++ post));
      [discriminate | exact IH].
Qed.

Lemma strstr_skip (pre s : list Z) (c : Z) (needle : list Z) :
  ~ In c pre -> strstr (pre ++ s) (c :: needle) = strstr s (c :: needle).
Proof.
  induction pre as [|d pre IH]; intros H; [reflexivity|].
  simpl app. simpl strstr.
  replace (c =? d) with false.
  - simpl. apply IH. intros Hin. apply H. right. exact Hin.
  - symmetry. apply Z.eqb_neq. intros E. apply H. left. symmetry. exact E.
Qed.

(** A literal that matches at the start of [pre ++ q :: s] without
    containing [q] ends within [pre]. *)
Lemma starts_with_before (lit pre s : list Z) (q : Z) :
  ~ In q lit -> starts_with lit (pre ++ q :: s) = true ->
  starts_with lit pre = true.
Proof.
  revert pre. induction lit as [|c lit IH]; intros pre Hq H; [reflexivity|].
  destruct pre as [|d pre].
  - cbn [app starts_with] in H. apply andb_true_iff in H.
    destruct H as [H _]. apply Z.eqb_eq in H. exfalso. apply Hq. left.
    exact H.
  - cbn [app starts_with] in *. apply andb_true_iff in H.
    destruct H as [H1 H2]. rewrite H1. cbn [andb].
    apply IH; [| exact H2]. intros K. apply Hq. right. exact K.
Qed.

Lemma strstr_starts_with (s needle : list Z) :
  strstr s needle = None -> starts_with needle s = false.
Proof.
  destruct s as [|c s]; cbn [strstr];
    destruct (starts_with needle _); [discriminate | reflexivity
                                      | discriminate | reflexivity].
Qed.

(** strstr goes past a beginning in which the needle does not occur, when
    what follows starts with a character that is not in the needle. *)
Lemma strstr_skip_none (pre s needle : list Z) (q : Z) :
  ~ In q needle -> strstr pre needle = None ->
  strstr (pre ++ q :: s) needle = strstr (q :: s) needle.
Proof.
  intros Hq. induction pre as [|d pre IH]; intros H; [reflexivity|].
  pose proof (strstr_starts_with _ _ H) as F.
  cbn [strstr] in H. rewrite F in H.
  cbn [app strstr].
  destruct (starts_with needle (d :: pre ++ q :: s)) eqn:E.
  - apply (starts_with_before needle (d :: pre) s q Hq) in E.
    rewrite F in E. discriminate E.
  - apply IH. exact H.
Qed.

Lemma is_hex_char_hex_val (c : Z) : is_hex_char c = false -> hex_val c = None.
Proof.
  unfold is_hex_char, hex_val. intros H.
  destruct ((48 <=? c) && (c <=? 57)); [discriminate|].
  destruct ((65 <=? c) && (c <=? 70)); [discriminate|].
  destruct ((97 <=? c) && (c <=? 102)); [discriminate|]. reflexivity.
Qed.

Lemma scan_hex_digits_stop (acc : Z) (post : list Z) :
  ends_number post -> scan_hex_digits acc post = (acc, post).
Proof.
  destruct post as [|c post]; intros H; [reflexivity|].
  simpl in *. rewrite (is_hex_char_hex_val _ H). reflexivity.
Qed.

Lemma sscanf_x_1000 (post : list Z) :
  ends_number post -> sscanf_x (str "1000" ++ post) = Some (4096, post).
Proof.
  intros H. unfold sscanf_x. simpl.
  rewrite (scan_hex_digits_stop _ _ H). reflexivity.
Qed.

Section Capabilities.

Variable Srv : Type.

(** C3, as stated, fails: after parsing the reply
    ["$QStartNoAckMode+;PacketSize=1000#00"] the write chunk size is 2036,
    which is [floor((0x1000 - 16 - 4) / 8) * 4], and not 2028. *)
Lemma packet_size_1000_write_chunk_not_2028 :
  let g := snd (parse_capability_data 0
                  (str "$QStartNoAckMode+;PacketSize=1000#00")
                  (gdb_start (sample_server (Hdr.mk 0 0 0 0 0 0) ""))) in
  ~ (max_gdb_send_message_size g = 4096
     /\ max_memo_read_packet_size g = 2044
     /\ max_memo_write_packet_size g = 2028)
  /\ (4096 - 16 - 4) / 8 * 4 = 2036.
Proof.
  split.
  - vm_compute. intros [_ [_ H]]. discriminate H.
  - reflexivity.
Qed.

(** C3, amended.  After parsing a qSupported reply that contains
    [QStartNoAckMode+;PacketSize=1000] (no [PacketSize=] field in what
    comes before it, the number not followed by a further hexadecimal
    digit) with no [-msgsize] override, parse_capability_data succeeds,
    [max_send_packet] and [max_recv_packet] are 0x1000, and the chunk sizes
    are [max_memo_read = floor((max_recv_packet - 4) / 8) * 4 = 2044] and
    [max_memo_write = floor((max_send_packet - 16 - 4) / 8) * 4 = 2036]. *)
Theorem packet_size_1000_sizes (pre post : list Z) (g : gdb_state Srv) :
  strstr pre (str "PacketSize=") = None -> ends_number post ->
  let r := parse_capability_data 0
             (pre ++ str "QStartNoAckMode+;PacketSize=1000" ++ post) g in
  fst r = GDB_OK
  /\ max_gdb_send_message_size (snd r) = 4096
  /\ max_gdb_recv_message_size (snd r) = 4096
  /\ max_memo_read_packet_size (snd r)
     = (max_gdb_recv_message_size (snd r) - 4) / 8 * 4
  /\ max_memo_read_packet_size (snd r) = 2044
  /\ max_memo_write_packet_size (snd r)
     = (max_gdb_send_message_size (snd r) - 16 - 4) / 8 * 4
  /\ max_memo_write_packet_size (snd r) = 2036.
Proof.
  intros Hpre Hpost r. subst r. unfold parse_capability_data.
  change (str "QStartNoAckMode+;PacketSize=1000")
    with (str "QStartNoAckMode+" ++ str ";PacketSize=1000").
  rewrite <- (app_assoc (str "QStartNoAckMode+")).
  destruct (strstr (pre ++ str "QStartNoAckMode+"
                    ++ str ";PacketSize=1000" ++ post)
              (str "QStartNoAckMode+")) eqn:E.
  2:{ exfalso. revert E. apply strstr_found. }
  clear E.
  change (str "QStartNoAckMode+" ++ str ";PacketSize=1000" ++ post)
    with (81 :: str "StartNoAckMode+;" ++ str "PacketSize=1000" ++ post).
  rewrite strstr_skip_none;
    [| simpl; intros H; repeat (destruct H as [H|H]; [discriminate H|]);
       exact H
     | exact Hpre].
  change (81 :: str "StartNoAckMode+;" ++ str "PacketSize=1000" ++ post)
    with (str "QStartNoAckMode+;" ++ str "PacketSize=1000" ++ post).
  change (str "PacketSize=") with (80 :: str "acketSize=").
  rewrite strstr_skip
    by (simpl; intros H; repeat (destruct H as [H|H]; [discriminate H|]);
        exact H).
  change (strstr (str "PacketSize=1000" ++ post) (80 :: str "acketSize="))
    with (Some (str "PacketSize=1000" ++ post)).
  cbv beta iota.
  change (skipn 11 (str "PacketSize=1000" ++ post)) with (str "1000" ++ post).
  rewrite (sscanf_x_1000 _ Hpost).
  cbv [bind modify ret log_string calculate_max_message_sizes fst snd].
  cbn. repeat split; reflexivity.
Qed.

End Capabilities.

Lemma packet_size_1000_sizes_witness :
  let r := parse_capability_data 0
             (str "$QPassSignals+;"
              ++ str "QStartNoAckMode+;PacketSize=1000" ++ str "#00")
             (gdb_start (sample_server (Hdr.mk 0 0 0 0 0 0) "")) in
  fst r = GDB_OK
  /\ max_gdb_send_message_size (snd r) = 4096
  /\ max_memo_read_packet_size (snd r) = 2044
  /\ max_memo_write_packet_size (snd r) = 2036.
Proof.
  destruct (@packet_size_1000_sizes mem_srv (str "$QPassSignals+;")
              (str "#00")
              (gdb_start (sample_server (Hdr.mk 0 0 0 0 0 0) "")))
    as (H1 & H2 & _ & _ & H5 & _ & H7).
  - reflexivity.
  - reflexivity.
  - repeat split; assumption.
Defined.

(* ===================================================================== *)
(** ** What a successful memory read returns                              *)
(* ===================================================================== *)

Lemma decode_hex_bytes_ok (buf : list Z) (count : nat) :
  forall i bytes,
    decode_hex_bytes buf i count = (true, bytes) ->
    List.length bytes = count /\ Forall is_byte bytes.
Proof.
  induction count as [|c IH]; intros i bytes H; cbn [decode_hex_bytes] in H.
  - inversion H. split; [reflexivity | constructor].
  - destruct (get_hex_digit (skipn (Z.to_nat (2 * i + 1)) buf) >=? 0);
      [| discriminate H].
    destruct (decode_hex_bytes buf (i + 1) c) as [ok tl] eqn:E.
    inversion H. subst ok bytes.
    destruct (IH _ _ E) as [L F].
    split; [simpl; rewrite L; reflexivity|].
    constructor; [apply u8_range | exact F].
Qed.

Section ReadFacts.

Variable Srv : Type.
Variable react : Srv -> list Z -> send_outcome * list recv_ev * Srv.

Lemma read_memory_packet_ok (address length : Z) (g g' : gdb_state Srv)
    (bytes : list Z) :
  read_memory_packet react address length g = ((GDB_OK, bytes), g') ->
  List.length bytes = Z.to_nat length /\ Forall is_byte bytes.
Proof.
  unfold read_memory_packet, log_string, bind, gets, modify, ret.
  intros H.
  destruct ((u32 (length * 2 + 4) >? TCP_BUFF_LENGTH) || (length =? 0));
    [discriminate H|].
  destruct (gdb_send react _ _) as [r1 g1]. 
  destruct (negb (r1 =? GDB_OK)); [discriminate H|].
  destruct (gdb_get_message react 0 g1) as [r2 g2].
  destruct (negb (r2 =? GDB_OK)); [discriminate H|].
  destruct (gdb_error_reported g2) as [rep g3].
  destruct rep; [discriminate H|].
  destruct (strchr (cstr (message_buffer g3)) 42); [discriminate H|].
  destruct (negb (at_ (message_buffer g3) (length * 2 + 1) =? 35));
    [discriminate H|].
  destruct ((get_hex_digit _ <? 0) || _); [discriminate H|].
  destruct (decode_hex_bytes (message_buffer g3) 0 (Z.to_nat length))
    as [ok bs] eqn:E.
  destruct ok; [| discriminate H].
  inversion H. subst bs. eapply decode_hex_bytes_ok. exact E.
Qed.

Lemma read_loop_ok (fuel : nat) (address length : Z) :
  forall data_read acc g g' out,
    read_loop react fuel address length data_read acc g
    = ((GDB_OK, out), g') ->
    0 <= data_read < length -> length < 2 ^ 32 ->
    List.length acc = Z.to_nat data_read -> Forall is_byte acc ->
    List.length out = Z.to_nat length /\ Forall is_byte out.
Proof.
  induction fuel as [|f IH]; intros data_read acc g g' out H Hd Hl La Fa.
  - discriminate H.
  - simpl in H. unfold bind, gets, ret in H.
    rewrite (u32_small (length - data_read)) in H by lia.
    set (ps := if length - data_read >? u32 (max_memo_read_packet_size g)
               then u32 (max_memo_read_packet_size g)
               else length - data_read) in H.
    assert (0 <= ps <= length - data_read) as Hps.
    { subst ps. pose proof (u32_range (max_memo_read_packet_size g)).
      destruct (Z.gtb_spec (length - data_read)
                  (u32 (max_memo_read_packet_size g))); lia. }
    destruct (read_memory_packet react (u32 (address + data_read)) ps g)
      as [[res bytes] g1] eqn:E.
    destruct (Z.eqb_spec res GDB_OK) as [Hr|Hr]; simpl in H.
    2:{ inversion H. congruence. }
    subst res. destruct (read_memory_packet_ok _ _ _ _ _ E) as [Lb Fb].
    rewrite (u32_small (data_read + ps)) in H by lia.
    assert (List.length (acc ++ bytes) = Z.to_nat (data_read + ps)) as L'
      by (rewrite length_app, La, Lb; lia).
    assert (Forall is_byte (acc ++ bytes)) as F'
      by (apply Forall_app; split; assumption).
    destruct (Z.ltb_spec (data_read + ps) length) as [Hlt|Hge].
    + eapply IH; eauto. lia.
    + inversion H. subst out. replace length with (data_read + ps) by lia.
      split; assumption.
Qed.

Lemma read_memory_packet_nonempty (address length : Z)
    (g g' : gdb_state Srv) (bytes : list Z) :
  read_memory_packet react address length g = ((GDB_OK, bytes), g') ->
  length <> 0.
Proof.
  unfold read_memory_packet, bind, modify, ret. intros H Hz. subst length.
  rewrite orb_true_r in H. discriminate H.
Qed.

(** The fuel of the model is no limit: [length - data_read] turns are
    enough for the do-while loop, and more change nothing. *)
Lemma read_loop_fuel (address length : Z) :
  forall (f1 f2 : nat) data_read acc g,
    0 <= data_read < length -> length < 2 ^ 32 ->
    (Z.to_nat (length - data_read) <= f1)%nat ->
    (Z.to_nat (length - data_read) <= f2)%nat ->
    read_loop react f1 address length data_read acc g
    = read_loop react f2 address length data_read acc g.
Proof.
  induction f1 as [|f1 IH]; intros f2 data_read acc g Hd Hl H1 H2; [lia|].
  destruct f2 as [|f2]; [lia|].
  cbn [read_loop]. unfold bind, gets.
  rewrite (u32_small (length - data_read)) by lia.
  set (ps := if length - data_read >? u32 (max_memo_read_packet_size g)
             then u32 (max_memo_read_packet_size g)
             else length - data_read).
  assert (0 <= ps <= length - data_read) as Hps.
  { subst ps. pose proof (u32_range (max_memo_read_packet_size g)).
    destruct (Z.gtb_spec (length - data_read)
                (u32 (max_memo_read_packet_size g))); lia. }
  destruct (read_memory_packet react (u32 (address + data_read)) ps g)
    as [[res bytes] g1] eqn:E.
  destruct (Z.eqb_spec res GDB_OK) as [Hr|Hr]; cbn [negb]; [| reflexivity].
  subst res. apply read_memory_packet_nonempty in E.
  rewrite (u32_small (data_read + ps)) by lia.
  destruct (Z.ltb_spec (data_read + ps) length) as [Hlt|Hge];
    [| reflexivity].
  apply IH; lia.
Qed.

(** A read that reports success has stored exactly [length] bytes. *)
Lemma gdb_read_memory_ok (address length : Z) (g g' : gdb_state Srv)
    (bytes : list Z) :
  gdb_read_memory react address length g = ((GDB_OK, bytes), g') ->
  length < 2 ^ 32 ->
  List.length bytes = Z.to_nat length /\ Forall is_byte bytes.
Proof.
  unfold gdb_read_memory, log_string, bind, modify, ret. intros H Hl.
  destruct (Z.ltb_spec length 1) as [Hlt|Hge]; [discriminate H|].
  eapply read_loop_ok; eauto; try lia.
Qed.

End ReadFacts.

(* ===================================================================== *)
(** ** Restoring the message filter                                       *)
(* ===================================================================== *)

Lemma land_shiftr_1 (x n : Z) :
  0 <= n -> Z.land (Z.shiftr x n) 1 = Z.b2z (Z.testbit x n).
Proof.
  intros Hn. change 1 with (Z.ones 1).
  rewrite Z.land_ones by lia. change (2 ^ 1) with 2.
  rewrite <- Z.bit0_mod. rewrite Z.shiftr_spec by lia.
  rewrite Z.add_0_l. reflexivity.
Qed.

Lemma filter_off_enabled_bit (h : Hdr.t) :
  negb (Hdr.RTE_FILTER_OFF_ENABLED h =? 0) = Z.testbit (Hdr.rte_cfg h) 2.
Proof.
  unfold Hdr.RTE_FILTER_OFF_ENABLED. rewrite land_shiftr_1 by lia.
  destruct (Z.testbit (Hdr.rte_cfg h) 2); reflexivity.
Qed.

Section Restore.

Variable Srv : Type.
Variable react : Srv -> list Z -> send_outcome * list recv_ev * Srv.

(** set_or_restore_message_filter is one 4-byte write to the filter word
    (structure address + 4) of the little-endian image of the value chosen
    by the precedence. *)
Lemma set_or_restore_message_filter_write (a : app_state Srv) :
  set_or_restore_message_filter react a
  = lift (gdb_write_memory react (le32_bytes (restore_value a))
            (u32 (Par.start_address (parameters a) + 4)) 4) a.
Proof.
  unfold set_or_restore_message_filter, bind, gets.
  unfold restore_value, restore_precedence, MESSAGE_FILTER_ADDRESS.
  rewrite filter_off_enabled_bit.
  destruct (Par.set_filter (parameters a)); reflexivity.
Qed.

End Restore.

(* ===================================================================== *)
(** ** The snapshot sequence                                              *)
(* ===================================================================== *)

Lemma bind_inv {S T U : Type} (m : M S T) (k : T -> M S U) (s s' : S) (r : U) :
  bind m k s = (r, s') -> exists x s1, m s = (x, s1) /\ k x s1 = (r, s').
Proof.
  unfold bind. destruct (m s) as [x s1]. intros H. exists x, s1. split;
    [reflexivity | exact H].
Qed.

Lemma bind_eq {S T U : Type} (m : M S T) (k : T -> M S U) (s s1 : S) (x : T) :
  m s = (x, s1) -> bind m k s = k x s1.
Proof. intros H. unfold bind. rewrite H. reflexivity. Qed.

(** Takes the first step off a monadic run [H : (x <- m ;; k) s = (r, s')]. *)
Ltac minv H x s E :=
  apply bind_inv in H; destruct H as (x & s & E & H); cbv beta in H.

Section Snapshot.

Variable Srv : Type.
Variable react : Srv -> list Z -> send_outcome * list recv_ev * Srv.

Local Abbreviation state := (app_state Srv).

(** single_data_transfer as the chain of its steps. *)
Lemma single_data_transfer_steps (a : state) :
  single_data_transfer react a
  = (rez <- read_old_filter Srv react ;;
     if negb (rez =? GDB_OK) then ret 1
     else
       rez <- pause_if_logging Srv react ;;
       if negb (rez =? GDB_OK) then ret 1
       else
         rez <- load_rtedbg_structure_header react ;;
         if negb (rez =? GDB_OK) then ret 1
         else
           rez <- check_header_info (Srv:=Srv) ;;
           if negb (rez =? GDB_OK) then ret 1
           else
             rez <- save_rtedbg_structure react ;;
             if negb (rez =? GDB_OK) then
               _ <- set_or_restore_message_filter react ;; ret 1
             else
               rez <- check_message_filter_disabled react ;;
               if negb (rez =? GDB_OK) then
                 _ <- set_or_restore_message_filter react ;; ret 1
               else
                 rez <- reset_circular_buffer react ;;
                 if negb (rez =? GDB_OK) then ret 1
                 else
                   rez <- set_or_restore_message_filter react ;;
                   if negb (rez =? GDB_OK) then ret 1
                   else report_success Srv) a.
Proof.
  unfold single_data_transfer, read_old_filter, pause_if_logging,
    report_success, bind, gets, modify, ret.
  repeat match goal with
         | |- context [match ?x with _ => _ end] => destruct x
         end; reflexivity.
Qed.

(** *** What each step leaves alone *)

Lemma only_gdb_refl (a : state) : only_gdb Srv a a.
Proof. exists (gdb a). destruct a. reflexivity. Qed.

Lemma only_gdb_trans (a b c : state) :
  only_gdb Srv a b -> only_gdb Srv b c -> only_gdb Srv a c.
Proof.
  intros [g1 H1] [g2 H2]. exists g2. subst c b. reflexivity.
Qed.

Lemma lift_only_gdb {T : Type} (m : G Srv T) (a b : state) (r : T) :
  lift m a = (r, b) -> only_gdb Srv a b.
Proof.
  unfold lift. destruct (m (gdb a)) as [x g]. intros H.
  inversion H. exists g. reflexivity.
Qed.

Ltac mcrush H :=
  repeat match goal with
         | K : (_, _) = (_, _) |- _ => inversion K; clear K; subst
         | K : context [match ?x with _ => _ end] |- _ => destruct x eqn:?
         end.

Lemma app_log_only_gdb (t : string) (a b : state) (r : unit) :
  app_log t a = (r, b) -> only_gdb Srv a b.
Proof. apply lift_only_gdb. Qed.

Ltac only_gdb_steps :=
  repeat match goal with
         | H : lift _ _ = (_, _) |- _ => apply lift_only_gdb in H
         | H : app_log _ _ = (_, _) |- _ => apply app_log_only_gdb in H
         | H : (_, _) = (_, _) |- _ => inversion H; subst; clear H
         end;
  eauto using only_gdb_refl, only_gdb_trans.

Lemma pause_data_logging_only_gdb (a b : state) (r : Z) :
  pause_data_logging react a = (r, b) -> only_gdb Srv a b.
Proof.
  unfold pause_data_logging, bind, gets. apply lift_only_gdb.
Qed.

Lemma pause_if_logging_only_gdb (a b : state) (r : Z) :
  pause_if_logging Srv react a = (r, b) -> only_gdb Srv a b.
Proof.
  unfold pause_if_logging, bind, gets, ret.
  destruct (negb (old_msg_filter a =? 0)).
  - apply pause_data_logging_only_gdb.
  - intros H. only_gdb_steps.
Qed.

Lemma erase_buffer_index_only_gdb (a b : state) (r : Z) :
  erase_buffer_index react a = (r, b) -> only_gdb Srv a b.
Proof.
  unfold erase_buffer_index, bind, gets. apply lift_only_gdb.
Qed.

Lemma set_or_restore_only_gdb (a b : state) (r : Z) :
  set_or_restore_message_filter react a = (r, b) -> only_gdb Srv a b.
Proof.
  unfold set_or_restore_message_filter, bind, gets. apply lift_only_gdb.
Qed.

Lemma check_header_info_only_gdb (a b : state) (r : Z) :
  check_header_info a = (r, b) -> only_gdb Srv a b.
Proof.
  unfold check_header_info, bind, gets, ret. intros H.
  mcrush H; only_gdb_steps.
Qed.

Lemma check_message_filter_disabled_only_gdb (a b : state) (r : Z) :
  check_message_filter_disabled react a = (r, b) -> only_gdb Srv a b.
Proof.
  unfold check_message_filter_disabled, bind, gets, ret. intros H.
  mcrush H; only_gdb_steps.
Qed.

Lemma reset_circular_buffer_only_gdb (a b : state) (r : Z) :
  reset_circular_buffer react a = (r, b) -> only_gdb Srv a b.
Proof.
  unfold reset_circular_buffer, bind, gets, ret. intros H.
  mcrush H;
    repeat match goal with
           | H : erase_buffer_index _ _ = _ |- _ =>
               apply erase_buffer_index_only_gdb in H
           end;
    only_gdb_steps.
Qed.

Lemma execute_decode_batch_file_only_gdb (a b : state) (r : unit) :
  execute_decode_batch_file a = (r, b) -> only_gdb Srv a b.
Proof.
  unfold execute_decode_batch_file, bind, gets, ret. intros H.
  mcrush H; only_gdb_steps.
Qed.

Lemma report_success_only_gdb (a b : state) (r : Z) :
  report_success Srv a = (r, b) -> only_gdb Srv a b /\ r = 0.
Proof.
  unfold report_success, bind, ret. intros H.
  mcrush H.
  match goal with
  | H : execute_decode_batch_file _ = _ |- _ =>
      apply execute_decode_batch_file_only_gdb in H
  end.
  split; [only_gdb_steps | reflexivity].
Qed.

(** The fields a step that only touches gdb_lib.cpp leaves alone. *)
Lemma only_gdb_fields (a b : state) :
  only_gdb Srv a b ->
  parameters b = parameters a /\ old_msg_filter b = old_msg_filter a
  /\ rtedbg_header b = rtedbg_header a /\ bin_file b = bin_file a
  /\ p_rtedbg_structure b = p_rtedbg_structure a.
Proof. intros [g H]. subst b. repeat split. Qed.

Lemma only_gdb_restore_value (a b : state) :
  only_gdb Srv a b -> restore_value b = restore_value a.
Proof. intros [g H]. subst b. reflexivity. Qed.

(** *** Reading the filter, loading the header, saving the image *)

Lemma le32_bytes_le32 (bytes : list Z) :
  List.length bytes = 4%nat -> Forall is_byte bytes ->
  le32_bytes (le32 bytes) = bytes.
Proof.
  intros L F.
  destruct bytes as [|b0 [|b1 [|b2 [|b3 [|? ?]]]]]; try discriminate L.
  inversion F as [|? ? F0 G1]; subst. inversion G1 as [|? ? F1 G2]; subst.
  inversion G2 as [|? ? F2 G3]; subst. inversion G3 as [|? ? F3 ?]; subst.
  unfold is_byte in *. unfold le32_bytes, le32, u8.
  change (at_ [b0; b1; b2; b3] 0) with b0.
  change (at_ [b0; b1; b2; b3] 1) with b1.
  change (at_ [b0; b1; b2; b3] 2) with b2.
  change (at_ [b0; b1; b2; b3] 3) with b3.
  repeat f_equal; zdiv.
Qed.

Lemma read_old_filter_ok (a b : state) :
  read_old_filter Srv react a = (GDB_OK, b) ->
  exists bytes g,
    gdb_read_memory react (MESSAGE_FILTER_ADDRESS a) 4
      (snd (gdb_handle_unexpected_messages (gdb a)))
    = ((GDB_OK, bytes), g)
    /\ List.length bytes = 4%nat /\ Forall is_byte bytes
    /\ old_msg_filter b = le32 bytes
    /\ parameters b = parameters a /\ bin_file b = bin_file a.
Proof.
  unfold read_old_filter, bind, gets, modify, ret, lift. intros H.
  destruct (gdb_handle_unexpected_messages (gdb a)) as [u g0] eqn:E0.
  simpl in H. 
  destruct (gdb_read_memory react (MESSAGE_FILTER_ADDRESS (set_gdb g0 a)) 4 g0)
    as [[rez bytes] g1] eqn:E1.
  inversion H. subst rez b. clear H.
  exists bytes, g1.
  destruct (gdb_read_memory_ok _ _ _ _ _ _ _ E1) as [L F]; [lia|].
  split; [exact E1|]. split; [exact L|]. split; [exact F|].
  simpl. split; [| split; reflexivity].
  unfold overlay. rewrite L. simpl skipn. rewrite app_nil_r. reflexivity.
Qed.

Ltac bool_facts :=
  repeat match goal with
         | H : _ || _ = false |- _ =>
             apply orb_false_iff in H; destruct H
         | H : _ && _ = true |- _ =>
             apply andb_true_iff in H; destruct H
         | H : negb _ = false |- _ => apply negb_false_iff in H
         | H : negb _ = true |- _ => apply negb_true_iff in H
         | H : (_ <? _) = false |- _ => apply Z.ltb_ge in H
         | H : (_ <? _) = true |- _ => apply Z.ltb_lt in H
         | H : (_ >? _) = false |- _ => rewrite Z.gtb_ltb in H
         | H : (_ >? _) = true |- _ => rewrite Z.gtb_ltb in H
         | H : (_ =? _) = true |- _ => apply Z.eqb_eq in H
         | H : (_ =? _) = false |- _ => apply Z.eqb_neq in H
         end.

Lemma load_rtedbg_structure_header_ok (a b : state) :
  load_rtedbg_structure_header react a = (GDB_OK, b) ->
  old_msg_filter b = old_msg_filter a /\ bin_file b = bin_file a
  /\ Par.filter (parameters b) = Par.filter (parameters a)
  /\ Par.set_filter (parameters b) = Par.set_filter (parameters a)
  /\ Par.start_address (parameters b) = Par.start_address (parameters a)
  /\ (Par.size (parameters a) <> 4 -> 8 <= Par.size (parameters b)).
Proof.
  unfold load_rtedbg_structure_header, allocate_memory_for_g_rtedbg_structure,
    app_log, log_string, bind, gets, modify, ret, lift.
  intros H.
  destruct (gdb_read_memory react (Par.start_address (parameters a))
              sizeof_rtedbg_header (gdb a)) as [[res bytes] g1].
  set (h := Hdr.of_bytes _) in H.
  cbv beta iota in H.
  destruct (negb (res =? GDB_OK)); [discriminate H|].
  cbn [set_header set_gdb set_parameters set_structure parameters
       old_msg_filter rtedbg_header p_rtedbg_structure gdb malloc_ok
       bin_file Par.size Par.with_size] in H.
  pose proof (u32_multiple_of_4 (Hdr.buffer_size h)) as D.
  pose proof (u32_range (Hdr.buffer_size h * 4 + sizeof_rtedbg_header)) as R.
  set (new_size := u32 (Hdr.buffer_size h * 4 + sizeof_rtedbg_header)) in *.
  unfold MIN_BUFFER_SIZE in H.
  mcrush H; try discriminate;
    cbn; repeat split; intros; bool_facts; subst; try lia.
  all: clearbody new_size; zdiv.
Qed.

Lemma overlay_at_window (off n : nat) (data old : list Z) :
  (off + List.length data <= n)%nat ->
  firstn (List.length data) (skipn off (firstn n (overlay_at off data old)))
  = data.
Proof.
  intros H. unfold overlay_at, overlay.
  set (P := firstn off (old ++ repeat 0 (off - List.length old))).
  set (R := skipn (List.length data) (skipn off old)).
  assert (List.length P = off) as LP.
  { subst P. rewrite length_firstn, length_app, repeat_length. lia. }
  rewrite firstn_app, LP.
  rewrite (firstn_all2 P) by lia.
  rewrite skipn_app, LP, Nat.sub_diag.
  rewrite (skipn_all2 P) by lia. cbn [app skipn].
  rewrite firstn_firstn.
  replace (Nat.min (List.length data) (n - off)) with (List.length data)
    by lia.
  rewrite firstn_app, firstn_all, Nat.sub_diag, firstn_O.
  apply app_nil_r.
Qed.

Lemma save_rtedbg_structure_ok (a b : state) :
  save_rtedbg_structure react a = (GDB_OK, b) ->
  (exists image,
      bin_file b
      = Some (firstn (Z.to_nat (Par.size (parameters a)))
                (overlay_at 4 (le32_bytes (old_msg_filter a)) image)))
  /\ old_msg_filter b = old_msg_filter a /\ parameters b = parameters a
  /\ rtedbg_header b = rtedbg_header a.
Proof.
  unfold save_rtedbg_structure, read_memory_block,
    delay_before_data_transfer, app_log, log_string, bind, gets, modify, ret,
    lift.
  intros H.
  destruct (p_rtedbg_structure a) as [image|]; [| discriminate H].
  destruct (Par.delay (parameters a) >? 0);
    cbn [set_gdb gdb parameters Par.start_address Par.size] in H;
    destruct (gdb_read_memory react _ _ _) as [[res bytes] g1];
    mcrush H; try discriminate; bool_facts;
    (split; [eexists; cbn; match goal with
                      | E : Z.min _ _ = _ |- _ => rewrite E
                      end; reflexivity
            | cbn; repeat split]).
Qed.

(** A run that returns 0 has gone through every step. *)
Lemma single_data_transfer_success (a a' : state) :
  single_data_transfer react a = (0, a') ->
  exists a1 a2 a3 a4 a5 a6 a7 a8,
    read_old_filter Srv react a = (GDB_OK, a1)
    /\ pause_if_logging Srv react a1 = (GDB_OK, a2)
    /\ load_rtedbg_structure_header react a2 = (GDB_OK, a3)
    /\ check_header_info a3 = (GDB_OK, a4)
    /\ save_rtedbg_structure react a4 = (GDB_OK, a5)
    /\ check_message_filter_disabled react a5 = (GDB_OK, a6)
    /\ reset_circular_buffer react a6 = (GDB_OK, a7)
    /\ set_or_restore_message_filter react a7 = (GDB_OK, a8)
    /\ only_gdb Srv a8 a'.
Proof.
  rewrite single_data_transfer_steps. intros H.
  minv H r1 a1 E1. destruct (Z.eqb_spec r1 GDB_OK); [| discriminate H].
  cbn [negb] in H.
  minv H r2 a2 E2. destruct (Z.eqb_spec r2 GDB_OK); [| discriminate H].
  cbn [negb] in H.
  minv H r3 a3 E3. destruct (Z.eqb_spec r3 GDB_OK); [| discriminate H].
  cbn [negb] in H.
  minv H r4 a4 E4. destruct (Z.eqb_spec r4 GDB_OK); [| discriminate H].
  cbn [negb] in H.
  minv H r5 a5 E5. destruct (Z.eqb_spec r5 GDB_OK).
  2:{ cbn [negb] in H. minv H u s E. discriminate H. }
  cbn [negb] in H.
  minv H r6 a6 E6. destruct (Z.eqb_spec r6 GDB_OK).
  2:{ cbn [negb] in H. minv H u s E. discriminate H. }
  cbn [negb] in H.
  minv H r7 a7 E7. destruct (Z.eqb_spec r7 GDB_OK); [| discriminate H].
  cbn [negb] in H.
  minv H r8 a8 E8. destruct (Z.eqb_spec r8 GDB_OK); [| discriminate H].
  cbn [negb] in H.
  subst. exists a1, a2, a3, a4, a5, a6, a7, a8.
  repeat (split; [assumption|]).
  apply report_success_only_gdb in H. apply H.
Qed.

(** After a successful snapshot that was not started with a size of 4
    left behind by an earlier load, the output file exists and its bytes
    4..7, the header's filter word, are exactly the four bytes that the read
    of the filter word at the start of the run returned, before logging was
    paused. *)
Theorem snapshot_file_filter_word (a a' : state) :
  single_data_transfer react a = (0, a') ->
  Par.size (parameters a) <> 4 ->
  exists bytes g file,
    gdb_read_memory react (MESSAGE_FILTER_ADDRESS a) 4
      (snd (gdb_handle_unexpected_messages (gdb a)))
    = ((GDB_OK, bytes), g)
    /\ List.length bytes = 4%nat
    /\ bin_file a' = Some file
    /\ firstn 4 (skipn 4 file) = bytes.
Proof.
  intros H Hsize.
  destruct (single_data_transfer_success _ _ H)
    as (a1 & a2 & a3 & a4 & a5 & a6 & a7 & a8
        & E1 & E2 & E3 & E4 & E5 & E6 & E7 & E8 & E9).
  destruct (read_old_filter_ok _ _ E1)
    as (bytes & g & Hread & L & F & Hold & Hpar & _).
  exists bytes, g.
  apply pause_if_logging_only_gdb, only_gdb_fields in E2.
  destruct E2 as (P2 & O2 & _).
  destruct (load_rtedbg_structure_header_ok _ _ E3)
    as (O3 & _ & _ & _ & _ & S3).
  apply check_header_info_only_gdb, only_gdb_fields in E4.
  destruct E4 as (P4 & O4 & _).
  destruct (save_rtedbg_structure_ok _ _ E5) as ([image B5] & _).
  apply check_message_filter_disabled_only_gdb in E6.
  apply reset_circular_buffer_only_gdb in E7.
  apply set_or_restore_only_gdb in E8.
  assert (only_gdb Srv a5 a') as E by eauto using only_gdb_trans.
  apply only_gdb_fields in E. destruct E as (_ & _ & _ & B & _).
  eexists. split; [exact Hread|]. split; [exact L|].
  split; [rewrite B; exact B5|].
  rewrite O4, O3, O2, Hold, P4.
  change 4%nat with (List.length (le32_bytes (le32 bytes))) at 1.
  rewrite overlay_at_window.
  - apply le32_bytes_le32; assumption.
  - assert (8 <= Par.size (parameters a3)) by (apply S3; rewrite P2, Hpar; exact Hsize).
    change (List.length (le32_bytes (le32 bytes))) with 4%nat. lia.
Qed.

Lemma failing_step (r : Z) : r <> GDB_OK -> negb (r =? GDB_OK) = true.
Proof. intros H. apply negb_true_iff. apply Z.eqb_neq. exact H. Qed.

(** C1, amended.  In a run of single_data_transfer in which the filter has
    been read and logging paused: if loading or validating the header
    fails, 1 is returned at once; if the header is good and the bulk read
    with the file output (save_rtedbg_structure) or the filter-zero check
    fails, set_or_restore_message_filter is run on the state the failing
    step has left, and then 1 is returned. *)
Theorem snapshot_failure_paths (a a1 a2 : state) :
  read_old_filter Srv react a = (GDB_OK, a1) ->
  pause_if_logging Srv react a1 = (GDB_OK, a2) ->
  (forall r a3,
      load_rtedbg_structure_header react a2 = (r, a3) -> r <> GDB_OK ->
      single_data_transfer react a = (1, a3))
  /\ (forall a3 r a4,
         load_rtedbg_structure_header react a2 = (GDB_OK, a3) ->
         check_header_info a3 = (r, a4) -> r <> GDB_OK ->
         single_data_transfer react a = (1, a4))
  /\ (forall a3 a4 r a5,
         load_rtedbg_structure_header react a2 = (GDB_OK, a3) ->
         check_header_info a3 = (GDB_OK, a4) ->
         save_rtedbg_structure react a4 = (r, a5) -> r <> GDB_OK ->
         single_data_transfer react a
         = (1, snd (set_or_restore_message_filter react a5)))
  /\ (forall a3 a4 a5 r a6,
         load_rtedbg_structure_header react a2 = (GDB_OK, a3) ->
         check_header_info a3 = (GDB_OK, a4) ->
         save_rtedbg_structure react a4 = (GDB_OK, a5) ->
         check_message_filter_disabled react a5 = (r, a6) -> r <> GDB_OK ->
         single_data_transfer react a
         = (1, snd (set_or_restore_message_filter react a6))).
Proof.
  intros E1 E2.
  assert (forall k : Z -> A Srv Z,
             (rez <- read_old_filter Srv react ;;
              if negb (rez =? GDB_OK) then ret 1
              else rez <- pause_if_logging Srv react ;;
                   if negb (rez =? GDB_OK) then ret 1 else k rez) a
             = k GDB_OK a2) as Hpre.
  { intros k. rewrite (bind_eq _ _ _ _ _ E1). cbn [Z.eqb GDB_OK negb].
    rewrite (bind_eq _ _ _ _ _ E2). reflexivity. }
  repeat split.
  - intros r a3 E3 Hr. rewrite single_data_transfer_steps.
    rewrite (Hpre (fun _ => _)).
    rewrite (bind_eq _ _ _ _ _ E3), (failing_step _ Hr). reflexivity.
  - intros a3 r a4 E3 E4 Hr. rewrite single_data_transfer_steps.
    rewrite (Hpre (fun _ => _)).
    rewrite (bind_eq _ _ _ _ _ E3). cbn [Z.eqb GDB_OK negb].
    rewrite (bind_eq _ _ _ _ _ E4), (failing_step _ Hr). reflexivity.
  - intros a3 a4 r a5 E3 E4 E5 Hr. rewrite single_data_transfer_steps.
    rewrite (Hpre (fun _ => _)).
    rewrite (bind_eq _ _ _ _ _ E3). cbn [Z.eqb GDB_OK negb].
    rewrite (bind_eq _ _ _ _ _ E4). cbn [Z.eqb GDB_OK negb].
    rewrite (bind_eq _ _ _ _ _ E5), (failing_step _ Hr).
    unfold bind, ret.
    destruct (set_or_restore_message_filter react a5). reflexivity.
  - intros a3 a4 a5 r a6 E3 E4 E5 E6 Hr. rewrite single_data_transfer_steps.
    rewrite (Hpre (fun _ => _)).
    rewrite (bind_eq _ _ _ _ _ E3). cbn [Z.eqb GDB_OK negb].
    rewrite (bind_eq _ _ _ _ _ E4). cbn [Z.eqb GDB_OK negb].
    rewrite (bind_eq _ _ _ _ _ E5). cbn [Z.eqb GDB_OK negb].
    rewrite (bind_eq _ _ _ _ _ E6), (failing_step _ Hr).
    unfold bind, ret.
    destruct (set_or_restore_message_filter react a6). reflexivity.
Qed.

(** The last failure path: when reset_circular_buffer fails, 1 is returned
    in the state that step has left. *)
Lemma reset_failure_path (a a1 a2 a3 a4 a5 a6 a7 : state) (r : Z) :
  read_old_filter Srv react a = (GDB_OK, a1) ->
  pause_if_logging Srv react a1 = (GDB_OK, a2) ->
  load_rtedbg_structure_header react a2 = (GDB_OK, a3) ->
  check_header_info a3 = (GDB_OK, a4) ->
  save_rtedbg_structure react a4 = (GDB_OK, a5) ->
  check_message_filter_disabled react a5 = (GDB_OK, a6) ->
  reset_circular_buffer react a6 = (r, a7) -> r <> GDB_OK ->
  single_data_transfer react a = (1, a7).
Proof.
  intros E1 E2 E3 E4 E5 E6 E7 Hr. rewrite single_data_transfer_steps.
  rewrite (bind_eq _ _ _ _ _ E1). cbn [Z.eqb GDB_OK negb].
  rewrite (bind_eq _ _ _ _ _ E2). cbn [Z.eqb GDB_OK negb].
  rewrite (bind_eq _ _ _ _ _ E3). cbn [Z.eqb GDB_OK negb].
  rewrite (bind_eq _ _ _ _ _ E4). cbn [Z.eqb GDB_OK negb].
  rewrite (bind_eq _ _ _ _ _ E5). cbn [Z.eqb GDB_OK negb].
  rewrite (bind_eq _ _ _ _ _ E6). cbn [Z.eqb GDB_OK negb].
  rewrite (bind_eq _ _ _ _ _ E7), (failing_step _ Hr). reflexivity.
Qed.

End Snapshot.

(* ===================================================================== *)
(** ** Command files                                                      *)
(* ===================================================================== *)

Section Scripts.

Variable Srv : Type.
Variable react : Srv -> list Z -> send_outcome * list recv_ev * Srv.

Local Abbreviation state := (app_state Srv).

Lemma command_loop_unit (fuel : nat) (content : list Z) (a : state) :
  fst (command_loop react fuel content a) = tt.
Proof. destruct (fst (command_loop react fuel content a)). reflexivity. Qed.

(** C10.  gdb_send_commands_from_file returns 1 exactly when a file name
    is given and the file cannot be opened, and 0 otherwise; when an RSP
    command of the script fails, the loop over the lines ends in the state
    the failed command has left (the lines after it are not looked at), and
    the return value is still 0. *)
Theorem gdb_send_commands_from_file_result :
  (forall (cmd_file : option string) (a : state),
      fst (gdb_send_commands_from_file react cmd_file a)
      = match cmd_file with
        | None => 0
        | Some name =>
            match cmd_files a name with
            | None => 1
            | Some _ => 0
            end
        end)
  /\ (forall (fuel : nat) (content line rest cmd_text : list Z) (c : Z)
             (a : state) (r : Z) (g : gdb_state Srv),
         content <> [] ->
         fgets 511 content = (line, rest) ->
         strip_newline (cstr line) = c :: cmd_text ->
         c <> 35 ->
         gdb_execute_command react (c :: cmd_text) (gdb a) = (r, g) ->
         r <> GDB_OK ->
         command_loop react (S fuel) content a = (tt, set_gdb g a)).
Proof.
  split.
  - intros cmd_file a. unfold gdb_send_commands_from_file.
    destruct cmd_file as [name|]; [| reflexivity].
    unfold bind, gets, ret, app_log, lift, log_string, modify.
    destruct (gdb_handle_unexpected_messages (gdb a)) as [u g0].
    cbn [set_gdb gdb cmd_files].
    destruct (cmd_files a name) as [content|]; [| reflexivity].
    destruct (command_loop react (List.length content) content _).
    reflexivity.
  - intros fuel content line rest cmd_text c a r g Hne Hf Hs Hc He Hr.
    cbn [command_loop].
    destruct content as [|c0 content]; [contradiction|].
    rewrite Hf, Hs.
    replace (c =? 35) with false
      by (symmetry; apply Z.eqb_neq; exact Hc).
    unfold bind, lift, ret. rewrite He.
    replace (negb (r =? GDB_OK)) with true; [reflexivity|].
    symmetry. apply negb_true_iff. apply Z.eqb_neq. exact Hr.
Qed.

End Scripts.

(* ===================================================================== *)
(** ** Connecting                                                         *)
(* ===================================================================== *)

Section Connect.

Variable Srv : Type.
Variable react : Srv -> list Z -> send_outcome * list recv_ev * Srv.
Variable persistent_connection : A Srv Z.

Local Abbreviation state := (app_state Srv).

Lemma gdb_check_server_capabilities_steps (m : Z) (g : gdb_state Srv) :
  gdb_check_server_capabilities react m g
  = (res <- capability_exchange Srv react ;;
     if negb (res =? GDB_OK) then ret GDB_ERROR
     else
       buf <- gets (message_buffer (Srv:=Srv)) ;;
       parse_capability_data m (cstr buf)) g.
Proof.
  unfold gdb_check_server_capabilities, capability_exchange, log_string,
    bind, gets, modify, ret.
  destruct (gdb_send_command react (str "qSupported") _) as [r1 g1].
  destruct (negb (r1 =? GDB_OK)); [reflexivity|].
  destruct (gdb_check_ack g1) as [u g2].
  destruct (gdb_get_message react LONG_RECV_TIMEOUT g2) as [r3 g3].
  destruct (negb (r3 =? GDB_OK)); reflexivity.
Qed.

Lemma gdb_connect_steps (m : Z) (g : gdb_state Srv) :
  gdb_connect react m g
  = (res <- connect_greeting Srv ;;
     if negb (res =? GDB_OK) then ret GDB_ERROR
     else
       res <- gdb_check_server_capabilities react m ;;
       if negb (res =? GDB_OK) then gdb_socket_cleanup (Srv:=Srv) ;; ret GDB_ERROR
       else gdb_request_no_ack_mode react) g.
Proof.
  unfold gdb_connect, connect_greeting, gdb_socket_cleanup, bind, gets,
    modify, ret.
  destruct (gdb_connect_socket (set_error 0 g)) as [res g0].
  destruct (negb (res =? GDB_OK)) eqn:E; [reflexivity|].
  destruct (recv (Z.to_nat TCP_BUFF_LENGTH) (wire_in (set_ack_mode true g0)))
    as [ev rest].
  destruct ev as [[|c d]| | |]; cbv beta iota;
    change (negb (GDB_OK =? GDB_OK)) with false; cbv beta iota;
    reflexivity.
Qed.

(** *** What is sent while connecting *)

Lemma gdb_send_wire (msg : list Z) (g g' : gdb_state Srv) (r : Z) :
  gdb_send react msg g = (r, g') -> msg <> [] ->
  wire_out g' = wire_out g ++ [msg]
  /\ ack_mode_enabled g' = ack_mode_enabled g.
Proof.
  unfold gdb_send, log_string, bind, gets, modify, ret. intros H Hm.
  replace (len msg <=? 0) with false in H.
  2:{ symmetry. apply Z.leb_gt. unfold len.
      destruct msg; [contradiction | simpl List.length; lia]. }
  destruct (react (srv g) msg) as [[o evs] s'].
  destruct o as [n | |]; [destruct (negb (n =? len msg))| |];
    inversion H; split; reflexivity.
Qed.

Lemma check_ack_loop_wire (fuel : nat) :
  forall (g g' : gdb_state Srv) (u : unit),
    check_ack_loop fuel g = (u, g') ->
    wire_out g' = wire_out g /\ ack_mode_enabled g' = ack_mode_enabled g.
Proof.
  induction fuel as [|f IH]; intros g g' u H.
  - inversion H. split; reflexivity.
  - cbn [check_ack_loop] in H.
    unfold gdb_flush_socket, log_string, bind, gets, modify, ret in H.
    destruct (recv 1 (wire_in g)) as [ev rest].
    destruct ev as [[|c d]|[|]| |]; cbv beta iota in H.
    + inversion H. split; reflexivity.
    + destruct (c =? 43).
      * inversion H. split; reflexivity.
      * apply IH in H. destruct H as [H1 H2]. rewrite H1, H2.
        split; reflexivity.
    + inversion H. split; reflexivity.
    + apply IH in H. destruct H as [H1 H2]. rewrite H1, H2.
      split; reflexivity.
    + inversion H. split; reflexivity.
    + inversion H. split; reflexivity.
Qed.

Lemma gdb_get_message_wire (timeout : Z) (g g' : gdb_state Srv) :
  gdb_get_message react timeout g = (GDB_OK, g') ->
  ack_mode_enabled g = true ->
  wire_out g' = wire_out g ++ [str "+"]
  /\ ack_mode_enabled g' = true.
Proof.
  unfold gdb_get_message, gdb_send_ack, log_string, bind, gets, modify, ret.
  intros H Hack.
  destruct (get_message_loop (wire_in g) []) as [[status got] rest].
  destruct status; cbv beta iota in H; try discriminate H.
  cbn [ack_mode_enabled set_buffer set_wire_in set_wire] in H.
  rewrite Hack in H.
  destruct (gdb_send react (str "+") _) as [r g1] eqn:E.
  apply gdb_send_wire in E; [| discriminate].
  destruct E as [E1 E2]. inversion H. cbn. rewrite E1, E2. cbn.
  split; [reflexivity | exact Hack].
Qed.

Lemma connect_greeting_wire (g g' : gdb_state Srv) :
  connect_greeting Srv g = (GDB_OK, g') ->
  wire_out g' = wire_out g /\ ack_mode_enabled g' = true.
Proof.
  unfold connect_greeting, gdb_connect_socket, gdb_socket_cleanup,
    gdb_flush_socket, log_string, bind, gets, modify, ret.
  cbn [socket_connects add_log set_error].
  destruct (socket_connects g); cbv beta iota; [| discriminate].
  cbn [negb Z.eqb GDB_OK].
  destruct (recv _ _) as [ev rest].
  destruct ev as [[|c d]| | |]; cbv beta iota; intros H; inversion H;
    split; reflexivity.
Qed.

Lemma capability_exchange_wire (g g' : gdb_state Srv) :
  capability_exchange Srv react g = (GDB_OK, g') ->
  ack_mode_enabled g = true ->
  wire_out g' = wire_out g ++ [str "$qSupported#37"; str "+"].
Proof.
  unfold capability_exchange, gdb_send_command, gdb_check_ack, log_string.
  unfold bind at 1 2. unfold modify at 1 2. cbv beta iota.
  change (len (str "qSupported") >=? 1024 - 4) with false. cbv iota.
  change (command_frame (str "qSupported")) with (str "$qSupported#37").
  intros H Hack.
  minv H r1 g1 E1. apply gdb_send_wire in E1; [| discriminate].
  destruct E1 as [W1 A1]. cbn in W1, A1.
  destruct (negb (r1 =? GDB_OK)); [discriminate H|].
  minv H u g2 E2. unfold bind, gets in E2.
  apply check_ack_loop_wire in E2. destruct E2 as [W2 A2].
  minv H r3 g3 E3.
  destruct (Z.eqb_spec r3 GDB_OK) as [Hr|Hr]; [| discriminate H].
  subst r3. cbn [negb] in H. inversion H. subst g3.
  apply gdb_get_message_wire in E3; [| congruence].
  destruct E3 as [W3 _]. rewrite W3, W2, W1, <- app_assoc. reflexivity.
Qed.

(** C8.  If the connection is made and the reply to [qSupported] arrives
    but does not contain [QStartNoAckMode+], then gdb_connect fails after
    logging that the server does not support the mode, [main] returns 1, and
    the only buffers ever handed to the socket are the [qSupported] frame
    and the acknowledgement of its reply: no memory-read request. *)
Theorem missing_no_ack_capability (a : state) (g1 g2 : gdb_state Srv) :
  connect_greeting Srv (gdb a) = (GDB_OK, g1) ->
  capability_exchange Srv react g1 = (GDB_OK, g2) ->
  strstr (cstr (message_buffer g2)) (str "QStartNoAckMode+") = None ->
  exists g',
    gdb_connect react (Par.max_message_size (parameters a)) (gdb a)
    = (GDB_ERROR, g')
    /\ log g'
       = log g2
         ++ ["Error: GDB server does not support 'QStartNoAckMode+' mode."
            ]%string
    /\ fst (main react persistent_connection a) = 1
    /\ wire_out (gdb (snd (main react persistent_connection a)))
       = wire_out (gdb a) ++ [str "$qSupported#37"; str "+"].
Proof.
  intros E1 E2 Hcap.
  set (g' := add_log
               "Error: GDB server does not support 'QStartNoAckMode+' mode."
               g2).
  assert (gdb_connect react (Par.max_message_size (parameters a)) (gdb a)
          = (GDB_ERROR, g')) as Hc.
  { rewrite gdb_connect_steps. rewrite (bind_eq _ _ _ _ _ E1).
    cbn [Z.eqb GDB_OK negb].
    unfold bind at 1. rewrite gdb_check_server_capabilities_steps.
    rewrite (bind_eq _ _ _ _ _ E2). cbn [Z.eqb GDB_OK negb].
    unfold bind at 1, gets. unfold parse_capability_data. rewrite Hcap.
    reflexivity. }
  exists g'. split; [exact Hc|]. split; [reflexivity|].
  unfold main, bind, gets, lift, app_log, log_string, modify, ret.
  rewrite Hc. cbn.
  split; [reflexivity|].
  destruct (connect_greeting_wire _ _ E1) as [W1 A1].
  rewrite (capability_exchange_wire _ _ E2 A1), W1. reflexivity.
Qed.

End Connect.

(* ===================================================================== *)
(** ** Reading from the memory server                                     *)
(* ===================================================================== *)

Lemma scan_hex_fixed (upper : bool) (w : nat) :
  forall (n acc : Z) (rest : list Z),
    0 <= n < 16 ^ Z.of_nat w ->
    scan_hex_digits acc (hex_fixed upper w n ++ rest)
    = scan_hex_digits (acc * 16 ^ Z.of_nat w + n) rest.
Proof.
  induction w as [|w IH]; intros n acc rest Hn.
  - change (16 ^ Z.of_nat 0) with 1 in *. simpl app.
    f_equal. lia.
  - replace (Z.of_nat (S w)) with (Z.succ (Z.of_nat w)) in * by lia.
    rewrite Z.pow_succ_r in * by lia.
    cbn [hex_fixed]. rewrite <- app_assoc.
    rewrite IH by (split; [zdiv | apply Z.div_lt_upper_bound; lia]).
    cbn [app scan_hex_digits].
    rewrite hex_val_hex_char by zdiv.
    f_equal.
    pose proof (Z.div_mod n 16 ltac:(lia)) as D.
    set (p := 16 ^ Z.of_nat w) in *. set (q := n / 16) in *.
    set (r := n mod 16) in *. rewrite D. ring.
Qed.

Lemma hex_width_bound (fuel : nat) :
  forall n, 0 <= n < 16 ^ Z.of_nat (S fuel) ->
            n < 16 ^ Z.of_nat (hex_width fuel n).
Proof.
  induction fuel as [|f IH]; intros n Hn.
  - exact (proj2 Hn).
  - cbn [hex_width]. destruct (Z.ltb_spec n 16) as [Hlt|Hge].
    + change (16 ^ Z.of_nat 1) with 16. exact Hlt.
    + replace (Z.of_nat (S (S f))) with (Z.succ (Z.of_nat (S f))) in Hn by lia.
      rewrite Z.pow_succ_r in Hn by lia.
      assert (0 <= n / 16 < 16 ^ Z.of_nat (S f)) as Hq
        by (split; [zdiv | apply Z.div_lt_upper_bound; lia]).
      specialize (IH _ Hq).
      replace (Z.of_nat (S (hex_width f (n / 16))))
        with (Z.succ (Z.of_nat (hex_width f (n / 16)))) by lia.
      rewrite Z.pow_succ_r by lia.
      set (p := 16 ^ Z.of_nat (hex_width f (n / 16))) in *. zdiv.
Qed.

(** What a hexadecimal scanner makes of a printed number. *)
Lemma scan_printf_hex (upper : bool) (minw : nat) (n : Z) (rest : list Z) :
  scan_hex_digits 0 (printf_hex upper minw n ++ rest)
  = scan_hex_digits (u32 n) rest.
Proof.
  unfold printf_hex.
  pose proof (u32_range n) as R.
  rewrite scan_hex_fixed; [reflexivity|].
  split; [lia|].
  assert (u32 n < 16 ^ Z.of_nat (hex_width 8 (u32 n))) as B.
  { apply hex_width_bound. change (16 ^ Z.of_nat 9) with (16 * 2 ^ 32). lia. }
  eapply Z.lt_le_trans; [exact B|].
  apply Z.pow_le_mono_r; lia.
Qed.

Lemma mem_bytes_length (m : Z -> Z) (a : Z) (n : nat) :
  List.length (mem_bytes m a n) = n.
Proof. unfold mem_bytes. rewrite length_map, length_seq. reflexivity. Qed.

Lemma mem_bytes_is_byte (m : Z -> Z) (a : Z) (n : nat) :
  Forall is_byte (mem_bytes m a n).
Proof.
  unfold mem_bytes. apply Forall_map. apply Forall_forall.
  intros i _. apply u8_range.
Qed.

Lemma u32_add_idemp (a b : Z) : u32 (u32 a + b) = u32 (a + b).
Proof. unfold u32. apply Z.add_mod_idemp_l. lia. Qed.

(** A block read in two pieces. *)
Lemma mem_bytes_app (m : Z -> Z) (a : Z) (n1 n2 : nat) :
  mem_bytes m a (n1 + n2)
  = mem_bytes m a n1 ++ mem_bytes m (u32 (a + Z.of_nat n1)) n2.
Proof.
  unfold mem_bytes. rewrite seq_app, map_app. f_equal.
  assert (forall k l, map (fun i => u8 (m (u32 (a + Z.of_nat i)))) (seq (k + n1) l)
                      = map (fun i => u8 (m (u32 (u32 (a + Z.of_nat n1) + Z.of_nat i))))
                          (seq k l)) as Hs.
  { intros k l. revert k. induction l as [|l IH]; intros k; [reflexivity|].
    cbn [seq map]. rewrite u32_add_idemp. f_equal.
    - do 3 f_equal. lia.
    - apply (IH (S k)). }
  apply (Hs 0%nat).
Qed.

Lemma mem_bytes_u32 (m : Z -> Z) (a : Z) (n : nat) :
  mem_bytes m (u32 a) n = mem_bytes m a n.
Proof.
  unfold mem_bytes. apply map_ext. intros i. rewrite u32_add_idemp.
  reflexivity.
Qed.

(** The server's answer to the request of read_memory_packet. *)
Lemma mem_react_read (s : mem_srv) (address length : Z) :
  srv_ack s = false -> 0 <= length < 2 ^ 32 ->
  mem_react s (read_frame address length)
  = (Sent (len (read_frame address length)),
     [Data (reply (hex_bytes false
                     (mem_bytes (mem s) address (Z.to_nat length))))],
     s).
Proof.
  intros Hack Hl.
  assert (read_frame address length
          = 36 :: 109 :: printf_hex false 8 address
                 ++ 44 :: printf_hex false 2 length
                 ++ 35 :: printf_hex false 2
                            (checksum (skipn 1 (read_request address length))))
    as E.
  { unfold read_frame. unfold read_request at 1.
    change (str "$m") with [36; 109]. change (str ",") with [44].
    change (str "#") with [35].
    rewrite <- !app_assoc. reflexivity. }
  rewrite E at 1. unfold mem_react. cbv beta iota zeta.
  rewrite scan_printf_hex. cbn [scan_hex_digits].
  change (hex_val 44) with (@None Z). cbv beta iota.
  rewrite scan_printf_hex. cbn [scan_hex_digits].
  change (hex_val 35) with (@None Z). cbv beta iota.
  rewrite Hack. rewrite (u32_small length) by lia.
  rewrite mem_bytes_u32. rewrite <- E. reflexivity.
Qed.

(** *** The reply in the message buffer *)

Lemma hex_char_lower (d : Z) : 0 <= d < 16 -> is_lower_hex (hex_char false d).
Proof.
  intros H. unfold hex_char, is_lower_hex.
  destruct (Z.ltb_spec d 10); lia.
Qed.

Lemma printf_hex_byte_lower (b : Z) :
  is_byte b -> Forall is_lower_hex (printf_hex false 2 b).
Proof.
  intros H. rewrite printf_hex_byte by exact H. unfold is_byte in H.
  constructor; [apply hex_char_lower; zdiv|].
  constructor; [apply hex_char_lower; zdiv | constructor].
Qed.

Lemma hex_bytes_lower (data : list Z) :
  Forall is_lower_hex (hex_bytes false data).
Proof.
  unfold hex_bytes. induction data as [|b data IH]; [constructor|].
  cbn [flat_map]. apply Forall_app. split; [| exact IH].
  apply printf_hex_byte_lower. apply u8_range.
Qed.

Lemma cstr_lower_hex (l tl : list Z) :
  Forall is_lower_hex l -> cstr (l ++ tl) = l ++ cstr tl.
Proof.
  induction 1 as [|c l Hc _ IH]; [reflexivity|].
  cbn [app cstr]. replace (c =? 0) with false.
  - rewrite IH. reflexivity.
  - symmetry. apply Z.eqb_neq. unfold is_lower_hex in Hc. lia.
Qed.

Lemma strchr_lower_hex (l tl : list Z) (c : Z) :
  Forall is_lower_hex l -> ~ is_lower_hex c -> strchr tl c = None ->
  strchr (l ++ tl) c = None.
Proof.
  intros F Hc Ht. induction F as [|d l Hd _ IH]; [exact Ht|].
  cbn [app strchr]. replace (d =? c) with false.
  - rewrite IH. reflexivity.
  - symmetry. apply Z.eqb_neq. intros E. subst d. contradiction.
Qed.

(** The conversion loop on a buffer that holds the digits of [data] from
    index [2 * i + 1] on. *)
Lemma decode_hex_bytes_hex (data : list Z) :
  forall (pre post : list Z) (i : Z),
    Forall is_byte data -> 0 <= i ->
    List.length pre = Z.to_nat (2 * i + 1) ->
    decode_hex_bytes (pre ++ hex_bytes false data ++ post) i
      (List.length data)
    = (true, data).
Proof.
  induction data as [|b data IH]; intros pre post i F Hi Lp; [reflexivity|].
  inversion F as [|? ? Hb F']; subst.
  cbn [List.length decode_hex_bytes].
  rewrite <- Lp, skipn_app, Nat.sub_diag, skipn_all. cbn [app skipn].
  unfold hex_bytes. cbn [flat_map]. fold (hex_bytes false data).
  rewrite (u8_small b) by exact Hb. rewrite <- app_assoc.
  rewrite get_hex_digit_printf_hex by exact Hb.
  replace (b >=? 0) with true
    by (symmetry; apply Z.geb_le; unfold is_byte in Hb; lia).
  replace (pre ++ printf_hex false 2 b ++ hex_bytes false data ++ post)
    with ((pre ++ printf_hex false 2 b) ++ hex_bytes false data ++ post)
    by (rewrite <- app_assoc; reflexivity).
  rewrite IH.
  - rewrite (u8_small b) by exact Hb. reflexivity.
  - exact F'.
  - lia.
  - rewrite length_app, Lp, printf_hex_byte by exact Hb.
    cbn [List.length]. lia.
Qed.

(** What read_memory_packet computes from a well-formed reply. *)
Lemma reply_in_buffer (data stale : list Z) :
  Forall is_byte data ->
  let payload := hex_bytes false data in
  let L := Z.of_nat (List.length data) in
  let buf := reply payload ++ 0 :: stale in
  strchr (cstr buf) 42 = None
  /\ sum_bytes buf 1 (Z.to_nat (L * 2)) = checksum payload
  /\ at_ buf (L * 2 + 1) = 35
  /\ get_hex_digit (skipn (Z.to_nat (L * 2 + 2)) buf) = checksum payload
  /\ decode_hex_bytes buf 0 (Z.to_nat L) = (true, data).
Proof.
  intros F payload L buf.
  assert (List.length payload = (2 * List.length data)%nat) as Lp
    by apply hex_bytes_length.
  set (cc := printf_hex false 2 (checksum payload)).
  assert (buf = 36 :: payload ++ 35 :: cc ++ 0 :: stale) as Eb.
  { subst buf. unfold reply. change (str "$") with [36].
    change (str "#") with [35]. fold cc.
    cbn [app]. rewrite <- !app_assoc. reflexivity. }
  assert (Forall is_lower_hex cc) as Fc
    by (apply printf_hex_byte_lower; apply checksum_range).
  assert (Forall is_lower_hex payload) as Fp by apply hex_bytes_lower.
  repeat split.
  - rewrite Eb. cbn [cstr]. change (36 =? 0) with false. cbv iota.
    rewrite cstr_lower_hex by exact Fp.
    cbn [cstr]. change (35 =? 0) with false. cbv iota.
    rewrite cstr_lower_hex by exact Fc.
    cbn [cstr]. change (0 =? 0) with true. cbv iota.
    cbn [strchr]. change (36 =? 42) with false. cbv iota.
    rewrite strchr_lower_hex; [reflexivity | exact Fp | unfold is_lower_hex; lia |].
    cbn [strchr]. change (35 =? 42) with false. cbv iota.
    rewrite strchr_lower_hex; [reflexivity | exact Fc | unfold is_lower_hex; lia |].
    reflexivity.
  - change 1 with (Z.of_nat 1). rewrite sum_bytes_skipn.
    + rewrite Eb. cbn [skipn].
      replace (Z.to_nat (L * 2)) with (List.length payload) by lia.
      rewrite firstn_app, firstn_all, Nat.sub_diag. cbn [firstn].
      rewrite app_nil_r. reflexivity.
    + rewrite Eb. cbn [List.length]. rewrite length_app. lia.
  - rewrite Eb. unfold at_.
    replace (L * 2 + 1 <? 0) with false by (symmetry; apply Z.ltb_ge; lia).
    replace (Z.to_nat (L * 2 + 1)) with (S (List.length payload)) by lia.
    cbn [nth]. rewrite app_nth2 by lia. rewrite Nat.sub_diag. reflexivity.
  - rewrite Eb.
    replace (Z.to_nat (L * 2 + 2)) with (S (1 + List.length payload)) by lia.
    cbn [skipn]. rewrite <- skipn_skipn.
    rewrite skipn_app, skipn_all, Nat.sub_diag. cbn [app skipn].
    unfold cc. apply get_hex_digit_printf_hex. apply checksum_range.
  - rewrite Eb. replace (Z.to_nat L) with (List.length data) by lia.
    change (36 :: payload ++ 35 :: cc ++ 0 :: stale)
      with ([36] ++ hex_bytes false data ++ 35 :: cc ++ 0 :: stale).
    apply decode_hex_bytes_hex; [exact F | lia | reflexivity].
Qed.

(** *** One packet against the memory server *)

Lemma reply_length (payload : list Z) :
  len (reply payload) = len payload + 4.
Proof.
  unfold reply, len. rewrite !length_app.
  rewrite printf_hex_byte by apply checksum_range.
  cbn [List.length str]. lia.
Qed.

Lemma gdb_send_mem_read (g : gdb_state mem_srv) (address length : Z) :
  srv_ack (srv g) = false -> 0 <= length < 2 ^ 32 ->
  gdb_send mem_react (read_frame address length) g
  = (GDB_OK,
     set_wire (srv g)
       (wire_in g
        ++ [Data (reply (hex_bytes false
                           (mem_bytes (mem (srv g)) address
                              (Z.to_nat length))))])
       (wire_out g ++ [read_frame address length]) g).
Proof.
  intros Hack Hl. unfold gdb_send.
  replace (len (read_frame address length) <=? 0) with false.
  2:{ symmetry. apply Z.leb_gt. rewrite read_frame_rsp. unfold rsp_frame, len.
      rewrite length_app. cbn [List.length str]. lia. }
  unfold bind, gets, modify, ret.
  rewrite mem_react_read by assumption.
  rewrite Z.eqb_refl. reflexivity.
Qed.

Lemma get_message_loop_reply (payload : list Z) :
  len payload + 4 < TCP_BUFF_LENGTH - 1 ->
  get_message_loop [Data (reply payload)] [] = (RecvOk, reply payload, []).
Proof.
  intros H. pose proof (reply_length payload) as L.
  assert (reply payload
          = 36 :: payload ++ 35 :: printf_hex false 2 (checksum payload)) as E.
  { unfold reply. change (str "$") with [36]. change (str "#") with [35].
    reflexivity. }
  assert (at_ (reply payload) (len (reply payload) - 3) = 35) as H35.
  { rewrite L. rewrite E. unfold at_.
    replace (len payload + 4 - 3 <? 0) with false
      by (symmetry; apply Z.ltb_ge; unfold len; lia).
    replace (Z.to_nat (len payload + 4 - 3)) with (S (List.length payload))
      by (unfold len; lia).
    cbn [nth]. rewrite app_nth2 by lia. rewrite Nat.sub_diag. reflexivity. }
  clear E. destruct (reply payload) as [|c tl] eqn:Ed.
  { unfold len in L. cbn [List.length] in L. lia. }
  cbn [get_message_loop app].
  replace (Z.to_nat TCP_BUFF_LENGTH - List.length (@nil Z)
           <? List.length (c :: tl))%nat
    with false
    by (symmetry; apply Nat.ltb_ge; unfold len, TCP_BUFF_LENGTH in *;
        cbn [List.length] in *; lia).
  replace (len (c :: tl) >=? TCP_BUFF_LENGTH - 1) with false
    by (symmetry; rewrite Z.geb_leb; apply Z.leb_gt; lia).
  replace (len (c :: tl) >=? 4) with true
    by (symmetry; rewrite Z.geb_leb; apply Z.leb_le; unfold len in *; lia).
  rewrite H35. reflexivity.
Qed.

Lemma gdb_get_message_reply (g : gdb_state mem_srv) (timeout : Z)
    (payload : list Z) :
  wire_in g = [Data (reply payload)] -> ack_mode_enabled g = false ->
  len payload + 4 < TCP_BUFF_LENGTH - 1 ->
  gdb_get_message mem_react timeout g
  = (GDB_OK,
     set_buffer
       (overlay (reply payload ++ [0])
          (overlay (reply payload) (overlay [0] (message_buffer g))))
       (set_wire_in [] g)).
Proof.
  intros Hw Ha Hl.
  unfold gdb_get_message, gdb_send_ack, bind, gets, modify, ret.
  rewrite Hw, (get_message_loop_reply _ Hl).
  cbn [ack_mode_enabled set_buffer set_wire_in set_wire]. rewrite Ha.
  reflexivity.
Qed.

Lemma gdb_error_reported_none (g : gdb_state mem_srv) :
  at_ (message_buffer g) 0 = 36 -> at_ (message_buffer g) 1 <> 69 ->
  gdb_error_reported g = (false, g).
Proof.
  intros H0 H1. unfold gdb_error_reported, bind, gets, ret.
  rewrite H0. change (negb (36 =? 36)) with false. cbv iota.
  replace (at_ (message_buffer g) 1 =? 69) with false
    by (symmetry; apply Z.eqb_neq; exact H1).
  reflexivity.
Qed.

Lemma read_memory_packet_mem (g : gdb_state mem_srv) (address length : Z) :
  quiet g -> 1 <= length <= 32764 ->
  exists g',
    read_memory_packet mem_react address length g
    = ((GDB_OK, mem_bytes (mem (srv g)) address (Z.to_nat length)), g')
    /\ quiet g' /\ srv g' = srv g
    /\ max_memo_read_packet_size g' = max_memo_read_packet_size g.
Proof.
  intros (Hw & Ha & Hs) Hl.
  set (data := mem_bytes (mem (srv g)) address (Z.to_nat length)).
  assert (List.length data = Z.to_nat length) as Ld
    by apply mem_bytes_length.
  assert (Forall is_byte data) as Fd by apply mem_bytes_is_byte.
  set (payload := hex_bytes false data).
  assert (len payload = 2 * length) as Lp
    by (unfold len, payload; rewrite hex_bytes_length; lia).
  unfold read_memory_packet.
  replace ((u32 (length * 2 + 4) >? TCP_BUFF_LENGTH) || (length =? 0))
    with false.
  2:{ symmetry. apply orb_false_iff. split.
      - rewrite u32_small by lia. rewrite Z.gtb_ltb. apply Z.ltb_ge.
        unfold TCP_BUFF_LENGTH. lia.
      - apply Z.eqb_neq. lia. }
  unfold bind at 1. unfold modify at 1.
  unfold bind at 1.
  rewrite gdb_send_mem_read by (cbn; (assumption || lia)).
  change (negb (GDB_OK =? GDB_OK)) with false. cbv iota.
  cbn [srv set_buffer mem wire_in wire_out]. rewrite Hw. cbn [app].
  fold data. fold payload.
  unfold bind at 1.
  rewrite (gdb_get_message_reply _ 0 payload);
    [| reflexivity | exact Ha | unfold TCP_BUFF_LENGTH; lia].
  change (negb (GDB_OK =? GDB_OK)) with false. cbv iota.
  match goal with
  | |- context [set_buffer ?b (set_wire_in [] ?h)] =>
      set (buf := b); set (g1 := set_buffer b (set_wire_in [] h))
  end.
  assert (exists stale, buf = reply payload ++ 0 :: stale) as [stale Eb].
  { eexists. unfold buf, overlay. rewrite <- app_assoc. reflexivity. }
  assert (message_buffer g1 = buf) as Eg1 by reflexivity.
  destruct (reply_in_buffer data stale Fd) as (P1 & P2 & P3 & P4 & P5).
  fold payload in P1, P2, P3, P4, P5. rewrite <- Eb in P1, P2, P3, P4, P5.
  replace (Z.of_nat (List.length data)) with length in * by lia.
  unfold bind at 1.
  rewrite gdb_error_reported_none.
  2:{ change (at_ buf 0 = 36). rewrite Eb. reflexivity. }
  2:{ change (at_ buf 1 <> 69). rewrite Eb. unfold reply.
      change (str "$") with [36].
      pose proof (hex_bytes_lower data) as Fp. fold payload in Fp.
      destruct payload as [|c payload'].
      - unfold len in Lp. cbn [List.length] in Lp. lia.
      - inversion Fp as [|? ? Hc _]; subst. cbn [app at_ nth].
        change (at_ (36 :: c :: ?l) 1) with c.
        unfold is_lower_hex in Hc. lia. }
  cbv iota. unfold bind at 1, gets at 1.
  cbn [message_buffer set_buffer].
  rewrite P1, P2, P3, P4.
  change (negb (35 =? 35)) with false. cbv iota.
  replace ((checksum payload <? 0)
           || negb (checksum payload =? checksum payload)) with false.
  2:{ symmetry. apply orb_false_iff. split.
      - apply Z.ltb_ge. apply checksum_range.
      - rewrite Z.eqb_refl. reflexivity. }
  rewrite P5. cbv iota beta.
  exists g1. split; [reflexivity|].
  split; [| split; reflexivity].
  unfold quiet. subst g1.
  cbn [wire_in ack_mode_enabled srv set_buffer set_wire_in set_wire].
  auto.
Qed.

(** *** The chunked read *)

Lemma read_loop_mem (fuel : nat) (address length : Z) :
  forall (data_read : Z) (acc : list Z) (g : gdb_state mem_srv),
    quiet g -> 0 <= data_read < length -> length < 2 ^ 32 ->
    (Z.to_nat (length - data_read) <= fuel)%nat ->
    1 <= u32 (max_memo_read_packet_size g) ->
    u32 (max_memo_read_packet_size g) <= 32764
    \/ length - data_read <= 32764 ->
    exists g',
      read_loop mem_react fuel address length data_read acc g
      = ((GDB_OK,
          acc ++ mem_bytes (mem (srv g)) (address + data_read)
                   (Z.to_nat (length - data_read))),
         g')
      /\ quiet g' /\ srv g' = srv g.
Proof.
  induction fuel as [|f IH]; intros data_read acc g Hq Hd Hl Hf Hm1 Hm2;
    [lia|].
  cbn [read_loop]. unfold bind at 1, gets at 1.
  rewrite (u32_small (length - data_read)) by lia.
  set (max := u32 (max_memo_read_packet_size g)) in *.
  set (ps := if length - data_read >? max then max else length - data_read).
  assert (1 <= ps <= length - data_read /\ ps <= 32764) as (Hps & Hps').
  { subst ps. destruct (Z.gtb_spec (length - data_read) max); lia. }
  destruct (read_memory_packet_mem g (u32 (address + data_read)) ps Hq
              ltac:(lia)) as (g1 & E & Hq1 & Hs1 & Hmax1).
  unfold bind at 1. rewrite E. rewrite mem_bytes_u32.
  change (negb (GDB_OK =? GDB_OK)) with false. cbv iota.
  rewrite (u32_small (data_read + ps)) by lia.
  destruct (Z.ltb_spec (data_read + ps) length) as [Hlt|Hge].
  - destruct (IH (data_read + ps)
                (acc ++ mem_bytes (mem (srv g)) (address + data_read)
                          (Z.to_nat ps))
                g1 Hq1) as (g' & E' & Hq' & Hs');
      try lia; try (rewrite Hmax1; fold max; lia).
    exists g'. split; [| split; [exact Hq' | congruence]].
    rewrite E'. rewrite Hs1. rewrite <- app_assoc. do 3 f_equal.
    replace (Z.to_nat (length - data_read))
      with (Z.to_nat ps + Z.to_nat (length - (data_read + ps)))%nat by lia.
    rewrite mem_bytes_app. f_equal.
    rewrite mem_bytes_u32. f_equal. lia.
  - exists g1. split; [| split; assumption].
    unfold ret. replace ps with (length - data_read) by lia. reflexivity.
Qed.

(** gdb_read_memory against the memory server: every chunk size of at least
    one byte whose reply fits the message buffer yields the bytes of the
    target memory. *)
Lemma gdb_read_memory_mem (g : gdb_state mem_srv) (address length : Z) :
  quiet g -> 0 < length < 2 ^ 32 ->
  1 <= u32 (max_memo_read_packet_size g) ->
  u32 (max_memo_read_packet_size g) <= 32764 \/ length <= 32764 ->
  exists g',
    gdb_read_memory mem_react address length g
    = ((GDB_OK, mem_bytes (mem (srv g)) address (Z.to_nat length)), g')
    /\ quiet g' /\ srv g' = srv g.
Proof.
  intros Hq Hl Hm1 Hm2. unfold gdb_read_memory, log_string.
  unfold bind at 1, modify at 1.
  replace (length <? 1) with false by (symmetry; apply Z.ltb_ge; lia).
  unfold bind at 1, modify at 1.
  match goal with
  | |- context [read_loop _ _ _ _ _ _ ?h] => set (g0 := h)
  end.
  destruct (read_loop_mem (Z.to_nat length) address length 0 [] g0)
    as (g' & E & Hq' & Hs'); try lia.
  - destruct Hq as (H1 & H2 & H3). repeat split; assumption.
  - exact Hm1.
  - destruct Hm2; [left; assumption | right; lia].
  - exists g'. split; [| split; assumption].
    rewrite E. rewrite Z.add_0_r, Z.sub_0_r. reflexivity.
Qed.

(** C7, as stated, fails: a server that reports [PacketSize=2] leaves a
    chunk size of 2147483644 bytes, with which a read of 32768 bytes is
    refused (the reply would not fit the message buffer), while the same
    read in chunks of 4 bytes succeeds. *)
Lemma chunk_size_matters :
  let g1 := negotiated (fun _ => 0) "$PacketSize=2;QStartNoAckMode+#00" in
  let g2 := negotiated (fun _ => 0) "$PacketSize=c;QStartNoAckMode+#00" in
  quiet g1 /\ quiet g2
  /\ 4 <= max_memo_read_packet_size g1 /\ 4 <= max_memo_read_packet_size g2
  /\ 0 < 32768 <= MAX_BUFFER_SIZE
  /\ fst (gdb_read_memory mem_react 603979776 32768 g1)
     <> fst (gdb_read_memory mem_react 603979776 32768 g2).
Proof.
  intros g1 g2.
  assert (quiet g2) as Hq2 by (repeat split; reflexivity).
  split; [repeat split; reflexivity|]. split; [exact Hq2|].
  split; [vm_compute; discriminate|]. split; [vm_compute; discriminate|].
  split; [unfold MAX_BUFFER_SIZE; lia|].
  destruct (gdb_read_memory_mem g2 603979776 32768 Hq2) as (g' & E & _).
  - lia.
  - vm_compute. discriminate.
  - left. vm_compute. discriminate.
  - rewrite E. cbn [fst]. intros H.
    assert (fst (fst (gdb_read_memory mem_react 603979776 32768 g1))
            = GDB_ERROR) as Herr by (vm_compute; reflexivity).
    rewrite H in Herr. cbn [fst] in Herr. discriminate Herr.
Qed.

(** C7, amended.  Against a server that presents fixed memory contents
    (replying in lower-case hexadecimal, acknowledgements off, nothing
    pending on the wire), for every address, every length [N] with
    [0 < N <= MAX_BUFFER_SIZE] and every chunk size [max_memo_read] with
    [4 <= max_memo_read <= 32764], gdb_read_memory succeeds and yields the [N]
    bytes of the memory from that address on, whatever the chunk size. *)
Theorem chunked_read_independent (g1 g2 : gdb_state mem_srv)
    (address N : Z) :
  quiet g1 -> quiet g2 ->
  (forall x, mem (srv g1) x = mem (srv g2) x) ->
  0 < N <= MAX_BUFFER_SIZE ->
  4 <= max_memo_read_packet_size g1 <= 32764 ->
  4 <= max_memo_read_packet_size g2 <= 32764 ->
  fst (gdb_read_memory mem_react address N g1)
  = (GDB_OK, mem_bytes (mem (srv g1)) address (Z.to_nat N))
  /\ fst (gdb_read_memory mem_react address N g1)
     = fst (gdb_read_memory mem_react address N g2).
Proof.
  intros Hq1 Hq2 Hmem HN Hm1 Hm2. unfold MAX_BUFFER_SIZE in HN.
  destruct (gdb_read_memory_mem g1 address N Hq1) as (g1' & E1 & _);
    try (rewrite u32_small by lia); try lia.
  destruct (gdb_read_memory_mem g2 address N Hq2) as (g2' & E2 & _);
    try (rewrite u32_small by lia); try lia.
  rewrite E1, E2. cbn [fst]. split; [reflexivity|].
  f_equal. unfold mem_bytes. apply map_ext. intros i. rewrite Hmem.
  reflexivity.
Qed.

Lemma chunked_read_independent_witness :
  let g1 := negotiated (fun x => x) "$PacketSize=c;QStartNoAckMode+#00" in
  let g2 := negotiated (fun x => x) "$PacketSize=1000;QStartNoAckMode+#00" in
  fst (gdb_read_memory mem_react 603979776 10 g1)
  = (GDB_OK, [0; 1; 2; 3; 4; 5; 6; 7; 8; 9])
  /\ fst (gdb_read_memory mem_react 603979776 10 g1)
     = fst (gdb_read_memory mem_react 603979776 10 g2).
Proof.
  intros g1 g2.
  apply (chunked_read_independent g1 g2 603979776 10).
  - repeat split; reflexivity.
  - repeat split; reflexivity.
  - reflexivity.
  - unfold MAX_BUFFER_SIZE. lia.
  - vm_compute. split; discriminate.
  - vm_compute. split; discriminate.
Defined.

(* ===================================================================== *)
(** ** End-to-end runs against the memory server                          *)
(* ===================================================================== *)

Lemma run_result {S T : Type} (x : T * S) (r : T) : fst x = r -> x = (r, snd x).
Proof. destruct x as [t s]. cbn. intros H. rewrite H. reflexivity. Qed.

(** Scenario 1 of the specification: a normal snapshot. *)
Example normal_snapshot :
  let a := session target_header sample_parameters in
  let r := single_data_transfer mem_react a in
  fst r = 0
  /\ option_map (@List.length Z) (bin_file (snd r)) = Some 80%nat
  /\ option_map (fun f => firstn 4 (skipn 4 f)) (bin_file (snd r))
     = Some [15; 0; 0; 0]
  /\ target_filter (snd r) = [15; 0; 0; 0].
Proof. vm_compute. repeat split. Qed.

(** Scenario 2: a user filter override. *)
Example user_filter_snapshot :
  let a := session target_header (with_user_filter 16 sample_parameters) in
  let r := single_data_transfer mem_react a in
  fst r = 0
  /\ option_map (fun f => firstn 4 (skipn 4 f)) (bin_file (snd r))
     = Some [15; 0; 0; 0]
  /\ target_filter (snd r) = [16; 0; 0; 0].
Proof. vm_compute. repeat split. Qed.

(** Scenario 3: the firmware has turned logging off. *)
Example firmware_off_snapshot :
  let a := session target_header_off sample_parameters in
  let r := single_data_transfer mem_react a in
  fst r = 0
  /\ option_map (fun f => firstn 4 (skipn 4 f)) (bin_file (snd r))
     = Some [0; 0; 0; 0]
  /\ target_filter (snd r) = [85; 0; 0; 0].
Proof. vm_compute. repeat split. Qed.

Lemma snapshot_file_filter_word_witness :
  let a := session target_header sample_parameters in
  exists bytes g file,
    gdb_read_memory mem_react (MESSAGE_FILTER_ADDRESS a) 4
      (snd (gdb_handle_unexpected_messages (gdb a)))
    = ((GDB_OK, bytes), g)
    /\ List.length bytes = 4%nat
    /\ bin_file (snd (single_data_transfer mem_react a)) = Some file
    /\ firstn 4 (skipn 4 file) = bytes.
Proof.
  intros a.
  apply (snapshot_file_filter_word mem_srv mem_react a
           (snd (single_data_transfer mem_react a))).
  - apply run_result. vm_compute. reflexivity.
  - vm_compute. discriminate.
Defined.

(** C1, as stated, fails: with a header whose reserved bits are not zero
    the validation (step 3) fails after logging has been paused, and
    single_data_transfer returns 1 in the state the validation has left, not
    in the state after set_or_restore_message_filter: the filter word of the
    target, 0x0F before the run, is zero after it. *)
Lemma invalid_header_leaves_filter_zero :
  let a := session target_header_reserved sample_parameters in
  let a1 := snd (read_old_filter mem_srv mem_react a) in
  let a2 := snd (pause_if_logging mem_srv mem_react a1) in
  let a3 := snd (load_rtedbg_structure_header mem_react a2) in
  let a4 := snd (check_header_info a3) in
  read_old_filter mem_srv mem_react a = (GDB_OK, a1)
  /\ pause_if_logging mem_srv mem_react a1 = (GDB_OK, a2)
  /\ load_rtedbg_structure_header mem_react a2 = (GDB_OK, a3)
  /\ check_header_info a3 = (GDB_ERROR, a4)
  /\ single_data_transfer mem_react a
     <> (1, snd (set_or_restore_message_filter mem_react a4))
  /\ fst (single_data_transfer mem_react a) = 1
  /\ target_filter a = [15; 0; 0; 0]
  /\ target_filter (snd (single_data_transfer mem_react a)) = [0; 0; 0; 0].
Proof.
  intros a a1 a2 a3 a4.
  split; [unfold a1; apply run_result; vm_compute; reflexivity|].
  split; [unfold a2; apply run_result; vm_compute; reflexivity|].
  split; [unfold a3; apply run_result; vm_compute; reflexivity|].
  split; [unfold a4; apply run_result; vm_compute; reflexivity|].
  split.
  - intros H.
    apply (f_equal (fun r => target_filter (snd r))) in H.
    vm_compute in H. discriminate H.
  - split; [vm_compute; reflexivity|].
    split; vm_compute; reflexivity.
Qed.

Lemma snapshot_failure_paths_witness :
  let a := read_only_disk (session target_header sample_parameters) in
  let a1 := snd (read_old_filter mem_srv mem_react a) in
  let a2 := snd (pause_if_logging mem_srv mem_react a1) in
  let a3 := snd (load_rtedbg_structure_header mem_react a2) in
  let a4 := snd (check_header_info a3) in
  let a5 := snd (save_rtedbg_structure mem_react a4) in
  single_data_transfer mem_react a
  = (1, snd (set_or_restore_message_filter mem_react a5)).
Proof.
  intros a a1 a2 a3 a4 a5.
  apply (proj1 (proj2 (proj2
           (snapshot_failure_paths mem_srv mem_react a a1 a2
              ltac:(unfold a1; apply run_result; vm_compute; reflexivity)
              ltac:(unfold a2; apply run_result; vm_compute; reflexivity))))
           a3 a4 GDB_ERROR a5).
  - unfold a3. apply run_result. vm_compute. reflexivity.
  - unfold a4. apply run_result. vm_compute. reflexivity.
  - unfold a5. apply run_result. vm_compute. reflexivity.
  - discriminate.
Defined.

(** The restore of that run has put the filter back. *)
Example unwritable_file_restores_filter :
  let a := read_only_disk (session target_header sample_parameters) in
  let r := single_data_transfer mem_react a in
  fst r = 1 /\ bin_file (snd r) = None
  /\ target_filter (snd r) = [15; 0; 0; 0].
Proof. vm_compute. repeat split. Qed.

(** Scenario 5: the server lacks the no-ack capability. *)
Lemma missing_no_ack_capability_witness :
  let a := app_start sample_parameters
             (sample_server target_header "PacketSize=400") in
  let g1 := snd (connect_greeting mem_srv (gdb a)) in
  let g2 := snd (capability_exchange mem_srv mem_react g1) in
  exists g',
    gdb_connect mem_react (Par.max_message_size (parameters a)) (gdb a)
    = (GDB_ERROR, g')
    /\ log g'
       = log g2
         ++ ["Error: GDB server does not support 'QStartNoAckMode+' mode."
            ]%string
    /\ fst (main mem_react (ret 0) a) = 1
    /\ wire_out (gdb (snd (main mem_react (ret 0) a)))
       = wire_out (gdb a) ++ [str "$qSupported#37"; str "+"].
Proof.
  intros a g1 g2.
  apply (missing_no_ack_capability mem_srv mem_react (ret 0) a g1 g2).
  - unfold g1. apply run_result. vm_compute. reflexivity.
  - unfold g2. apply run_result. vm_compute. reflexivity.
  - vm_compute. reflexivity.
Defined.

Lemma gdb_send_commands_from_file_result_witness :
  let a := session target_header sample_parameters in
  command_loop mem_react 7 failing_script a
  = (tt, set_gdb (snd (gdb_execute_command mem_react (str "vFoo") (gdb a))) a).
Proof.
  intros a.
  apply (proj2 (gdb_send_commands_from_file_result mem_srv mem_react)
           6%nat failing_script (str "vFoo" ++ [10]) (str "D" ++ [10])
           (str "Foo") 118 a GDB_ERROR).
  - discriminate.
  - reflexivity.
  - reflexivity.
  - discriminate.
  - apply run_result. vm_compute. reflexivity.
  - discriminate.
Defined.

(** [main] with such a start script: the script is cut short after its
    first command ([D] is never sent), gdb_send_commands_from_file reports
    0, and the transfer is carried out. *)
Example aborted_script_is_success :
  let p := Par.mk 603979776 0 0 false 0 None "data.bin" (Some "init.cmd"%string)
             false false false 0 in
  let a := mkApp p 0 (Hdr.mk 0 0 0 0 0 0) None
             (gdb_start
                (sample_server target_header "PacketSize=1000;QStartNoAckMode+"))
             true true (2 ^ 32) None
             (fun name => if String.eqb name "init.cmd"%string
                          then Some failing_script else None) in
  let r := main mem_react (ret 0) a in
  fst r = 0
  /\ In (str "$vFoo#9A") (wire_out (gdb (snd r)))
  /\ ~ In (str "$D#44") (wire_out (gdb (snd r)))
  /\ option_map (@List.length Z) (bin_file (snd r)) = Some 80%nat.
Proof.
  vm_compute. repeat split.
  - repeat (first [left; reflexivity | right]).
  - intros H. repeat (destruct H as [H|H]; [discriminate H|]). exact H.
Qed.

(* ===================================================================== *)
(** ** Receiving a message                                                *)
(* ===================================================================== *)

Lemma len_app (a b : list Z) : len (a ++ b) = len a + len b.
Proof. unfold len. rewrite length_app. lia. Qed.

Lemma len_nonneg (a : list Z) : 0 <= len a.
Proof. unfold len. lia. Qed.

Lemma at_app_l (a b : list Z) (i : Z) : i < len a -> at_ (a ++ b) i = at_ a i.
Proof.
  unfold at_, len. intros H. destruct (Z.ltb_spec i 0); [reflexivity|].
  apply app_nth1. lia.
Qed.

Lemma delivers_nonempty (w : list recv_ev) (f : list Z) (tl : list recv_ev) :
  delivers w f tl -> 1 <= len f.
Proof.
  induction 1; unfold len in *; cbn [List.length app]; lia.
Qed.

(** What the loop has when it ends with a message. *)
Lemma get_message_loop_ok (w : list recv_ev) :
  forall (got got' : list Z) (rest : list recv_ev),
    get_message_loop w got = (RecvOk, got', rest) ->
    (exists d, d <> [] /\ got' = got ++ d)
    /\ 4 <= len got' < TCP_BUFF_LENGTH - 1
    /\ at_ got' (len got' - 3) = 35.
Proof.
  induction w as [|ev w IH]; intros got got' rest H; cbn [get_message_loop] in H.
  - discriminate H.
  - destruct ev as [d|e| |].
    + destruct d as [|c d]; [discriminate H|].
      destruct (_ <? _)%nat; [discriminate H|].
      destruct (Z.geb_spec (len (got ++ c :: d)) (TCP_BUFF_LENGTH - 1));
        [discriminate H|].
      destruct ((len (got ++ c :: d) >=? 4)
                && (at_ (got ++ c :: d) (len (got ++ c :: d) - 3) =? 35))
        eqn:E.
      * inversion H. subst got' rest.
        apply andb_true_iff in E. destruct E as [E1 E2].
        apply Z.geb_le in E1. apply Z.eqb_eq in E2.
        split; [exists (c :: d); split; [discriminate | reflexivity]|].
        split; [lia | exact E2].
      * destruct (IH _ _ _ H) as ((d' & Hd & E') & R).
        split; [| exact R].
        exists ((c :: d) ++ d'). split; [discriminate|].
        rewrite E', <- app_assoc. reflexivity.
    + destruct e; [discriminate H|].
      apply IH in H. exact H.
    + discriminate H.
    + discriminate H.
Qed.

(** The loop puts a message together from the blocks it arrives in. *)
Lemma get_message_loop_delivers (w : list recv_ev) (f : list Z)
    (tl : list recv_ev) :
  delivers w f tl ->
  forall got, complete_frame (got ++ f) ->
              get_message_loop w got = (RecvOk, got ++ f, tl).
Proof.
  induction 1 as [c d tl | w f tl Hd IH | c d w f tl Hd IH];
    intros got (Hlen & Hhash & Hearly).
  - cbn [get_message_loop].
    rewrite len_app in Hlen.
    assert ((Z.to_nat TCP_BUFF_LENGTH - List.length got
             <? List.length (c :: d))%nat = false) as R.
    { apply Nat.ltb_ge. unfold len, TCP_BUFF_LENGTH in *. lia. }
    rewrite R.
    destruct (Z.geb_spec (len (got ++ c :: d)) (TCP_BUFF_LENGTH - 1));
      [rewrite len_app in *; lia|].
    rewrite Hhash, Z.eqb_refl.
    replace (len (got ++ c :: d) >=? 4) with true
      by (symmetry; apply Z.geb_le; rewrite len_app; lia).
    reflexivity.
  - cbn [get_message_loop]. apply IH. split; [| split]; assumption.
  - cbn [get_message_loop].
    pose proof (delivers_nonempty _ _ _ Hd) as Hf.
    rewrite !len_app in Hlen.
    assert ((Z.to_nat TCP_BUFF_LENGTH - List.length got
             <? List.length (c :: d))%nat = false) as R.
    { apply Nat.ltb_ge. unfold len, TCP_BUFF_LENGTH in *. lia. }
    rewrite R.
    destruct (Z.geb_spec (len (got ++ c :: d)) (TCP_BUFF_LENGTH - 1));
      [rewrite len_app in *; lia|].
    assert ((len (got ++ c :: d) >=? 4)
            && (at_ (got ++ c :: d) (len (got ++ c :: d) - 3) =? 35) = false)
      as E.
    { destruct (Z.geb_spec (len (got ++ c :: d)) 4); [| reflexivity].
      cbn [andb]. apply Z.eqb_neq.
      rewrite app_assoc in Hearly.
      rewrite <- (at_app_l _ f) by lia.
      apply Hearly. rewrite (len_app (got ++ c :: d) f). lia. }
    rewrite E.
    rewrite (app_assoc got (c :: d) f).
    apply IH. rewrite <- app_assoc. split; [| split]; try assumption.
    rewrite !len_app. lia.
Qed.

Section Receive.

Variable Srv : Type.
Variable react : Srv -> list Z -> send_outcome * list recv_ev * Srv.

Lemma gdb_send_buffer (msg : list Z) (g : gdb_state Srv) :
  message_buffer (snd (gdb_send react msg g)) = message_buffer g.
Proof.
  unfold gdb_send, log_string, bind, gets, modify, ret.
  destruct (len msg <=? 0); [reflexivity|].
  destruct (react (srv g) msg) as [[res evs] s'].
  destruct res as [n| |]; [destruct (negb (n =? len msg))| |]; reflexivity.
Qed.

Lemma gdb_send_ack_buffer (g : gdb_state Srv) :
  message_buffer (snd (gdb_send_ack react g)) = message_buffer g.
Proof.
  unfold gdb_send_ack, bind, gets, ret.
  destruct (ack_mode_enabled g); [| reflexivity].
  pose proof (gdb_send_buffer (str "+") g) as H.
  destruct (gdb_send react (str "+") g) as [r g1]. exact H.
Qed.

Lemma gdb_send_ack_off (g : gdb_state Srv) :
  ack_mode_enabled g = false -> gdb_send_ack react g = (tt, g).
Proof. unfold gdb_send_ack, bind, gets, ret. intros H. rewrite H. reflexivity. Qed.

Lemma firstn_overlay (data old : list Z) :
  firstn (List.length data) (overlay data old) = data.
Proof.
  unfold overlay. rewrite firstn_app, Nat.sub_diag, firstn_O, app_nil_r.
  apply firstn_all.
Qed.

(** gdb_get_message from the result of its loop on, when the loop has a
    message. *)
Lemma gdb_get_message_of_loop (timeout : Z) (g : gdb_state Srv)
    (got : list Z) (rest : list recv_ev) :
  get_message_loop (wire_in g) [] = (RecvOk, got, rest) ->
  exists g',
    gdb_get_message react timeout g = (GDB_OK, g')
    /\ firstn (S (List.length got)) (message_buffer g') = got ++ [0]
    /\ (ack_mode_enabled g = false ->
        wire_in g' = rest /\ wire_out g' = wire_out g /\ srv g' = srv g).
Proof.
  intros E. unfold gdb_get_message, bind at 1, gets at 1. rewrite E.
  unfold bind at 1, modify at 1. unfold bind at 1, modify at 1.
  unfold bind at 1.
  match goal with |- context [gdb_send_ack react ?h] => set (g1 := h) end.
  pose proof (gdb_send_ack_buffer g1) as B.
  assert (ack_mode_enabled g = false -> gdb_send_ack react g1 = (tt, g1))
    as Off by (intros H; apply gdb_send_ack_off; exact H).
  destruct (gdb_send_ack react g1) as [u g2]. cbn [snd] in B.
  unfold bind, modify, ret. eexists. split; [reflexivity|].
  cbn [message_buffer set_buffer]. split.
  - replace (S (List.length got)) with (List.length (got ++ [0]))
      by (rewrite length_app; cbn; lia).
    apply firstn_overlay.
  - intros H. specialize (Off H). inversion Off. subst g2.
    repeat split; reflexivity.
Qed.

End Receive.

Lemma frame_complete (payload : list Z) (c1 c2 : Z) :
  ~ In 35 payload -> len payload + 4 < TCP_BUFF_LENGTH - 1 ->
  complete_frame (str "$" ++ payload ++ str "#" ++ [c1; c2]).
Proof.
  intros Hno Hlen.
  change (str "$" ++ payload ++ str "#" ++ [c1; c2])
    with (36 :: payload ++ [35; c1; c2]).
  assert (len (36 :: payload ++ [35; c1; c2]) = len payload + 4) as L.
  { unfold len. cbn [List.length]. rewrite length_app. cbn [List.length]. lia. }
  pose proof (len_nonneg payload) as Hp.
  unfold complete_frame. rewrite L. split; [lia|]. split.
  - unfold at_. destruct (Z.ltb_spec (len payload + 4 - 3) 0); [lia|].
    replace (Z.to_nat (len payload + 4 - 3)) with (S (List.length payload))
      by (unfold len; lia).
    cbn [nth]. rewrite app_nth2 by lia. rewrite Nat.sub_diag. reflexivity.
  - intros k Hk. unfold at_. destruct (Z.ltb_spec (k - 3) 0); [lia|].
    replace (Z.to_nat (k - 3)) with (S (Z.to_nat (k - 4))) by lia.
    cbn [nth]. rewrite app_nth1 by (unfold len in *; lia).
    intros E. apply Hno. rewrite <- E. apply nth_In. unfold len in *. lia.
Qed.

Section ReceiveFacts.

Variable Srv : Type.
Variable react : Srv -> list Z -> send_outcome * list recv_ev * Srv.

Lemma gdb_get_message_inv (timeout : Z) (g g' : gdb_state Srv) :
  gdb_get_message react timeout g = (GDB_OK, g') ->
  exists got rest, get_message_loop (wire_in g) [] = (RecvOk, got, rest).
Proof.
  unfold gdb_get_message, bind at 1, gets at 1.
  destruct (get_message_loop (wire_in g) []) as [[status got] rest].
  intros H. destruct status;
    try (unfold log_string, bind, modify, ret in H; discriminate H).
  exists got, rest. reflexivity.
Qed.

(** X1.  gdb_get_message reports success only with a whole message in the
    message buffer: at least four and fewer than 65534 bytes, a hash sign
    third from the end, and a NUL behind the last byte. *)
Theorem gdb_get_message_complete (timeout : Z) (g g' : gdb_state Srv) :
  gdb_get_message react timeout g = (GDB_OK, g') ->
  exists msg,
    4 <= len msg < TCP_BUFF_LENGTH - 1
    /\ at_ msg (len msg - 3) = 35
    /\ firstn (S (List.length msg)) (message_buffer g') = msg ++ [0].
Proof.
  intros H. destruct (gdb_get_message_inv _ _ _ H) as (got & rest & E).
  destruct (gdb_get_message_of_loop Srv react timeout g got rest E)
    as (g1 & E1 & B & _).
  rewrite H in E1. inversion E1. subst g1.
  destruct (get_message_loop_ok _ _ _ _ E) as (_ & L & Hh).
  exists got. repeat split; try assumption; lia.
Qed.

(** X2.  A reply frame [$payload#xx] whose payload holds no hash sign is
    received whole however the connection cuts it into blocks: the result is
    GDB_OK, the frame is in the message buffer with a NUL behind it, and
    what was pending behind the frame stays pending; without
    acknowledgements nothing is sent. *)
Theorem gdb_get_message_reassembles (timeout : Z) (g : gdb_state Srv)
    (payload : list Z) (c1 c2 : Z) (tl : list recv_ev) :
  ~ In 35 payload -> len payload + 4 < TCP_BUFF_LENGTH - 1 ->
  delivers (wire_in g) (str "$" ++ payload ++ str "#" ++ [c1; c2]) tl ->
  let frame := str "$" ++ payload ++ str "#" ++ [c1; c2] in
  let r := gdb_get_message react timeout g in
  fst r = GDB_OK
  /\ firstn (S (List.length frame)) (message_buffer (snd r)) = frame ++ [0]
  /\ (ack_mode_enabled g = false ->
      wire_in (snd r) = tl /\ wire_out (snd r) = wire_out g).
Proof.
  intros Hno Hlen Hd frame r.
  pose proof (get_message_loop_delivers _ _ _ Hd []
                (frame_complete payload c1 c2 Hno Hlen)) as E.
  cbn [app] in E. 
  destruct (gdb_get_message_of_loop Srv react timeout g _ _ E)
    as (g1 & E1 & B & W).
  subst r. rewrite E1. cbn [fst snd]. split; [reflexivity|].
  split; [exact B|]. intros Hack. destruct (W Hack) as (W1 & W2 & _).
  split; assumption.
Qed.

End ReceiveFacts.

Lemma gdb_get_message_complete_witness :
  let g := set_wire_in [Data (str "$OK#9a")]
             (gdb_start (sample_server target_header "")) in
  exists msg,
    4 <= len msg < TCP_BUFF_LENGTH - 1
    /\ at_ msg (len msg - 3) = 35
    /\ firstn (S (List.length msg))
         (message_buffer (snd (gdb_get_message mem_react 0 g)))
       = msg ++ [0].
Proof.
  intros g.
  apply (gdb_get_message_complete mem_srv mem_react 0 g
           (snd (gdb_get_message mem_react 0 g))).
  apply run_result. vm_compute. reflexivity.
Defined.

Lemma gdb_get_message_reassembles_witness :
  let g := set_wire_in
             [Data (str "$0"); Idle false; Data (str "f00#"); Data (str "c");
              Data (str "6"); Data (str "$T05#b9")]
             (gdb_start (sample_server target_header "")) in
  let r := gdb_get_message mem_react 0 g in
  fst r = GDB_OK
  /\ firstn 9 (message_buffer (snd r)) = str "$0f00#c6" ++ [0]
  /\ (ack_mode_enabled g = false ->
      wire_in (snd r) = [Data (str "$T05#b9")]
      /\ wire_out (snd r) = wire_out g).
Proof.
  intros g.
  apply (gdb_get_message_reassembles mem_srv mem_react 0 g (str "0f00")
           (ch "c") (ch "6") [Data (str "$T05#b9")]).
  - vm_compute. intros H. repeat (destruct H as [H|H]; [discriminate H|]).
    exact H.
  - vm_compute. reflexivity.
  - vm_compute.
    apply (delivers_data 36 [48] _ [102; 48; 48; 35; 99; 54]).
    apply delivers_idle.
    apply (delivers_data 102 [48; 48; 35] _ [99; 54]).
    apply (delivers_data 99 [] _ [54]).
    apply delivers_last.
Defined.
(* ===================================================================== *)
(** ** Error replies                                                      *)
(* ===================================================================== *)

Lemma hex_val_cases (c d : Z) :
  hex_val c = Some d ->
  In c [48; 49; 50; 51; 52; 53; 54; 55; 56; 57;
        65; 66; 67; 68; 69; 70; 97; 98; 99; 100; 101; 102].
Proof.
  unfold hex_val. intros H.
  destruct ((48 <=? c) && (c <=? 57)) eqn:E1.
  { apply andb_true_iff in E1. destruct E1 as [A B].
    apply Z.leb_le in A, B.
    assert (c = 48 \/ c = 49 \/ c = 50 \/ c = 51 \/ c = 52 \/ c = 53
            \/ c = 54 \/ c = 55 \/ c = 56 \/ c = 57) as D by lia.
    cbn [In]. intuition auto. }
  destruct ((65 <=? c) && (c <=? 70)) eqn:E2.
  { apply andb_true_iff in E2. destruct E2 as [A B].
    apply Z.leb_le in A, B.
    assert (c = 65 \/ c = 66 \/ c = 67 \/ c = 68 \/ c = 69 \/ c = 70)
      as D by lia.
    cbn [In]. intuition auto. }
  destruct ((97 <=? c) && (c <=? 102)) eqn:E3; [| discriminate H].
  apply andb_true_iff in E3. destruct E3 as [A B].
  apply Z.leb_le in A, B.
  assert (c = 97 \/ c = 98 \/ c = 99 \/ c = 100 \/ c = 101 \/ c = 102)
    as D by lia.
  cbn [In]. intuition auto.
Qed.

(** [%x] on two hexadecimal digits followed by a hash sign. *)
Lemma sscanf_x_two_digits (h1 h2 x y : Z) (rest : list Z) :
  hex_val h1 = Some x -> hex_val h2 = Some y ->
  sscanf_x (cstr (h1 :: h2 :: 35 :: rest)) = Some (16 * x + y, 35 :: cstr rest).
Proof.
  intros H1 H2.
  pose proof (hex_val_cases _ _ H1) as C1.
  pose proof (hex_val_cases _ _ H2) as C2.
  cbn [In] in C1, C2.
  repeat (destruct C1 as [C1|C1]; [subst h1; vm_compute in H1; inversion H1; subst x|]);
    try contradiction;
  repeat (destruct C2 as [C2|C2]; [subst h2; vm_compute in H2; inversion H2; subst y; reflexivity|]);
    contradiction.
Qed.

Section ErrorReplies.

Variable Srv : Type.

Lemma gdb_error_reported_code (g : gdb_state Srv) (h1 h2 x y : Z)
    (rest : list Z) :
  message_buffer g = str "$E" ++ [h1; h2] ++ str "#" ++ rest ->
  hex_val h1 = Some x -> hex_val h2 = Some y ->
  exists g',
    gdb_error_reported g = (true, g') /\ last_gdb_error g' = 16 * x + y.
Proof.
  intros B H1 H2. unfold gdb_error_reported, bind at 1, gets at 1.
  rewrite B.
  change (str "$E" ++ [h1; h2] ++ str "#" ++ rest)
    with (36 :: 69 :: h1 :: h2 :: 35 :: rest).
  change (at_ (36 :: 69 :: h1 :: h2 :: 35 :: rest) 0) with 36.
  change (at_ (36 :: 69 :: h1 :: h2 :: 35 :: rest) 1) with 69.
  change (at_ (36 :: 69 :: h1 :: h2 :: 35 :: rest) 4) with 35.
  change (skipn 2 (36 :: 69 :: h1 :: h2 :: 35 :: rest))
    with (h1 :: h2 :: 35 :: rest).
  rewrite (sscanf_x_two_digits _ _ _ _ rest H1 H2).
  eexists. split; reflexivity.
Qed.

Lemma gdb_error_reported_cases (g g' : gdb_state Srv) (b : bool) :
  let buf := message_buffer g in
  gdb_error_reported g = (b, g') ->
  (at_ buf 0 <> 36 /\ b = true /\ last_gdb_error g' = ERR_BAD_MSG_FORMAT)
  \/ (at_ buf 0 = 36 /\ at_ buf 1 <> 69 /\ b = false /\ g' = g)
  \/ (at_ buf 0 = 36 /\ at_ buf 1 = 69 /\ b = true
      /\ (at_ buf 4 <> 35 -> last_gdb_error g' = ERR_GDB_REPORTED_ERROR)).
Proof.
  intros buf. unfold gdb_error_reported, bind at 1, gets at 1. fold buf.
  destruct (Z.eqb_spec (at_ buf 0) 36) as [E0|E0]; cbn [negb].
  2:{ intros H. inversion H. left. repeat split. exact E0. }
  destruct (Z.eqb_spec (at_ buf 1) 69) as [E1|E1]; cbn [negb].
  2:{ intros H. inversion H. right. left. repeat split; assumption. }
  intros H. right. right. split; [exact E0|]. split; [exact E1|].
  unfold bind, modify, log_string, ret in H.
  destruct (Z.eqb_spec (at_ buf 4) 35) as [E4|E4].
  - destruct (sscanf_x (cstr (skipn 2 buf))) as [[v s]|];
      inversion H; (split; [reflexivity|]); intros A; contradiction.
  - cbn [andb] in H. destruct (at_ buf 2 =? 46);
      inversion H; (split; [reflexivity|]); intros _; reflexivity.
Qed.

(** X3.  gdb_error_reported returns false exactly when the message buffer
    starts with a dollar sign and its second character is not ['E'], and
    then it changes nothing.  A buffer that does not start with a dollar
    sign sets ERR_BAD_MSG_FORMAT; a reply [$Exx#] sets [last_gdb_error] to
    the value of the two hexadecimal digits (0 included); an ['E'] reply
    without the hash sign at index 4 sets ERR_GDB_REPORTED_ERROR. *)
Theorem gdb_error_reported_result (g : gdb_state Srv) :
  let buf := message_buffer g in
  let r := gdb_error_reported g in
  (fst r = false <-> at_ buf 0 = 36 /\ at_ buf 1 <> 69)
  /\ (fst r = false -> snd r = g)
  /\ (at_ buf 0 <> 36 -> last_gdb_error (snd r) = ERR_BAD_MSG_FORMAT)
  /\ (forall h1 h2 x y rest,
         buf = str "$E" ++ [h1; h2] ++ str "#" ++ rest ->
         hex_val h1 = Some x -> hex_val h2 = Some y ->
         last_gdb_error (snd r) = 16 * x + y)
  /\ (at_ buf 0 = 36 -> at_ buf 1 = 69 -> at_ buf 4 <> 35 ->
      last_gdb_error (snd r) = ERR_GDB_REPORTED_ERROR).
Proof.
  intros buf r.
  assert (forall h1 h2 x y rest,
             buf = str "$E" ++ [h1; h2] ++ str "#" ++ rest ->
             hex_val h1 = Some x -> hex_val h2 = Some y ->
             last_gdb_error (snd r) = 16 * x + y) as Hcode.
  { intros h1 h2 x y rest B H1 H2.
    destruct (gdb_error_reported_code g h1 h2 x y rest B H1 H2)
      as (g' & E & L).
    subst r. rewrite E. exact L. }
  subst r. destruct (gdb_error_reported g) as [b g'] eqn:E.
  apply gdb_error_reported_cases in E. fold buf in E. cbn [fst snd] in *.
  destruct E as [(A & B & L) | [(A & B & C & D) | (A & B & C & L)]]; subst.
  - split; [split; [discriminate | tauto]|].
    split; [discriminate|]. split; [intros _; exact L|].
    split; [exact Hcode | tauto].
  - split; [tauto|]. split; [reflexivity|]. split; [tauto|].
    split; [exact Hcode | tauto].
  - split; [split; [discriminate | tauto]|].
    split; [discriminate|]. split; [tauto|].
    split; [exact Hcode|]. intros _ _ A4. exact (L A4).
Qed.

End ErrorReplies.
(* ===================================================================== *)
(** ** One request and its reply                                          *)
(* ===================================================================== *)

Lemma at_overlay (data old : list Z) (i : Z) :
  i < len data -> at_ (overlay data old) i = at_ data i.
Proof. intros H. unfold overlay. apply at_app_l. exact H. Qed.

Section Exchange.

Variable Srv : Type.
Variable react : Srv -> list Z -> send_outcome * list recv_ev * Srv.

Lemma gdb_get_message_quiet (timeout : Z) (g : gdb_state Srv)
    (got : list Z) (rest : list recv_ev) :
  ack_mode_enabled g = false ->
  get_message_loop (wire_in g) [] = (RecvOk, got, rest) ->
  gdb_get_message react timeout g
  = (GDB_OK,
     set_buffer
       (overlay (got ++ [0]) (overlay got (overlay [0] (message_buffer g))))
       (set_wire_in rest g)).
Proof.
  intros Hack E. unfold gdb_get_message, bind at 1, gets at 1. rewrite E.
  unfold bind at 1, modify at 1. unfold bind at 1, modify at 1.
  unfold bind at 1. rewrite gdb_send_ack_off by exact Hack.
  reflexivity.
Qed.

(** A request that the peer accepts whole and answers with one message,
    on a quiet connection without acknowledgements. *)
Lemma gdb_exchange (timeout : Z) (g : gdb_state Srv) (request answer : list Z)
    (w : list recv_ev) (tl : list recv_ev) (s' : Srv) :
  request <> [] -> ack_mode_enabled g = false -> wire_in g = [] ->
  react (srv g) request = (Sent (len request), w, s') ->
  delivers w answer tl -> complete_frame answer ->
  (res <- gdb_send react request ;;
   if negb (res =? GDB_OK) then ret GDB_ERROR
   else gdb_get_message react timeout) g
  = (GDB_OK,
     set_buffer
       (overlay (answer ++ [0])
          (overlay answer (overlay [0] (message_buffer g))))
       (set_wire s' tl (wire_out g ++ [request]) g)).
Proof.
  intros Hne Hack Hin Hreact Hd Hc.
  unfold bind at 1. unfold gdb_send.
  destruct (Z.leb_spec (len request) 0) as [Hl|Hl].
  { destruct request; [congruence | unfold len in Hl; cbn in Hl; lia]. }
  unfold bind at 1, gets at 1. rewrite Hreact.
  unfold bind at 1, modify at 1. rewrite Z.eqb_refl. cbn [negb].
  unfold ret at 1. cbn [Z.eqb GDB_OK negb].
  rewrite Hin. cbn [app].
  rewrite (gdb_get_message_quiet timeout _ answer tl).
  - reflexivity.
  - exact Hack.
  - cbn [wire_in set_wire].
    apply (get_message_loop_delivers _ _ _ Hd []). exact Hc.
Qed.

End Exchange.

Section Commands.

Variable Srv : Type.
Variable react : Srv -> list Z -> send_outcome * list recv_ev * Srv.

Lemma command_frame_nonempty (command : list Z) : command_frame command <> [].
Proof. unfold command_frame. discriminate. Qed.

(** gdb_execute_command up to the inspection of the reply. *)
Lemma gdb_execute_command_exchange (g : gdb_state Srv)
    (command payload : list Z) (c1 c2 : Z) (s' : Srv) :
  ack_mode_enabled g = false -> wire_in g = [] ->
  len command < 1020 ->
  react (srv g) (command_frame command)
  = (Sent (len (command_frame command)),
     [Data (str "$" ++ payload ++ str "#" ++ [c1; c2])], s') ->
  ~ In 35 payload -> len payload + 4 < TCP_BUFF_LENGTH - 1 ->
  let answer := str "$" ++ payload ++ str "#" ++ [c1; c2] in
  let g2 :=
    set_buffer
      (overlay (answer ++ [0])
         (overlay answer (overlay [0] (message_buffer g))))
      (set_wire s' [] (wire_out g ++ [command_frame command])
         (add_log "command: " (set_error 0 g))) in
  gdb_execute_command react command g
  = (rep <- gdb_error_reported (Srv:=Srv) ;;
     if rep then ret GDB_ERROR
     else
       buf <- gets (message_buffer (Srv:=Srv)) ;;
       if starts_with (str "$O") buf then
         if negb (at_ buf 2 =? 75) then
           g <- gets (fun g => g) ;;
           res <- O_chain_loop react (S (List.length (wire_in g))) ;;
           if negb (res =? GDB_OK) then ret GDB_ERROR else ret GDB_OK
         else log_string "OK" ;; ret GDB_OK
       else
         get_core_content (Srv:=Srv) ;;
         log_string "unsupported command or other response" ;;
         gdb_flush_socket (Srv:=Srv) ;;
         ret GDB_ERROR) g2.
Proof.
  intros Hack Hin Hlen Hreact Hno Hpl answer g2.
  unfold gdb_execute_command.
  unfold bind at 1, modify at 1. unfold bind at 1, log_string at 1, modify at 1.
  unfold gdb_send_command.
  destruct (Z.geb_spec (len command) (1024 - 4)) as [Hge|_]; [lia|].
  set (g0 := add_log "command: " (set_error 0 g)).
  pose proof (gdb_exchange Srv react 0 g0 (command_frame command) answer
                [Data answer] [] s' (command_frame_nonempty command)
                Hack Hin Hreact) as X.
  unfold bind at 1 in X. unfold bind at 1.
  destruct (gdb_send react (command_frame command) g0) as [r1 g1].
  destruct (Z.eqb_spec r1 GDB_OK) as [E|E]; cbn [negb] in *.
  - unfold bind at 1. rewrite X.
    + reflexivity.
    + apply delivers_last.
    + apply frame_complete; assumption.
  - unfold ret at 1 in X. specialize (X (delivers_last _ _ _)
                                        (frame_complete _ _ _ Hno Hpl)).
    inversion X.
Qed.

Lemma gdb_error_reported_no_error (g : gdb_state Srv) :
  at_ (message_buffer g) 0 = 36 -> at_ (message_buffer g) 1 <> 69 ->
  gdb_error_reported g = (false, g).
Proof.
  intros A B. unfold gdb_error_reported, bind at 1, gets at 1.
  rewrite A. cbn [Z.eqb negb Pos.eqb].
  destruct (Z.eqb_spec (at_ (message_buffer g) 1) 69); [contradiction|].
  reflexivity.
Qed.

Lemma gdb_error_reported_error (g : gdb_state Srv) :
  at_ (message_buffer g) 0 = 36 -> at_ (message_buffer g) 1 = 69 ->
  fst (gdb_error_reported g) = true.
Proof.
  intros A B. destruct (gdb_error_reported g) as [b g'] eqn:E.
  apply gdb_error_reported_cases in E.
  destruct E as [(X & _) | [(_ & X & _) | (_ & _ & X & _)]];
    [contradiction | contradiction | exact X].
Qed.

(** X4.  What gdb_execute_command makes of the reply to a command (sent
    whole, answered by one message [$payload#xx], on a quiet connection
    without acknowledgements): a payload that starts with [OK] is success;
    an empty payload, or one that starts with neither ['O'] nor ['E'], is
    GDB_ERROR with [last_gdb_error] left at 0 and the socket flushed; a
    payload that starts with ['E'] is GDB_ERROR, and [Exx] leaves the value
    of the two hexadecimal digits in [last_gdb_error]. *)
Theorem gdb_execute_command_reply (g : gdb_state Srv)
    (command payload : list Z) (c1 c2 : Z) (s' : Srv) :
  ack_mode_enabled g = false -> wire_in g = [] ->
  len command < 1020 ->
  react (srv g) (command_frame command)
  = (Sent (len (command_frame command)),
     [Data (str "$" ++ payload ++ str "#" ++ [c1; c2])], s') ->
  ~ In 35 payload -> len payload + 4 < TCP_BUFF_LENGTH - 1 ->
  let r := gdb_execute_command react command g in
  (forall p, payload = str "OK" ++ p ->
             fst r = GDB_OK /\ last_gdb_error (snd r) = 0
             /\ wire_out (snd r) = wire_out g ++ [command_frame command])
  /\ (payload = []
      \/ (exists c p, payload = c :: p /\ c <> 79 /\ c <> 69) ->
      fst r = GDB_ERROR /\ last_gdb_error (snd r) = 0
      /\ wire_in (snd r) = []
      /\ wire_out (snd r) = wire_out g ++ [command_frame command])
  /\ (forall p, payload = str "E" ++ p -> fst r = GDB_ERROR)
  /\ (forall h1 h2 x y,
         payload = str "E" ++ [h1; h2] ->
         hex_val h1 = Some x -> hex_val h2 = Some y ->
         last_gdb_error (snd r) = 16 * x + y).
Proof.
  intros Hack Hin Hlen Hreact Hno Hpl r.
  pose proof (gdb_execute_command_exchange g command payload c1 c2 s'
                Hack Hin Hlen Hreact Hno Hpl) as X.
  cbv zeta in X. subst r. rewrite X. clear X.
  match goal with
  | |- context [bind ?m ?k ?h] => set (g2 := h); set (run := bind m k g2)
  end.
  split; [| split; [| split]].
  - intros p Hp. subst payload.
    assert (message_buffer g2
            = 36 :: 79 :: 75 :: (p ++ [35; c1; c2]) ++ [0]
              ++ skipn (List.length (str "$" ++ (str "OK" ++ p) ++ str "#"
                                      ++ [c1; c2] ++ [0]))
                   (overlay (str "$" ++ (str "OK" ++ p) ++ str "#" ++ [c1; c2])
                      (overlay [0] (message_buffer g)))) as B.
    { subst g2. cbn [message_buffer set_buffer]. unfold overlay at 1.
      cbn [str app byte_of_ascii]. rewrite <- !app_assoc. reflexivity. }
    assert (run = (GDB_OK, add_log "OK" g2)) as R.
    { subst run. unfold bind at 1.
      rewrite gdb_error_reported_no_error
        by (rewrite B; cbn; first [reflexivity | discriminate]).
      unfold bind at 1, gets at 1. rewrite B.
      reflexivity. }
    rewrite R. repeat split; reflexivity.
  - intros Hp.
    assert (exists b1 rest,
               message_buffer g2 = 36 :: b1 :: rest /\ b1 <> 79 /\ b1 <> 69)
      as (b1 & rest & B & N1 & N2).
    { destruct Hp as [Hp | (c & p & Hp & N1 & N2)]; subst payload.
      - eexists 35, _. split; [| split; discriminate].
        subst g2. cbn [message_buffer set_buffer]. unfold overlay at 1.
        cbn [str app byte_of_ascii]. reflexivity.
      - exists c. eexists. split; [| split; assumption].
        subst g2. cbn [message_buffer set_buffer]. unfold overlay at 1.
        cbn [str app byte_of_ascii]. reflexivity. }
    assert (exists g3,
               run = (GDB_ERROR, g3) /\ last_gdb_error g3 = 0
               /\ wire_in g3 = [] /\ wire_out g3 = wire_out g2) as (g3 & R & P).
    { subst run. unfold bind at 1.
      rewrite gdb_error_reported_no_error
        by (rewrite B; cbn; first [reflexivity | assumption]).
      unfold bind at 1, gets at 1. rewrite B.
      assert (starts_with (str "$O") (36 :: b1 :: rest) = false) as S.
      { change (str "$O") with [36; 79]. cbn [starts_with].
        destruct (Z.eqb_spec 79 b1); [congruence | reflexivity]. }
      rewrite S.
      unfold get_core_content, gdb_flush_socket, log_string, bind, gets,
        modify, ret.
      eexists. split; [reflexivity|]. repeat split; reflexivity. }
    rewrite R. cbn [fst snd]. destruct P as (P1 & P2 & P3).
    repeat split; assumption.
  - intros p Hp. subst payload.
    assert (fst (gdb_error_reported g2) = true) as E.
    { apply gdb_error_reported_error; subst g2;
        cbn [message_buffer set_buffer]; unfold overlay at 1;
        cbn [str app byte_of_ascii]; reflexivity. }
    subst run. unfold bind at 1.
    destruct (gdb_error_reported g2) as [b g3]. cbn [fst] in E. subst b.
    reflexivity.
  - intros h1 h2 x y Hp H1 H2. subst payload.
    destruct (gdb_error_reported_code Srv g2 h1 h2 x y
                ([c1; c2] ++ [0]
                 ++ skipn (List.length (str "$" ++ (str "E" ++ [h1; h2])
                                         ++ str "#" ++ [c1; c2] ++ [0]))
                      (overlay (str "$" ++ (str "E" ++ [h1; h2]) ++ str "#"
                                ++ [c1; c2])
                         (overlay [0] (message_buffer g)))))
      as (g3 & E & L); try assumption.
    { subst g2. cbn [message_buffer set_buffer]. unfold overlay at 1.
      cbn [str app byte_of_ascii]. reflexivity. }
    subst run. unfold bind at 1. rewrite E. cbn [snd]. exact L.
Qed.

End Commands.

Section ConsoleOutput.

Variable Srv : Type.
Variable react : Srv -> list Z -> send_outcome * list recv_ev * Srv.

Lemma print_O_type_message_frame (g : gdb_state Srv) :
  exists b, print_O_type_message g = (tt, set_buffer b g)
            \/ print_O_type_message g
               = (tt, add_log "O-type message" (set_buffer b g)).
Proof.
  unfold print_O_type_message, bind, gets, modify, log_string.
  destruct (List.length _ <? 2)%nat.
  - eexists. left. reflexivity.
  - eexists. right. reflexivity.
Qed.

(** After a reply that is console output: the loop over further output
    when nothing more arrives. *)
Lemma O_chain_loop_silence (fuel : nat) (g : gdb_state Srv) :
  wire_in g = [] ->
  exists g',
    O_chain_loop react (S fuel) g = (GDB_ERROR, g')
    /\ last_gdb_error g' = ERR_BAD_MSG_FORMAT
    /\ wire_out g' = wire_out g.
Proof.
  intros Hin. cbn [O_chain_loop]. unfold bind at 1.
  destruct (print_O_type_message_frame g) as (b & [E|E]); rewrite E;
    clear E.
  - unfold bind at 1, gdb_get_message, bind at 1, gets at 1.
    cbn [wire_in set_buffer]. rewrite Hin. cbn [get_message_loop].
    unfold log_string, bind, modify, ret, gets.
    cbn [Z.gtb GDB_ERROR Z.compare].
    unfold gdb_error_reported, bind, gets, modify, log_string, ret.
    cbn [message_buffer set_error set_buffer add_log set_wire_in set_wire
           overlay app at_ Z.ltb Z.compare Z.to_nat nth Z.eqb negb].
    eexists. split; [reflexivity|]. split; reflexivity.
  - unfold bind at 1, gdb_get_message, bind at 1, gets at 1.
    cbn [wire_in set_buffer add_log]. rewrite Hin. cbn [get_message_loop].
    unfold log_string, bind, modify, ret, gets.
    cbn [Z.gtb GDB_ERROR Z.compare].
    unfold gdb_error_reported, bind, gets, modify, log_string, ret.
    cbn [message_buffer set_error set_buffer add_log set_wire_in set_wire
           overlay app at_ Z.ltb Z.compare Z.to_nat nth Z.eqb negb].
    eexists. split; [reflexivity|]. split; reflexivity.
Qed.

(** X5.  When the reply to a command is console output (an ['O'] packet
    that is not [OK]) and nothing more arrives, gdb_execute_command waits
    for more, and the time-out that ends the wait makes it return
    GDB_ERROR with ERR_BAD_MSG_FORMAT. *)
Theorem gdb_execute_command_console_output (g : gdb_state Srv)
    (command p : list Z) (c1 c2 : Z) (s' : Srv) :
  ack_mode_enabled g = false -> wire_in g = [] ->
  len command < 1020 ->
  react (srv g) (command_frame command)
  = (Sent (len (command_frame command)),
     [Data (str "$O" ++ p ++ str "#" ++ [c1; c2])], s') ->
  ~ In 35 p -> len p + 5 < TCP_BUFF_LENGTH - 1 ->
  (forall p', p <> 75 :: p') ->
  let r := gdb_execute_command react command g in
  fst r = GDB_ERROR
  /\ last_gdb_error (snd r) = ERR_BAD_MSG_FORMAT
  /\ wire_out (snd r) = wire_out g ++ [command_frame command].
Proof.
  intros Hack Hin Hlen Hreact Hno Hpl HnotK r.
  assert (~ In 35 (79 :: p)) as Hno'.
  { intros [H|H]; [discriminate H | contradiction]. }
  assert (len (79 :: p) + 4 < TCP_BUFF_LENGTH - 1) as Hpl'.
  { unfold len in *. cbn [List.length]. lia. }
  pose proof (gdb_execute_command_exchange Srv react g command (79 :: p)
                c1 c2 s' Hack Hin Hlen Hreact Hno' Hpl') as X.
  cbv zeta in X. subst r. rewrite X. clear X.
  match goal with
  | |- context [bind ?m ?k ?h] => set (g2 := h); set (run := bind m k g2)
  end.
  assert (exists b2 rest,
             message_buffer g2 = 36 :: 79 :: b2 :: rest /\ b2 <> 75)
    as (b2 & rest & B & N).
  { destruct p as [|c p].
    - eexists 35, _. split; [| discriminate].
      subst g2. cbn [message_buffer set_buffer]. unfold overlay at 1.
      cbn [str app byte_of_ascii]. reflexivity.
    - exists c. eexists. split.
      + subst g2. cbn [message_buffer set_buffer]. unfold overlay at 1.
        cbn [str app byte_of_ascii]. reflexivity.
      + intros E. subst c. apply (HnotK p). reflexivity. }
  assert (exists g3, run = (GDB_ERROR, g3)
                     /\ last_gdb_error g3 = ERR_BAD_MSG_FORMAT
                     /\ wire_out g3 = wire_out g2) as (g3 & R & P1 & P2).
  { subst run. unfold bind at 1.
    rewrite gdb_error_reported_no_error
      by (rewrite B; cbn; first [reflexivity | discriminate]).
    unfold bind at 1, gets at 1. rewrite B.
    change (starts_with (str "$O") (36 :: 79 :: b2 :: rest)) with true.
    cbv iota.
    change (at_ (36 :: 79 :: b2 :: rest) 2) with b2.
    destruct (Z.eqb_spec b2 75) as [E|_]; [contradiction|]. cbn [negb].
    unfold bind at 1, gets at 1.
    destruct (O_chain_loop_silence (List.length (wire_in g2)) g2)
      as (g3 & E & L & W); [reflexivity|].
    unfold bind at 1. rewrite E. cbn [Z.eqb GDB_ERROR GDB_OK negb].
    exists g3. repeat split; assumption. }
  rewrite R. cbn [fst snd]. repeat split; assumption.
Qed.

End ConsoleOutput.

Lemma gdb_execute_command_console_output_witness :
  let g := gdb_start tt in
  let r := gdb_execute_command console_react (str "qRcmd,6869") g in
  fst r = GDB_ERROR
  /\ last_gdb_error (snd r) = ERR_BAD_MSG_FORMAT
  /\ wire_out (snd r) = wire_out g ++ [command_frame (str "qRcmd,6869")].
Proof.
  intros g.
  apply (gdb_execute_command_console_output unit console_react g
           (str "qRcmd,6869") (str "48690a") (ch "7") (ch "c") tt).
  - reflexivity.
  - reflexivity.
  - vm_compute. reflexivity.
  - reflexivity.
  - vm_compute. intros H. repeat (destruct H as [H|H]; [discriminate H|]).
    exact H.
  - vm_compute. reflexivity.
  - intros p' H. discriminate H.
Defined.

Lemma gdb_error_reported_result_witness :
  let g := set_buffer (str "$E0a#a6") (gdb_start (sample_server target_header "")) in
  last_gdb_error (snd (gdb_error_reported g)) = 16 * 0 + 10.
Proof.
  intros g.
  apply (proj1 (proj2 (proj2 (proj2 (gdb_error_reported_result mem_srv g))))
           (ch "0") (ch "a") 0 10 (str "a6")); reflexivity.
Defined.

Lemma gdb_execute_command_reply_witness :
  let g := gdb_start (mkSrv (fun _ => 0) false []) in
  let r := gdb_execute_command mem_react (str "vFoo") g in
  fst r = GDB_ERROR /\ last_gdb_error (snd r) = 0
  /\ wire_in (snd r) = []
  /\ wire_out (snd r) = wire_out g ++ [command_frame (str "vFoo")].
Proof.
  intros g.
  apply (proj1 (proj2 (gdb_execute_command_reply mem_srv mem_react g
                         (str "vFoo") [] (ch "0") (ch "0") (srv g)
                         eq_refl eq_refl eq_refl eq_refl
                         (fun H : In 35 [] => H) eq_refl))).
  left. reflexivity.
Defined.
(* ===================================================================== *)
(** ** Bounds of the memory packets                                       *)
(* ===================================================================== *)

Section PacketBounds.

Variable Srv : Type.
Variable react : Srv -> list Z -> send_outcome * list recv_ev * Srv.

Lemma gdb_get_message_sends_nothing (timeout : Z) (g : gdb_state Srv) :
  ack_mode_enabled g = false ->
  wire_out (snd (gdb_get_message react timeout g)) = wire_out g
  /\ ack_mode_enabled (snd (gdb_get_message react timeout g)) = false
  /\ srv (snd (gdb_get_message react timeout g)) = srv g.
Proof.
  intros Hack. destruct (gdb_get_message react timeout g) as [r g'] eqn:E.
  cbn [snd]. unfold gdb_get_message, bind at 1, gets at 1 in E.
  destruct (get_message_loop (wire_in g) []) as [[status got] rest].
  destruct status;
    try (unfold log_string, bind, modify, ret in E; inversion E;
         cbn; repeat split; first [reflexivity | exact Hack]).
  unfold bind at 1, modify at 1 in E. unfold bind at 1, modify at 1 in E.
  unfold bind at 1 in E.
  rewrite gdb_send_ack_off in E by exact Hack.
  unfold bind, modify, ret in E. inversion E.
  cbn. repeat split; first [reflexivity | exact Hack].
Qed.

Lemma gdb_error_reported_wire (g : gdb_state Srv) :
  wire_out (snd (gdb_error_reported g)) = wire_out g
  /\ ack_mode_enabled (snd (gdb_error_reported g)) = ack_mode_enabled g
  /\ srv (snd (gdb_error_reported g)) = srv g
  /\ wire_in (snd (gdb_error_reported g)) = wire_in g.
Proof.
  destruct (gdb_error_reported g) as [b g'] eqn:E. cbn [snd].
  unfold gdb_error_reported, bind, gets, modify, log_string, ret in E.
  destruct (negb (at_ (message_buffer g) 0 =? 36));
    [inversion E; cbn; auto|].
  destruct (negb (at_ (message_buffer g) 1 =? 69));
    [inversion E; cbn; auto|].
  destruct (at_ (message_buffer g) 4 =? 35).
  - destruct (sscanf_x _) as [[v s]|]; inversion E; cbn; auto.
  - destruct (_ && _); inversion E; cbn; auto.
Qed.

Lemma gdb_send_sends (msg : list Z) (g : gdb_state Srv) :
  msg <> [] ->
  wire_out (snd (gdb_send react msg g)) = wire_out g ++ [msg]
  /\ ack_mode_enabled (snd (gdb_send react msg g)) = ack_mode_enabled g.
Proof.
  intros H. destruct (gdb_send react msg g) as [r g'] eqn:E.
  apply (gdb_send_wire Srv react msg g g' r E H).
Qed.

(** X6.  read_memory_packet refuses a length of 0 and every length whose
    reply would not fit the message buffer (32766 bytes and more) with
    ERR_BAD_INPUT_DATA and without touching the connection; for a length of
    1 to 32765 bytes it hands exactly one buffer to the socket, the request
    [$m<address>,<length>#xx], whatever comes back (acknowledgements
    off). *)
Theorem read_memory_packet_bounds (address length : Z) (g : gdb_state Srv) :
  (length = 0 \/ 32766 <= length <= 2 ^ 31 - 3 ->
   read_memory_packet react address length g
   = ((GDB_ERROR, []), set_error ERR_BAD_INPUT_DATA g))
  /\ (1 <= length <= 32765 -> ack_mode_enabled g = false ->
      wire_out (snd (read_memory_packet react address length g))
      = wire_out g ++ [read_frame address length]).
Proof.
  split.
  - intros H. unfold read_memory_packet.
    assert ((u32 (length * 2 + 4) >? TCP_BUFF_LENGTH) || (length =? 0) = true)
      as G.
    { destruct H as [H|H]; [subst; reflexivity|].
      apply orb_true_iff. left. apply Z.gtb_lt.
      rewrite u32_small by lia. unfold TCP_BUFF_LENGTH. lia. }
    rewrite G. reflexivity.
  - intros H Hack. unfold read_memory_packet.
    assert ((u32 (length * 2 + 4) >? TCP_BUFF_LENGTH) || (length =? 0) = false)
      as G.
    { apply orb_false_iff. split.
      - rewrite u32_small by lia.
        destruct (Z.gtb_spec (length * 2 + 4) TCP_BUFF_LENGTH);
          [unfold TCP_BUFF_LENGTH in *; lia | reflexivity].
      - apply Z.eqb_neq. lia. }
    rewrite G. unfold bind at 1, modify at 1. unfold bind at 1.
    match goal with
    | |- context [gdb_send react ?m ?h] =>
        pose proof (gdb_send_sends m h) as S
    end.
    destruct (gdb_send react (read_frame address length) _) as [r1 g1].
    cbn [snd] in S.
    destruct S as [S1 S2]; [unfold read_frame, read_request; discriminate|].
    cbn [wire_out set_buffer ack_mode_enabled] in S1, S2.
    destruct (negb (r1 =? GDB_OK)); [unfold ret; cbn [snd]; exact S1|].
    unfold bind at 1.
    pose proof (gdb_get_message_sends_nothing 0 g1) as M.
    destruct (gdb_get_message react 0 g1) as [r2 g2]. cbn [snd] in M.
    destruct M as (M1 & M2 & _); [rewrite S2; exact Hack|].
    destruct (negb (r2 =? GDB_OK)); [unfold ret; cbn [snd]; congruence|].
    unfold bind at 1.
    pose proof (gdb_error_reported_wire g2) as R.
    destruct (gdb_error_reported g2) as [rep g3]. cbn [snd] in R.
    destruct R as (R1 & _).
    destruct rep; [unfold ret; cbn [snd]; congruence|].
    unfold bind at 1, gets at 1.
    destruct (strchr (cstr (message_buffer g3)) 42);
      [unfold log_string, bind, modify, ret; cbn [snd wire_out set_error add_log]; congruence|].
    destruct (negb (at_ (message_buffer g3) (length * 2 + 1) =? 35));
      [unfold log_string, bind, modify, ret; cbn [snd wire_out set_error add_log]; congruence|].
    destruct ((get_hex_digit _ <? 0) || _);
      [unfold log_string, bind, modify, ret; cbn [snd wire_out set_error add_log]; congruence|].
    destruct (decode_hex_bytes _ _ _) as [ok bs].
    destruct ok; unfold log_string, bind, modify, ret;
      cbn [snd wire_out set_error add_log]; congruence.
Qed.

End PacketBounds.

Lemma read_memory_packet_bounds_witness :
  let g := gdb_start (mkSrv (fun x => x) false []) in
  wire_out (snd (read_memory_packet mem_react 603979776 4 g))
  = wire_out g ++ [read_frame 603979776 4].
Proof.
  intros g.
  apply (proj2 (read_memory_packet_bounds mem_srv mem_react 603979776 4 g)).
  - lia.
  - reflexivity.
Defined.
(* ===================================================================== *)
(** ** Writing to the memory server                                       *)
(* ===================================================================== *)

Lemma unhex_hex_bytes (upper : bool) (data rest : list Z) :
  unhex (List.length data) (hex_bytes upper data ++ rest)
  = Some (map u8 data).
Proof.
  induction data as [|b data IH]; [reflexivity|].
  unfold hex_bytes. cbn [flat_map List.length map].
  rewrite printf_hex_byte by apply u8_range.
  cbn [app unhex].
  pose proof (u8_range b) as Hb.
  rewrite !hex_val_hex_char by zdiv.
  fold (hex_bytes upper data). rewrite IH.
  f_equal. f_equal. zdiv.
Qed.

Lemma write_frame_shape (data : list Z) (address length : Z) :
  0 < length <= 32757 -> List.length data = Z.to_nat length ->
  write_frame data address length
  = 36 :: 77 :: printf_hex true 8 address
         ++ 44 :: printf_hex true 4 length
         ++ 58 :: hex_bytes true data
         ++ 35 :: hex_fixed true 2
                    (payload_sum (write_payload data address length)).
Proof.
  intros Hl Ld. rewrite write_frame_rsp by assumption.
  unfold rsp_frame, write_payload.
  change (str "$") with [36]. change (str "M") with [77].
  change (str ",") with [44]. change (str ":") with [58].
  change (str "#") with [35].
  cbn [app]. repeat first [rewrite <- app_assoc | rewrite <- app_comm_cons].
  reflexivity.
Qed.

Lemma mem_react_write (s : mem_srv) (data : list Z) (address length : Z) :
  srv_ack s = false -> 0 < length <= 32757 ->
  List.length data = Z.to_nat length ->
  mem_react s (write_frame data address length)
  = (Sent (len (write_frame data address length)),
     [Data (reply (str "OK"))],
     mkSrv (mem_store (mem s) (u32 address) (map u8 data)) false
       (capabilities s)).
Proof.
  intros Hack Hl Ld.
  rewrite (write_frame_shape data address length Hl Ld) at 1.
  unfold mem_react. cbv beta iota zeta.
  rewrite scan_printf_hex. cbn [scan_hex_digits].
  change (hex_val 44) with (@None Z). cbv beta iota.
  rewrite scan_printf_hex. cbn [scan_hex_digits].
  change (hex_val 58) with (@None Z). cbv beta iota.
  rewrite (u32_small length) by lia. rewrite <- Ld.
  rewrite unhex_hex_bytes. rewrite Hack.
  rewrite <- (write_frame_shape data address length Hl Ld). reflexivity.
Qed.

Section Accepted.

Variable Srv : Type.
Variable react : Srv -> list Z -> send_outcome * list recv_ev * Srv.

Lemma gdb_send_accepted (g : gdb_state Srv) (request : list Z)
    (w : list recv_ev) (s' : Srv) :
  request <> [] ->
  react (srv g) request = (Sent (len request), w, s') ->
  gdb_send react request g
  = (GDB_OK, set_wire s' (wire_in g ++ w) (wire_out g ++ [request]) g).
Proof.
  intros Hne Hreact. unfold gdb_send.
  destruct (Z.leb_spec (len request) 0) as [Hl|Hl].
  { destruct request; [congruence | unfold len in Hl; cbn in Hl; lia]. }
  unfold bind at 1, gets at 1. rewrite Hreact.
  unfold bind at 1, modify at 1. rewrite Z.eqb_refl. reflexivity.
Qed.

End Accepted.

Lemma reply_OK_complete : complete_frame (reply (str "OK")).
Proof.
  apply (frame_complete (str "OK") 57 97).
  - intros [H|[H|H]]; [discriminate H | discriminate H | exact H].
  - reflexivity.
Qed.

Lemma write_frame_nonempty (data : list Z) (address length : Z) :
  write_frame data address length <> [].
Proof.
  unfold write_frame. intros H. apply app_eq_nil in H. destruct H as [_ H].
  discriminate H.
Qed.

Lemma write_memory_packet_mem (g : gdb_state mem_srv) (buffer : list Z)
    (address length : Z) :
  quiet g -> 1 <= length <= 32757 ->
  (Z.to_nat length <= List.length buffer)%nat ->
  exists g',
    write_memory_packet mem_react buffer address length g = (GDB_OK, g')
    /\ quiet g'
    /\ mem (srv g')
       = mem_store (mem (srv g)) (u32 address)
           (map u8 (firstn (Z.to_nat length) buffer))
    /\ capabilities (srv g') = capabilities (srv g)
    /\ max_memo_write_packet_size g' = max_memo_write_packet_size g
    /\ max_memo_read_packet_size g' = max_memo_read_packet_size g
    /\ last_gdb_error g' = last_gdb_error g
    /\ wire_out g'
       = wire_out g
         ++ [write_frame (firstn (Z.to_nat length) buffer) address length].
Proof.
  intros (Hw & Ha & Hs) Hl Hb.
  set (data := firstn (Z.to_nat length) buffer).
  assert (List.length data = Z.to_nat length) as Ld
    by (unfold data; rewrite firstn_length_le; lia).
  unfold write_memory_packet.
  replace ((u32 (length * 2 + 16 + 4) >? TCP_BUFF_LENGTH) || (length =? 0))
    with false.
  2:{ symmetry. apply orb_false_iff. split.
      - rewrite u32_small by lia. rewrite Z.gtb_ltb. apply Z.ltb_ge.
        unfold TCP_BUFF_LENGTH. lia.
      - apply Z.eqb_neq. lia. }
  fold data. cbv zeta.
  unfold bind at 1, modify at 1. unfold bind at 1.
  rewrite (gdb_send_accepted mem_srv mem_react _ _
             [Data (reply (str "OK"))]
             (mkSrv (mem_store (mem (srv g)) (u32 address) (map u8 data))
                false (capabilities (srv g)))
             (write_frame_nonempty data address length)).
  2:{ cbn [srv set_buffer]. apply mem_react_write; [exact Hs | lia | exact Ld]. }
  change (negb (GDB_OK =? GDB_OK)) with false. cbv iota.
  cbn [wire_in wire_out set_buffer]. rewrite Hw. cbn [app].
  unfold bind at 1.
  rewrite (gdb_get_message_quiet mem_srv mem_react 0 _ (reply (str "OK")) []).
  2:{ exact Ha. }
  2:{ cbn [wire_in set_wire].
      apply (get_message_loop_delivers _ _ _ (delivers_last _ _ _) []).
      exact reply_OK_complete. }
  change (negb (GDB_OK =? GDB_OK)) with false. cbv iota.
  unfold bind at 1, gets at 1.
  cbn [message_buffer set_buffer].
  match goal with
  | |- context [starts_with (str "$OK#") ?b] =>
      replace (starts_with (str "$OK#") b) with true by reflexivity
  end.
  eexists. split; [reflexivity|].
  unfold quiet.
  cbn [wire_in wire_out ack_mode_enabled srv set_buffer set_wire_in set_wire
         mem srv_ack capabilities max_memo_write_packet_size
         max_memo_read_packet_size last_gdb_error].
  repeat split; try reflexivity; assumption.
Qed.

Lemma mem_store_app (m : Z -> Z) (a : Z) (d1 d2 : list Z) (x : Z) :
  0 <= a < 2 ^ 32 -> len d1 + len d2 <= 2 ^ 32 ->
  mem_store (mem_store m a d1) (u32 (a + len d1)) d2 x
  = mem_store m a (d1 ++ d2) x.
Proof.
  intros Ha Hl. unfold mem_store. rewrite len_app.
  pose proof (len_nonneg d1) as H1. pose proof (len_nonneg d2) as H2.
  assert (u32 (x - u32 (a + len d1)) = u32 (x - a) - len d1
          \/ u32 (x - u32 (a + len d1)) = u32 (x - a) - len d1 + 2 ^ 32) as K.
  { unfold u32. zdiv. }
  pose proof (u32_range (x - a)) as R1.
  pose proof (u32_range (x - u32 (a + len d1))) as R2.
  destruct (Z.ltb_spec (u32 (x - u32 (a + len d1))) (len d2)) as [A|A];
    destruct (Z.ltb_spec (u32 (x - a)) (len d1 + len d2)) as [B|B];
    destruct (Z.ltb_spec (u32 (x - a)) (len d1)) as [C|C];
    try lia; try reflexivity.
  - rewrite app_nth2 by (unfold len in *; lia).
    f_equal. unfold len in *. lia.
  - rewrite app_nth1 by (unfold len in *; lia). reflexivity.
Qed.

Lemma firstn_add (l : list Z) (a b : nat) :
  firstn (a + b) l = firstn a l ++ firstn b (skipn a l).
Proof.
  revert l. induction a as [|a IH]; intros l; [reflexivity|].
  destruct l as [|c l]; [cbn; rewrite firstn_nil; reflexivity|].
  cbn [Nat.add firstn skipn app]. rewrite IH. reflexivity.
Qed.

Lemma write_loop_mem (fuel : nat) (buffer : list Z) (address length : Z) :
  forall (data_written : Z) (g : gdb_state mem_srv),
    quiet g -> 0 <= data_written < length -> length < 2 ^ 32 ->
    (Z.to_nat (length - data_written) <= fuel)%nat ->
    (Z.to_nat length <= List.length buffer)%nat ->
    1 <= u32 (max_memo_write_packet_size g) ->
    u32 (max_memo_write_packet_size g) <= 32757
    \/ length - data_written <= 32757 ->
    exists g',
      write_loop mem_react fuel buffer address length data_written g
      = (GDB_OK, g')
      /\ quiet g'
      /\ (forall x,
             mem (srv g') x
             = mem_store (mem (srv g)) (u32 (address + data_written))
                 (map u8 (firstn (Z.to_nat (length - data_written))
                            (skipn (Z.to_nat data_written) buffer))) x)
      /\ capabilities (srv g') = capabilities (srv g)
      /\ max_memo_read_packet_size g' = max_memo_read_packet_size g
      /\ last_gdb_error g' = last_gdb_error g.
Proof.
  induction fuel as [|f IH];
    intros data_written g Hq Hd Hl Hf Hb Hm1 Hm2; [lia|].
  cbn [write_loop]. unfold bind at 1, gets at 1.
  rewrite (u32_small (length - data_written)) by lia.
  set (ps := if length - data_written >? u32 (max_memo_write_packet_size g)
             then u32 (max_memo_write_packet_size g)
             else length - data_written).
  assert (1 <= ps <= length - data_written /\ ps <= 32757) as (Hps & Hps').
  { subst ps.
    destruct (Z.gtb_spec (length - data_written)
                (u32 (max_memo_write_packet_size g))); lia. }
  destruct (write_memory_packet_mem g (skipn (Z.to_nat data_written) buffer)
              (u32 (address + data_written)) ps Hq)
    as (g1 & E1 & Hq1 & M1 & C1 & W1 & R1 & L1 & _); [lia | |].
  { rewrite length_skipn. lia. }
  rewrite (u32_small (u32 (address + data_written))) in M1
    by apply u32_range.
  unfold bind at 1. rewrite E1.
  change (negb (GDB_OK =? GDB_OK)) with false. cbv iota.
  rewrite (u32_small (data_written + ps)) by lia.
  set (s := skipn (Z.to_nat data_written) buffer) in *.
  destruct (Z.ltb_spec (data_written + ps) length) as [Hlt|Hge].
  - destruct (IH (data_written + ps) g1 Hq1) as
        (g' & E' & Hq' & M' & C' & R' & L'); try lia.
    { rewrite W1. exact Hm1. }
    { rewrite W1. destruct Hm2; [left; assumption | right; lia]. }
    exists g'. split; [exact E'|]. split; [exact Hq'|].
    split; [| repeat split; congruence].
    intros x. rewrite M'. rewrite M1.
    replace (u32 (address + (data_written + ps)))
      with (u32 (u32 (address + data_written) + len (map u8 (firstn (Z.to_nat ps) s)))).
    2:{ rewrite u32_add_idemp. f_equal. unfold len.
        rewrite length_map, firstn_length_le
          by (unfold s; rewrite length_skipn; lia). lia. }
    rewrite mem_store_app.
    + f_equal. rewrite <- map_app. f_equal.
      replace (Z.to_nat (length - data_written))
        with (Z.to_nat ps + Z.to_nat (length - (data_written + ps)))%nat
        by lia.
      rewrite firstn_add. f_equal. f_equal. unfold s.
      rewrite skipn_skipn. f_equal. lia.
    + apply u32_range.
    + unfold len. rewrite !length_map.
      pose proof (firstn_le_length (Z.to_nat ps) s).
      pose proof (firstn_le_length (Z.to_nat (length - (data_written + ps)))
                    (skipn (Z.to_nat (data_written + ps)) buffer)).
      lia.
  - exists g1. split; [reflexivity|]. split; [exact Hq1|].
    split; [| repeat split; assumption].
    intros x. rewrite M1.
    replace ps with (length - data_written) by lia. reflexivity.
Qed.

Lemma gdb_write_memory_mem (g : gdb_state mem_srv) (buffer : list Z)
    (address length : Z) :
  quiet g -> 0 < length < 2 ^ 32 ->
  (Z.to_nat length <= List.length buffer)%nat ->
  1 <= u32 (max_memo_write_packet_size g) ->
  u32 (max_memo_write_packet_size g) <= 32757 \/ length <= 32757 ->
  exists g',
    gdb_write_memory mem_react buffer address length g = (GDB_OK, g')
    /\ quiet g'
    /\ (forall x,
           mem (srv g') x
           = mem_store (mem (srv g)) (u32 address)
               (map u8 (firstn (Z.to_nat length) buffer)) x)
    /\ capabilities (srv g') = capabilities (srv g)
    /\ max_memo_read_packet_size g' = max_memo_read_packet_size g
    /\ last_gdb_error g' = 0.
Proof.
  intros Hq Hl Hb Hm1 Hm2. unfold gdb_write_memory, log_string.
  unfold bind at 1, modify at 1.
  replace (length <? 1) with false by (symmetry; apply Z.ltb_ge; lia).
  unfold bind at 1, modify at 1.
  match goal with
  | |- context [write_loop _ _ _ _ _ _ ?h] => set (g0 := h)
  end.
  destruct (write_loop_mem (Z.to_nat length) buffer address length 0 g0)
    as (g' & E & Hq' & M & C & R & L); try lia.
  - destruct Hq as (H1 & H2 & H3). repeat split; assumption.
  - exact Hm1.
  - destruct Hm2; [left; assumption | right; lia].
  - exists g'. split; [exact E|]. split; [exact Hq'|].
    split; [| repeat split; assumption].
    intros x. rewrite M. rewrite Z.add_0_r, Z.sub_0_r. reflexivity.
Qed.

Lemma mem_bytes_ext (m1 m2 : Z -> Z) (a : Z) (n : nat) :
  (forall x, m1 x = m2 x) -> mem_bytes m1 a n = mem_bytes m2 a n.
Proof.
  intros H. unfold mem_bytes. apply map_ext. intros i. rewrite H. reflexivity.
Qed.

(** Reading back what has been stored. *)
Lemma mem_bytes_store (m : Z -> Z) (a : Z) (data : list Z) :
  len data <= 2 ^ 32 ->
  mem_bytes (mem_store m (u32 a) data) a (List.length data) = map u8 data.
Proof.
  intros Hl. unfold mem_bytes.
  transitivity (map u8 (map (fun i => nth i data 0)
                          (seq 0 (List.length data)))).
  2:{ rewrite map_nth_seq by lia. rewrite firstn_all. reflexivity. }
  rewrite map_map. apply map_ext_in. intros i Hi. apply in_seq in Hi.
  unfold mem_store.
  assert (u32 (u32 (a + Z.of_nat i) - u32 a) = Z.of_nat i) as K.
  { unfold len in Hl. unfold u32. zdiv. }
  rewrite K.
  destruct (Z.ltb_spec (Z.of_nat i) (len data)) as [H|H];
    [| unfold len in H; lia].
  rewrite Nat2Z.id. reflexivity.
Qed.

Lemma map_u8_bytes (data : list Z) : Forall is_byte data -> map u8 data = data.
Proof.
  induction 1 as [|b data Hb _ IH]; [reflexivity|].
  cbn [map]. rewrite IH, u8_small by exact Hb. reflexivity.
Qed.

(** X7.  Against a server in front of a memory: gdb_write_memory of [N]
    bytes followed by gdb_read_memory of the same [N] bytes at the same
    address returns the bytes written, whatever the chunk sizes (within
    what fits the message buffer), and the write leaves every address
    outside the block as it was. *)
Theorem write_read_roundtrip (g : gdb_state mem_srv) (data : list Z)
    (address N : Z) :
  quiet g -> 0 < N < 2 ^ 32 ->
  List.length data = Z.to_nat N -> Forall is_byte data ->
  1 <= max_memo_write_packet_size g <= 32757 ->
  1 <= max_memo_read_packet_size g <= 32764 ->
  exists g1 g2,
    gdb_write_memory mem_react data address N g = (GDB_OK, g1)
    /\ gdb_read_memory mem_react address N g1 = ((GDB_OK, data), g2)
    /\ (forall x, N <= u32 (x - u32 address) ->
                  mem (srv g1) x = mem (srv g) x).
Proof.
  intros Hq HN Ld Fd Hw Hr.
  destruct (gdb_write_memory_mem g data address N Hq HN)
    as (g1 & E1 & Hq1 & M1 & _ & R1 & _);
    try (rewrite u32_small by lia); try lia.
  rewrite <- Ld, firstn_all, (map_u8_bytes data Fd) in M1.
  destruct (gdb_read_memory_mem g1 address N Hq1 HN)
    as (g2 & E2 & _);
    try (rewrite R1, u32_small by lia); try lia.
  exists g1, g2. split; [exact E1|]. split.
  - rewrite E2. f_equal. f_equal.
    rewrite (mem_bytes_ext _ _ _ _ M1). rewrite <- Ld.
    rewrite mem_bytes_store by (unfold len; lia).
    apply map_u8_bytes. exact Fd.
  - intros x Hx. rewrite M1. unfold mem_store.
    destruct (Z.ltb_spec (u32 (x - u32 address)) (len data)) as [H|H];
      [unfold len in H; lia | reflexivity].
Qed.

Lemma write_read_roundtrip_witness :
  let g := negotiated (fun _ => 0) "$PacketSize=20;QStartNoAckMode+#00" in
  exists g1 g2,
    gdb_write_memory mem_react [1; 2; 3; 4; 5; 6; 7] 603979776 7 g
    = (GDB_OK, g1)
    /\ gdb_read_memory mem_react 603979776 7 g1
       = ((GDB_OK, [1; 2; 3; 4; 5; 6; 7]), g2)
    /\ (forall x, 7 <= u32 (x - u32 603979776) ->
                  mem (srv g1) x = mem (srv g) x).
Proof.
  intros g.
  apply (write_read_roundtrip g [1; 2; 3; 4; 5; 6; 7] 603979776 7).
  - repeat split; reflexivity.
  - lia.
  - reflexivity.
  - repeat constructor; unfold is_byte; lia.
  - vm_compute. split; discriminate.
  - vm_compute. split; discriminate.
Defined.
(* ===================================================================== *)
(** ** What is negotiated stays as negotiated                             *)
(* ===================================================================== *)

Section Settings.

Variable Srv : Type.
Variable react : Srv -> list Z -> send_outcome * list recv_ev * Srv.

Local Abbreviation keeps m :=
  (forall g r g', m g = (r, g') -> settings g' = settings g).

Lemma keeps_ret {T : Type} (x : T) : keeps (ret (S:=gdb_state Srv) x).
Proof. intros g r g' H. inversion H. reflexivity. Qed.

Lemma keeps_bind {T U : Type} (m : G Srv T) (k : T -> G Srv U) :
  keeps m -> (forall x, keeps (k x)) -> keeps (bind m k).
Proof.
  intros Hm Hk g r g' H. apply bind_inv in H.
  destruct H as (x & g1 & E1 & E2).
  rewrite (Hk x _ _ _ E2). exact (Hm _ _ _ E1).
Qed.

Lemma keeps_modify (f : gdb_state Srv -> gdb_state Srv) :
  (forall g, settings (f g) = settings g) -> keeps (modify f).
Proof. intros Hf g r g' H. inversion H. apply Hf. Qed.

Lemma keeps_gets {T : Type} (f : gdb_state Srv -> T) : keeps (gets f).
Proof. intros g r g' H. inversion H. reflexivity. Qed.

Lemma keeps_log (t : string) : keeps (log_string (Srv:=Srv) t).
Proof. apply keeps_modify. reflexivity. Qed.

Lemma keeps_set_error (e : Z) : keeps (modify (set_error (Srv:=Srv) e)).
Proof. apply keeps_modify. reflexivity. Qed.

Ltac keeps_step :=
  first
    [ apply keeps_ret
    | apply keeps_log
    | apply keeps_set_error
    | apply keeps_gets
    | apply keeps_modify; reflexivity
    | apply keeps_bind; [| intros ?]
    | match goal with
      | |- forall g r g', (if ?c then _ else _) g = _ -> _ => destruct c
      | |- forall g r g', (match ?c with _ => _ end) g = _ -> _ => destruct c
      | |- forall g r g', (let '(_, _) := ?c in _) g = _ -> _ => destruct c
      end ].

Lemma gdb_send_keeps (msg : list Z) : keeps (gdb_send react msg).
Proof.
  unfold gdb_send. destruct (len msg <=? 0); [repeat keeps_step|].
  apply keeps_bind; [apply keeps_gets | intros g0].
  destruct (react (srv g0) msg) as [[res evs] s'].
  apply keeps_bind; [apply keeps_modify; reflexivity | intros _].
  destruct res; repeat keeps_step.
Qed.

Lemma gdb_send_ack_keeps : keeps (gdb_send_ack react).
Proof.
  unfold gdb_send_ack. apply keeps_bind; [apply keeps_gets | intros ack].
  destruct ack; [| apply keeps_ret].
  apply keeps_bind; [apply gdb_send_keeps | intros _; apply keeps_ret].
Qed.

Lemma gdb_get_message_keeps (timeout : Z) :
  keeps (gdb_get_message react timeout).
Proof.
  unfold gdb_get_message. apply keeps_bind; [apply keeps_gets | intros g0].
  destruct (get_message_loop (wire_in g0) []) as [[status got] rest].
  apply keeps_bind; [apply keeps_modify; reflexivity | intros _].
  destruct status; repeat first [apply gdb_send_ack_keeps | keeps_step].
Qed.

Lemma gdb_error_reported_keeps : keeps (gdb_error_reported (Srv:=Srv)).
Proof. unfold gdb_error_reported. repeat keeps_step. Qed.

Lemma read_memory_packet_keeps (address length : Z) :
  keeps (read_memory_packet react address length).
Proof.
  unfold read_memory_packet.
  repeat first [apply gdb_send_keeps | apply gdb_get_message_keeps
               | apply gdb_error_reported_keeps | keeps_step].
Qed.

Lemma read_loop_keeps (fuel : nat) (address length : Z) :
  forall data_read acc, keeps (read_loop react fuel address length data_read acc).
Proof.
  induction fuel as [|f IH]; intros data_read acc; cbn [read_loop].
  - apply keeps_ret.
  - apply keeps_bind; [apply keeps_gets | intros mx].
    apply keeps_bind; [apply read_memory_packet_keeps | intros [res bytes]].
    cbv beta iota zeta.
    destruct (negb (res =? GDB_OK)); [apply keeps_ret|].
    destruct (_ <? length); [apply IH | apply keeps_ret].
Qed.

Lemma gdb_read_memory_keeps (address length : Z) :
  keeps (gdb_read_memory react address length).
Proof.
  unfold gdb_read_memory.
  repeat first [apply read_loop_keeps | keeps_step].
Qed.

Lemma write_memory_packet_keeps (buffer : list Z) (address length : Z) :
  keeps (write_memory_packet react buffer address length).
Proof.
  unfold write_memory_packet.
  repeat first [apply gdb_send_keeps | apply gdb_get_message_keeps
               | apply gdb_error_reported_keeps | keeps_step].
Qed.

Lemma write_loop_keeps (fuel : nat) (buffer : list Z) (address length : Z) :
  forall data_written,
    keeps (write_loop react fuel buffer address length data_written).
Proof.
  induction fuel as [|f IH]; intros data_written; cbn [write_loop].
  - apply keeps_ret.
  - apply keeps_bind; [apply keeps_gets | intros mx].
    apply keeps_bind; [apply write_memory_packet_keeps | intros res].
    destruct (negb (res =? GDB_OK)); [apply keeps_ret|].
    destruct (_ <? length); [apply IH | apply keeps_ret].
Qed.

Lemma gdb_write_memory_keeps (buffer : list Z) (address length : Z) :
  keeps (gdb_write_memory react buffer address length).
Proof.
  unfold gdb_write_memory.
  repeat first [apply write_loop_keeps | keeps_step].
Qed.

Lemma gdb_send_command_keeps (command : list Z) :
  keeps (gdb_send_command react command).
Proof.
  unfold gdb_send_command.
  repeat first [apply gdb_send_keeps | keeps_step].
Qed.

Lemma O_chain_loop_keeps (fuel : nat) : keeps (O_chain_loop react fuel).
Proof.
  induction fuel as [|f IH]; cbn [O_chain_loop]; [apply keeps_ret|].
  apply keeps_bind.
  { unfold print_O_type_message. repeat keeps_step. }
  intros _. apply keeps_bind; [apply gdb_get_message_keeps | intros res].
  destruct (res >? 0); [| exact IH].
  repeat first [apply gdb_error_reported_keeps | keeps_step].
Qed.

Lemma gdb_execute_command_keeps (command : list Z) :
  keeps (gdb_execute_command react command).
Proof.
  unfold gdb_execute_command, get_core_content, gdb_flush_socket.
  repeat first [apply gdb_send_command_keeps | apply gdb_get_message_keeps
               | apply gdb_error_reported_keeps | apply O_chain_loop_keeps
               | keeps_step].
Qed.

Lemma gdb_detach_keeps (detach : bool) : keeps (gdb_detach react detach).
Proof.
  unfold gdb_detach.
  repeat first [apply gdb_send_command_keeps | apply gdb_get_message_keeps
               | keeps_step].
Qed.

(** X8.  The acknowledgement mode and the packet sizes are set by the
    handshake alone: memory reads and writes, commands and the detach
    leave them as they find them, whatever the server does. *)
Theorem transfers_keep_settings :
  (forall address length (g : gdb_state Srv),
      settings (snd (gdb_read_memory react address length g)) = settings g)
  /\ (forall buffer address length (g : gdb_state Srv),
         settings (snd (gdb_write_memory react buffer address length g))
         = settings g)
  /\ (forall command (g : gdb_state Srv),
         settings (snd (gdb_execute_command react command g)) = settings g)
  /\ (forall detach (g : gdb_state Srv),
         settings (snd (gdb_detach react detach g)) = settings g).
Proof.
  split; [| split; [| split]].
  - intros address length g.
    destruct (gdb_read_memory react address length g) as [r g'] eqn:E.
    exact (gdb_read_memory_keeps address length g r g' E).
  - intros buffer address length g.
    destruct (gdb_write_memory react buffer address length g) as [r g'] eqn:E.
    exact (gdb_write_memory_keeps buffer address length g r g' E).
  - intros command g.
    destruct (gdb_execute_command react command g) as [r g'] eqn:E.
    exact (gdb_execute_command_keeps command g r g' E).
  - intros detach g.
    destruct (gdb_detach react detach g) as [r g'] eqn:E.
    exact (gdb_detach_keeps detach g r g' E).
Qed.

End Settings.

(* ===================================================================== *)
(** ** The snapshot against the memory server                             *)
(* ===================================================================== *)

Lemma settings_sizes {Srv : Type} (g g' : gdb_state Srv) :
  settings g' = settings g ->
  max_memo_read_packet_size g' = max_memo_read_packet_size g
  /\ max_memo_write_packet_size g' = max_memo_write_packet_size g.
Proof. unfold settings. intros H. inversion H. split; reflexivity. Qed.

Lemma gdb_read_memory_link (g : gdb_state mem_srv) (address length : Z) :
  link_ok g -> 0 < length < 2 ^ 32 ->
  exists g',
    gdb_read_memory mem_react address length g
    = ((GDB_OK, mem_bytes (mem (srv g)) address (Z.to_nat length)), g')
    /\ link_ok g' /\ srv g' = srv g.
Proof.
  intros (Hq & Hr & Hw) Hl.
  destruct (gdb_read_memory_mem g address length Hq Hl)
    as (g' & E & Hq' & Hs);
    try (rewrite u32_small by lia); try lia.
  exists g'. split; [exact E|]. split; [| exact Hs].
  destruct (settings_sizes g g'
              (gdb_read_memory_keeps mem_srv mem_react address length
                 g _ g' E)) as [S1 S2].
  unfold link_ok. rewrite S1, S2. auto.
Qed.

Lemma gdb_write_memory_link (g : gdb_state mem_srv) (buffer : list Z)
    (address length : Z) :
  link_ok g -> 0 < length < 2 ^ 32 ->
  (Z.to_nat length <= List.length buffer)%nat ->
  exists g',
    gdb_write_memory mem_react buffer address length g = (GDB_OK, g')
    /\ link_ok g'
    /\ (forall x,
           mem (srv g') x
           = mem_store (mem (srv g)) (u32 address)
               (map u8 (firstn (Z.to_nat length) buffer)) x).
Proof.
  intros (Hq & Hr & Hw) Hl Hb.
  destruct (gdb_write_memory_mem g buffer address length Hq Hl Hb)
    as (g' & E & Hq' & M & _);
    try (rewrite u32_small by lia); try lia.
  exists g'. split; [exact E|]. split; [| exact M].
  destruct (settings_sizes g g'
              (gdb_write_memory_keeps mem_srv mem_react buffer address
                 length g _ g' E)) as [S1 S2].
  unfold link_ok. rewrite S1, S2. auto.
Qed.

Lemma lift_eq {Srv T : Type} (m : G Srv T) (a : app_state Srv) (r : T)
    (g' : gdb_state Srv) :
  m (gdb a) = (r, g') -> lift m a = (r, set_gdb g' a).
Proof. intros H. unfold lift. rewrite H. reflexivity. Qed.

Lemma mem_bytes_same (m m' : Z -> Z) (w a : Z) (n : nat) :
  same_but_word w m m' ->
  (forall i, (i < n)%nat -> 4 <= u32 (a + Z.of_nat i - w)) ->
  mem_bytes m' a n = mem_bytes m a n.
Proof.
  intros H Hi. unfold mem_bytes. apply map_ext_in. intros i Hin.
  apply in_seq in Hin. rewrite H; [reflexivity|].
  specialize (Hi i ltac:(lia)). 
  replace (u32 (u32 (a + Z.of_nat i) - u32 w)) with (u32 (a + Z.of_nat i - w));
    [exact Hi|].
  unfold u32. zdiv.
Qed.


Lemma same_env_refl {Srv : Type} (a : app_state Srv) : same_env a a.
Proof. repeat split. Qed.

Lemma same_env_trans {Srv : Type} (a b c : app_state Srv) :
  same_env a b -> same_env b c -> same_env a c.
Proof.
  intros (A1 & A2 & A3 & A4) (B1 & B2 & B3 & B4).
  repeat split; congruence.
Qed.

Lemma le32_overlay (bytes tl : list Z) :
  List.length bytes = 4%nat -> le32 (overlay bytes tl) = le32 bytes.
Proof.
  intros L. unfold le32, overlay.
  rewrite !at_app_l by (unfold len; rewrite L; lia). reflexivity.
Qed.

Lemma link_ok_log (t : string) (g : gdb_state mem_srv) :
  link_ok g -> link_ok (add_log t g).
Proof. intros H. exact H. Qed.

Lemma gdb_handle_unexpected_messages_quiet (g : gdb_state mem_srv) :
  link_ok g ->
  exists g0, gdb_handle_unexpected_messages g = (tt, g0)
             /\ link_ok g0 /\ srv g0 = srv g.
Proof.
  intros ((Hw & Ha & Hs) & Hr & Hwr).
  unfold gdb_handle_unexpected_messages, modify. eexists.
  split; [reflexivity|].
  unfold link_ok, quiet.
  cbn [wire_in ack_mode_enabled srv set_wire_in set_wire set_buffer
         max_memo_read_packet_size max_memo_write_packet_size].
  rewrite Hw. cbn [drain]. auto.
Qed.

(** Step 1: the filter word is read. *)
Lemma read_old_filter_mem (a : app_state mem_srv) :
  link_ok (gdb a) ->
  exists g1,
    read_old_filter mem_srv mem_react a
    = (GDB_OK, set_old_msg_filter (target_filter_word a) (set_gdb g1 a))
    /\ link_ok g1 /\ srv g1 = srv (gdb a).
Proof.
  intros Hl. unfold read_old_filter.
  destruct (gdb_handle_unexpected_messages_quiet _ Hl) as (g0 & E0 & L0 & S0).
  rewrite (bind_eq _ _ _ _ _ (lift_eq _ _ _ _ E0)).
  unfold bind at 1, gets at 1.
  destruct (gdb_read_memory_link g0
              (MESSAGE_FILTER_ADDRESS (set_gdb g0 a)) 4 L0)
    as (g1 & E1 & L1 & S1); [lia|].
  rewrite (bind_eq _ _ _ _ _ (lift_eq _ (set_gdb g0 a) _ _ E1)).
  cbv beta iota zeta. unfold bind, modify, ret.
  exists g1. split; [| split; [exact L1 | congruence]].
  f_equal. unfold target_filter_word, tmem.
  rewrite le32_overlay by apply mem_bytes_length.
  unfold MESSAGE_FILTER_ADDRESS. cbn [parameters set_gdb].
  rewrite mem_bytes_u32, S0.
  change (Z.to_nat 4) with 4%nat. reflexivity.
Qed.


Lemma same_but_word_refl (w : Z) (m : Z -> Z) : same_but_word w m m.
Proof. intros x _. reflexivity. Qed.

Lemma same_but_word_store (w : Z) (m m' : Z -> Z) (d : list Z) :
  List.length d = 4%nat ->
  (forall x, m' x = mem_store m (u32 w) d x) -> same_but_word w m m'.
Proof.
  intros L H x Hx. rewrite H. unfold mem_store.
  destruct (Z.ltb_spec (u32 (x - u32 w)) (len d)) as [K|K];
    [unfold len in K; lia | reflexivity].
Qed.

Lemma mem_bytes_stored (m m' : Z -> Z) (w : Z) (d : list Z) :
  len d <= 2 ^ 32 ->
  (forall x, m' x = mem_store m (u32 w) d x) ->
  mem_bytes m' w (List.length d) = map u8 d.
Proof.
  intros L H. rewrite (mem_bytes_ext _ _ _ _ H). apply mem_bytes_store.
  exact L.
Qed.

(** Step 2: logging is paused when the filter is not zero; either way the
    filter word of the target reads zero afterwards, and nothing else has
    changed. *)
Lemma pause_if_logging_mem (a : app_state mem_srv) :
  link_ok (gdb a) -> old_msg_filter a = target_filter_word a ->
  exists g2,
    pause_if_logging mem_srv mem_react a = (GDB_OK, set_gdb g2 a)
    /\ link_ok g2
    /\ same_but_word (Par.start_address (parameters a) + 4) (tmem a)
         (mem (srv g2))
    /\ le32 (mem_bytes (mem (srv g2))
               (Par.start_address (parameters a) + 4) 4) = 0.
Proof.
  intros Hl Hold. unfold pause_if_logging, bind at 1, gets at 1.
  destruct (Z.eqb_spec (old_msg_filter a) 0) as [E|E]; cbn [negb].
  - exists (gdb a). split; [destruct a; reflexivity|].
    split; [exact Hl|]. split; [apply same_but_word_refl|].
    rewrite <- E, Hold. reflexivity.
  - unfold pause_data_logging, bind at 1, gets at 1.
    destruct (gdb_write_memory_link (gdb a) [0; 0; 0; 0]
                (MESSAGE_FILTER_ADDRESS a) 4 Hl)
      as (g2 & E2 & L2 & M2); [lia | cbn; lia |].
    rewrite (lift_eq _ _ _ _ E2).
    exists g2. split; [reflexivity|]. split; [exact L2|].
    unfold MESSAGE_FILTER_ADDRESS in M2.
    rewrite (u32_small (u32 _)) in M2 by apply u32_range.
    change (map u8 (firstn (Z.to_nat 4) [0; 0; 0; 0])) with [0; 0; 0; 0] in M2.
    split.
    + apply (same_but_word_store _ _ _ [0; 0; 0; 0]); [reflexivity | exact M2].
    + change 4%nat with (List.length [0; 0; 0; 0]).
      rewrite (mem_bytes_stored _ _ _ [0; 0; 0; 0]
                 ltac:(unfold len; cbn [List.length]; lia) M2).
      reflexivity.
Qed.


Lemma overlay_same_length (data old : list Z) :
  List.length old = List.length data -> overlay data old = data.
Proof.
  intros L. unfold overlay. rewrite <- L, skipn_all. apply app_nil_r.
Qed.

Lemma to_bytes_length (h : Hdr.t) : List.length (Hdr.to_bytes h) = 24%nat.
Proof. reflexivity. Qed.

Lemma le32_range (b : list Z) :
  Forall is_byte b -> (4 <= List.length b)%nat -> 0 <= le32 b < 2 ^ 32.
Proof.
  intros F L. destruct b as [|b0 [|b1 [|b2 [|b3 tl]]]]; cbn in L; try lia.
  inversion F as [|? ? H0 F1]; subst. inversion F1 as [|? ? H1 F2]; subst.
  inversion F2 as [|? ? H2 F3]; subst. inversion F3 as [|? ? H3 _]; subst.
  unfold le32.
  change (at_ (b0 :: b1 :: b2 :: b3 :: tl) 0) with b0.
  change (at_ (b0 :: b1 :: b2 :: b3 :: tl) 1) with b1.
  change (at_ (b0 :: b1 :: b2 :: b3 :: tl) 2) with b2.
  change (at_ (b0 :: b1 :: b2 :: b3 :: tl) 3) with b3.
  unfold is_byte in *. lia.
Qed.

Lemma target_hdr_buffer_size (a : app_state mem_srv) :
  0 <= Hdr.buffer_size (target_hdr a) < 2 ^ 32.
Proof.
  unfold target_hdr, Hdr.of_bytes. cbn [Hdr.buffer_size].
  apply le32_range.
  - pose proof (mem_bytes_is_byte (tmem a)
                  (Par.start_address (parameters a)) 24) as F.
    rewrite <- (firstn_skipn 20) in F. apply Forall_app in F. apply F.
  - rewrite length_skipn, mem_bytes_length. lia.
Qed.

Lemma with_size_same (p : Par.t) : Par.with_size (Par.size p) p = p.
Proof. destruct p. reflexivity. Qed.

(** Step 3: the header is loaded, the size is taken from it and the mirror
    buffer is there. *)
Lemma load_rtedbg_structure_header_mem (a : app_state mem_srv) :
  link_ok (gdb a) -> malloc_ok a = true ->
  let h := target_hdr a in
  let size := Hdr.buffer_size h * 4 + 24 in
  MIN_BUFFER_SIZE <= size <= MAX_BUFFER_SIZE ->
  exists a3,
    load_rtedbg_structure_header mem_react a = (GDB_OK, a3)
    /\ link_ok (gdb a3) /\ srv (gdb a3) = srv (gdb a)
    /\ rtedbg_header a3 = h
    /\ parameters a3 = Par.with_size size (parameters a)
    /\ (exists image, p_rtedbg_structure a3 = Some image)
    /\ old_msg_filter a3 = old_msg_filter a
    /\ bin_file a3 = bin_file a
    /\ same_env a a3.
Proof.
  intros Hl Hm h size Hs.
  unfold MIN_BUFFER_SIZE, MAX_BUFFER_SIZE in Hs.
  unfold load_rtedbg_structure_header, bind at 1, gets at 1.
  destruct (gdb_read_memory_link (gdb a) (Par.start_address (parameters a))
              sizeof_rtedbg_header Hl)
    as (g1 & E1 & L1 & S1); [unfold sizeof_rtedbg_header; lia|].
  rewrite (bind_eq _ _ _ _ _ (lift_eq _ a _ _ E1)).
  cbv beta iota zeta.
  rewrite overlay_same_length
    by (rewrite mem_bytes_length; reflexivity).
  change (Z.to_nat sizeof_rtedbg_header) with 24%nat.
  fold (tmem a). fold (target_hdr a). fold h.
  unfold bind at 1, modify at 1.
  change (negb (GDB_OK =? GDB_OK)) with false. cbv iota.
  unfold bind at 1, gets at 1.
  cbn [rtedbg_header set_header parameters set_gdb p_rtedbg_structure].
  unfold sizeof_rtedbg_header. fold size.
  rewrite (u32_small size) by lia.
  replace (size <? MIN_BUFFER_SIZE) with false
    by (symmetry; apply Z.ltb_ge; unfold MIN_BUFFER_SIZE; lia).
  replace (size >? MAX_BUFFER_SIZE) with false
    by (symmetry; rewrite Z.gtb_ltb; apply Z.ltb_ge;
        unfold MAX_BUFFER_SIZE; lia).
  unfold allocate_memory_for_g_rtedbg_structure, app_log, lift, log_string.
  destruct ((Par.size (parameters a) =? 0)
            || negb (size =? Par.size (parameters a))) eqn:C.
  - unfold bind, modify, gets, ret.
    destruct (p_rtedbg_structure a) as [im|] eqn:P;
      change (negb (GDB_OK =? GDB_OK)) with false; cbv beta iota;
      cbn [parameters set_parameters set_header set_gdb p_rtedbg_structure
             set_structure Par.size Par.with_size malloc_ok gdb];
      try rewrite P;
      replace (size =? 0) with false by (symmetry; apply Z.eqb_neq; lia);
      cbv beta iota;
      cbn [parameters set_parameters set_header set_gdb p_rtedbg_structure
             set_structure Par.size Par.with_size malloc_ok gdb];
      rewrite Hm; cbv beta iota; cbn [negb];
      eexists; (split; [reflexivity|]);
      cbn [gdb set_structure set_parameters set_header set_gdb rtedbg_header
             parameters p_rtedbg_structure old_msg_filter bin_file];
      (split; [exact L1|]); (split; [exact S1|]);
      repeat split; eauto.
  - apply orb_false_iff in C. destruct C as [C1 C2].
    apply negb_false_iff, Z.eqb_eq in C2.
    unfold bind, modify, gets, ret.
    change (negb (GDB_OK =? GDB_OK)) with false; cbv beta iota.
    cbn [parameters set_parameters set_header set_gdb p_rtedbg_structure
           set_structure Par.size Par.with_size malloc_ok gdb].
    rewrite C1.
    destruct (p_rtedbg_structure a) as [im|] eqn:P;
      [| rewrite Hm]; cbv beta iota; cbn [negb];
      eexists; (split; [reflexivity|]);
      cbn [gdb set_structure set_parameters set_header set_gdb rtedbg_header
             parameters p_rtedbg_structure old_msg_filter bin_file];
      (split; [exact L1|]); (split; [exact S1|]);
      (split; [reflexivity|]);
      (split; [rewrite C2; symmetry; apply with_size_same|]);
      repeat split; eauto.
Qed.


(** Step 4: a header with the right size field and no reserved bit passes. *)
Lemma check_header_info_valid {Srv : Type} (a : app_state Srv) :
  Hdr.RTE_HEADER_SIZE (rtedbg_header a) = sizeof_rtedbg_header ->
  Hdr.RTE_CFG_RESERVED_BITS (rtedbg_header a) = 0 ->
  Hdr.RTE_CFG_RESERVED2 (rtedbg_header a) = 0 ->
  check_header_info a = (GDB_OK, a).
Proof.
  intros H1 H2 H3. unfold check_header_info, bind, gets.
  rewrite H1, H2, H3. reflexivity.
Qed.

Lemma overlay_at_4_image (d bytes image : list Z) (n : nat) :
  List.length d = 4%nat -> List.length bytes = n -> (8 <= n)%nat ->
  firstn n (overlay_at 4 d (overlay bytes image))
  = firstn 4 bytes ++ d ++ skipn 8 bytes.
Proof.
  intros Ld Lb Hn. subst n.
  destruct d as [|d0 [|d1 [|d2 [|d3 [|? ?]]]]]; try discriminate Ld.
  destruct bytes as [|b0 [|b1 [|b2 [|b3 [|b4 [|b5 [|b6 [|b7 tl]]]]]]]];
    cbn [List.length] in Hn; try lia.
  unfold overlay_at, overlay.
  cbn [List.length app skipn firstn Nat.sub repeat].
  do 8 f_equal.
  rewrite firstn_app, Nat.sub_diag, firstn_O, app_nil_r.
  apply firstn_all.
Qed.

(** Step 5: the structure is read and written to the file, with the
    filter word as it was read before the pause. *)
Lemma save_rtedbg_structure_mem (a : app_state mem_srv) (image : list Z) :
  link_ok (gdb a) -> p_rtedbg_structure a = Some image ->
  bin_create_ok a = true ->
  let size := Par.size (parameters a) in
  let bytes := mem_bytes (tmem a) (Par.start_address (parameters a))
                 (Z.to_nat size) in
  8 <= size < 2 ^ 32 -> size <= bin_capacity a ->
  exists a5,
    save_rtedbg_structure mem_react a = (GDB_OK, a5)
    /\ link_ok (gdb a5) /\ srv (gdb a5) = srv (gdb a)
    /\ bin_file a5
       = Some (firstn 4 bytes ++ le32_bytes (old_msg_filter a)
               ++ skipn 8 bytes)
    /\ parameters a5 = parameters a
    /\ rtedbg_header a5 = rtedbg_header a
    /\ old_msg_filter a5 = old_msg_filter a
    /\ same_env a a5.
Proof.
  intros Hl Hp Hc size bytes Hs Hcap.
  unfold save_rtedbg_structure, bind at 1, gets at 1. rewrite Hp.
  unfold bind at 1.
  assert (exists g0, delay_before_data_transfer a = (tt, set_gdb g0 a)
                     /\ link_ok g0 /\ srv g0 = srv (gdb a))
    as (g0 & E0 & L0 & S0).
  { unfold delay_before_data_transfer, bind, gets.
    destruct (Par.delay (parameters a) >? 0).
    - eexists. split; [reflexivity|]. split; [exact Hl | reflexivity].
    - exists (gdb a). split; [destruct a; reflexivity|].
      split; [exact Hl | reflexivity]. }
  rewrite E0.
  unfold read_memory_block, bind at 1. unfold bind at 1.
  destruct (gdb_read_memory_link g0 (Par.start_address (parameters a))
              size L0)
    as (g1 & E1 & L1 & S1); [lia|].
  fold size.
  rewrite (lift_eq _ (set_gdb g0 a) _ _ E1).
  cbv beta iota zeta.
  change (negb (GDB_OK =? GDB_OK)) with false. cbv iota.
  unfold app_log, lift, log_string, bind, modify, ret.
  cbn [gdb set_gdb]. cbv beta iota.
  change (negb (GDB_OK =? GDB_OK)) with false. cbv iota.
  rewrite Hc. cbn [negb]. cbv iota beta.
  replace (Z.min size (bin_capacity a)) with size by lia.
  rewrite Z.eqb_refl. cbn [negb]. cbv iota.
  eexists. split; [reflexivity|].
  cbn [gdb set_gdb set_structure set_bin_file bin_file parameters
         rtedbg_header old_msg_filter].
  split; [exact L1|]. split; [cbn [srv add_log]; congruence|].
  split.
  - f_equal. rewrite S0. fold (tmem a). fold bytes.
    apply overlay_at_4_image.
    + reflexivity.
    + unfold bytes. apply mem_bytes_length.
    + lia.
  - repeat split; reflexivity.
Qed.

(** Step 6: the filter word still reads zero. *)
Lemma check_message_filter_disabled_mem (a : app_state mem_srv) :
  link_ok (gdb a) ->
  le32 (mem_bytes (tmem a) (Par.start_address (parameters a) + 4) 4) = 0 ->
  exists g,
    check_message_filter_disabled mem_react a = (GDB_OK, set_gdb g a)
    /\ link_ok g /\ srv g = srv (gdb a).
Proof.
  intros Hl Hz. unfold check_message_filter_disabled, bind at 1, gets at 1.
  destruct (gdb_read_memory_link (gdb a) (MESSAGE_FILTER_ADDRESS a) 4 Hl)
    as (g1 & E1 & L1 & S1); [lia|].
  rewrite (bind_eq _ _ _ _ _ (lift_eq _ a _ _ E1)).
  cbv beta iota zeta.
  change (negb (GDB_OK =? GDB_OK)) with false. cbv iota.
  unfold MESSAGE_FILTER_ADDRESS. rewrite mem_bytes_u32.
  change (Z.to_nat 4) with 4%nat. fold (tmem a). rewrite Hz.
  exists g1. split; [reflexivity|]. split; assumption.
Qed.

(** Step 7: without [-clear] and outside single-shot mode nothing is
    reset. *)
Lemma reset_circular_buffer_idle {Srv : Type}
    (react : Srv -> list Z -> send_outcome * list recv_ev * Srv)
    (a : app_state Srv) :
  Par.clear_buffer (parameters a) = false -> single_shot_active a = false ->
  reset_circular_buffer react a = (GDB_OK, a).
Proof.
  intros H1 H2. unfold reset_circular_buffer, bind, gets, ret.
  rewrite H1, H2. reflexivity.
Qed.

Lemma le32_bytes_u8 (v : Z) : map u8 (le32_bytes v) = le32_bytes v.
Proof.
  unfold le32_bytes. cbn [map].
  rewrite !(u8_small (u8 _)) by apply u8_range. reflexivity.
Qed.

(** Step 8: the restore value reaches the filter word. *)
Lemma set_or_restore_message_filter_mem (a : app_state mem_srv) :
  link_ok (gdb a) ->
  exists g,
    set_or_restore_message_filter mem_react a = (GDB_OK, set_gdb g a)
    /\ link_ok g
    /\ (forall x,
           mem (srv g) x
           = mem_store (tmem a)
               (u32 (Par.start_address (parameters a) + 4))
               (le32_bytes (restore_value a)) x).
Proof.
  intros Hl. rewrite set_or_restore_message_filter_write.
  destruct (gdb_write_memory_link (gdb a) (le32_bytes (restore_value a))
              (u32 (Par.start_address (parameters a) + 4)) 4 Hl)
    as (g & E & L & M); [lia | cbn; lia |].
  rewrite (lift_eq _ a _ _ E). exists g. split; [reflexivity|].
  split; [exact L|]. intros x. rewrite M.
  rewrite (u32_small (u32 _)) by apply u32_range.
  change (firstn (Z.to_nat 4) (le32_bytes (restore_value a)))
    with (le32_bytes (restore_value a)).
  rewrite le32_bytes_u8. reflexivity.
Qed.


Lemma skipn_mem_bytes (m : Z -> Z) (a : Z) (k n : nat) :
  skipn k (mem_bytes m a (k + n)) = mem_bytes m (u32 (a + Z.of_nat k)) n.
Proof.
  rewrite mem_bytes_app. rewrite skipn_app, mem_bytes_length, Nat.sub_diag.
  rewrite skipn_all2 by (rewrite mem_bytes_length; lia). reflexivity.
Qed.

Lemma firstn_mem_bytes (m : Z -> Z) (a : Z) (k n : nat) :
  firstn k (mem_bytes m a (k + n)) = mem_bytes m a k.
Proof.
  rewrite mem_bytes_app. rewrite firstn_app, mem_bytes_length, Nat.sub_diag.
  rewrite firstn_O, app_nil_r. apply firstn_all2.
  rewrite mem_bytes_length. lia.
Qed.

(** The header fields behind the filter word do not depend on it. *)
Lemma header_same_but_filter (m m' : Z -> Z) (start : Z) :
  same_but_word (start + 4) m m' ->
  let h := Hdr.of_bytes (mem_bytes m start 24) in
  let h' := Hdr.of_bytes (mem_bytes m' start 24) in
  Hdr.rte_cfg h' = Hdr.rte_cfg h
  /\ Hdr.filter_copy h' = Hdr.filter_copy h
  /\ Hdr.buffer_size h' = Hdr.buffer_size h.
Proof.
  intros H h h'.
  assert (skipn 8 (mem_bytes m' start 24) = skipn 8 (mem_bytes m start 24))
    as E.
  { rewrite !(skipn_mem_bytes _ start 8 16).
    rewrite !mem_bytes_u32.
    apply (mem_bytes_same m m' (start + 4)); [exact H|].
    intros i Hi. 
    replace (start + Z.of_nat 8 + Z.of_nat i - (start + 4))
      with (4 + Z.of_nat i) by lia.
    rewrite u32_small by lia. lia. }
  subst h h'. unfold Hdr.of_bytes.
  cbn [Hdr.rte_cfg Hdr.filter_copy Hdr.buffer_size].
  rewrite <- !(skipn_skipn 8 8 (mem_bytes _ start 24)).
  rewrite <- !(skipn_skipn 12 8 (mem_bytes _ start 24)).
  rewrite E. repeat split; reflexivity.
Qed.

Lemma mem_bytes_split8 (m : Z -> Z) (start : Z) (n : nat) :
  (8 <= n)%nat ->
  mem_bytes m start n
  = mem_bytes m start 4 ++ mem_bytes m (start + 4) 4
    ++ mem_bytes m (start + 8) (n - 8).
Proof.
  intros Hn. replace n with (4 + (4 + (n - 8)))%nat at 1 by lia.
  rewrite (mem_bytes_app m start 4), (mem_bytes_app m _ 4).
  rewrite !mem_bytes_u32.
  rewrite <- (mem_bytes_u32 m (u32 (start + Z.of_nat 4) + Z.of_nat 4)).
  rewrite u32_add_idemp, mem_bytes_u32.
  replace (start + Z.of_nat 4 + Z.of_nat 4) with (start + 8) by lia.
  reflexivity.
Qed.

(** The image read while logging is paused, with the filter word as it was
    before, is the image as it was before. *)
Lemma image_with_old_filter (m m' : Z -> Z) (start : Z) (n : nat) :
  same_but_word (start + 4) m m' -> (8 <= n)%nat -> Z.of_nat n < 2 ^ 32 ->
  firstn 4 (mem_bytes m' start n)
  ++ le32_bytes (le32 (mem_bytes m (start + 4) 4))
  ++ skipn 8 (mem_bytes m' start n)
  = mem_bytes m start n.
Proof.
  intros H Hn Hb.
  rewrite (mem_bytes_split8 m start n Hn).
  rewrite (mem_bytes_split8 m' start n Hn).
  rewrite le32_bytes_le32
    by (first [apply mem_bytes_length | apply mem_bytes_is_byte]).
  rewrite firstn_app, mem_bytes_length, Nat.sub_diag, firstn_O, app_nil_r.
  rewrite firstn_all2 by (rewrite mem_bytes_length; lia).
  rewrite (skipn_app 8 (mem_bytes m' start 4)).
  rewrite (skipn_all2 (mem_bytes m' start 4))
    by (rewrite mem_bytes_length; lia).
  rewrite mem_bytes_length.
  change (8 - 4)%nat with 4%nat. cbn [app].
  rewrite (skipn_app 4 (mem_bytes m' (start + 4) 4)).
  rewrite (skipn_all2 (mem_bytes m' (start + 4) 4))
    by (rewrite mem_bytes_length; lia).
  rewrite mem_bytes_length, Nat.sub_diag, skipn_O. cbn [app].
  f_equal; [| f_equal].
  - apply (mem_bytes_same m m' (start + 4)); [exact H|].
    intros i Hi.
    replace (start + Z.of_nat i - (start + 4)) with (Z.of_nat i - 4) by lia.
    unfold u32. zdiv.
  - apply (mem_bytes_same m m' (start + 4)); [exact H|].
    intros i Hi.
    replace (start + 8 + Z.of_nat i - (start + 4))
      with (4 + Z.of_nat i) by lia.
    rewrite u32_small by lia. lia.
Qed.

Lemma mem_store_same_but_word (m m' : Z -> Z) (w : Z) (d : list Z) (x : Z) :
  same_but_word w m m' -> List.length d = 4%nat ->
  mem_store m' (u32 w) d x = mem_store m (u32 w) d x.
Proof.
  intros H L. unfold mem_store.
  destruct (Z.ltb_spec (u32 (x - u32 w)) (len d)) as [K|K]; [reflexivity|].
  apply H. unfold len in K. lia.
Qed.

(** *** The sizes negotiated with the server *)

(** What [%x] stores is an [unsigned]. *)
Lemma sscanf_x_range (s rest : list Z) (v : Z) :
  sscanf_x s = Some (v, rest) -> 0 <= v < 2 ^ 32.
Proof.
  unfold sscanf_x.
  generalize (skip_spaces s). intros s1.
  destruct (match s1 with
            | 43 :: tl => (false, tl)
            | 45 :: tl => (true, tl)
            | _ => (false, s1)
            end) as [neg s2].
  generalize (match s2 with
              | 48 :: x :: d :: tl =>
                  if ((x =? 120) || (x =? 88)) && is_hex_char d
                  then d :: tl else s2
              | _ => s2
              end).
  intros s3. destruct s3 as [|c tl]; [discriminate|].
  destruct (is_hex_char c); [| discriminate].
  destruct (scan_hex_digits 0 (c :: tl)) as [x r].
  intros H. inversion H. apply u32_range.
Qed.

(** parse_capability_data, when it succeeds, ends with
    calculate_max_message_sizes on a send size that is an [unsigned]. *)
Lemma parse_capability_data_calculates {Srv : Type} (m : Z) (recvbuf : list Z)
    (g g' : gdb_state Srv) :
  parse_capability_data m recvbuf g = (GDB_OK, g') ->
  exists g0,
    0 <= max_gdb_send_message_size g0 < 2 ^ 32
    /\ g' = snd (calculate_max_message_sizes m g0).
Proof.
  unfold parse_capability_data.
  destruct (strstr recvbuf (str "QStartNoAckMode+")) as [p|].
  2:{ unfold bind, log_string, modify, ret. cbn. discriminate. }
  assert (D : 0 <= DEFAULT_MESSAGE_SIZE < 2 ^ 32)
    by (unfold DEFAULT_MESSAGE_SIZE; lia).
  destruct (strstr recvbuf (str "PacketSize=")) as [t|];
    [destruct (sscanf_x (skipn 11 t)) as [[v rest]|] eqn:E;
     [apply sscanf_x_range in E|] |];
    unfold bind, log_string, modify, ret; cbn [fst snd]; intros H;
    match type of H with
    | context [calculate_max_message_sizes m ?X] =>
        exists X; destruct (calculate_max_message_sizes m X) as [u s']
    end;
    (split; [cbn; assumption | inversion H; reflexivity]).
Qed.

(** X10.  After a successful parse_capability_data (any capability text, any
    [-msgsize] value) both message sizes are at most the size of the message
    buffer, and the receive size is the [-msgsize] value (capped) when one
    is given and the send size otherwise.  A receive size of at least 4
    gives a read chunk size that is a multiple of 4 whose reply
    ([$], two digits per byte, [#xx]) fits the receive size, and is the
    largest such but for 8 characters; a send size of at least 20 gives
    the same for the write packet with its 16 characters of head.  Below
    these, the unsigned subtraction wraps around and the chunk size is larger
    than the message buffer. *)
Theorem negotiated_sizes_fit {Srv : Type} (m : Z) (recvbuf : list Z)
    (g g' : gdb_state Srv) :
  parse_capability_data m recvbuf g = (GDB_OK, g') ->
  0 <= m < 2 ^ 32 ->
  0 <= max_gdb_send_message_size g' <= TCP_BUFF_LENGTH
  /\ max_gdb_recv_message_size g'
     = (if m =? 0 then max_gdb_send_message_size g'
        else Z.min m TCP_BUFF_LENGTH)
  /\ (4 <= max_gdb_recv_message_size g' ->
      max_memo_read_packet_size g' mod 4 = 0
      /\ 2 * max_memo_read_packet_size g' + 4 <= max_gdb_recv_message_size g'
      /\ max_gdb_recv_message_size g'
         < 2 * max_memo_read_packet_size g' + 4 + 8)
  /\ (20 <= max_gdb_send_message_size g' ->
      max_memo_write_packet_size g' mod 4 = 0
      /\ 2 * max_memo_write_packet_size g' + 16 + 4
         <= max_gdb_send_message_size g'
      /\ max_gdb_send_message_size g'
         < 2 * max_memo_write_packet_size g' + 16 + 4 + 8)
  /\ (max_gdb_recv_message_size g' < 4 ->
      TCP_BUFF_LENGTH < max_memo_read_packet_size g')
  /\ (max_gdb_send_message_size g' < 20 ->
      TCP_BUFF_LENGTH < max_memo_write_packet_size g').
Proof.
  intros H Hm.
  destruct (parse_capability_data_calculates _ _ _ _ H) as [g0 [R E]].
  subst g'. clear H.
  unfold calculate_max_message_sizes, modify. cbn [snd].
  cbn [max_gdb_send_message_size max_gdb_recv_message_size
       max_memo_read_packet_size max_memo_write_packet_size set_sizes].
  unfold TCP_BUFF_LENGTH.
  set (v := max_gdb_send_message_size g0) in *.
  destruct (Z.gtb_spec v 65535) as [Hv|Hv];
    destruct (Z.eqb_spec m 0) as [Hm0|Hm0]; cbn [negb];
    try destruct (Z.gtb_spec m 65535) as [Hm1|Hm1];
    unfold u32;
    (split; [lia|]); (split; [try reflexivity; lia|]);
    (split; [intros; zdiv|]); (split; [intros; zdiv|]);
    (split; intros; zdiv).
Qed.

Lemma negotiated_sizes_fit_witness :
  0 <= max_gdb_send_message_size
         (negotiated (fun _ => 0) "PacketSize=1000;QStartNoAckMode+")
    <= TCP_BUFF_LENGTH
  /\ 2 * max_memo_read_packet_size
           (negotiated (fun _ => 0) "PacketSize=1000;QStartNoAckMode+") + 4
     <= max_gdb_recv_message_size
          (negotiated (fun _ => 0) "PacketSize=1000;QStartNoAckMode+").
Proof.
  destruct (negotiated_sizes_fit 0
              (str "PacketSize=1000;QStartNoAckMode+")
              (gdb_start
                 (mkSrv (fun _ => 0) false
                    (str "PacketSize=1000;QStartNoAckMode+")))
              (negotiated (fun _ => 0) "PacketSize=1000;QStartNoAckMode+"))
    as [H1 [H2 [H3 _]]].
  - reflexivity.
  - lia.
  - split; [exact H1|]. apply H3. vm_compute. discriminate.
Defined.

(** *** What gdb_connect sends *)

Section Handshake.

Variable Srv : Type.
Variable react : Srv -> list Z -> send_outcome * list recv_ev * Srv.

(** gdb_get_message hands at most the acknowledgement to the socket, and
    only for a message it has taken. *)
Lemma gdb_get_message_wire_any (timeout : Z) (g g' : gdb_state Srv) (r : Z) :
  gdb_get_message react timeout g = (r, g') ->
  ack_mode_enabled g' = ack_mode_enabled g
  /\ ((r = GDB_OK
       /\ wire_out g'
          = wire_out g ++ (if ack_mode_enabled g then [str "+"] else []))
      \/ (r = GDB_ERROR /\ wire_out g' = wire_out g)).
Proof.
  unfold gdb_get_message, gdb_send_ack, log_string, bind, gets, modify, ret.
  intros H.
  destruct (get_message_loop (wire_in g) []) as [[status got] rest].
  destruct status; cbv beta iota in H;
    try (inversion H; split; [reflexivity | right; split; reflexivity]).
  cbn [ack_mode_enabled set_buffer set_wire_in set_wire] in H.
  destruct (ack_mode_enabled g) eqn:Hack.
  - destruct (gdb_send react (str "+") _) as [r1 g1] eqn:E.
    apply gdb_send_wire in E; [| discriminate].
    destruct E as [E1 E2]. inversion H. cbn. rewrite E1, E2. cbn.
    split; [exact Hack | left; split; reflexivity].
  - inversion H. cbn. rewrite app_nil_r.
    split; [exact Hack | left; split; reflexivity].
Qed.

Lemma connect_greeting_any (g g' : gdb_state Srv) (r : Z) :
  connect_greeting Srv g = (r, g') ->
  wire_out g' = wire_out g
  /\ ((r = GDB_OK /\ ack_mode_enabled g' = true)
      \/ (r = GDB_ERROR /\ socket_connects g = false)).
Proof.
  unfold connect_greeting, gdb_connect_socket, gdb_socket_cleanup,
    gdb_flush_socket, log_string, bind, gets, modify, ret.
  cbn [socket_connects add_log set_error].
  destruct (socket_connects g); cbv beta iota.
  - cbn [negb Z.eqb GDB_OK].
    destruct (recv _ _) as [ev rest].
    destruct ev as [[|c d]| | |]; cbv beta iota; intros H; inversion H;
      (split; [reflexivity | left; split; reflexivity]).
  - cbn [negb Z.eqb GDB_OK GDB_ERROR]. intros H. inversion H.
    split; [reflexivity | right; split; reflexivity].
Qed.

Lemma capability_exchange_any (g g' : gdb_state Srv) (r : Z) :
  capability_exchange Srv react g = (r, g') ->
  ack_mode_enabled g = true ->
  ack_mode_enabled g' = true
  /\ ((r = GDB_OK
       /\ wire_out g'
          = wire_out g ++ [command_frame (str "qSupported"); str "+"])
      \/ (r = GDB_ERROR
          /\ wire_out g' = wire_out g ++ [command_frame (str "qSupported")])).
Proof.
  unfold capability_exchange, gdb_send_command, gdb_check_ack, log_string.
  unfold bind at 1 2. unfold modify at 1 2. cbv beta iota.
  change (len (str "qSupported") >=? 1024 - 4) with false. cbv iota.
  intros H Hack.
  minv H r1 g1 E1. apply gdb_send_wire in E1; [| discriminate].
  destruct E1 as [W1 A1]. cbn [wire_out ack_mode_enabled add_log set_error] in W1, A1.
  destruct (negb (r1 =? GDB_OK)).
  { inversion H. subst. split; [congruence|]. right. split; [reflexivity|].
    exact W1. }
  minv H u g2 E2. unfold bind, gets in E2.
  apply check_ack_loop_wire in E2. destruct E2 as [W2 A2].
  minv H r3 g3 E3.
  apply gdb_get_message_wire_any in E3. destruct E3 as [A3 W3].
  assert (Hg2 : ack_mode_enabled g2 = true) by congruence.
  rewrite Hg2 in W3.
  destruct W3 as [[R3 W3]|[R3 W3]]; subst r3;
    cbn [negb Z.eqb GDB_OK GDB_ERROR] in H; inversion H; subst.
  - split; [congruence|]. left. split; [reflexivity|].
    rewrite W3, W2, W1, <- app_assoc. reflexivity.
  - split; [congruence|]. right. split; [reflexivity|].
    rewrite W3, W2, W1. reflexivity.
Qed.

Lemma parse_capability_data_wire (m : Z) (recvbuf : list Z)
    (g g' : gdb_state Srv) (r : Z) :
  parse_capability_data m recvbuf g = (r, g') ->
  wire_out g' = wire_out g /\ ack_mode_enabled g' = ack_mode_enabled g
  /\ (r = GDB_OK \/ r = GDB_ERROR).
Proof.
  unfold parse_capability_data, calculate_max_message_sizes, log_string,
    bind, modify, ret.
  destruct (strstr recvbuf (str "QStartNoAckMode+")) as [p|].
  2:{ intros H. inversion H. repeat split. right. reflexivity. }
  destruct (strstr recvbuf (str "PacketSize=")) as [t|];
    [destruct (sscanf_x (skipn 11 t)) as [[v rest]|] |];
    intros H; inversion H; repeat split; left; reflexivity.
Qed.

Lemma gdb_request_no_ack_mode_any (g g' : gdb_state Srv) (r : Z) :
  gdb_request_no_ack_mode react g = (r, g') ->
  (r = GDB_OK /\ ack_mode_enabled g' = false
   /\ wire_out g'
      = wire_out g ++ [command_frame (str "QStartNoAckMode"); str "+"])
  \/ (r = GDB_ERROR /\ ack_mode_enabled g' = true
      /\ exists k,
           (1 <= k)%nat
           /\ wire_out g'
              = wire_out g
                ++ firstn k [command_frame (str "QStartNoAckMode"); str "+"]).
Proof.
  unfold gdb_request_no_ack_mode, gdb_send_command, gdb_check_ack,
    gdb_flush_socket, log_string.
  unfold bind at 1. unfold modify at 1. cbv beta iota.
  change (len (str "QStartNoAckMode") >=? 1024 - 4) with false. cbv iota.
  intros H.
  minv H r1 g1 E1. apply gdb_send_wire in E1; [| discriminate].
  destruct E1 as [W1 A1]. cbn [wire_out ack_mode_enabled set_ack_mode] in W1, A1.
  destruct (negb (r1 =? GDB_OK)).
  { inversion H. subst. right. split; [reflexivity|]. split; [exact A1|].
    exists 1%nat. split; [lia | exact W1]. }
  minv H u g2 E2. unfold bind, gets in E2.
  apply check_ack_loop_wire in E2. destruct E2 as [W2 A2].
  minv H r3 g3 E3.
  apply gdb_get_message_wire_any in E3. destruct E3 as [A3 W3].
  assert (Hg2 : ack_mode_enabled g2 = true) by congruence.
  rewrite Hg2 in W3.
  destruct W3 as [[R3 W3]|[R3 W3]]; subst r3;
    cbn [negb Z.eqb GDB_OK GDB_ERROR] in H.
  - unfold bind, gets, modify, ret in H.
    destruct (starts_with (str "$OK#") (message_buffer g3));
      cbn [negb] in H; inversion H; subst.
    + left. split; [reflexivity|]. split; [reflexivity|].
      cbn [wire_out set_wire_in set_wire set_ack_mode].
      rewrite W3, W2, W1, <- app_assoc. reflexivity.
    + right. split; [reflexivity|]. split; [cbn; congruence|].
      exists 2%nat. split; [lia|].
      cbn [wire_out add_log firstn].
      rewrite W3, W2, W1, <- app_assoc. reflexivity.
  - inversion H. subst. right. split; [reflexivity|].
    split; [congruence|]. exists 1%nat. split; [lia|].
    rewrite W3, W2, W1. reflexivity.
Qed.

(** X11.  gdb_connect returns GDB_OK or GDB_ERROR.  When it returns GDB_OK
    the acknowledgement mode is off and exactly four buffers have been
    handed to the socket, in this order: the [qSupported] frame, the
    acknowledgement of its reply, the [QStartNoAckMode] frame and the
    acknowledgement of its reply.  When it fails, what has been handed to
    the socket is a beginning of that sequence, and if the socket had been
    connected the acknowledgement mode is left on. *)
Theorem gdb_connect_handshake (m : Z) (g g' : gdb_state Srv) (r : Z) :
  gdb_connect react m g = (r, g') ->
  (r = GDB_OK /\ ack_mode_enabled g' = false
   /\ wire_out g'
      = wire_out g
        ++ [command_frame (str "qSupported"); str "+";
            command_frame (str "QStartNoAckMode"); str "+"])
  \/ (r = GDB_ERROR
      /\ (socket_connects g = true -> ack_mode_enabled g' = true)
      /\ exists k,
           wire_out g'
           = wire_out g
             ++ firstn k
                  [command_frame (str "qSupported"); str "+";
                   command_frame (str "QStartNoAckMode"); str "+"]).
Proof.
  rewrite gdb_connect_steps. intros H.
  minv H r1 g1 E1. apply connect_greeting_any in E1.
  destruct E1 as [W1 [[R1 A1]|[R1 S1]]]; subst r1;
    cbn [negb Z.eqb GDB_OK GDB_ERROR] in H.
  2:{ inversion H. subst. right. split; [reflexivity|].
      split; [congruence|]. exists 0%nat. rewrite W1, app_nil_r.
      reflexivity. }
  minv H r2 g2 E2. rewrite gdb_check_server_capabilities_steps in E2.
  minv E2 r3 g3 E3. apply capability_exchange_any in E3; [| exact A1].
  destruct E3 as [A3 [[R3 W3]|[R3 W3]]]; subst r3;
    cbn [negb Z.eqb GDB_OK GDB_ERROR] in E2.
  2:{ inversion E2. subst. cbn [negb Z.eqb GDB_OK GDB_ERROR] in H.
      unfold gdb_socket_cleanup, bind, ret in H. inversion H. subst.
      right. split; [reflexivity|]. split; [intros _; exact A3|].
      exists 1%nat. rewrite W3, W1. reflexivity. }
  unfold bind at 1, gets in E2.
  apply parse_capability_data_wire in E2. destruct E2 as [W4 [A4 R4]].
  destruct R4 as [R4|R4]; subst r2; cbn [negb Z.eqb GDB_OK GDB_ERROR] in H.
  2:{ unfold gdb_socket_cleanup, bind, ret in H. inversion H. subst.
      right. split; [reflexivity|]. split; [intros _; congruence|].
      exists 2%nat. rewrite W4, W3, W1. reflexivity. }
  apply gdb_request_no_ack_mode_any in H.
  destruct H as [[R [A W]]|[R [A [k [Hk W]]]]].
  - left. split; [exact R|]. split; [exact A|].
    rewrite W, W4, W3, W1, <- app_assoc. reflexivity.
  - right. split; [exact R|]. split; [intros _; exact A|].
    exists (2 + k)%nat. rewrite W, W4, W3, W1, <- app_assoc.
    reflexivity.
Qed.

End Handshake.


Lemma gdb_connect_handshake_witness :
  let g := gdb_start (sample_server target_header
                        "PacketSize=1000;QStartNoAckMode+") in
  let g' := snd (gdb_connect mem_react 0 g) in
  ack_mode_enabled g' = false
  /\ wire_out g'
     = wire_out g
       ++ [command_frame (str "qSupported"); str "+";
           command_frame (str "QStartNoAckMode"); str "+"].
Proof.
  intros g g'.
  destruct (gdb_connect_handshake mem_srv mem_react 0 g g' GDB_OK)
    as [[_ [A W]]|[R _]].
  - unfold g'. apply run_result. vm_compute. reflexivity.
  - split; [exact A | exact W].
  - discriminate R.
Defined.

(** *** reset_circular_buffer against the memory server *)

Lemma mem_store_ext (m m' : Z -> Z) (a : Z) (d : list Z) (x : Z) :
  (forall y, m y = m' y) -> mem_store m a d x = mem_store m' a d x.
Proof. intros H. unfold mem_store. rewrite H. reflexivity. Qed.

Lemma map_u8_repeat_255 (n : nat) : map u8 (repeat 255 n) = repeat 255 n.
Proof.
  induction n as [|n IH]; [reflexivity|].
  cbn [repeat map]. rewrite IH. reflexivity.
Qed.

Lemma erase_buffer_index_mem (a : app_state mem_srv) :
  link_ok (gdb a) ->
  exists g,
    erase_buffer_index mem_react a = (GDB_OK, set_gdb g a)
    /\ link_ok g
    /\ (forall x,
           mem (srv g) x
           = mem_store (tmem a) (u32 (Par.start_address (parameters a)))
               [0; 0; 0; 0] x).
Proof.
  intros L. unfold erase_buffer_index, bind, gets.
  destruct (gdb_write_memory_link (gdb a) [0; 0; 0; 0]
              (Par.start_address (parameters a)) 4 L)
    as (g & E & Lg & M); [lia | cbn; lia |].
  exists g. split; [apply (lift_eq _ a _ _ E)|]. split; [exact Lg|].
  exact M.
Qed.

(** Step 7 in general. *)
Lemma reset_circular_buffer_mem (a : app_state mem_srv) :
  link_ok (gdb a) -> malloc_ok a = true ->
  sizeof_rtedbg_header < Par.size (parameters a) < 2 ^ 32 ->
  exists g,
    reset_circular_buffer mem_react a = (GDB_OK, set_gdb g a)
    /\ link_ok g
    /\ (forall x,
           mem (srv g) x
           = reset_memory (Par.clear_buffer (parameters a))
               (single_shot_active a)
               (Par.start_address (parameters a))
               (Par.size (parameters a)) (tmem a) x).
Proof.
  intros L Hm Hs. unfold sizeof_rtedbg_header in Hs.
  unfold reset_circular_buffer, reset_memory.
  unfold bind at 1, gets at 1.
  destruct (Par.clear_buffer (parameters a)) eqn:C.
  - rewrite Hm. cbn [negb orb].
    unfold sizeof_rtedbg_header.
    rewrite (u32_small (Par.size (parameters a) - 24)) by lia.
    destruct (gdb_write_memory_link (gdb a)
                (repeat 255 (Z.to_nat (Par.size (parameters a) - 24)))
                (u32 (Par.start_address (parameters a) + 24))
                (Par.size (parameters a) - 24) L)
      as (g1 & E1 & L1 & M1); [lia | rewrite repeat_length; lia |].
    rewrite u32_small in M1 by apply u32_range.
    rewrite firstn_all2 in M1 by (rewrite repeat_length; lia).
    rewrite map_u8_repeat_255 in M1.
    unfold bind at 1. unfold bind at 1.
    rewrite (lift_eq _ a _ _ E1).
    change (negb (GDB_OK =? GDB_OK)) with false. cbv iota.
    unfold bind at 1, app_log, lift, log_string, modify, ret.
    cbn [gdb set_gdb fst snd].
    destruct (erase_buffer_index_mem
                (set_gdb (add_log ", %llu kB/s. " g1) a)
                (link_ok_log _ _ L1))
      as (g2 & E2 & L2 & M2).
    exists g2. split; [exact E2|]. split; [exact L2|].
    intros x. rewrite M2.
    change (parameters (set_gdb (add_log ", %llu kB/s. " g1) a))
      with (parameters a).
    apply mem_store_ext. intros y. exact (M1 y).
  - unfold bind at 1, ret at 1. cbv beta iota. cbn [orb].
    destruct (single_shot_active a).
    + destruct (erase_buffer_index_mem a L) as (g2 & E2 & L2 & M2).
      exists g2. split; [exact E2|]. split; [exact L2 | exact M2].
    + exists (gdb a). split; [| split; [exact L | reflexivity]].
      unfold ret. destruct a. reflexivity.
Qed.

(** *** The whole snapshot against the memory server *)

(** The macros of rtedbg.h look at [rte_cfg] only. *)
Lemma cfg_macros (h h' : Hdr.t) :
  Hdr.rte_cfg h' = Hdr.rte_cfg h ->
  Hdr.RTE_HEADER_SIZE h' = Hdr.RTE_HEADER_SIZE h
  /\ Hdr.RTE_CFG_RESERVED_BITS h' = Hdr.RTE_CFG_RESERVED_BITS h
  /\ Hdr.RTE_CFG_RESERVED2 h' = Hdr.RTE_CFG_RESERVED2 h
  /\ Hdr.RTE_SINGLE_SHOT_WAS_ACTIVE h' = Hdr.RTE_SINGLE_SHOT_WAS_ACTIVE h
  /\ Hdr.RTE_SINGLE_SHOT_LOGGING_ENABLED h'
     = Hdr.RTE_SINGLE_SHOT_LOGGING_ENABLED h.
Proof.
  intros E.
  unfold Hdr.RTE_HEADER_SIZE, Hdr.RTE_CFG_RESERVED_BITS, Hdr.RTE_CFG_RESERVED2,
    Hdr.RTE_SINGLE_SHOT_WAS_ACTIVE, Hdr.RTE_SINGLE_SHOT_LOGGING_ENABLED.
  rewrite E. repeat split.
Qed.

(** The closing report only writes to the log. *)
Lemma report_success_mem {Srv : Type} (a : app_state Srv) :
  exists a', report_success Srv a = (0, a')
             /\ srv (gdb a') = srv (gdb a) /\ bin_file a' = bin_file a.
Proof.
  unfold report_success, execute_decode_batch_file, app_log, lift, log_string,
    bind, ret, gets, modify.
  cbn [gdb set_gdb fst snd parameters].
  destruct (Par.decode_file (parameters a)); eexists;
    (split; [reflexivity | split; reflexivity]).
Qed.

Lemma same_but_word_reset (w : Z) (m m' : Z -> Z) (clear single : bool)
    (start size : Z) :
  same_but_word w m m' ->
  same_but_word w (reset_memory clear single start size m)
    (reset_memory clear single start size m').
Proof.
  intros H. unfold reset_memory.
  assert (S : forall (n n' : Z -> Z) (a : Z) (d : list Z),
             same_but_word w n n' ->
             same_but_word w (mem_store n a d) (mem_store n' a d)).
  { intros n n' a d Hn x Hx. unfold mem_store.
    destruct (u32 (x - a) <? len d); [reflexivity | apply Hn; exact Hx]. }
  destruct clear; [| destruct single]; auto.
Qed.

(** X9.  Against a target that answers memory reads and writes and holds a
    valid structure header, a snapshot returns 0; the file holds the bytes
    of the structure exactly as the target held them when the run started
    (the filter word included, although the structure is read while logging
    is paused); and the target memory afterwards is the memory before with
    the circular buffer reset as [-clear] or a finished single-shot run ask
    for, and with the filter word set to the value the restore rule
    chooses.  Nothing else in the target changes. *)
Theorem snapshot_saves_target_image (a : app_state mem_srv) :
  link_ok (gdb a) -> malloc_ok a = true -> bin_create_ok a = true ->
  MIN_BUFFER_SIZE <= target_size a <= MAX_BUFFER_SIZE ->
  target_size a <= bin_capacity a ->
  Hdr.RTE_HEADER_SIZE (target_hdr a) = sizeof_rtedbg_header ->
  Hdr.RTE_CFG_RESERVED_BITS (target_hdr a) = 0 ->
  Hdr.RTE_CFG_RESERVED2 (target_hdr a) = 0 ->
  exists a',
    single_data_transfer mem_react a = (0, a')
    /\ bin_file a'
       = Some (mem_bytes (tmem a) (Par.start_address (parameters a))
                 (Z.to_nat (target_size a)))
    /\ (forall x,
           tmem a' x
           = mem_store
               (reset_memory (Par.clear_buffer (parameters a))
                  (target_single_shot a)
                  (Par.start_address (parameters a)) (target_size a)
                  (tmem a))
               (u32 (Par.start_address (parameters a) + 4))
               (le32_bytes (target_restore a)) x).
Proof.
  intros L Hm Hb Hs Hcap Hh Hr1 Hr2.
  rewrite single_data_transfer_steps.
  (* the filter word before the run *)
  destruct (read_old_filter_mem a L) as [g1 [E1 [L1 S1]]].
  set (a1 := set_old_msg_filter (target_filter_word a) (set_gdb g1 a)) in *.
  rewrite (bind_eq _ _ _ _ _ E1).
  change (negb (GDB_OK =? GDB_OK)) with false. cbv iota.
  assert (T1 : tmem a1 = tmem a) by (unfold tmem; cbn; rewrite S1; reflexivity).
  assert (W1 : old_msg_filter a1 = target_filter_word a1).
  { unfold target_filter_word. rewrite T1. reflexivity. }
  (* logging paused *)
  destruct (pause_if_logging_mem a1 L1 W1) as [g2 [E2 [L2 [SB Z2]]]].
  rewrite T1 in SB.
  change (parameters a1) with (parameters a) in SB, Z2.
  set (a2 := set_gdb g2 a1) in *.
  rewrite (bind_eq _ _ _ _ _ E2).
  change (negb (GDB_OK =? GDB_OK)) with false. cbv iota.
  destruct (header_same_but_filter _ _ _ SB) as [C1 [C2 C3]].
  change (Hdr.of_bytes (mem_bytes (tmem a) (Par.start_address (parameters a)) 24))
    with (target_hdr a) in C1, C2, C3.
  change (Hdr.of_bytes
            (mem_bytes (mem (srv g2)) (Par.start_address (parameters a)) 24))
    with (target_hdr a2) in C1, C2, C3.
  destruct (cfg_macros _ _ C1) as [M1 [M2 [M3 [M4 M5]]]].
  (* the header *)
  assert (Hs2 : MIN_BUFFER_SIZE
                <= Hdr.buffer_size (target_hdr a2) * 4 + 24
                <= MAX_BUFFER_SIZE).
  { rewrite C3. exact Hs. }
  destruct (load_rtedbg_structure_header_mem a2 L2 Hm Hs2)
    as [a3 [E3 [L3 [S3 [H3 [P3 [[image I3] [O3 [B3 V3]]]]]]]]].
  rewrite (bind_eq _ _ _ _ _ E3).
  change (negb (GDB_OK =? GDB_OK)) with false. cbv iota.
  rewrite C3 in P3.
  change (Hdr.buffer_size (target_hdr a) * 4 + 24) with (target_size a) in P3.
  change (parameters a2) with (parameters a) in P3.
  assert (E4 : check_header_info a3 = (GDB_OK, a3)).
  { apply check_header_info_valid; rewrite H3; congruence. }
  rewrite (bind_eq _ _ _ _ _ E4).
  change (negb (GDB_OK =? GDB_OK)) with false. cbv iota.
  (* the image and the file *)
  unfold MIN_BUFFER_SIZE, MAX_BUFFER_SIZE in Hs.
  destruct V3 as [V3m [V3b [V3c V3f]]].
  assert (Hb3 : bin_create_ok a3 = true) by (rewrite V3b; exact Hb).
  assert (Hz3 : 8 <= Par.size (parameters a3) < 2 ^ 32).
  { rewrite P3. cbn [Par.size Par.with_size]. lia. }
  assert (Hc3 : Par.size (parameters a3) <= bin_capacity a3).
  { rewrite P3, V3c. cbn [Par.size Par.with_size]. exact Hcap. }
  destruct (save_rtedbg_structure_mem a3 image L3 I3 Hb3 Hz3 Hc3)
    as [a5 [E5 [L5 [S5 [F5 [P5 [H5 [O5 V5]]]]]]]].
  rewrite (bind_eq _ _ _ _ _ E5).
  change (negb (GDB_OK =? GDB_OK)) with false. cbv iota.
  assert (T3 : tmem a3 = mem (srv g2)) by (unfold tmem; rewrite S3; reflexivity).
  assert (T5 : tmem a5 = mem (srv g2)) by (unfold tmem; rewrite S5; exact T3).
  assert (A5 : Par.start_address (parameters a5)
               = Par.start_address (parameters a)).
  { rewrite P5, P3. reflexivity. }
  (* the filter is still off *)
  assert (Z5 : le32 (mem_bytes (tmem a5)
                       (Par.start_address (parameters a5) + 4) 4) = 0).
  { rewrite T5, A5. exact Z2. }
  destruct (check_message_filter_disabled_mem a5 L5 Z5) as [g6 [E6 [L6 S6]]].
  rewrite (bind_eq _ _ _ _ _ E6).
  change (negb (GDB_OK =? GDB_OK)) with false. cbv iota.
  set (a6 := set_gdb g6 a5) in *.
  (* the buffer reset *)
  assert (Hm6 : malloc_ok a6 = true).
  { change (malloc_ok a6) with (malloc_ok a5).
    destruct V5 as [V5m _]. rewrite V5m, V3m. exact Hm. }
  assert (P6 : parameters a6 = Par.with_size (target_size a) (parameters a)).
  { change (parameters a6) with (parameters a5). rewrite P5. exact P3. }
  assert (Hz6 : sizeof_rtedbg_header < Par.size (parameters a6) < 2 ^ 32).
  { rewrite P6. cbn [Par.size Par.with_size]. unfold sizeof_rtedbg_header.
    lia. }
  destruct (reset_circular_buffer_mem a6 L6 Hm6 Hz6) as [g7 [E7 [L7 M7]]].
  rewrite (bind_eq _ _ _ _ _ E7).
  change (negb (GDB_OK =? GDB_OK)) with false. cbv iota.
  set (a7 := set_gdb g7 a6) in *.
  assert (T6 : tmem a6 = mem (srv g2)).
  { unfold tmem. change (gdb a6) with g6. rewrite S6. exact T5. }
  assert (Hss : single_shot_active a6 = target_single_shot a).
  { unfold single_shot_active, target_single_shot.
    change (rtedbg_header a6) with (rtedbg_header a5).
    rewrite H5, H3, M4, M5. reflexivity. }
  rewrite P6, Hss, T6 in M7.
  cbn [Par.size Par.start_address Par.clear_buffer Par.with_size] in M7.
  (* the filter restored *)
  destruct (set_or_restore_message_filter_mem a7 L7) as [g8 [E8 [L8 M8]]].
  rewrite (bind_eq _ _ _ _ _ E8).
  change (negb (GDB_OK =? GDB_OK)) with false. cbv iota.
  destruct (report_success_mem (set_gdb g8 a7)) as [a' [E9 [S9 F9]]].
  exists a'. split; [exact E9|]. split.
  - rewrite F9. change (bin_file (set_gdb g8 a7)) with (bin_file a5).
    rewrite F5. f_equal.
    rewrite O3. change (old_msg_filter a2) with (target_filter_word a).
    rewrite T3, P3. cbn [Par.size Par.start_address Par.with_size].
    unfold target_filter_word.
    apply image_with_old_filter; [exact SB | lia | lia].
  - intros x. unfold tmem at 1. rewrite S9.
    change (srv (gdb (set_gdb g8 a7))) with (srv g8).
    rewrite M8.
    assert (R : restore_value a7 = target_restore a).
    { unfold restore_value, target_restore.
      change (parameters a7) with (parameters a5).
      change (old_msg_filter a7) with (old_msg_filter a5).
      change (rtedbg_header a7) with (rtedbg_header a5).
      rewrite P5, P3, O5, O3, H5, H3, C1, C2. reflexivity. }
    rewrite R.
    change (parameters a7) with (parameters a5). rewrite A5.
    change (tmem a7) with (mem (srv g7)).
    rewrite (mem_store_ext _ _ _ _ _ M7).
    apply mem_store_same_but_word; [| reflexivity].
    apply same_but_word_reset. exact SB.
Qed.

Lemma snapshot_saves_target_image_witness :
  exists a',
    single_data_transfer mem_react (session target_header sample_parameters)
    = (0, a')
    /\ bin_file a'
       = Some (mem_bytes (tmem (session target_header sample_parameters))
                 (Par.start_address
                    (parameters (session target_header sample_parameters)))
                 (Z.to_nat
                    (target_size (session target_header sample_parameters))))
    /\ (forall x,
           tmem a' x
           = mem_store
               (reset_memory
                  (Par.clear_buffer
                     (parameters (session target_header sample_parameters)))
                  (target_single_shot
                     (session target_header sample_parameters))
                  (Par.start_address
                     (parameters (session target_header sample_parameters)))
                  (target_size (session target_header sample_parameters))
                  (tmem (session target_header sample_parameters)))
               (u32 (Par.start_address
                       (parameters (session target_header sample_parameters))
                     + 4))
               (le32_bytes
                  (target_restore (session target_header sample_parameters)))
               x).
Proof.
  apply (snapshot_saves_target_image
           (session target_header sample_parameters)).
  - unfold link_ok, quiet. vm_compute. intuition discriminate.
  - reflexivity.
  - reflexivity.
  - vm_compute. intuition discriminate.
  - vm_compute. discriminate.
  - reflexivity.
  - reflexivity.
  - reflexivity.
Defined.

(** *** [#init]: initialize_data_logging_structure *)

Lemma le32_of_le32_bytes (v : Z) (tl : list Z) :
  0 <= v < 2 ^ 32 -> le32 (le32_bytes v ++ tl) = v.
Proof.
  intros H. unfold le32, le32_bytes.
  set (b0 := u8 v). set (b1 := u8 (v / 256)). set (b2 := u8 (v / 65536)).
  set (b3 := u8 (v / 16777216)).
  change (at_ ([b0; b1; b2; b3] ++ tl) 0) with b0.
  change (at_ ([b0; b1; b2; b3] ++ tl) 1) with b1.
  change (at_ ([b0; b1; b2; b3] ++ tl) 2) with b2.
  change (at_ ([b0; b1; b2; b3] ++ tl) 3) with b3.
  subst b0 b1 b2 b3.
  unfold u8.
  assert (E1 : v / 65536 = v / 256 / 256)
    by (rewrite Z.div_div by lia; reflexivity).
  assert (E2 : v / 16777216 = v / 256 / 256 / 256)
    by (rewrite !Z.div_div by lia; reflexivity).
  rewrite E1, E2.
  assert (v / 256 / 256 / 256 < 256).
  { apply Z.div_lt_upper_bound; [lia|].
    apply Z.div_lt_upper_bound; [lia|].
    apply Z.div_lt_upper_bound; lia. }
  assert (0 <= v / 256 / 256 / 256) by (repeat apply Z.div_pos; lia).
  rewrite (Z.mod_small (v / 256 / 256 / 256)) by lia.
  pose proof (Z.div_mod v 256).
  pose proof (Z.div_mod (v / 256) 256).
  pose proof (Z.div_mod (v / 256 / 256) 256).
  lia.
Qed.

(** A header whose fields are [uint32_t] values is what its bytes read as. *)
Lemma of_bytes_to_bytes (h : Hdr.t) :
  0 <= Hdr.last_index h < 2 ^ 32 -> 0 <= Hdr.filter h < 2 ^ 32 ->
  0 <= Hdr.rte_cfg h < 2 ^ 32 -> 0 <= Hdr.timestamp_frequency h < 2 ^ 32 ->
  0 <= Hdr.filter_copy h < 2 ^ 32 -> 0 <= Hdr.buffer_size h < 2 ^ 32 ->
  Hdr.of_bytes (Hdr.to_bytes h) = h.
Proof.
  intros H1 H2 H3 H4 H5 H6. destruct h as [a b c d e f]. cbn in *.
  unfold Hdr.of_bytes, Hdr.to_bytes.
  cbn [Hdr.last_index Hdr.filter Hdr.rte_cfg Hdr.timestamp_frequency
       Hdr.filter_copy Hdr.buffer_size].
  f_equal.
  - apply le32_of_le32_bytes; assumption.
  - change (skipn 4 (le32_bytes a ++ ?t)) with t.
    apply le32_of_le32_bytes; assumption.
  - change (skipn 8 (le32_bytes a ++ le32_bytes b ++ ?t)) with t.
    apply le32_of_le32_bytes; assumption.
  - change (skipn 12 (le32_bytes a ++ le32_bytes b ++ le32_bytes c ++ ?t))
      with t.
    apply le32_of_le32_bytes; assumption.
  - change (skipn 16 (le32_bytes a ++ le32_bytes b ++ le32_bytes c
                      ++ le32_bytes d ++ ?t)) with t.
    apply le32_of_le32_bytes; assumption.
  - change (skipn 20 (le32_bytes a ++ le32_bytes b ++ le32_bytes c
                      ++ le32_bytes d ++ le32_bytes e ++ ?t)) with t.
    rewrite <- (app_nil_r (le32_bytes f)).
    apply le32_of_le32_bytes; assumption.
Qed.

Lemma offset_base (x s : Z) : u32 (x - u32 s) = u32 (x - s).
Proof. unfold u32. apply Zminus_mod_idemp_r. Qed.

Lemma offset_shift (x s k : Z) : u32 (x - u32 (s + k)) = u32 (u32 (x - s) - k).
Proof.
  unfold u32. rewrite Zminus_mod_idemp_r, Zminus_mod_idemp_l.
  f_equal. lia.
Qed.

Lemma mem_store_in (m : Z -> Z) (a : Z) (d : list Z) (x : Z) :
  u32 (x - a) < len d ->
  mem_store m a d x = nth (Z.to_nat (u32 (x - a))) d 0.
Proof.
  intros H. unfold mem_store.
  destruct (Z.ltb_spec (u32 (x - a)) (len d)); [reflexivity | lia].
Qed.

Lemma mem_store_out (m : Z -> Z) (a : Z) (d : list Z) (x : Z) :
  len d <= u32 (x - a) -> mem_store m a d x = m x.
Proof.
  intros H. unfold mem_store.
  destruct (Z.ltb_spec (u32 (x - a)) (len d)); [lia | reflexivity].
Qed.

Lemma nth_repeat_255 (n i : nat) : (i < n)%nat -> nth i (repeat 255 n) 0 = 255.
Proof.
  revert i. induction n as [|n IH]; intros i H; [lia|].
  destruct i as [|i]; [reflexivity|]. cbn [repeat nth]. apply IH. lia.
Qed.

(** A block whose bytes are known address by address. *)
Lemma mem_bytes_of_offsets (M : Z -> Z) (start : Z) (d : list Z) :
  Forall is_byte d ->
  (forall i, (i < List.length d)%nat ->
             M (u32 (start + Z.of_nat i)) = nth i d 0) ->
  mem_bytes M start (List.length d) = d.
Proof.
  intros F H. apply (nth_ext _ _ 0 0).
  - apply mem_bytes_length.
  - intros n Hn. rewrite mem_bytes_length in Hn.
    unfold mem_bytes.
    rewrite (nth_indep _ 0 (u8 (M (u32 (start + Z.of_nat 0)))))
      by (rewrite length_map, length_seq; exact Hn).
    rewrite (map_nth (fun i => u8 (M (u32 (start + Z.of_nat i))))).
    rewrite seq_nth by exact Hn. cbn [Nat.add].
    rewrite H by exact Hn.
    apply u8_small.
    rewrite Forall_forall in F. apply F. apply nth_In. exact Hn.
Qed.

Lemma to_bytes_is_byte (h : Hdr.t) : Forall is_byte (Hdr.to_bytes h).
Proof.
  unfold Hdr.to_bytes, le32_bytes. cbn [app].
  repeat (constructor; [apply u8_range|]). constructor.
Qed.

Lemma to_bytes_u8 (h : Hdr.t) : map u8 (Hdr.to_bytes h) = Hdr.to_bytes h.
Proof.
  unfold Hdr.to_bytes. rewrite !map_app, !le32_bytes_u8. reflexivity.
Qed.

Lemma u32_wrap (y : Z) : - 2 ^ 32 <= y < 0 -> u32 y = y + 2 ^ 32.
Proof. intros H. unfold u32. zdiv. Qed.

Lemma len_repeat (n : nat) : len (repeat 255 n) = Z.of_nat n.
Proof. unfold len. rewrite repeat_length. reflexivity. Qed.

Ltac decide_tests :=
  repeat match goal with
         | |- context [Z.ltb ?a ?b] => destruct (Z.ltb_spec a b); try lia
         end.

(** The four writes of [#init], address by address. *)
Lemma initialized_memory_stores (m : Z -> Z) (clear single : bool)
    (start size f cfg ts : Z) (x : Z) :
  sizeof_rtedbg_header < size < 2 ^ 32 ->
  let written := Hdr.mk 0 0 cfg ts f ((size - sizeof_rtedbg_header) / 4) in
  let reset :=
    reset_memory clear single start size
      (mem_store (mem_store m (u32 (start + 4)) [0; 0; 0; 0])
         (u32 start) (Hdr.to_bytes written)) in
  (if f =? 0 then reset x
   else mem_store reset (u32 (start + 4)) (le32_bytes f) x)
  = initialized_memory clear start size
      (Hdr.mk 0 f cfg ts f ((size - sizeof_rtedbg_header) / 4)) m x.
Proof.
  intros Hs. cbv zeta. unfold sizeof_rtedbg_header in Hs.
  unfold initialized_memory, reset_memory, sizeof_rtedbg_header.
  assert (Ho := u32_range (x - start)).
  destruct (Z.eqb_spec f 0) as [Hf|Hf]; [subst f|];
    destruct clear, single; unfold mem_store; cbv beta;
    rewrite ?offset_shift, ?offset_base;
    change (len [0; 0; 0; 0]) with 4;
    try change (len (le32_bytes ?v)) with 4;
    change (len (Hdr.to_bytes ?h)) with 24;
    rewrite ?len_repeat, ?Z2Nat.id by lia;
    remember (u32 (x - start)) as o eqn:Eo; clear Eo;
    cbn [andb];
    (destruct (Z_lt_le_dec o 24) as [H24|H24];
     [ assert (Hc : o = 0 \/ o = 1 \/ o = 2 \/ o = 3 \/ o = 4 \/ o = 5
                    \/ o = 6 \/ o = 7 \/ o = 8 \/ o = 9 \/ o = 10
                    \/ o = 11 \/ o = 12 \/ o = 13 \/ o = 14 \/ o = 15
                    \/ o = 16 \/ o = 17 \/ o = 18 \/ o = 19 \/ o = 20
                    \/ o = 21 \/ o = 22 \/ o = 23) by lia;
       repeat (destruct Hc as [Hc|Hc];
               [subst o; cbn [Z.sub Z.add Z.opp Z.pos_sub Z.succ_double
                              Z.pred_double Z.double Pos.pred_double];
                rewrite ?(u32_wrap (-1)), ?(u32_wrap (-2)), ?(u32_wrap (-3)),
                  ?(u32_wrap (-4)), ?(u32_wrap (-5)), ?(u32_wrap (-6)),
                  ?(u32_wrap (-7)), ?(u32_wrap (-8)), ?(u32_wrap (-9)),
                  ?(u32_wrap (-10)), ?(u32_wrap (-11)), ?(u32_wrap (-12)),
                  ?(u32_wrap (-13)), ?(u32_wrap (-14)), ?(u32_wrap (-15)),
                  ?(u32_wrap (-16)), ?(u32_wrap (-17)), ?(u32_wrap (-18)),
                  ?(u32_wrap (-19)), ?(u32_wrap (-20)), ?(u32_wrap (-21)),
                  ?(u32_wrap (-22)), ?(u32_wrap (-23)), ?(u32_wrap (-24))
                  by lia;
                rewrite ?u32_small by lia;
                decide_tests; reflexivity|]);
       subst o; cbn [Z.sub Z.add Z.opp Z.pos_sub Z.succ_double
                     Z.pred_double Z.double Pos.pred_double];
       rewrite ?(u32_wrap (-1)) by lia; rewrite ?u32_small by lia;
       decide_tests; reflexivity
     | rewrite ?(u32_small (o - 4)), ?(u32_small (o - 24)) by lia;
       decide_tests; try reflexivity; apply nth_repeat_255; lia ]).
Qed.

(** X12.  [#init cfg_word timestamp_frequency] against a target that
    answers memory writes, with a non-zero frequency and a [size] argument
    that leaves room for a buffer: afterwards the target holds the header
    with index 0, the filter and the filter copy both equal to the
    [-filter] value (logging is enabled again when that is not zero), the
    configuration word and the frequency as given and the buffer size in
    words; with [-clear] every byte of the circular buffer is 0xFF; no other
    byte of the target has changed. *)
Theorem initialize_data_logging_structure_mem (a : app_state mem_srv)
    (cfg_word timestamp_frequency : Z) :
  link_ok (gdb a) -> malloc_ok a = true ->
  0 <= cfg_word < 2 ^ 32 -> 0 < timestamp_frequency < 2 ^ 32 ->
  0 <= Par.filter (parameters a) < 2 ^ 32 ->
  sizeof_rtedbg_header < Par.size (parameters a) < 2 ^ 32 ->
  exists g,
    initialize_data_logging_structure mem_react cfg_word timestamp_frequency a
    = (tt, set_gdb g a)
    /\ link_ok g
    /\ Hdr.of_bytes
         (mem_bytes (mem (srv g)) (Par.start_address (parameters a)) 24)
       = initial_header (parameters a) cfg_word timestamp_frequency
    /\ (forall x,
           mem (srv g) x
           = initialized_memory (Par.clear_buffer (parameters a))
               (Par.start_address (parameters a)) (Par.size (parameters a))
               (initial_header (parameters a) cfg_word timestamp_frequency)
               (tmem a) x).
Proof.
  intros L Hm Hc Ht Hf Hs.
  set (start := Par.start_address (parameters a)).
  set (size := Par.size (parameters a)) in *.
  set (f := Par.filter (parameters a)) in *.
  assert (Final :
    exists g,
      initialize_data_logging_structure mem_react cfg_word
        timestamp_frequency a = (tt, set_gdb g a)
      /\ link_ok g
      /\ (forall x,
             mem (srv g) x
             = initialized_memory (Par.clear_buffer (parameters a))
                 start size
                 (initial_header (parameters a) cfg_word timestamp_frequency)
                 (tmem a) x)).
  { unfold initialize_data_logging_structure.
    unfold bind at 1, gets at 1.
    replace (timestamp_frequency =? 0) with false
      by (symmetry; apply Z.eqb_neq; lia).
    fold size. replace (size =? 0) with false
      by (symmetry; apply Z.eqb_neq; unfold sizeof_rtedbg_header in Hs; lia).
    cbv iota. fold f. fold start.
    (* logging paused *)
    destruct (gdb_write_memory_link (gdb a) [0; 0; 0; 0]
                (MESSAGE_FILTER_ADDRESS a) 4 L)
      as (g1 & E1 & L1 & M1); [lia | cbn; lia |].
    assert (P1 : pause_data_logging mem_react a = (GDB_OK, set_gdb g1 a)).
    { unfold pause_data_logging, bind, gets. apply (lift_eq _ a _ _ E1). }
    rewrite (bind_eq _ _ _ _ _ P1).
    change (negb (GDB_OK =? GDB_OK)) with false. cbv iota.
    unfold MESSAGE_FILTER_ADDRESS in M1. fold start in M1.
    rewrite (u32_small (u32 (start + 4))) in M1 by apply u32_range.
    change (map u8 (firstn (Z.to_nat 4) [0; 0; 0; 0])) with [0; 0; 0; 0]
      in M1.
    (* the header *)
    set (written := Hdr.mk 0 0 cfg_word timestamp_frequency f
                      (u32 (usize (size - sizeof_rtedbg_header) / 4))).
    destruct (gdb_write_memory_link g1 (Hdr.to_bytes written) start
                sizeof_rtedbg_header L1)
      as (g2 & E2 & L2 & M2);
      [unfold sizeof_rtedbg_header; lia | cbn; lia |].
    rewrite (bind_eq _ _ _ _ _ (lift_eq _ (set_gdb g1 a) _ _ E2)).
    change (negb (GDB_OK =? GDB_OK)) with false. cbv iota.
    change (firstn (Z.to_nat sizeof_rtedbg_header) (Hdr.to_bytes written))
      with (Hdr.to_bytes written) in M2.
    rewrite to_bytes_u8 in M2.
    (* the buffer *)
    set (a2 := set_gdb g2 (set_gdb g1 a)).
    destruct (reset_circular_buffer_mem a2 L2 Hm Hs) as (g3 & E3 & L3 & M3).
    rewrite (bind_eq _ _ _ _ _ E3).
    change (negb (GDB_OK =? GDB_OK)) with false. cbv iota.
    change (parameters a2) with (parameters a) in M3. fold start size in M3.
    change (single_shot_active a2) with (single_shot_active a) in M3.
    change (tmem a2) with (mem (srv g2)) in M3.
    assert (R : forall x,
               mem (srv g3) x
               = reset_memory (Par.clear_buffer (parameters a))
                   (single_shot_active a) start size
                   (mem_store (mem_store (tmem a) (u32 (start + 4))
                                 [0; 0; 0; 0])
                      (u32 start) (Hdr.to_bytes written)) x).
    { intros x. rewrite M3. unfold reset_memory.
      destruct (Par.clear_buffer (parameters a));
        [| destruct (single_shot_active a)];
        repeat (apply mem_store_ext; intros ?);
        rewrite ?M2; repeat (apply mem_store_ext; intros ?); apply M1. }
    assert (W : written
                = Hdr.mk 0 0 cfg_word timestamp_frequency f
                    ((size - sizeof_rtedbg_header) / 4)).
    { unfold written, usize.
      rewrite (Z.mod_small (size - sizeof_rtedbg_header))
        by (unfold sizeof_rtedbg_header in *; lia).
      rewrite u32_small by (unfold sizeof_rtedbg_header in *; zdiv).
      reflexivity. }
    (* logging enabled *)
    pose proof (initialized_memory_stores (tmem a)
                  (Par.clear_buffer (parameters a)) (single_shot_active a)
                  start size f cfg_word timestamp_frequency) as IM.
    cbv zeta in IM. rewrite <- W in IM.
    unfold initial_header. fold f size.
    destruct (Z.eqb_spec f 0) as [Hf0|Hf0].
    - cbn [negb]. unfold bind at 1, ret at 1.
      change (negb (GDB_OK =? GDB_OK)) with false. cbv iota.
      unfold app_log, lift, log_string, modify.
      cbn [gdb set_gdb fst snd].
      eexists. split; [reflexivity|]. split; [apply link_ok_log; exact L3|].
      intros x. cbn [srv add_log]. rewrite R. apply (IM x Hs).
    - cbn [negb].
      destruct (gdb_write_memory_link g3 (le32_bytes f)
                  (MESSAGE_FILTER_ADDRESS a) 4 L3)
        as (g4 & E4 & L4 & M4); [lia | cbn; lia |].
      rewrite (bind_eq _ _ _ _ _ (lift_eq _ (set_gdb g3 a2) _ _ E4)).
      change (negb (GDB_OK =? GDB_OK)) with false. cbv iota.
      unfold app_log, lift, log_string, modify.
      cbn [gdb set_gdb fst snd].
      eexists. split; [reflexivity|]. split; [apply link_ok_log; exact L4|].
      intros x. cbn [srv add_log]. rewrite M4.
      unfold MESSAGE_FILTER_ADDRESS. fold start.
      rewrite (u32_small (u32 (start + 4))) by apply u32_range.
      change (firstn (Z.to_nat 4) (le32_bytes f)) with (le32_bytes f).
      rewrite le32_bytes_u8.
      rewrite (mem_store_ext _ _ _ _ _ R). apply (IM x Hs). }
  destruct Final as (g & E & Lg & M).
  exists g. split; [exact E|]. split; [exact Lg|]. split; [| exact M].
  assert (B : mem_bytes (mem (srv g)) start 24
              = Hdr.to_bytes
                  (initial_header (parameters a) cfg_word
                     timestamp_frequency)).
  { apply (mem_bytes_of_offsets (mem (srv g)) start
             (Hdr.to_bytes (initial_header (parameters a) cfg_word
                              timestamp_frequency))).
    - apply to_bytes_is_byte.
    - intros i Hi. rewrite to_bytes_length in Hi. rewrite M.
      unfold initialized_memory.
      replace (u32 (u32 (start + Z.of_nat i) - start)) with (Z.of_nat i).
      2:{ rewrite <- (offset_base _ start).
          unfold u32. rewrite Zminus_mod_idemp_l, Zminus_mod_idemp_r.
          replace (start + Z.of_nat i - start) with (Z.of_nat i) by lia.
          rewrite Z.mod_small by lia. reflexivity. }
      unfold sizeof_rtedbg_header.
      destruct (Z.ltb_spec (Z.of_nat i) 24); [| lia].
      rewrite Nat2Z.id. reflexivity. }
  rewrite B. apply of_bytes_to_bytes; unfold initial_header;
    cbn [Hdr.last_index Hdr.filter Hdr.rte_cfg Hdr.timestamp_frequency
         Hdr.filter_copy Hdr.buffer_size]; fold f size;
    unfold sizeof_rtedbg_header in *; try lia.
  zdiv.
Qed.


Lemma initialize_data_logging_structure_mem_witness :
  exists g,
    initialize_data_logging_structure mem_react 100663298 48000000
      (session target_header_off init_parameters)
    = (tt, set_gdb g (session target_header_off init_parameters))
    /\ link_ok g
    /\ Hdr.of_bytes (mem_bytes (mem (srv g)) 603979776 24)
       = Hdr.mk 0 15 100663298 48000000 15 14.
Proof.
  destruct (initialize_data_logging_structure_mem
              (session target_header_off init_parameters)
              100663298 48000000) as (g & E & L & H & _).
  - unfold link_ok, quiet. vm_compute. intuition discriminate.
  - reflexivity.
  - lia.
  - lia.
  - vm_compute. intuition discriminate.
  - vm_compute. intuition discriminate.
  - exists g. split; [exact E|]. split; [exact L|]. exact H.
Defined.

(* ===================================================================== *)
(** ** The command line                                                   *)
(* ===================================================================== *)

(** What [%u] stores is an [unsigned]. *)
Lemma sscanf_u_range (s rest : list Z) (v : Z) :
  sscanf_u s = Some (v, rest) -> 0 <= v < 2 ^ 32.
Proof.
  unfold sscanf_u.
  generalize (skip_spaces s). intros s1.
  destruct (match s1 with
            | 43 :: tl => (false, tl)
            | 45 :: tl => (true, tl)
            | _ => (false, s1)
            end) as [neg s2].
  destruct s2 as [|c tl]; [discriminate|].
  destruct (is_digit c); [| discriminate].
  destruct (scan_dec_digits 0 (c :: tl)) as [x r].
  intros H. inversion H. apply u32_range.
Qed.

Lemma land_3 (x : Z) : 0 <= x -> (Z.land x 3 =? 0) = true -> x mod 4 = 0.
Proof.
  intros Hx H. apply Z.eqb_eq in H.
  change 3 with (Z.ones 2) in H. rewrite Z.land_ones in H by lia.
  exact H.
Qed.

Lemma with_name_inv (parameter : list Z) (k : list Z -> option Cmd.state)
    (s' : Cmd.state) :
  Cmd.with_name parameter k = Some s' -> exists name, k name = Some s'.
Proof.
  unfold Cmd.with_name.
  destruct (Cmd.remove_quotation_marks parameter) as [name|];
    [| discriminate].
  intros H. exists name. exact H.
Qed.

(** One option keeps the invariant and leaves the three positional
    arguments alone. *)
Lemma process_one_cmd_line_parameter_keeps (parameter : list Z)
    (s s' : Cmd.state) :
  Cmd.process_one_cmd_line_parameter parameter s = Some s' ->
  options_invariant (Cmd.parameters s) ->
  options_invariant (Cmd.parameters s')
  /\ Cmd.start_address (Cmd.parameters s')
     = Cmd.start_address (Cmd.parameters s)
  /\ Cmd.size (Cmd.parameters s') = Cmd.size (Cmd.parameters s)
  /\ Cmd.gdb_port (Cmd.parameters s') = Cmd.gdb_port (Cmd.parameters s).
Proof.
  unfold Cmd.process_one_cmd_line_parameter, options_invariant.
  intros H (I1 & I2 & I3 & I4 & I5 & I6 & I7 & I8).
  change (2 ^ 32) with 4294967296 in *.
  repeat match type of H with
         | (if ?c then _ else _) = _ => destruct c
         end;
    try discriminate H;
    try (apply with_name_inv in H; destruct H as [name H]);
    try (inversion H; subst s'; cbn; repeat split; auto; try discriminate;
         lia).
  - (* -delay= *)
    unfold Cmd.process_delay_value in H.
    destruct (sscanf_u _) as [[n r]|] eqn:E; [| discriminate H].
    apply sscanf_u_range in E. change (2 ^ 32) with 4294967296 in E.
    destruct (negb (n =? 0)); [| discriminate H].
    inversion H; subst s'; cbn; repeat split; auto; lia.
  - (* -filter= *)
    unfold Cmd.process_filter_value in H.
    destruct (sscanf_x _) as [[n r]|] eqn:E; [| discriminate H].
    apply sscanf_x_range in E. change (2 ^ 32) with 4294967296 in E.
    inversion H; subst s'; cbn; repeat split; auto; try discriminate; lia.
  - (* -msgsize= *)
    unfold Cmd.process_max_msg_length_value in H.
    destruct (sscanf_u _) as [[n r]|] eqn:E; [| discriminate H].
    destruct (Z.geb_spec n 256); [| discriminate H].
    destruct (Z.leb_spec n TCP_BUFF_LENGTH); [| discriminate H].
    inversion H; subst s'; cbn; repeat split; auto; lia.
  - (* -driver= *)
    unfold Cmd.add_driver_name in H.
    destruct (Z.geb_spec (Cmd.number_of_drivers (Cmd.parameters s))
                Cmd.MAX_DRIVERS); [discriminate H|].
    inversion H; subst s'; cbn; repeat split; auto; try lia.
    unfold Cmd.number_of_drivers, Cmd.MAX_DRIVERS in *. cbn.
    rewrite length_app. cbn. lia.
Qed.

Lemma process_options_keeps (options : list (list Z)) :
  forall s s' : Cmd.state,
    Cmd.process_options options s = Some s' ->
    options_invariant (Cmd.parameters s) ->
    options_invariant (Cmd.parameters s')
    /\ Cmd.start_address (Cmd.parameters s')
       = Cmd.start_address (Cmd.parameters s)
    /\ Cmd.size (Cmd.parameters s') = Cmd.size (Cmd.parameters s)
    /\ Cmd.gdb_port (Cmd.parameters s') = Cmd.gdb_port (Cmd.parameters s).
Proof.
  induction options as [|parameter rest IH]; intros s s' H I.
  - inversion H. subst s'. split; [exact I|]. repeat split.
  - cbn [Cmd.process_options] in H.
    destruct (Cmd.process_one_cmd_line_parameter parameter s) as [s1|] eqn:E;
      [| discriminate H].
    destruct (process_one_cmd_line_parameter_keeps _ _ _ E I)
      as (I1 & A1 & S1 & P1).
    destruct (IH _ _ H I1) as (I2 & A2 & S2 & P2).
    split; [exact I2|]. repeat split; congruence.
Qed.

(** X13.  A command line that process_command_line_parameters accepts has
    at least the three positional arguments, and leaves in [parameters]: a
    port below 65536; a word-aligned start address; a size that is 0 or a
    multiple of 4 that is at least MIN_BUFFER_SIZE; a message size that is
    0 (no [-msgsize]) or between 256 and the size of the message buffer; a
    filter value that is 0 unless [-filter] was given; at most MAX_DRIVERS
    driver names, with the priority elevation switched on if there is any;
    and a binary file name and an IP address. *)
Theorem accepted_command_line (argv : list (list Z)) (s : Cmd.state) :
  Cmd.process_command_line_parameters argv = Some s ->
  (4 <= List.length argv)%nat
  /\ 0 <= Cmd.gdb_port (Cmd.parameters s) < 65536
  /\ 0 <= Cmd.start_address (Cmd.parameters s) < 2 ^ 32
  /\ Cmd.start_address (Cmd.parameters s) mod 4 = 0
  /\ 0 <= Cmd.size (Cmd.parameters s) < 2 ^ 32
  /\ Cmd.size (Cmd.parameters s) mod 4 = 0
  /\ (Cmd.size (Cmd.parameters s) = 0
      \/ MIN_BUFFER_SIZE <= Cmd.size (Cmd.parameters s))
  /\ (Cmd.max_message_size (Cmd.parameters s) = 0
      \/ 256 <= Cmd.max_message_size (Cmd.parameters s) <= TCP_BUFF_LENGTH)
  /\ (Cmd.set_filter (Cmd.parameters s) = false ->
      Cmd.filter (Cmd.parameters s) = 0)
  /\ 0 <= Cmd.filter (Cmd.parameters s) < 2 ^ 32
  /\ 0 <= Cmd.delay (Cmd.parameters s) < 2 ^ 32
  /\ Cmd.number_of_drivers (Cmd.parameters s) <= Cmd.MAX_DRIVERS
  /\ (Cmd.driver_names (Cmd.parameters s) <> [] ->
      Cmd.elevated_priority (Cmd.parameters s) = true)
  /\ Cmd.bin_file_name (Cmd.parameters s) <> None
  /\ Cmd.ip_address (Cmd.parameters s) <> None.
Proof.
  unfold Cmd.process_command_line_parameters.
  destruct argv as [|a0 [|port [|address [|structure_size options]]]];
    try discriminate.
  unfold Cmd.sscanf_hu.
  destruct (sscanf_u port) as [[vp rp]|] eqn:Ep; [| discriminate].
  destruct (sscanf_x address) as [[va ra]|] eqn:Ea; [| discriminate].
  destruct (sscanf_x structure_size) as [[vs rs]|] eqn:Es; [| discriminate].
  apply sscanf_x_range in Ea. apply sscanf_x_range in Es.
  cbv zeta.
  match goal with
  | |- context [Cmd.process_options options ?s0] =>
      destruct (Cmd.process_options options s0) as [s1|] eqn:E;
        [| discriminate];
      assert (I0 : options_invariant (Cmd.parameters s0))
  end.
  { unfold options_invariant. cbn.
    split; [reflexivity|]. split; [lia|]. split; [left; reflexivity|].
    split; [lia|]. split; [unfold Cmd.MAX_DRIVERS; lia|].
    split; [intros H; contradiction|]. split; discriminate. }
  destruct (process_options_keeps _ _ _ E I0) as (I & A & S & P).
  cbn in A, S, P.
  unfold Cmd.check_parameters. intros H.
  destruct (Z.land (Cmd.size (Cmd.parameters s1)) 3 =? 0) eqn:L1;
    [| discriminate H].
  cbn [negb orb] in H.
  destruct (Z.ltb_spec (Cmd.size (Cmd.parameters s1)) MIN_BUFFER_SIZE)
    as [Hlt|Hge].
  - destruct (Z.eqb_spec (Cmd.size (Cmd.parameters s1)) 0) as [Hz|Hz];
      [| discriminate H].
    cbn [negb andb] in H.
    destruct (Z.land (Cmd.start_address (Cmd.parameters s1)) 3 =? 0) eqn:L2;
      [| discriminate H].
    inversion H. subst s1.
    destruct I as (I1 & I2 & I3 & I4 & I5 & I6 & I7 & I8).
    split; [cbn; lia|]. rewrite P, A, S in *.
    split; [apply Z.mod_pos_bound; lia|].
    split; [exact Ea|]. split; [apply land_3; [lia | exact L2]|].
    split; [exact Es|]. split; [apply land_3; [lia | exact L1]|].
    split; [left; exact Hz|].
    repeat (split; [assumption|]). assumption.
  - cbn [negb andb] in H.
    destruct (Z.land (Cmd.start_address (Cmd.parameters s1)) 3 =? 0) eqn:L2;
      [| discriminate H].
    inversion H. subst s1.
    destruct I as (I1 & I2 & I3 & I4 & I5 & I6 & I7 & I8).
    split; [cbn; lia|]. rewrite P, A, S in *.
    split; [apply Z.mod_pos_bound; lia|].
    split; [exact Ea|]. split; [apply land_3; [lia | exact L2]|].
    split; [exact Es|]. split; [apply land_3; [lia | exact L1]|].
    split; [right; exact Hge|].
    repeat (split; [assumption|]). assumption.
Qed.

Lemma accepted_command_line_witness :
  exists s,
    Cmd.process_command_line_parameters sample_argv = Some s
    /\ Cmd.start_address (Cmd.parameters s) mod 4 = 0
    /\ (Cmd.size (Cmd.parameters s) = 0
        \/ MIN_BUFFER_SIZE <= Cmd.size (Cmd.parameters s))
    /\ Cmd.bin_file_name (Cmd.parameters s) = Some (str "my data.bin").
Proof.
  eexists. split; [vm_compute; reflexivity|].
  split; [| split; [| reflexivity]];
    apply (accepted_command_line sample_argv); vm_compute; reflexivity.
Defined.

Lemma last_app_one (body : list Z) (c d : Z) : last (body ++ [c]) d = c.
Proof.
  induction body as [|b body IH]; [reflexivity|].
  cbn [app]. destruct (body ++ [c]) eqn:E.
  - destruct body; discriminate E.
  - cbn [last]. cbn [last] in IH. exact IH.
Qed.

Lemma remove_quotation_marks_quoted (body : list Z) (c : Z) :
  Cmd.remove_quotation_marks (34 :: body ++ [c])
  = (if c =? 34 then Some body else None).
Proof.
  unfold Cmd.remove_quotation_marks.
  replace (len (34 :: body ++ [c]) >? 1) with true.
  2:{ symmetry. apply Z.gtb_lt. unfold len. cbn [List.length].
      rewrite length_app. cbn. lia. }
  change (34 :: body ++ [c]) with ((34 :: body) ++ [c]).
  rewrite last_app_one, removelast_last. reflexivity.
Qed.

(** X14.  remove_quotation_marks: a value in quotation marks is taken
    without them, and so [-bin="name"] stores [name], whatever characters
    it has; an opening quotation mark without a closing one (alone, or
    before a text that ends otherwise) ends the program; a value that does
    not begin with a quotation mark is taken as it is. *)
Theorem remove_quotation_marks_cases (body : list Z) (c : Z)
    (s : Cmd.state) :
  Cmd.remove_quotation_marks (34 :: body ++ [c])
  = (if c =? 34 then Some body else None)
  /\ Cmd.remove_quotation_marks [34] = None
  /\ (c = 34 \/ Cmd.remove_quotation_marks (c :: body) = Some (c :: body))
  /\ Cmd.remove_quotation_marks [] = Some []
  /\ Cmd.process_one_cmd_line_parameter (str "-bin=" ++ [34] ++ body ++ [34])
       s
     = Some (Cmd.update (Cmd.with_bin_file_name body) s).
Proof.
  split; [apply remove_quotation_marks_quoted|].
  split; [reflexivity|]. split.
  - destruct (Z.eq_dec c 34) as [e|n]; [left; exact e | right].
    unfold Cmd.remove_quotation_marks.
    destruct c as [|p|p]; try reflexivity.
    do 6 (destruct p as [p|p|]; try reflexivity).
    contradiction n. reflexivity.
  - split; [reflexivity|].
    unfold Cmd.process_one_cmd_line_parameter.
    change (starts_with (str "-delay=") (str "-bin=" ++ [34] ++ body ++ [34]))
      with false.
    change (starts_with (str "-filter=") (str "-bin=" ++ [34] ++ body ++ [34]))
      with false.
    change (starts_with (str "-bin=") (str "-bin=" ++ [34] ++ body ++ [34]))
      with true.
    cbv iota.
    change (skipn 5 (str "-bin=" ++ [34] ++ body ++ [34]))
      with (34 :: body ++ [34]).
    unfold Cmd.with_name. rewrite remove_quotation_marks_quoted.
    reflexivity.
Qed.

(* ===================================================================== *)
(** ** Command files                                                      *)
(* ===================================================================== *)

Lemma fgets_line (l rest : list Z) :
  ~ In 10 l ->
  forall n, (List.length l < n)%nat ->
            fgets n (l ++ 10 :: rest) = (l ++ [10], rest).
Proof.
  induction l as [|c l IH]; intros Hn n Hl.
  - destruct n as [|n]; [cbn in Hl; lia|]. reflexivity.
  - destruct n as [|n]; [cbn in Hl; lia|].
    cbn [app fgets].
    destruct (Z.eqb_spec c 10) as [e|ne]; [exfalso; apply Hn; left; auto|].
    rewrite IH; [reflexivity | | cbn in Hl; lia].
    intros H. apply Hn. right. exact H.
Qed.

Lemma cstr_no_nul (l : list Z) : ~ In 0 l -> cstr l = l.
Proof.
  induction l as [|c l IH]; intros H; [reflexivity|].
  cbn [cstr]. destruct (Z.eqb_spec c 0) as [e|ne].
  - exfalso. apply H. left. auto.
  - rewrite IH; [reflexivity|]. intros X. apply H. right. exact X.
Qed.

Lemma strip_newline_line (l : list Z) :
  ~ In 10 l -> strip_newline (l ++ [10]) = l.
Proof.
  induction l as [|c l IH]; intros H; [reflexivity|].
  cbn [app strip_newline]. destruct (Z.eqb_spec c 10) as [e|ne].
  - exfalso. apply H. left. auto.
  - rewrite IH; [reflexivity|]. intros X. apply H. right. exact X.
Qed.

Section Scripts.

Variable Srv : Type.
Variable react : Srv -> list Z -> send_outcome * list recv_ev * Srv.

(** A command that the server answers with [OK]. *)
Lemma gdb_execute_command_acknowledged (g : gdb_state Srv)
    (command : list Z) (s' : Srv) :
  ack_mode_enabled g = false -> wire_in g = [] -> len command < 1020 ->
  react (srv g) (command_frame command)
  = (Sent (len (command_frame command)), [Data (str "$OK#9a")], s') ->
  exists g',
    gdb_execute_command react command g = (GDB_OK, g')
    /\ ack_mode_enabled g' = false /\ wire_in g' = []
    /\ wire_out g' = wire_out g ++ [command_frame command]
    /\ srv g' = s'.
Proof.
  intros Hack Hin Hlen Hreact.
  pose proof (gdb_execute_command_exchange Srv react g command (str "OK")
                57 97 s' Hack Hin Hlen Hreact) as X.
  cbv zeta in X. rewrite X.
  2:{ cbn. intros [H|[H|H]]; [discriminate H | discriminate H | exact H]. }
  2:{ cbn. unfold TCP_BUFF_LENGTH. lia. }
  clear X.
  match goal with
  | |- context [bind ?m ?k ?h] => set (g2 := h)
  end.
  assert (B : message_buffer g2
              = 36 :: 79 :: 75 :: 35 :: 57 :: 97 :: 0
                :: skipn 7 (overlay (str "$OK#9a")
                              (overlay [0] (message_buffer g)))).
  { subst g2. cbn [message_buffer set_buffer]. unfold overlay at 1.
    reflexivity. }
  unfold bind at 1.
  rewrite (gdb_error_reported_no_error Srv g2)
    by (rewrite B; cbn; first [reflexivity | discriminate]).
  unfold bind at 1, gets at 1. rewrite B.
  exists (add_log "OK" g2). split; [reflexivity|].
  subst g2. cbn. rewrite Hack. repeat split; reflexivity.
Qed.

Hypothesis acknowledges :
  forall (s : Srv) (command : list Z),
  exists s',
    react s (command_frame command)
    = (Sent (len (command_frame command)), [Data (str "$OK#9a")], s').

Lemma command_loop_in_order (lines : list (list Z)) :
  Forall plain_command lines ->
  forall (fuel : nat) (a : app_state Srv),
    (List.length (script lines) <= fuel)%nat ->
    ack_mode_enabled (gdb a) = false -> wire_in (gdb a) = [] ->
    exists g',
      command_loop react fuel (script lines) a = (tt, set_gdb g' a)
      /\ ack_mode_enabled g' = false /\ wire_in g' = []
      /\ wire_out g' = wire_out (gdb a) ++ map command_frame lines.
Proof.
  induction 1 as [|l lines Hl _ IH]; intros fuel a Hf Hack Hin.
  - exists (gdb a). destruct fuel; cbn; rewrite app_nil_r;
      (split; [destruct a; reflexivity | auto]).
  - destruct Hl as (Hne & Hfirst & Hnul & Hnl & Hlen).
    unfold script in *. cbn [flat_map] in *. fold (script lines) in *.
    rewrite <- app_assoc in *. cbn [app] in *.
    destruct fuel as [|fuel].
    { rewrite length_app in Hf. cbn in Hf. lia. }
    assert (Hf' : (List.length (script lines) <= fuel)%nat).
    { rewrite length_app in Hf. cbn in Hf. lia. }
    cbn [command_loop].
    destruct (l ++ 10 :: script lines) eqn:Ec.
    { destruct l; discriminate Ec. }
    rewrite <- Ec. clear Ec.
    rewrite (fgets_line l (script lines) Hnl 511)
      by (unfold len in Hlen; lia).
    rewrite cstr_no_nul.
    2:{ intros X. apply in_app_or in X. destruct X as [X|[X|[]]];
          [exact (Hnul X) | discriminate X]. }
    rewrite (strip_newline_line l Hnl).
    destruct l as [|c l']; [contradiction Hne; reflexivity|].
    cbn [nth] in Hfirst.
    destruct (Z.eqb_spec c 35) as [e|_]; [contradiction|].
    destruct (acknowledges (srv (gdb a)) (c :: l')) as [s' Hs'].
    destruct (gdb_execute_command_acknowledged (gdb a) (c :: l') s' Hack Hin)
      as (g1 & E1 & A1 & I1 & O1 & S1); [lia | exact Hs' |].
    unfold bind at 1. unfold lift at 1. rewrite E1.
    change (negb (GDB_OK =? GDB_OK)) with false. cbv iota.
    destruct (IH fuel (set_gdb g1 a)) as (g' & E & A' & I' & O').
    + exact Hf'.
    + exact A1.
    + exact I1.
    + exists g'. split; [exact E|]. split; [exact A'|]. split; [exact I'|].
      rewrite O'. cbn [gdb set_gdb map]. rewrite O1, <- app_assoc.
      reflexivity.
Qed.

(** X15.  A command file whose lines are all RSP commands, run on a quiet
    connection against a server that answers every command with [OK]:
    gdb_send_commands_from_file returns 0 and hands to the socket exactly
    the frames of the lines, one for each line, in the order of the file,
    and nothing else. *)
Theorem script_commands_in_order (lines : list (list Z)) (name : string)
    (a : app_state Srv) :
  Forall plain_command lines ->
  cmd_files a name = Some (script lines) ->
  ack_mode_enabled (gdb a) = false -> wire_in (gdb a) = [] ->
  exists a',
    gdb_send_commands_from_file react (Some name) a = (0, a')
    /\ wire_out (gdb a')
       = wire_out (gdb a) ++ map command_frame lines
    /\ wire_in (gdb a') = [].
Proof.
  intros Hl Hfile Hack Hin.
  unfold gdb_send_commands_from_file.
  unfold bind at 1, lift at 1, gdb_handle_unexpected_messages, modify.
  rewrite Hin. cbn [drain drain_into].
  unfold bind at 1, app_log, lift at 1, log_string, modify.
  cbn [gdb set_gdb fst snd].
  unfold bind at 1, gets at 1.
  cbn [cmd_files set_gdb]. rewrite Hfile.
  match goal with
  | |- context [bind _ _ ?a0] =>
      destruct (command_loop_in_order lines Hl
                  (List.length (script lines)) a0)
        as (g' & E & A' & I' & O')
  end.
  - apply Nat.le_refl.
  - cbn. exact Hack.
  - reflexivity.
  - unfold bind at 1. rewrite E. unfold ret.
    eexists. split; [reflexivity|]. cbn [gdb set_gdb].
    split; [| exact I']. rewrite O'. cbn. reflexivity.
Qed.

End Scripts.

Lemma script_commands_in_order_witness :
  exists a',
    gdb_send_commands_from_file ok_react (Some "start.cmd"%string)
      scripted_session = (0, a')
    /\ wire_out (gdb a')
       = wire_out (gdb scripted_session)
         ++ map command_frame [str "R 00"; str "vCont;c"]
    /\ wire_in (gdb a') = [].
Proof.
  apply (script_commands_in_order nat ok_react).
  - intros s command. exists (S s). reflexivity.
  - repeat constructor; cbn; try discriminate; try lia;
      intros H; repeat (destruct H as [H|H]; [discriminate H|]); exact H.
  - reflexivity.
  - reflexivity.
  - reflexivity.
Defined.

(* ===================================================================== *)
(** ** The reply to a memory read is verified                             *)
(* ===================================================================== *)

Lemma strchr_cstr_none (c : Z) (pre stale : list Z) :
  ~ In c pre -> c <> 0 -> strchr (cstr (pre ++ 0 :: stale)) c = None.
Proof.
  intros H Hc. induction pre as [|d pre IH].
  - reflexivity.
  - cbn [app cstr]. destruct (d =? 0); [reflexivity|].
    cbn [strchr]. destruct (Z.eqb_spec d c) as [e|ne].
    + exfalso. apply H. left. exact e.
    + rewrite IH; [reflexivity|]. intros X. apply H. right. exact X.
Qed.

Lemma lower_hex_not (c : Z) (l : list Z) :
  Forall is_lower_hex l -> ~ is_lower_hex c -> ~ In c l.
Proof.
  intros F Hc X. rewrite Forall_forall in F. apply Hc. apply F. exact X.
Qed.

(** What read_memory_packet computes from a reply with the digits of
    [data] and any two characters in the place of the checksum. *)
Lemma frame_in_buffer (data stale : list Z) (c1 c2 : Z) :
  Forall is_byte data -> c1 <> 42 -> c2 <> 42 ->
  let payload := hex_bytes false data in
  let L := Z.of_nat (List.length data) in
  let buf := (str "$" ++ payload ++ str "#" ++ [c1; c2]) ++ 0 :: stale in
  strchr (cstr buf) 42 = None
  /\ sum_bytes buf 1 (Z.to_nat (L * 2)) = checksum payload
  /\ at_ buf (L * 2 + 1) = 35
  /\ get_hex_digit (skipn (Z.to_nat (L * 2 + 2)) buf)
     = get_hex_digit [c1; c2]
  /\ decode_hex_bytes buf 0 (Z.to_nat L) = (true, data).
Proof.
  intros F H1 H2 payload L buf.
  assert (List.length payload = (2 * List.length data)%nat) as Lp
    by apply hex_bytes_length.
  assert (buf = 36 :: payload ++ 35 :: c1 :: c2 :: 0 :: stale) as Eb.
  { subst buf. change (str "$") with [36]. change (str "#") with [35].
    cbn [app]. rewrite <- !app_assoc. reflexivity. }
  assert (Forall is_lower_hex payload) as Fp by apply hex_bytes_lower.
  split; [| split; [| split; [| split]]].
  - rewrite Eb.
    replace (36 :: payload ++ 35 :: c1 :: c2 :: 0 :: stale)
      with ((36 :: payload ++ [35; c1; c2]) ++ 0 :: stale)
      by (cbn [app]; rewrite <- app_assoc; reflexivity).
    apply strchr_cstr_none; [| discriminate].
    intros [X|X]; [discriminate X|].
    apply in_app_or in X. destruct X as [X|X].
    + revert X. apply lower_hex_not; [exact Fp|].
      unfold is_lower_hex. lia.
    + destruct X as [X|[X|[X|[]]]]; [discriminate X | auto | auto].
  - change 1 with (Z.of_nat 1). rewrite sum_bytes_skipn.
    + rewrite Eb. cbn [skipn].
      replace (Z.to_nat (L * 2)) with (List.length payload) by lia.
      rewrite firstn_app, firstn_all, Nat.sub_diag. cbn [firstn].
      rewrite app_nil_r. reflexivity.
    + rewrite Eb. cbn [List.length]. rewrite length_app. lia.
  - rewrite Eb. unfold at_.
    replace (L * 2 + 1 <? 0) with false by (symmetry; apply Z.ltb_ge; lia).
    replace (Z.to_nat (L * 2 + 1)) with (S (List.length payload)) by lia.
    cbn [nth]. rewrite app_nth2 by lia. rewrite Nat.sub_diag. reflexivity.
  - rewrite Eb.
    replace (Z.to_nat (L * 2 + 2)) with (S (1 + List.length payload)) by lia.
    cbn [skipn]. rewrite <- skipn_skipn.
    rewrite skipn_app, skipn_all, Nat.sub_diag. cbn [app skipn].
    rewrite !get_hex_digit_cons. reflexivity.
  - rewrite Eb. replace (Z.to_nat L) with (List.length data) by lia.
    change (36 :: payload ++ 35 :: c1 :: c2 :: 0 :: stale)
      with ([36] ++ hex_bytes false data ++ 35 :: c1 :: c2 :: 0 :: stale).
    apply decode_hex_bytes_hex; [exact F | lia | reflexivity].
Qed.

Section Verified.

Variable Srv : Type.
Variable react : Srv -> list Z -> send_outcome * list recv_ev * Srv.

(** X16.  read_memory_packet verifies the reply: when the server answers a
    read of [length] bytes with the digits of [length] bytes and two
    checksum characters, the bytes are returned if the two characters are
    the hexadecimal digits of the sum of the digits modulo 256; otherwise
    (different digits, or characters that are no digits) nothing is
    returned and the error is ERR_BAD_MSG_CHECKSUM. *)
Theorem read_memory_packet_verifies (g : gdb_state Srv)
    (address length : Z) (data : list Z) (c1 c2 : Z) (s' : Srv) :
  ack_mode_enabled g = false -> wire_in g = [] ->
  1 <= length <= 32764 ->
  List.length data = Z.to_nat length -> Forall is_byte data ->
  c1 <> 42 -> c2 <> 42 ->
  react (srv g) (read_frame address length)
  = (Sent (len (read_frame address length)),
     [Data (str "$" ++ hex_bytes false data ++ str "#" ++ [c1; c2])], s') ->
  (get_hex_digit [c1; c2] = checksum (hex_bytes false data) ->
   fst (read_memory_packet react address length g) = (GDB_OK, data))
  /\ (get_hex_digit [c1; c2] <> checksum (hex_bytes false data) ->
      fst (read_memory_packet react address length g) = (GDB_ERROR, [])
      /\ last_gdb_error (snd (read_memory_packet react address length g))
         = ERR_BAD_MSG_CHECKSUM).
Proof.
  intros Hack Hin Hl Ld Fd H1 H2 Hreact.
  set (payload := hex_bytes false data).
  set (answer := str "$" ++ payload ++ str "#" ++ [c1; c2]).
  assert (len payload = 2 * length) as Lp
    by (unfold len, payload; rewrite hex_bytes_length; lia).
  assert (Fp : Forall is_lower_hex payload) by apply hex_bytes_lower.
  assert (Hc : complete_frame answer).
  { apply frame_complete.
    - apply lower_hex_not; [exact Fp | unfold is_lower_hex; lia].
    - unfold TCP_BUFF_LENGTH. lia. }
  destruct (read_memory_packet react address length g) as [res g'] eqn:E.
  cbn [fst snd]. unfold read_memory_packet in E.
  replace ((u32 (length * 2 + 4) >? TCP_BUFF_LENGTH) || (length =? 0))
    with false in E.
  2:{ symmetry. apply orb_false_iff. split.
      - rewrite u32_small by lia. rewrite Z.gtb_ltb. apply Z.ltb_ge.
        unfold TCP_BUFF_LENGTH. lia.
      - apply Z.eqb_neq. lia. }
  unfold bind at 1 in E. unfold modify at 1 in E.
  unfold bind at 1 in E.
  rewrite (gdb_send_accepted Srv react _ (read_frame address length)
             [Data answer] s') in E.
  2:{ rewrite read_frame_rsp. unfold rsp_frame. discriminate. }
  2:{ exact Hreact. }
  change (negb (GDB_OK =? GDB_OK)) with false in E. cbv iota in E.
  cbn [wire_in wire_out set_buffer] in E. rewrite Hin in E. cbn [app] in E.
  unfold bind at 1 in E.
  match type of E with
  | context [gdb_get_message react 0 ?h] => set (g1 := h) in E
  end.
  assert (Answer : exists c d, answer = c :: d).
  { unfold answer. change (str "$") with [36]. eexists _, _. reflexivity. }
  destruct Answer as (c & d & Ea).
  rewrite (gdb_get_message_quiet Srv react 0 g1 answer []) in E.
  2:{ exact Hack. }
  2:{ change (wire_in g1) with [Data answer].
      apply (get_message_loop_delivers [Data answer] answer [] ); [| exact Hc].
      rewrite Ea. constructor. }
  change (negb (GDB_OK =? GDB_OK)) with false in E. cbv iota in E.
  match type of E with
  | context [set_buffer ?b (set_wire_in [] g1)] =>
      set (buf := b) in E; set (g2 := set_buffer buf (set_wire_in [] g1)) in E
  end.
  assert (exists stale, buf = answer ++ 0 :: stale) as [stale Eb].
  { eexists. unfold buf, overlay. rewrite <- app_assoc. reflexivity. }
  destruct (frame_in_buffer data stale c1 c2 Fd H1 H2)
    as (P1 & P2 & P3 & P4 & P5).
  fold payload in P1, P2, P3, P4, P5. fold answer in P1, P2, P3, P4, P5.
  rewrite <- Eb in P1, P2, P3, P4, P5.
  replace (Z.of_nat (List.length data)) with length in * by lia.
  unfold bind at 1 in E.
  rewrite (gdb_error_reported_no_error Srv g2) in E.
  2:{ change (at_ buf 0 = 36). rewrite Eb. reflexivity. }
  2:{ change (at_ buf 1 <> 69). rewrite Eb. unfold answer.
      change (str "$") with [36].
      destruct payload as [|p payload'].
      - unfold len in Lp. cbn [List.length] in Lp. lia.
      - inversion Fp as [|? ? Hp _]; subst. cbn [app].
        change (at_ (36 :: p :: ?l) 1) with p.
        unfold is_lower_hex in Hp. lia. }
  cbv iota in E. unfold bind at 1, gets at 1 in E.
  change (message_buffer g2) with buf in E.
  rewrite P1, P2, P3, P4 in E.
  change (negb (35 =? 35)) with false in E. cbv iota in E.
  pose proof (checksum_range payload) as R.
  split; intros Hsum.
  - rewrite Hsum in E.
    replace ((checksum payload <? 0)
             || negb (checksum payload =? checksum payload)) with false in E.
    2:{ symmetry. apply orb_false_iff. split.
        - apply Z.ltb_ge. lia.
        - rewrite Z.eqb_refl. reflexivity. }
    rewrite P5 in E. inversion E. reflexivity.
  - replace ((get_hex_digit [c1; c2] <? 0)
             || negb (checksum payload =? get_hex_digit [c1; c2])) with true
      in E.
    2:{ symmetry. apply orb_true_iff. right.
        apply negb_true_iff. apply Z.eqb_neq. congruence. }
    unfold log_string, bind, modify, ret in E. inversion E.
    split; reflexivity.
Qed.

End Verified.


Lemma read_memory_packet_verifies_witness :
  fst (read_memory_packet corrupt_react 603979780 4 (gdb_start tt))
  = (GDB_ERROR, [])
  /\ last_gdb_error
       (snd (read_memory_packet corrupt_react 603979780 4 (gdb_start tt)))
     = ERR_BAD_MSG_CHECKSUM.
Proof.
  apply (proj2 (read_memory_packet_verifies unit corrupt_react
                  (gdb_start tt) 603979780 4 [15; 0; 0; 0] 48 48 tt
                  eq_refl eq_refl ltac:(lia) eq_refl
                  ltac:(repeat constructor; unfold is_byte; lia)
                  ltac:(discriminate) ltac:(discriminate) eq_refl)).
  vm_compute. discriminate.
Defined.

(* ===================================================================== *)
(** ** Console output                                                     *)
(* ===================================================================== *)

Lemma O_char_table :
  forallb (fun upper =>
    forallb (fun hi =>
      forallb (fun lo =>
        O_char (hex_char upper (Z.of_nat hi)) (hex_char upper (Z.of_nat lo))
        =? 16 * Z.of_nat hi + Z.of_nat lo)
        (seq 0 16))
      (seq 0 16))
    [true; false]
  = true.
Proof. vm_compute. reflexivity. Qed.

(** The conversion of print_O_type_message undoes [%02x] and [%02X]. *)
Lemma O_char_printf_hex (upper : bool) (b : Z) :
  0 <= b < 256 ->
  O_char (hex_char upper (b / 16)) (hex_char upper (b mod 16)) = b.
Proof.
  intros H.
  pose proof O_char_table as T.
  rewrite forallb_forall in T.
  assert (Hu : In upper [true; false]) by (destruct upper; cbn; auto).
  specialize (T upper Hu). rewrite forallb_forall in T.
  assert (Hhi : In (Z.to_nat (b / 16)) (seq 0 16)).
  { apply in_seq. split; [lia|].
    assert (0 <= b / 16 < 16) by zdiv. lia. }
  specialize (T _ Hhi). rewrite forallb_forall in T.
  assert (Hlo : In (Z.to_nat (b mod 16)) (seq 0 16)).
  { apply in_seq. split; [lia|].
    assert (0 <= b mod 16 < 16) by zdiv. lia. }
  specialize (T _ Hlo). apply Z.eqb_eq in T.
  rewrite !Z2Nat.id in T by zdiv. rewrite T. zdiv.
Qed.

Lemma O_decode_hex_bytes (upper : bool) (data : list Z) :
  Forall is_byte data -> O_decode (hex_bytes upper data) = data.
Proof.
  induction 1 as [|b data Hb _ IH]; [reflexivity|].
  unfold hex_bytes. cbn [flat_map]. fold (hex_bytes upper data).
  rewrite (u8_small b) by exact Hb.
  rewrite printf_hex_byte by exact Hb.
  cbn [app O_decode]. rewrite IH, O_char_printf_hex by exact Hb.
  reflexivity.
Qed.

Lemma hex_bytes_chars (upper : bool) (data : list Z) :
  Forall (fun c => 48 <= c <= 102) (hex_bytes upper data).
Proof.
  unfold hex_bytes. induction data as [|b data IH]; [constructor|].
  cbn [flat_map]. apply Forall_app. split; [| exact IH].
  rewrite printf_hex_byte by apply u8_range.
  pose proof (u8_range b) as R.
  assert (forall d, 0 <= d < 16 -> 48 <= hex_char upper d <= 102) as C.
  { intros d Hd. unfold hex_char.
    destruct (Z.ltb_spec d 10); destruct upper; lia. }
  constructor; [apply C; zdiv|]. constructor; [apply C; zdiv | constructor].
Qed.

Lemma cstr_app (l x : list Z) : ~ In 0 l -> cstr (l ++ x) = l ++ cstr x.
Proof.
  induction l as [|c l IH]; intros H; [reflexivity|].
  cbn [app cstr]. destruct (Z.eqb_spec c 0) as [e|ne].
  - exfalso. apply H. left. exact e.
  - rewrite IH; [reflexivity|]. intros X. apply H. right. exact X.
Qed.

Lemma strchr_app (l x : list Z) (c : Z) :
  ~ In c l -> strchr (l ++ c :: x) c = Some (List.length l).
Proof.
  induction l as [|d l IH]; intros H.
  - cbn [app strchr]. rewrite Z.eqb_refl. reflexivity.
  - cbn [app strchr]. destruct (Z.eqb_spec d c) as [e|ne].
    + exfalso. apply H. left. exact e.
    + rewrite IH; [reflexivity|]. intros X. apply H. right. exact X.
Qed.

Section Console.

Variable Srv : Type.

(** X17.  print_O_type_message on a console-output packet: when the
    message buffer holds [$O], the two hexadecimal digits (of either case)
    of each character of a text without NUL, and ['#'], then afterwards
    the C string behind [$O] is that text with every new-line character
    replaced by a space. *)
Theorem print_O_type_message_decodes (upper : bool) (text rest : list Z)
    (g : gdb_state Srv) :
  text <> [] -> Forall (fun b => 1 <= b <= 255) text ->
  message_buffer g = str "$O" ++ hex_bytes upper text ++ 35 :: rest ->
  cstr (skipn 2 (message_buffer (snd (print_O_type_message g))))
  = map (fun c => if c =? 10 then 32 else c) text.
Proof.
  intros Hne Ft Hbuf.
  set (f := fun c => if c =? 10 then 32 else c).
  assert (Fb : Forall is_byte text).
  { eapply Forall_impl; [| exact Ft]. intros b Hb. cbv beta in Hb. unfold is_byte. lia. }
  assert (Nz : ~ In 0 text).
  { intros X. rewrite Forall_forall in Ft. specialize (Ft _ X). cbv beta in Ft. lia. }
  set (hex := hex_bytes upper text) in *.
  assert (Fh := hex_bytes_chars upper text). fold hex in Fh.
  assert (Hz : ~ In 0 hex).
  { intros X. rewrite Forall_forall in Fh. specialize (Fh _ X). cbv beta in Fh. lia. }
  assert (Hh : ~ In 35 hex).
  { intros X. rewrite Forall_forall in Fh. specialize (Fh _ X). cbv beta in Fh. lia. }
  assert (Lh : List.length hex = (2 * List.length text)%nat)
    by apply hex_bytes_length.
  assert (Lt : (1 <= List.length text)%nat).
  { destruct text; [contradiction Hne; reflexivity | cbn; lia]. }
  unfold print_O_type_message, bind at 1, gets at 1.
  rewrite Hbuf. change (str "$O") with [36; 79]. cbn [app starts_with].
  rewrite !Z.eqb_refl. cbn [andb skipn firstn].
  assert (Cut : cut_at_hash (hex ++ 35 :: rest) = hex ++ 0 :: rest).
  { unfold cut_at_hash. rewrite cstr_app by exact Hz.
    cbn [cstr]. change (35 =? 0) with false. cbv iota.
    rewrite (strchr_app hex (cstr rest) 35 Hh).
    rewrite firstn_app, firstn_all, Nat.sub_diag, firstn_O, app_nil_r.
    rewrite skipn_app, skipn_all, Nat.sub_diag. reflexivity. }
  rewrite Cut.
  assert (Ch : cstr (hex ++ 0 :: rest) = hex).
  { rewrite cstr_app by exact Hz. cbn [cstr]. rewrite Z.eqb_refl.
    apply app_nil_r. }
  rewrite Ch.
  destruct (Nat.ltb_spec (List.length hex) 2) as [Hlt|_]; [lia|].
  assert (Od : O_decode hex = text) by (apply O_decode_hex_bytes; exact Fb).
  rewrite !Od.
  set (stored := overlay (text ++ [0]) (hex ++ 0 :: rest)).
  assert (Es : exists x, stored = text ++ 0 :: x).
  { eexists. unfold stored, overlay. rewrite <- app_assoc. reflexivity. }
  destruct Es as [x Es].
  assert (Cs : cstr stored = text).
  { rewrite Es, cstr_app by exact Nz. cbn [cstr]. rewrite Z.eqb_refl.
    apply app_nil_r. }
  rewrite Cs.
  unfold bind, modify, log_string. cbn [snd message_buffer set_buffer add_log].
  cbn [app skipn].
  unfold overlay. rewrite length_map, Es.
  rewrite skipn_app, skipn_all, Nat.sub_diag. cbn [app skipn].
  change (cstr (map f text ++ 0 :: x) = map f text).
  rewrite cstr_app.
  - cbn [cstr]. rewrite Z.eqb_refl. apply app_nil_r.
  - intros X. apply in_map_iff in X. destruct X as (c & Ec & Hc).
    unfold f in Ec. destruct (c =? 10); [discriminate Ec|].
    subst c. exact (Nz Hc).
Qed.

End Console.


Lemma print_O_type_message_decodes_witness :
  cstr (skipn 2 (message_buffer
                   (snd (print_O_type_message
                           (set_buffer (str "$O48690a#7c") (gdb_start tt))))))
  = str "Hi ".
Proof.
  apply (print_O_type_message_decodes unit false [72; 105; 10] (str "7c")
           (set_buffer (str "$O48690a#7c") (gdb_start tt))).
  - discriminate.
  - repeat constructor; lia.
  - reflexivity.
Defined.

(* ===================================================================== *)
(** ** The logging modes against the memory server                        *)
(* ===================================================================== *)

Lemma same_but_word_mem_store (w : Z) (m m' : Z -> Z) (a : Z) (d : list Z) :
  same_but_word w m m' ->
  same_but_word w (mem_store m a d) (mem_store m' a d).
Proof.
  intros Hn x Hx. unfold mem_store.
  destruct (u32 (x - a) <? len d); [reflexivity | apply Hn; exact Hx].
Qed.

Lemma write_cfg_word_mem (a : app_state mem_srv) :
  link_ok (gdb a) ->
  exists g,
    write_cfg_word mem_srv mem_react a = (GDB_OK, set_gdb g a)
    /\ link_ok g
    /\ (forall x,
           mem (srv g) x
           = mem_store (tmem a) (u32 (Par.start_address (parameters a) + 8))
               (le32_bytes (Hdr.rte_cfg (rtedbg_header a))) x).
Proof.
  intros L. unfold write_cfg_word, bind, gets.
  destruct (gdb_write_memory_link (gdb a)
              (le32_bytes (Hdr.rte_cfg (rtedbg_header a)))
              (RTE_CFG_WORD_ADDRESS a) 4 L)
    as (g & E & Lg & M); [lia | cbn; lia |].
  exists g. split; [apply (lift_eq _ a _ _ E)|]. split; [exact Lg|].
  intros x. rewrite M. unfold RTE_CFG_WORD_ADDRESS.
  rewrite (u32_small (u32 _)) by apply u32_range.
  change (firstn (Z.to_nat 4) (le32_bytes ?v)) with (le32_bytes v).
  rewrite le32_bytes_u8. reflexivity.
Qed.

Lemma pause_data_logging_mem (a : app_state mem_srv) :
  link_ok (gdb a) ->
  exists g,
    pause_data_logging mem_react a = (GDB_OK, set_gdb g a)
    /\ link_ok g
    /\ same_but_word (Par.start_address (parameters a) + 4) (tmem a)
         (mem (srv g)).
Proof.
  intros L. unfold pause_data_logging, bind, gets.
  destruct (gdb_write_memory_link (gdb a) [0; 0; 0; 0]
              (MESSAGE_FILTER_ADDRESS a) 4 L)
    as (g & E & Lg & M); [lia | cbn; lia |].
  exists g. split; [apply (lift_eq _ a _ _ E)|]. split; [exact Lg|].
  apply (same_but_word_store _ _ _ [0; 0; 0; 0]); [reflexivity|].
  intros x. rewrite M. unfold MESSAGE_FILTER_ADDRESS.
  rewrite (u32_small (u32 _)) by apply u32_range. reflexivity.
Qed.

Lemma same_but_word_ext (w : Z) (m m' m'' : Z -> Z) :
  same_but_word w m m' -> (forall x, m'' x = m' x) -> same_but_word w m m''.
Proof. intros H E x Hx. rewrite E. apply H. exact Hx. Qed.

Lemma single_shot_bits (cfg : Z) :
  Z.land (Z.shiftr (Z.lor cfg 1) 0) 1 = 1
  /\ Z.land (Z.shiftr (Z.lor cfg 1) 3) 1 = Z.land (Z.shiftr cfg 3) 1.
Proof.
  split.
  - rewrite Z.shiftr_0_r, Z.land_lor_distr_l.
    change (Z.land 1 1) with 1.
    apply Z.bits_inj'. intros n Hn. rewrite Z.lor_spec, Z.land_spec.
    destruct (Z.eq_dec n 0) as [e|ne].
    + subst n. cbn. apply orb_true_r.
    + rewrite (Z.bits_above_log2 1 n) by (cbn; lia).
      rewrite andb_false_r. reflexivity.
  - rewrite Z.shiftr_lor. change (Z.shiftr 1 3) with 0.
    rewrite Z.lor_0_r. reflexivity.
Qed.

(** X18.  switch_to_single_shot_logging against a target that answers
    memory reads and writes and holds a header with a plausible size.
    When single-shot logging is not enabled in the firmware (bit 3 of the
    configuration word) nothing in the target changes.  Otherwise the target
    memory afterwards is the memory before with bit 0 set in the
    configuration word, the index word zero (and with [-clear] the buffer
    full of 0xFF), and the filter word set by the restore rule from the
    filter that was remembered at the last snapshot, not from the filter the
    target holds now. *)
Theorem switch_to_single_shot_logging_mem (a : app_state mem_srv) :
  link_ok (gdb a) -> malloc_ok a = true ->
  MIN_BUFFER_SIZE <= target_size a <= MAX_BUFFER_SIZE ->
  exists a',
    switch_to_single_shot_logging mem_srv mem_react a = (tt, a')
    /\ (Hdr.RTE_SINGLE_SHOT_LOGGING_ENABLED (target_hdr a) = 0 ->
        forall x, tmem a' x = tmem a x)
    /\ (Hdr.RTE_SINGLE_SHOT_LOGGING_ENABLED (target_hdr a) <> 0 ->
        forall x,
          tmem a' x
          = mem_store
              (reset_memory (Par.clear_buffer (parameters a)) true
                 (Par.start_address (parameters a)) (target_size a)
                 (mem_store (tmem a)
                    (u32 (Par.start_address (parameters a) + 8))
                    (le32_bytes (Z.lor (Hdr.rte_cfg (target_hdr a)) 1))))
              (u32 (Par.start_address (parameters a) + 4))
              (le32_bytes
                 (remembered_restore a
                    (Z.lor (Hdr.rte_cfg (target_hdr a)) 1))) x).
Proof.
  intros L Hm Hs.
  set (start := Par.start_address (parameters a)).
  set (cfg := Hdr.rte_cfg (target_hdr a)).
  destruct (load_rtedbg_structure_header_mem a L Hm Hs)
    as [a3 [E3 [L3 [S3 [H3 [P3 [_ [O3 [_ V3]]]]]]]]].
  change (Hdr.buffer_size (target_hdr a) * 4 + 24) with (target_size a) in P3.
  unfold switch_to_single_shot_logging.
  rewrite (bind_eq _ _ _ _ _ E3).
  change (negb (GDB_OK =? GDB_OK)) with false. cbv iota.
  unfold bind at 1, gets at 1. rewrite H3.
  assert (T3 : tmem a3 = tmem a) by (unfold tmem; rewrite S3; reflexivity).
  destruct (Z.eqb_spec (Hdr.RTE_SINGLE_SHOT_LOGGING_ENABLED (target_hdr a)) 0)
    as [He|He].
  { unfold app_log, lift, log_string, modify. cbn [gdb fst snd].
    eexists. split; [reflexivity|]. split; [| contradiction].
    intros _ x. unfold tmem at 1. cbn [gdb set_gdb srv add_log].
    fold (tmem a3). rewrite T3. reflexivity. }
  (* logging paused *)
  destruct (pause_data_logging_mem a3 L3) as (g4 & E4 & L4 & SB4).
  rewrite P3, T3 in SB4. cbn [Par.start_address Par.with_size] in SB4.
  fold start in SB4.
  rewrite (bind_eq _ _ _ _ _ E4).
  unfold bind at 1, modify at 1.
  set (h1 := RTE_ENABLE_SINGLE_SHOT_MODE (target_hdr a)).
  set (a5 := set_header h1 (set_gdb g4 a3)).
  (* the configuration word *)
  destruct (write_cfg_word_mem a5 L4) as (g6 & E6 & L6 & M6).
  rewrite (bind_eq _ _ _ _ _ E6).
  change (negb (GDB_OK =? GDB_OK)) with false. cbv iota.
  change (parameters a5) with (parameters a3) in M6. rewrite P3 in M6.
  cbn [Par.start_address Par.with_size] in M6. fold start in M6.
  change (tmem a5) with (mem (srv g4)) in M6.
  change (Hdr.rte_cfg (rtedbg_header a5)) with (Z.lor cfg 1) in M6.
  set (a6 := set_gdb g6 a5).
  (* the buffer *)
  destruct V3 as [V3m _].
  assert (Hm6 : malloc_ok a6 = true) by (cbn; rewrite V3m; exact Hm).
  assert (P6 : parameters a6 = Par.with_size (target_size a) (parameters a))
    by exact P3.
  assert (Hz6 : sizeof_rtedbg_header < Par.size (parameters a6) < 2 ^ 32).
  { rewrite P6. cbn [Par.size Par.with_size].
    unfold sizeof_rtedbg_header, MIN_BUFFER_SIZE, MAX_BUFFER_SIZE in *. lia. }
  destruct (reset_circular_buffer_mem a6 L6 Hm6 Hz6) as (g7 & E7 & L7 & M7).
  rewrite (bind_eq _ _ _ _ _ E7).
  change (negb (GDB_OK =? GDB_OK)) with false. cbv iota.
  assert (Hss : single_shot_active a6 = true).
  { unfold single_shot_active.
    change (rtedbg_header a6) with h1.
    unfold Hdr.RTE_SINGLE_SHOT_WAS_ACTIVE, Hdr.RTE_SINGLE_SHOT_LOGGING_ENABLED.
    change (Hdr.rte_cfg h1) with (Z.lor cfg 1).
    destruct (single_shot_bits cfg) as [B0 B3]. rewrite B0, B3.
    unfold Hdr.RTE_SINGLE_SHOT_LOGGING_ENABLED in He. fold cfg in He.
    destruct (Z.eqb_spec (Z.land (Z.shiftr cfg 3) 1) 0); [contradiction|].
    reflexivity. }
  rewrite P6, Hss in M7.
  cbn [Par.size Par.start_address Par.clear_buffer Par.with_size] in M7.
  fold start in M7. change (tmem a6) with (mem (srv g6)) in M7.
  set (a7 := set_gdb g7 a6).
  (* the filter *)
  destruct (set_or_restore_message_filter_mem a7 L7) as (g8 & E8 & L8 & M8).
  rewrite (bind_eq _ _ _ _ _ E8).
  change (negb (GDB_OK =? GDB_OK)) with false. cbv iota.
  unfold app_log, lift, log_string, modify. cbn [gdb set_gdb fst snd].
  eexists. split; [reflexivity|]. split; [intros X; contradiction|].
  intros _ x. unfold tmem at 1. cbn [gdb set_gdb srv add_log].
  rewrite M8.
  change (parameters a7) with (parameters a3). rewrite P3.
  cbn [Par.start_address Par.with_size]. fold start.
  assert (R : restore_value a7 = remembered_restore a (Z.lor cfg 1)).
  { unfold restore_value, remembered_restore.
    change (parameters a7) with (parameters a3).
    change (old_msg_filter a7) with (old_msg_filter a3).
    change (rtedbg_header a7) with h1.
    rewrite P3, O3. reflexivity. }
  rewrite R.
  change (tmem a7) with (mem (srv g7)).
  apply mem_store_same_but_word; [| reflexivity].
  apply (same_but_word_ext _ _
           (reset_memory (Par.clear_buffer (parameters a)) true start
              (target_size a) (mem (srv g6)))); [| exact M7].
  apply same_but_word_reset.
  apply (same_but_word_ext _ _
           (mem_store (mem (srv g4)) (u32 (start + 8))
              (le32_bytes (Z.lor cfg 1)))); [| exact M6].
  apply same_but_word_mem_store. exact SB4.
Qed.

Lemma post_mortem_bits (cfg : Z) :
  Z.land (Z.shiftr (Z.land cfg 4294967294) 0) 1 = 0
  /\ Z.testbit (Z.land cfg 4294967294) 2 = Z.testbit cfg 2.
Proof.
  split.
  - rewrite Z.shiftr_0_r, <- Z.land_assoc. change (Z.land 4294967294 1) with 0.
    apply Z.land_0_r.
  - rewrite Z.land_spec. change (Z.testbit 4294967294 2) with true.
    apply andb_true_r.
Qed.

(** X19.  switch_to_post_mortem_logging against a target that answers
    memory reads and writes and holds a header with a plausible size: the
    target memory afterwards is the memory before with bit 0 of the
    configuration word cleared if it was set, with [-clear] the index word
    zero and the buffer full of 0xFF (the index is not reset otherwise), and
    the filter word set by the restore rule from the remembered filter.
    The message printed at the end is always the one for a restart, also
    when the single-shot mode has just been switched off. *)
Theorem switch_to_post_mortem_logging_mem (a : app_state mem_srv) :
  link_ok (gdb a) -> malloc_ok a = true ->
  MIN_BUFFER_SIZE <= target_size a <= MAX_BUFFER_SIZE ->
  exists a',
    switch_to_post_mortem_logging mem_srv mem_react a = (tt, a')
    /\ (forall x,
           tmem a' x
           = mem_store
               (reset_memory (Par.clear_buffer (parameters a)) false
                  (Par.start_address (parameters a)) (target_size a)
                  (if Hdr.RTE_SINGLE_SHOT_WAS_ACTIVE (target_hdr a) =? 0
                   then tmem a
                   else
                     mem_store (tmem a)
                       (u32 (Par.start_address (parameters a) + 8))
                       (le32_bytes
                          (Z.land (Hdr.rte_cfg (target_hdr a)) 4294967294))))
               (u32 (Par.start_address (parameters a) + 4))
               (le32_bytes
                  (remembered_restore a (Hdr.rte_cfg (target_hdr a)))) x)
    /\ last (log (gdb a')) EmptyString
       = "Post-mortem mode restarted."%string.
Proof.
  intros L Hm Hs.
  set (start := Par.start_address (parameters a)).
  set (cfg := Hdr.rte_cfg (target_hdr a)).
  destruct (load_rtedbg_structure_header_mem a L Hm Hs)
    as [a3 [E3 [L3 [S3 [H3 [P3 [_ [O3 [_ V3]]]]]]]]].
  change (Hdr.buffer_size (target_hdr a) * 4 + 24) with (target_size a) in P3.
  unfold switch_to_post_mortem_logging.
  rewrite (bind_eq _ _ _ _ _ E3).
  change (negb (GDB_OK =? GDB_OK)) with false. cbv iota.
  assert (T3 : tmem a3 = tmem a) by (unfold tmem; rewrite S3; reflexivity).
  destruct (pause_data_logging_mem a3 L3) as (g4 & E4 & L4 & SB4).
  rewrite P3, T3 in SB4. cbn [Par.start_address Par.with_size] in SB4.
  fold start in SB4.
  rewrite (bind_eq _ _ _ _ _ E4).
  unfold bind at 1, gets at 1.
  change (rtedbg_header (set_gdb g4 a3)) with (rtedbg_header a3).
  rewrite H3.
  destruct V3 as [V3m _].
  (* the state before the buffer reset, in both cases *)
  assert (Cfg :
    exists g6 h6,
      (if negb (Hdr.RTE_SINGLE_SHOT_WAS_ACTIVE (target_hdr a) =? 0)
       then
         modify (set_header (RTE_DISABLE_SINGLE_SHOT_MODE (target_hdr a))) ;;
         write_cfg_word mem_srv mem_react
       else ret GDB_OK) (set_gdb g4 a3)
      = (GDB_OK, set_header h6 (set_gdb g6 a3))
      /\ link_ok g6
      /\ Hdr.RTE_SINGLE_SHOT_WAS_ACTIVE h6 = 0
      /\ Hdr.filter_copy h6 = Hdr.filter_copy (target_hdr a)
      /\ Z.testbit (Hdr.rte_cfg h6) 2 = Z.testbit cfg 2
      /\ same_but_word (start + 4)
           (if Hdr.RTE_SINGLE_SHOT_WAS_ACTIVE (target_hdr a) =? 0
            then tmem a
            else mem_store (tmem a) (u32 (start + 8))
                   (le32_bytes (Z.land cfg 4294967294)))
           (mem (srv g6))).
  { destruct (Z.eqb_spec (Hdr.RTE_SINGLE_SHOT_WAS_ACTIVE (target_hdr a)) 0)
      as [Hw|Hw]; cbn [negb].
    - exists g4, (target_hdr a). split.
      + unfold ret. f_equal. unfold set_header, set_gdb. cbn.
        rewrite H3. reflexivity.
      + split; [exact L4|]. split; [exact Hw|].
        split; [reflexivity|]. split; [reflexivity | exact SB4].
    - unfold bind at 1, modify at 1.
      set (h1 := RTE_DISABLE_SINGLE_SHOT_MODE (target_hdr a)).
      set (a5 := set_header h1 (set_gdb g4 a3)).
      destruct (write_cfg_word_mem a5 L4) as (g6 & E6 & L6 & M6).
      change (parameters a5) with (parameters a3) in M6. rewrite P3 in M6.
      cbn [Par.start_address Par.with_size] in M6. fold start in M6.
      change (tmem a5) with (mem (srv g4)) in M6.
      change (Hdr.rte_cfg (rtedbg_header a5))
        with (Z.land cfg 4294967294) in M6.
      destruct (post_mortem_bits cfg) as [B0 B2].
      exists g6, h1. split; [exact E6|]. split; [exact L6|].
      split; [exact B0|]. split; [reflexivity|]. split; [exact B2|].
      apply (same_but_word_ext _ _
               (mem_store (mem (srv g4)) (u32 (start + 8))
                  (le32_bytes (Z.land cfg 4294967294)))); [| exact M6].
      apply same_but_word_mem_store. exact SB4. }
  destruct Cfg as (g6 & h6 & E6 & L6 & W6 & F6 & B6 & SB6).
  rewrite (bind_eq _ _ _ _ _ E6).
  change (negb (GDB_OK =? GDB_OK)) with false. cbv iota.
  set (a6 := set_header h6 (set_gdb g6 a3)).
  (* the buffer *)
  assert (Hm6 : malloc_ok a6 = true) by (cbn; rewrite V3m; exact Hm).
  assert (P6 : parameters a6 = Par.with_size (target_size a) (parameters a))
    by exact P3.
  assert (Hz6 : sizeof_rtedbg_header < Par.size (parameters a6) < 2 ^ 32).
  { rewrite P6. cbn [Par.size Par.with_size].
    unfold sizeof_rtedbg_header, MIN_BUFFER_SIZE, MAX_BUFFER_SIZE in *. lia. }
  destruct (reset_circular_buffer_mem a6 L6 Hm6 Hz6) as (g7 & E7 & L7 & M7).
  rewrite (bind_eq _ _ _ _ _ E7).
  change (negb (GDB_OK =? GDB_OK)) with false. cbv iota.
  assert (Hss : single_shot_active a6 = false).
  { unfold single_shot_active. change (rtedbg_header a6) with h6.
    rewrite W6. reflexivity. }
  rewrite P6, Hss in M7.
  cbn [Par.size Par.start_address Par.clear_buffer Par.with_size] in M7.
  fold start in M7. change (tmem a6) with (mem (srv g6)) in M7.
  set (a7 := set_gdb g7 a6).
  (* the filter *)
  destruct (set_or_restore_message_filter_mem a7 L7) as (g8 & E8 & L8 & M8).
  rewrite (bind_eq _ _ _ _ _ E8).
  change (negb (GDB_OK =? GDB_OK)) with false. cbv iota.
  unfold bind at 1, gets at 1.
  change (rtedbg_header (set_gdb g8 a7)) with h6. rewrite W6.
  change (0 =? 0) with true. cbv iota.
  unfold app_log, lift, log_string, modify. cbn [gdb set_gdb fst snd].
  eexists. split; [reflexivity|]. split.
  - intros x. unfold tmem at 1. cbn [gdb set_gdb srv add_log].
    rewrite M8.
    change (parameters a7) with (parameters a3). rewrite P3.
    cbn [Par.start_address Par.with_size]. fold start.
    assert (R : restore_value a7 = remembered_restore a cfg).
    { unfold restore_value, remembered_restore.
      change (parameters a7) with (parameters a3).
      change (old_msg_filter a7) with (old_msg_filter a3).
      change (rtedbg_header a7) with h6.
      rewrite P3, O3, F6, B6. reflexivity. }
    rewrite R.
    change (tmem a7) with (mem (srv g7)).
    apply mem_store_same_but_word; [| reflexivity].
    apply (same_but_word_ext _ _
             (reset_memory (Par.clear_buffer (parameters a)) false start
                (target_size a) (mem (srv g6)))); [| exact M7].
    apply same_but_word_reset. exact SB6.
  - cbn [gdb set_gdb log add_log]. apply last_last.
Qed.


Lemma switch_to_single_shot_logging_mem_witness :
  exists a',
    switch_to_single_shot_logging mem_srv mem_react
      (session target_header_single_shot sample_parameters) = (tt, a')
    /\ (forall x,
           tmem a' x
           = mem_store
               (reset_memory false true 603979776 80
                  (mem_store
                     (tmem (session target_header_single_shot
                              sample_parameters))
                     (u32 (603979776 + 8)) (le32_bytes 100663307)))
               (u32 (603979776 + 4)) (le32_bytes 0) x).
Proof.
  destruct (switch_to_single_shot_logging_mem
              (session target_header_single_shot sample_parameters))
    as (a' & E & _ & H).
  - unfold link_ok, quiet. vm_compute. intuition discriminate.
  - reflexivity.
  - vm_compute. intuition discriminate.
  - exists a'. split; [exact E|]. apply H. vm_compute. discriminate.
Defined.

Lemma switch_to_post_mortem_logging_mem_witness :
  exists a',
    switch_to_post_mortem_logging mem_srv mem_react
      (session target_header_single_shot sample_parameters) = (tt, a')
    /\ last (log (gdb a')) EmptyString
       = "Post-mortem mode restarted."%string.
Proof.
  destruct (switch_to_post_mortem_logging_mem
              (session target_header_single_shot sample_parameters))
    as (a' & E & _ & H).
  - unfold link_ok, quiet. vm_compute. intuition discriminate.
  - reflexivity.
  - vm_compute. intuition discriminate.
  - exists a'. split; [exact E | exact H].
Defined.


(* ===================================================================== *)
(** ** The filter word after a restore and after a snapshot               *)
(* ===================================================================== *)

(** A transfer that returns GDB_OK was asked for at least one byte. *)
Lemma gdb_read_memory_short {Srv : Type}
    (react : Srv -> list Z -> send_outcome * list recv_ev * Srv)
    (address length : Z) (g g' : gdb_state Srv) (bytes : list Z) :
  gdb_read_memory react address length g = ((GDB_OK, bytes), g') ->
  1 <= length.
Proof.
  unfold gdb_read_memory, bind, modify, ret.
  destruct (Z.ltb_spec length 1) as [K|K]; [discriminate | intros _; exact K].
Qed.

Lemma gdb_write_memory_short {Srv : Type}
    (react : Srv -> list Z -> send_outcome * list recv_ev * Srv)
    (buffer : list Z) (address length : Z) (g g' : gdb_state Srv) :
  gdb_write_memory react buffer address length g = (GDB_OK, g') ->
  1 <= length.
Proof.
  unfold gdb_write_memory, bind, modify, ret.
  destruct (Z.ltb_spec length 1) as [K|K]; [discriminate | intros _; exact K].
Qed.

Lemma lift_read_link (a b : app_state mem_srv) (address length : Z)
    (bytes : list Z) :
  link_ok (gdb a) -> length < 2 ^ 32 ->
  lift (gdb_read_memory mem_react address length) a = ((GDB_OK, bytes), b) ->
  b = set_gdb (gdb b) a /\ link_ok (gdb b) /\ srv (gdb b) = srv (gdb a)
  /\ bytes = mem_bytes (tmem a) address (Z.to_nat length).
Proof.
  intros L Hl H. unfold lift in H.
  destruct (gdb_read_memory mem_react address length (gdb a))
    as [[r bs] g'] eqn:E.
  inversion H. subst r bs b. clear H.
  pose proof (gdb_read_memory_short _ _ _ _ _ _ E) as K.
  destruct (gdb_read_memory_link (gdb a) address length L) as (g1 & E1 & L1 & S1);
    [lia|].
  rewrite E1 in E. inversion E. subst.
  cbn [gdb set_gdb]. split; [reflexivity|]. split; [exact L1|].
  split; [exact S1 | reflexivity].
Qed.

Lemma lift_write_link (a b : app_state mem_srv) (buffer : list Z)
    (address length : Z) :
  link_ok (gdb a) -> length < 2 ^ 32 ->
  (Z.to_nat length <= List.length buffer)%nat ->
  lift (gdb_write_memory mem_react buffer address length) a = (GDB_OK, b) ->
  b = set_gdb (gdb b) a /\ link_ok (gdb b)
  /\ (forall x,
         tmem b x
         = mem_store (tmem a) (u32 address)
             (map u8 (firstn (Z.to_nat length) buffer)) x).
Proof.
  intros L Hl Hb H. unfold lift in H.
  destruct (gdb_write_memory mem_react buffer address length (gdb a))
    as [r g'] eqn:E.
  inversion H. subst r b. clear H.
  pose proof (gdb_write_memory_short _ _ _ _ _ _ E) as K.
  destruct (gdb_write_memory_link (gdb a) buffer address length L)
    as (g1 & E1 & L1 & M1); [lia | exact Hb |].
  rewrite E1 in E. inversion E. subst g1.
  cbn [gdb set_gdb]. split; [reflexivity|]. split; [exact L1 | exact M1].
Qed.

(** *** The steps of a snapshot, from their results *)

(** Case analysis of a run down to its results. *)
Ltac run_cases :=
  repeat match goal with
         | K : (_, _) = (_, _) |- _ => inversion K; clear K; subst
         | K : context [match ?x with _ => _ end] |- _ => destruct x eqn:?
         end.

Ltac test_facts :=
  repeat match goal with
         | H : _ || _ = false |- _ =>
             apply orb_false_iff in H; destruct H
         | H : _ && _ = true |- _ =>
             apply andb_true_iff in H; destruct H
         | H : negb _ = false |- _ => apply negb_false_iff in H
         | H : negb _ = true |- _ => apply negb_true_iff in H
         | H : (_ <? _) = false |- _ => apply Z.ltb_ge in H
         | H : (_ <? _) = true |- _ => apply Z.ltb_lt in H
         | H : (_ >? _) = false |- _ => rewrite Z.gtb_ltb in H
         | H : (_ >? _) = true |- _ => rewrite Z.gtb_ltb in H
         | H : (_ =? _) = true |- _ => apply Z.eqb_eq in H
         | H : (_ =? _) = false |- _ => apply Z.eqb_neq in H
         end.

(** Step 3, from its result: a header load that succeeds has read the
    header the target holds, and leaves the size the header gives. *)
Lemma load_rtedbg_structure_header_link (a b : app_state mem_srv) :
  link_ok (gdb a) ->
  load_rtedbg_structure_header mem_react a = (GDB_OK, b) ->
  link_ok (gdb b) /\ srv (gdb b) = srv (gdb a)
  /\ rtedbg_header b = target_hdr a
  /\ old_msg_filter b = old_msg_filter a
  /\ Par.start_address (parameters b) = Par.start_address (parameters a)
  /\ Par.filter (parameters b) = Par.filter (parameters a)
  /\ Par.set_filter (parameters b) = Par.set_filter (parameters a)
  /\ Par.size (parameters b) = u32 (target_size a)
  /\ (Par.size (parameters a) <> 4 -> 8 <= Par.size (parameters b)).
Proof.
  intros L H.
  unfold load_rtedbg_structure_header in H.
  unfold bind at 1, gets at 1 in H.
  destruct (gdb_read_memory_link (gdb a) (Par.start_address (parameters a))
              sizeof_rtedbg_header L)
    as (g1 & E1 & L1 & S1); [unfold sizeof_rtedbg_header; lia|].
  rewrite (bind_eq _ _ _ _ _ (lift_eq _ a _ _ E1)) in H.
  cbv beta iota zeta in H.
  rewrite overlay_same_length in H
    by (rewrite mem_bytes_length; reflexivity).
  change (Z.to_nat sizeof_rtedbg_header) with 24%nat in H.
  fold (tmem a) in H. fold (target_hdr a) in H.
  unfold bind at 1, modify at 1 in H.
  change (negb (GDB_OK =? GDB_OK)) with false in H. cbv iota in H.
  unfold bind at 1, gets at 1 in H.
  cbn [rtedbg_header set_header parameters set_gdb p_rtedbg_structure] in H.
  fold (target_size a) in H.
  pose proof (u32_multiple_of_4 (Hdr.buffer_size (target_hdr a))) as D.
  fold (target_size a) in D.
  pose proof (u32_range (target_size a)) as R.
  set (new_size := u32 (target_size a)) in *.
  unfold allocate_memory_for_g_rtedbg_structure, app_log, lift, log_string,
    bind, gets, modify, ret in H.
  unfold MIN_BUFFER_SIZE in H.
  run_cases; try discriminate;
    cbn [gdb set_structure set_parameters set_header set_gdb rtedbg_header
           parameters p_rtedbg_structure old_msg_filter
           Par.size Par.with_size Par.start_address Par.filter Par.set_filter];
    test_facts;
    (split; [exact L1|]); (split; [exact S1|]);
    repeat split; intros; subst; try congruence; try lia.
  all: clearbody new_size; zdiv.
Qed.

(** Step 4, from its result: a header that passes is left as it is. *)
Lemma check_header_info_passed {Srv : Type} (a b : app_state Srv) :
  check_header_info a = (GDB_OK, b) -> b = a.
Proof.
  unfold check_header_info, app_log, lift, log_string, bind, gets, modify,
    ret.
  intros H. run_cases; try discriminate. reflexivity.
Qed.

(** Step 5, from its result: the file holds [size] bytes, the image of the
    target with the filter word as it was read before the pause. *)
Lemma save_rtedbg_structure_link (a b : app_state mem_srv) :
  link_ok (gdb a) -> Par.size (parameters a) < 2 ^ 32 ->
  save_rtedbg_structure mem_react a = (GDB_OK, b) ->
  link_ok (gdb b) /\ srv (gdb b) = srv (gdb a)
  /\ parameters b = parameters a /\ rtedbg_header b = rtedbg_header a
  /\ old_msg_filter b = old_msg_filter a
  /\ 1 <= Par.size (parameters a)
  /\ exists image,
       bin_file b
       = Some (firstn (Z.to_nat (Par.size (parameters a)))
                 (overlay_at 4 (le32_bytes (old_msg_filter a))
                    (overlay
                       (mem_bytes (tmem a) (Par.start_address (parameters a))
                          (Z.to_nat (Par.size (parameters a))))
                       image))).
Proof.
  intros L Hs H.
  unfold save_rtedbg_structure, bind at 1, gets at 1 in H.
  destruct (p_rtedbg_structure a) as [image|] eqn:P; [| discriminate H].
  unfold bind at 1 in H.
  assert (exists g0, delay_before_data_transfer a = (tt, set_gdb g0 a)
                     /\ link_ok g0 /\ srv g0 = srv (gdb a))
    as (g0 & E0 & L0 & S0).
  { unfold delay_before_data_transfer, bind, gets.
    destruct (Par.delay (parameters a) >? 0).
    - eexists. split; [reflexivity|]. split; [exact L | reflexivity].
    - exists (gdb a). split; [destruct a; reflexivity|].
      split; [exact L | reflexivity]. }
  rewrite E0 in H.
  unfold read_memory_block, bind at 1 in H. unfold bind at 1 in H.
  destruct (lift (gdb_read_memory mem_react (Par.start_address (parameters a))
                    (Par.size (parameters a))) (set_gdb g0 a))
    as [[res bytes] a1] eqn:E1.
  destruct (Z.eqb_spec res GDB_OK) as [R|R].
  2:{ cbn [negb] in H. unfold bind, modify, ret in H. cbv beta iota in H.
      change (negb (GDB_ERROR =? GDB_OK)) with true in H. cbv iota in H.
      discriminate H. }
  subst res.
  destruct (lift_read_link (set_gdb g0 a) a1 _ _ bytes L0 Hs E1)
    as (A1 & L1 & S1 & B1).
  pose proof E1 as K. unfold lift in K.
  destruct (gdb_read_memory mem_react _ _ (gdb (set_gdb g0 a)))
    as [[r' b'] g'] eqn:E2 in K.
  inversion K. subst r' b' a1. clear K.
  apply gdb_read_memory_short in E2.
  cbn [negb] in H.
  unfold app_log, lift, log_string, bind, modify, ret in H.
  cbn [gdb set_gdb] in H. cbv beta iota in H.
  change (negb (GDB_OK =? GDB_OK)) with false in H. cbv iota in H.
  cbn [gdb set_gdb set_structure set_bin_file bin_file parameters
         rtedbg_header old_msg_filter] in *.
  run_cases; try discriminate.
  cbn [gdb set_gdb set_structure set_bin_file bin_file parameters
         rtedbg_header old_msg_filter srv add_log].
  test_facts.
  split; [exact L1|]. split; [congruence|].
  do 3 (split; [reflexivity|]). split; [exact E2|].
  exists image. f_equal.
  match goal with
  | Q : Z.min _ _ = _ |- _ => rewrite Q
  end.
  unfold tmem. cbn [gdb set_gdb]. rewrite S0. reflexivity.
Qed.

(** Step 6, whatever its result. *)
Lemma check_message_filter_disabled_link (a b : app_state mem_srv) (r : Z) :
  link_ok (gdb a) ->
  check_message_filter_disabled mem_react a = (r, b) ->
  b = set_gdb (gdb b) a /\ link_ok (gdb b) /\ srv (gdb b) = srv (gdb a).
Proof.
  intros L H.
  unfold check_message_filter_disabled, bind at 1, gets at 1 in H.
  destruct (gdb_read_memory_link (gdb a) (MESSAGE_FILTER_ADDRESS a) 4 L)
    as (g1 & E1 & L1 & S1); [lia|].
  rewrite (bind_eq _ _ _ _ _ (lift_eq _ a _ _ E1)) in H.
  cbv beta iota zeta in H.
  change (negb (GDB_OK =? GDB_OK)) with false in H. cbv iota in H.
  unfold app_log, lift, log_string, bind, modify, ret in H.
  run_cases; cbn [gdb set_gdb];
    (split; [reflexivity|]); (split; [exact L1 | exact S1]).
Qed.

(** Step 7, from its result. *)
Lemma reset_circular_buffer_link (a b : app_state mem_srv) :
  link_ok (gdb a) ->
  reset_circular_buffer mem_react a = (GDB_OK, b) ->
  b = set_gdb (gdb b) a /\ link_ok (gdb b).
Proof.
  intros L H.
  unfold reset_circular_buffer, bind at 1, gets at 1 in H.
  assert (Er : forall c d : app_state mem_srv,
             link_ok (gdb c) -> erase_buffer_index mem_react c = (GDB_OK, d) ->
             d = set_gdb (gdb d) c /\ link_ok (gdb d)).
  { intros c d Lc Hc. unfold erase_buffer_index, bind, gets in Hc.
    destruct (lift_write_link c d [0; 0; 0; 0]
                (Par.start_address (parameters c)) 4 Lc) as (A1 & L1 & _);
      [lia | cbn; lia | exact Hc |].
    split; assumption. }
  destruct (Par.clear_buffer (parameters a)) eqn:C.
  - destruct (malloc_ok a) eqn:Hm; cbn [negb] in H.
    2:{ unfold bind, app_log, lift, log_string, modify, ret in H.
        cbv beta iota in H. discriminate H. }
    unfold bind at 1 in H. unfold bind at 1 in H.
    destruct (lift (gdb_write_memory mem_react _ _ _) a) as [rez a1] eqn:E1
      in H.
    destruct (Z.eqb_spec rez GDB_OK) as [R|R]; cbn [negb] in H.
    2:{ unfold ret in H. discriminate H. }
    subst rez.
    match type of E1 with
    | lift (gdb_write_memory _ ?buf ?addr ?n) _ = _ =>
        destruct (lift_write_link a a1 buf addr n L) as (A1 & L1 & _);
          [apply u32_range | rewrite repeat_length; lia | exact E1 |]
    end.
    unfold bind at 1, app_log, lift, log_string, modify, ret in H.
    cbn [gdb set_gdb fst snd] in H. cbn [orb] in H.
    destruct (Er (set_gdb (add_log ", %llu kB/s. " (gdb a1)) a1) b
                (link_ok_log ", %llu kB/s. " _ L1) H) as (A2 & L2).
    split; [| exact L2].
    rewrite A2. rewrite A1. reflexivity.
  - unfold bind at 1, ret at 1 in H. cbv beta iota in H. cbn [orb] in H.
    destruct (single_shot_active a).
    + exact (Er _ _ L H).
    + unfold ret in H. inversion H. subst b.
      split; [destruct a; reflexivity | exact L].
Qed.

Lemma target_hdr_same_but_filter (a b : app_state mem_srv) :
  Par.start_address (parameters b) = Par.start_address (parameters a) ->
  same_but_word (Par.start_address (parameters a) + 4) (tmem a) (tmem b) ->
  Hdr.rte_cfg (target_hdr b) = Hdr.rte_cfg (target_hdr a)
  /\ Hdr.filter_copy (target_hdr b) = Hdr.filter_copy (target_hdr a)
  /\ Hdr.buffer_size (target_hdr b) = Hdr.buffer_size (target_hdr a).
Proof.
  intros P H. unfold target_hdr. rewrite P.
  exact (header_same_but_filter _ _ _ H).
Qed.

(** A run that returns 0 has gone through every step and ended with the
    closing report. *)
Lemma single_data_transfer_run {Srv : Type}
    (react : Srv -> list Z -> send_outcome * list recv_ev * Srv)
    (a a' : app_state Srv) :
  single_data_transfer react a = (0, a') ->
  exists a1 a2 a3 a4 a5 a6 a7 a8,
    read_old_filter Srv react a = (GDB_OK, a1)
    /\ pause_if_logging Srv react a1 = (GDB_OK, a2)
    /\ load_rtedbg_structure_header react a2 = (GDB_OK, a3)
    /\ check_header_info a3 = (GDB_OK, a4)
    /\ save_rtedbg_structure react a4 = (GDB_OK, a5)
    /\ check_message_filter_disabled react a5 = (GDB_OK, a6)
    /\ reset_circular_buffer react a6 = (GDB_OK, a7)
    /\ set_or_restore_message_filter react a7 = (GDB_OK, a8)
    /\ report_success Srv a8 = (0, a').
Proof.
  rewrite single_data_transfer_steps. intros H.
  minv H r1 a1 E1. destruct (Z.eqb_spec r1 GDB_OK); [| discriminate H].
  cbn [negb] in H.
  minv H r2 a2 E2. destruct (Z.eqb_spec r2 GDB_OK); [| discriminate H].
  cbn [negb] in H.
  minv H r3 a3 E3. destruct (Z.eqb_spec r3 GDB_OK); [| discriminate H].
  cbn [negb] in H.
  minv H r4 a4 E4. destruct (Z.eqb_spec r4 GDB_OK); [| discriminate H].
  cbn [negb] in H.
  minv H r5 a5 E5. destruct (Z.eqb_spec r5 GDB_OK).
  2:{ cbn [negb] in H. minv H u s E. discriminate H. }
  cbn [negb] in H.
  minv H r6 a6 E6. destruct (Z.eqb_spec r6 GDB_OK).
  2:{ cbn [negb] in H. minv H u s E. discriminate H. }
  cbn [negb] in H.
  minv H r7 a7 E7. destruct (Z.eqb_spec r7 GDB_OK); [| discriminate H].
  cbn [negb] in H.
  minv H r8 a8 E8. destruct (Z.eqb_spec r8 GDB_OK); [| discriminate H].
  cbn [negb] in H.
  subst. exists a1, a2, a3, a4, a5, a6, a7, a8.
  repeat (split; [assumption|]). exact H.
Qed.

(** A snapshot that returns 0 on a connection to the memory server: the
    last write has put the value of the restore rule, taken on what the
    target held when the run started, into the filter word; the file has
    the size the header gives, with the filter word as it was read at the
    start. *)
Lemma single_data_transfer_link (a a' : app_state mem_srv) :
  link_ok (gdb a) ->
  single_data_transfer mem_react a = (0, a') ->
  Par.start_address (parameters a') = Par.start_address (parameters a)
  /\ mem_bytes (tmem a') (Par.start_address (parameters a) + 4) 4
     = le32_bytes (target_restore a)
  /\ (exists image,
         bin_file a'
         = Some (firstn (Z.to_nat (u32 (target_size a)))
                   (overlay_at 4 (le32_bytes (target_filter_word a)) image)))
  /\ 1 <= u32 (target_size a)
  /\ (Par.size (parameters a) <> 4 -> 8 <= u32 (target_size a)).
Proof.
  intros L H.
  destruct (single_data_transfer_run mem_react a a' H)
    as (a1 & a2 & a3 & a4 & a5 & a6 & a7 & a8
        & E1 & E2 & E3 & E4 & E5 & E6 & E7 & E8 & E9).
  (* the filter word before the run *)
  destruct (read_old_filter_mem a L) as [g1 [F1 [L1 S1]]].
  rewrite F1 in E1. inversion E1. subst a1. clear E1.
  set (a1 := set_old_msg_filter (target_filter_word a) (set_gdb g1 a)) in *.
  assert (T1 : tmem a1 = tmem a) by (unfold tmem; cbn; rewrite S1; reflexivity).
  assert (W1 : old_msg_filter a1 = target_filter_word a1).
  { unfold target_filter_word. rewrite T1. reflexivity. }
  (* logging paused *)
  destruct (pause_if_logging_mem a1 L1 W1) as [g2 [F2 [L2 [SB Z2]]]].
  rewrite F2 in E2. inversion E2. subst a2. clear E2.
  set (a2 := set_gdb g2 a1) in *.
  rewrite T1 in SB. change (parameters a1) with (parameters a) in SB.
  destruct (target_hdr_same_but_filter a a2 eq_refl SB) as [C1 [C2 C3]].
  assert (Ts : target_size a2 = target_size a)
    by (unfold target_size; rewrite C3; reflexivity).
  (* the header *)
  destruct (load_rtedbg_structure_header_link a2 a3 L2 E3)
    as (L3 & S3 & H3 & O3 & A3 & Pf3 & Ps3 & Z3 & K3).
  rewrite Ts in Z3.
  change (parameters a2) with (parameters a) in A3, Pf3, Ps3, K3.
  change (old_msg_filter a2) with (target_filter_word a) in O3.
  apply check_header_info_passed in E4. subst a4.
  (* the image and the file *)
  pose proof (u32_range (target_size a)) as R.
  destruct (save_rtedbg_structure_link a3 a5 L3 ltac:(rewrite Z3; lia) E5)
    as (L5 & S5 & P5 & H5 & O5 & N5 & [image B5]).
  destruct (check_message_filter_disabled_link a5 a6 _ L5 E6)
    as (A6 & L6 & S6).
  destruct (reset_circular_buffer_link a6 a7 L6 E7) as (A7 & L7).
  (* the filter restored *)
  destruct (set_or_restore_message_filter_mem a7 L7) as [g8 [F8 [L8 M8]]].
  rewrite F8 in E8. inversion E8. subst a8. clear E8.
  destruct (report_success_mem (set_gdb g8 a7)) as [a'' [F9 [S9 B9]]].
  rewrite F9 in E9. inversion E9. subst a''. clear E9.
  assert (A7s : Par.start_address (parameters a7)
                = Par.start_address (parameters a)).
  { rewrite A7, A6. cbn [parameters set_gdb]. rewrite P5. exact A3. }
  assert (V : restore_value a7 = target_restore a).
  { unfold restore_value, target_restore.
    rewrite A7, A6. cbn [parameters set_gdb old_msg_filter rtedbg_header].
    rewrite P5, H5, O5, Pf3, Ps3, O3, H3, C1, C2. reflexivity. }
  assert (Ps : parameters a' = parameters a7).
  { apply report_success_only_gdb in F9. destruct F9 as [[g F9] _].
    subst a'. reflexivity. }
  split; [rewrite Ps; exact A7s|].
  split.
  { unfold tmem. rewrite S9. cbn [gdb set_gdb].
    rewrite A7s, V in M8.
    change 4%nat with (List.length (le32_bytes (target_restore a))).
    assert (Hlen : len (le32_bytes (target_restore a)) <= 2 ^ 32)
      by (unfold len, le32_bytes; cbn [List.length]; lia).
    rewrite (mem_bytes_stored _ _ _ (le32_bytes (target_restore a)) Hlen M8).
    apply le32_bytes_u8. }
  split.
  { exists (overlay
              (mem_bytes (tmem a3) (Par.start_address (parameters a3))
                 (Z.to_nat (Par.size (parameters a3))))
              image).
    rewrite B9. cbn [bin_file set_gdb].
    rewrite A7, A6. cbn [bin_file set_gdb].
    rewrite B5, Z3, O3. reflexivity. }
  split; [rewrite <- Z3; exact N5|].
  intros Hn. rewrite <- Z3. apply K3. exact Hn.
Qed.

(** *** The value in the filter word *)

Lemma target_filter_word_range (a : app_state mem_srv) :
  0 <= target_filter_word a < 2 ^ 32.
Proof.
  unfold target_filter_word. apply le32_range.
  - apply mem_bytes_is_byte.
  - rewrite mem_bytes_length. lia.
Qed.

Lemma target_hdr_filter_copy (a : app_state mem_srv) :
  0 <= Hdr.filter_copy (target_hdr a) < 2 ^ 32.
Proof.
  unfold target_hdr, Hdr.of_bytes. cbn [Hdr.filter_copy].
  apply le32_range.
  - pose proof (mem_bytes_is_byte (tmem a)
                  (Par.start_address (parameters a)) 24) as F.
    rewrite <- (firstn_skipn 16) in F. apply Forall_app in F. apply F.
  - rewrite length_skipn, mem_bytes_length. lia.
Qed.

Lemma target_restore_range (a : app_state mem_srv) :
  0 <= Par.filter (parameters a) < 2 ^ 32 ->
  0 <= target_restore a < 2 ^ 32.
Proof.
  intros H. unfold target_restore, restore_precedence.
  pose proof (target_filter_word_range a).
  pose proof (target_hdr_filter_copy a).
  destruct (Par.set_filter (parameters a)); [exact H|].
  destruct ((target_filter_word a =? 0)
            && Z.testbit (Hdr.rte_cfg (target_hdr a)) 2); assumption.
Qed.

Lemma u8_div_u32 (v k : Z) :
  0 <= k -> k + 8 <= 32 -> u8 (v / 2 ^ k) = u8 (u32 v / 2 ^ k).
Proof.
  intros H0 H1. unfold u8, u32.
  change 256 with (2 ^ 8).
  rewrite <- !Z.shiftr_div_pow2 by lia.
  rewrite <- !Z.land_ones by lia.
  apply Z.bits_inj'. intros n Hn.
  rewrite !Z.land_spec, !Z.shiftr_spec, Z.land_spec by lia.
  destruct (Z.ltb_spec n 8) as [K|K].
  - rewrite (Z.ones_spec_low 32 (n + k)) by lia.
    rewrite andb_true_r. reflexivity.
  - rewrite (Z.ones_spec_high 8 n) by lia. rewrite !andb_false_r.
    reflexivity.
Qed.

Lemma le32_bytes_u32 (v : Z) : le32 (le32_bytes v) = u32 v.
Proof.
  assert (E : le32_bytes v = le32_bytes (u32 v)).
  { unfold le32_bytes.
    change 256 with (2 ^ 8). change 65536 with (2 ^ 16).
    change 16777216 with (2 ^ 24).
    rewrite <- (Z.div_1_r v) at 1. rewrite <- (Z.div_1_r (u32 v)) at 1.
    change 1 with (2 ^ 0).
    rewrite (u8_div_u32 v 0), (u8_div_u32 v 8), (u8_div_u32 v 16),
      (u8_div_u32 v 24) by lia.
    reflexivity. }
  rewrite E, <- (app_nil_r (le32_bytes (u32 v))).
  apply le32_of_le32_bytes. apply u32_range.
Qed.

(** C4.  Against a target that answers memory writes,
    set_or_restore_message_filter succeeds and the filter word of the
    target (the four bytes at structure address + 4) then holds the value
    chosen by the precedence: the user's value if [set_filter] is set, else
    [filter_copy] if the filter read before pausing was zero and the
    firmware-off-enabled bit of [rte_cfg] is set, else the filter read
    before pausing.  No other byte of the target changes. *)
Theorem restore_filter_precedence (a : app_state mem_srv) :
  link_ok (gdb a) ->
  let value :=
    restore_precedence (Par.set_filter (parameters a))
      (Par.filter (parameters a)) (old_msg_filter a)
      (Hdr.filter_copy (rtedbg_header a))
      (Z.testbit (Hdr.rte_cfg (rtedbg_header a)) 2) in
  exists a',
    set_or_restore_message_filter mem_react a = (GDB_OK, a')
    /\ mem_bytes (tmem a') (Par.start_address (parameters a) + 4) 4
       = le32_bytes value
    /\ target_filter_word a' = u32 value
    /\ same_but_word (Par.start_address (parameters a) + 4) (tmem a) (tmem a').
Proof.
  intros L value.
  destruct (set_or_restore_message_filter_mem a L) as [g [E [_ M]]].
  change (restore_value a) with value in M.
  exists (set_gdb g a). split; [exact E|].
  assert (Hlen : len (le32_bytes value) <= 2 ^ 32)
    by (unfold len, le32_bytes; cbn [List.length]; lia).
  assert (B : mem_bytes (tmem (set_gdb g a))
                (Par.start_address (parameters a) + 4) 4 = le32_bytes value).
  { unfold tmem. cbn [gdb set_gdb].
    change 4%nat with (List.length (le32_bytes value)).
    rewrite (mem_bytes_stored _ _ _ (le32_bytes value) Hlen M).
    apply le32_bytes_u8. }
  split; [exact B|]. split.
  - unfold target_filter_word. cbn [parameters set_gdb]. rewrite B.
    apply le32_bytes_u32.
  - apply (same_but_word_store _ _ _ (le32_bytes value)); [reflexivity|].
    exact M.
Qed.

Lemma restore_filter_precedence_witness :
  let a := set_header target_header_off
             (session target_header_off sample_parameters) in
  exists a',
    set_or_restore_message_filter mem_react a = (GDB_OK, a')
    /\ mem_bytes (tmem a') (603979776 + 4) 4 = [85; 0; 0; 0]
    /\ target_filter_word a' = 85.
Proof.
  intros a.
  destruct (restore_filter_precedence a) as (a' & E & B & W & _).
  - unfold link_ok, quiet. vm_compute. intuition discriminate.
  - exists a'. split; [exact E|]. split; [exact B | exact W].
Defined.

(** C2.  A snapshot that returns 0, taken from a target that answers
    memory reads and writes: the filter word of the target afterwards holds
    the value the last write of the run has put there, the value of the
    restore rule on what the target held when the run started.  Without a
    [-filter=0] override that word is non-zero if and only if the filter
    word was non-zero before the run, or [filter_copy] of the target's
    header is non-zero with the firmware-off-enabled bit of [rte_cfg] set,
    or the user passed a non-zero filter.  (The user's filter is an
    [unsigned].) *)
Theorem snapshot_final_filter (a a' : app_state mem_srv) :
  link_ok (gdb a) ->
  0 <= Par.filter (parameters a) < 2 ^ 32 ->
  single_data_transfer mem_react a = (0, a') ->
  ~ (Par.set_filter (parameters a) = true /\ Par.filter (parameters a) = 0) ->
  target_filter_word a'
  = restore_precedence (Par.set_filter (parameters a))
      (Par.filter (parameters a)) (target_filter_word a)
      (Hdr.filter_copy (target_hdr a))
      (Z.testbit (Hdr.rte_cfg (target_hdr a)) 2)
  /\ (target_filter_word a' <> 0 <->
      target_filter_word a <> 0
      \/ (Hdr.filter_copy (target_hdr a) <> 0
          /\ Z.testbit (Hdr.rte_cfg (target_hdr a)) 2 = true)
      \/ (Par.set_filter (parameters a) = true
          /\ Par.filter (parameters a) <> 0)).
Proof.
  intros L Hf H Huser.
  destruct (single_data_transfer_link a a' L H) as (A & B & _).
  assert (W : target_filter_word a' = target_restore a).
  { unfold target_filter_word. rewrite A, B, le32_bytes_u32.
    apply u32_small. apply target_restore_range. exact Hf. }
  split; [exact W|]. rewrite W.
  unfold target_restore, restore_precedence.
  destruct (Par.set_filter (parameters a)).
  - split; [intros Hv; right; right; split; [reflexivity | exact Hv]|].
    intros _ Hz. apply Huser. split; [reflexivity | exact Hz].
  - destruct (Z.eqb_spec (target_filter_word a) 0) as [Hz|Hnz];
      destruct (Z.testbit (Hdr.rte_cfg (target_hdr a)) 2); cbn [andb].
    + split; [intros Hv; right; left; split; [exact Hv | reflexivity]|].
      intros [Hb | [[Hc _] | [Hs _]]];
        [contradiction | exact Hc | discriminate Hs].
    + split; [intros Hv; left; exact Hv|].
      intros [Hb | [[_ Hc] | [Hs _]]];
        [exact Hb | discriminate Hc | discriminate Hs].
    + split; [intros Hv; left; exact Hv | intros _; exact Hnz].
    + split; [intros Hv; left; exact Hv | intros _; exact Hnz].
Qed.

Lemma snapshot_final_filter_witness :
  let a := session target_header_off sample_parameters in
  let a' := snd (single_data_transfer mem_react a) in
  target_filter_word a = 0 /\ target_filter_word a' = 85.
Proof.
  intros a a'.
  destruct (snapshot_final_filter a a') as [W _].
  - unfold link_ok, quiet. vm_compute. intuition discriminate.
  - vm_compute. split; [discriminate | reflexivity].
  - unfold a'. apply run_result. vm_compute. reflexivity.
  - intros [K _]. vm_compute in K. discriminate K.
  - split; [vm_compute; reflexivity|]. rewrite W. vm_compute. reflexivity.
Defined.

(** C5.  The output file of a successful snapshot does not always have a
    filter word.  The target's header gives a [buffer_size] with which the
    size computation wraps around to 4.  load_rtedbg_structure_header
    refuses that size, but leaves it in [parameters.size]; on the next call
    the size from the header equals the size in force and is not looked at
    again.  So, on a connection that is kept, the snapshot after a failed
    one returns 0 with a file of 4 bytes, the index word; and so does the
    first snapshot when the status display has loaded the header before it:
    the filter word read before the pause was 0x0F, and the file has no
    byte at offset 4. *)
Theorem stale_size_snapshot_file :
  let a := persistent_session wrapped_size_header in
  let first := single_data_transfer mem_react a in
  let second := single_data_transfer mem_react (snd first) in
  let shown := snd (display_logging_state mem_srv mem_react a) in
  let taken := single_data_transfer mem_react shown in
  (fst first = 1 /\ Par.size (parameters (snd first)) = 4
   /\ fst second = 0 /\ bin_file (snd second) = Some [7; 0; 0; 0])
  /\ (Par.size (parameters shown) = 4 /\ target_filter_word shown = 15
      /\ fst taken = 0 /\ bin_file (snd taken) = Some [7; 0; 0; 0]).
Proof. vm_compute. repeat split; reflexivity. Qed.
